(** * RDS/RBDS group decoder: a shallow embedding of [rds_decoder.c],
    [freq_table.c], [freq_table_group.c] and of the statistics tool
    [util/rdsstats.cc], and the properties of the decoder that are
    established on it.

    Conventions of the embedding.

    - C integers are [Z]; a store into a narrower integer type that can leave
      the range of that type is written with its wrap-around ([u8], [u16],
      [u32], [s8], [s32]).
    - C arrays are lists.  Every indexed read goes through [aget] and every
      indexed write through [aset]; both fail ([None]) when the index is
      outside the array, so a function that indexes an array lives in the
      [option] monad and an out-of-range access shows up as [None].
    - The decoder mutates one externally owned [struct rds_data]; the
      embedding passes that record explicitly.
    - [rds_decoder.h] defines [RDS_DEV], so the statistics ([stats]) and the
      code that maintains them are part of the program.
    - The two ODA callbacks are opaque host functions.  A call is recorded in
      a trace ([oda_call]) together with the arguments it was given. *)

From Stdlib Require Import ZArith Ascii Lia.
From stdpp Require Import base tactics option list numbers.

Open Scope Z_scope.

(** ** Machine integers *)

Definition u8 (x : Z) : Z := x mod 256.
Definition u16 (x : Z) : Z := x mod 65536.
Definition u32 (x : Z) : Z := x mod 4294967296.
Definition s8 (x : Z) : Z := (x + 128) mod 256 - 128.
Definition s32 (x : Z) : Z := (x + 2147483648) mod 4294967296 - 2147483648.

(** Conversion of an integer to C's [bool]: nonzero is [true]. *)
Definition to_bool (x : Z) : bool := negb (x =? 0).

(** ** Checked arrays and loops *)

Definition aget {A} (arr : list A) (i : Z) : option A :=
  if 0 <=? i then arr !! Z.to_nat i else None.

Definition aset {A} (arr : list A) (i : Z) (v : A) : option (list A) :=
  if (0 <=? i) && (i <? Z.of_nat (length arr))
  then Some (<[Z.to_nat i := v]> arr) else None.

(** [for (i = lo; i < lo + n; i++) body] *)
Fixpoint for_loop {S} (n : nat) (i : Z) (body : Z → S → option S) (s : S)
  : option S :=
  match n with
  | O => Some s
  | S n' => s' ← body i s; for_loop n' (i + 1) body s'
  end.

(** [memset (arr, 0, sizeof arr)] *)
Definition memset0 (arr : list Z) : list Z := replicate (length arr) 0.

(** ** Data model ([rds_decoder.h]) *)

Definition BLER_NONE : Z := 0.
Definition BLER_1_2 : Z := 1.
Definition BLER_3_5 : Z := 2.
Definition BLER_6_PLUS : Z := 3.

Definition BLERA_MAX : Z := BLER_3_5.
Definition BLERB_MAX : Z := BLER_1_2.
Definition BLERC_MAX : Z := BLER_3_5.
Definition BLERD_MAX : Z := BLER_3_5.

Record rds_block := { val : Z; errors : Z }.

Record rds_blocks :=
  { a : rds_block; b : rds_block; c : rds_block; d : rds_block }.

(** [version] is a C [char]: ['A'], ['B'], or the zero byte of a record that
    was cleared and never written. *)
Record rds_group_type := { code : Z; version : ascii }.

Definition NUM_TDC : Z := 32.
Definition TDC_LEN : Z := 32.

(** [enum rds_packet_counts] *)
Definition PKTCNT_AF : Z := 0.
Definition PKTCNT_CLOCK : Z := 1.
Definition PKTCNT_EON : Z := 2.
Definition PKTCNT_EWS : Z := 3.
Definition PKTCNT_FBT : Z := 4.
Definition PKTCNT_IH : Z := 5.
Definition PKTCNT_PAGING : Z := 6.
Definition PKTCNT_PIC : Z := 7.
Definition PKTCNT_PI_CODE : Z := 8.
Definition PKTCNT_PS : Z := 9.
Definition PKTCNT_PTY : Z := 10.
Definition PKTCNT_PTYN : Z := 11.
Definition PKTCNT_RT : Z := 12.
Definition PKTCNT_SLC : Z := 13.
Definition PKTCNT_TDC : Z := 14.
Definition PKTCNT_TMC : Z := 15.
Definition PKTCNT_TA_CODE : Z := 16.
Definition PKTCNT_TP_CODE : Z := 17.
Definition PKTCNT_MS : Z := 18.
Definition PKTCNT_NUM : Z := 20.

(** [enum rds_values] *)
Definition RDS_AF : Z := 0x00001.
Definition RDS_CLOCK : Z := 0x00002.
Definition RDS_EWS : Z := 0x00004.
Definition RDS_FBT : Z := 0x00008.
Definition RDS_MC : Z := 0x00010.
Definition RDS_PIC : Z := 0x00020.
Definition RDS_PI_CODE : Z := 0x00040.
Definition RDS_PS : Z := 0x00080.
Definition RDS_PTY : Z := 0x00100.
Definition RDS_PTYN : Z := 0x00200.
Definition RDS_RT : Z := 0x00400.
Definition RDS_SLC : Z := 0x00800.
Definition RDS_TDC : Z := 0x01000.
Definition RDS_TA_CODE : Z := 0x02000.
Definition RDS_TP_CODE : Z := 0x04000.
Definition RDS_MS : Z := 0x08000.
Definition RDS_EON : Z := 0x10000.

Inductive rds_variant_code :=
  | SLC_VARIANT_PAGING
  | SLC_VARIANT_TMC_ID
  | SLC_VARIANT_PAGING_ID
  | SLC_VARIANT_LANG
  | SLC_VARIANT_NOT_ASSIGNED1
  | SLC_VARIANT_NOT_ASSIGNED5
  | SLC_VARIANT_BROADCAST
  | SLC_VARIANT_EWS.

Inductive rds_band := AF_BAND_UHF | AF_BAND_LF_MF.
Inductive rds_af_attrib := AF_ATTRIB_SAME_PROG | AF_ATTRIB_REG_VARIANT.
Inductive rds_af_encoding := AF_EM_UNKNOWN | AF_EM_A | AF_EM_B.

Record rds_freq :=
  { band : rds_band; attrib : rds_af_attrib; freq : Z }.

(** [struct rds_af_table]; [entry] has 25 elements. *)
Record rds_af_table :=
  { tuned_freq : rds_freq; count : Z; entry : list rds_freq }.

(** [struct rds_af_decode_table]; the fields of the nested [pvt] struct carry
    the prefix [pvt_]. *)
Record rds_af_decode_table :=
  { table : rds_af_table;
    enc_method : rds_af_encoding;
    pvt_band : rds_band;
    pvt_prev_enc_method : rds_af_encoding;
    pvt_expected_cnt : Z }.

(** [struct rds_af_table_group]; its [count] and [table] carry the prefix
    [g_] to keep them apart from the fields of the tables themselves.
    [g_table] has 20 elements. *)
Record rds_af_table_group :=
  { g_current_table_idx : Z;
    g_count : Z;
    g_table : list rds_af_decode_table }.

Definition AF_TABLE_ENTRIES : Z := 25.
Definition AF_GROUP_TABLES : Z := 20.

Definition band_eqb (x y : rds_band) : bool :=
  match x, y with
  | AF_BAND_UHF, AF_BAND_UHF | AF_BAND_LF_MF, AF_BAND_LF_MF => true
  | _, _ => false
  end.

Definition enc_eqb (x y : rds_af_encoding) : bool :=
  match x, y with
  | AF_EM_UNKNOWN, AF_EM_UNKNOWN | AF_EM_A, AF_EM_A | AF_EM_B, AF_EM_B => true
  | _, _ => false
  end.

Definition freq_zero : rds_freq :=
  {| band := AF_BAND_UHF; attrib := AF_ATTRIB_SAME_PROG; freq := 0 |}.

Definition set_attrib (x : rds_af_attrib) (f : rds_freq) : rds_freq :=
  {| band := band f; attrib := x; freq := freq f |}.

Definition set_tuned_freq (f : rds_freq) (t : rds_af_table) : rds_af_table :=
  {| tuned_freq := f; count := count t; entry := entry t |}.

Definition set_table (x : rds_af_table) (t : rds_af_decode_table)
  : rds_af_decode_table :=
  {| table := x; enc_method := enc_method t; pvt_band := pvt_band t;
     pvt_prev_enc_method := pvt_prev_enc_method t;
     pvt_expected_cnt := pvt_expected_cnt t |}.

Definition set_enc_method (x : rds_af_encoding) (t : rds_af_decode_table)
  : rds_af_decode_table :=
  {| table := table t; enc_method := x; pvt_band := pvt_band t;
     pvt_prev_enc_method := pvt_prev_enc_method t;
     pvt_expected_cnt := pvt_expected_cnt t |}.

Definition set_pvt_band (x : rds_band) (t : rds_af_decode_table)
  : rds_af_decode_table :=
  {| table := table t; enc_method := enc_method t; pvt_band := x;
     pvt_prev_enc_method := pvt_prev_enc_method t;
     pvt_expected_cnt := pvt_expected_cnt t |}.

Definition set_pvt_prev_enc_method (x : rds_af_encoding)
  (t : rds_af_decode_table) : rds_af_decode_table :=
  {| table := table t; enc_method := enc_method t; pvt_band := pvt_band t;
     pvt_prev_enc_method := x;
     pvt_expected_cnt := pvt_expected_cnt t |}.

Definition set_pvt_expected_cnt (x : Z) (t : rds_af_decode_table)
  : rds_af_decode_table :=
  {| table := table t; enc_method := enc_method t; pvt_band := pvt_band t;
     pvt_prev_enc_method := pvt_prev_enc_method t;
     pvt_expected_cnt := x |}.

(** ** Frequency tables ([freq_table.c]) *)

Definition AF_MIN_FREQ_CODE : Z := 1.
Definition AF_MAX_FREQ_CODE : Z := 204.
Definition AF_FILLER_CODE : Z := 205.
Definition AF_MIN_COUNT_CODE : Z := 225.
Definition AF_MAX_COUNT_CODE : Z := 249.
Definition AF_LF_MF_FOLLOWS : Z := 250.

Definition freq_code_is_freq (freq_code : Z) : bool :=
  (AF_MIN_FREQ_CODE <=? freq_code) && (freq_code <=? AF_MAX_FREQ_CODE).

Definition freq_eq (x y : rds_freq) : bool :=
  band_eqb (band x) (band y) && (freq x =? freq y).

Definition freq_lt (x y : rds_freq) : bool :=
  if band_eqb (band x) (band y) then freq x <? freq y
  else if band_eqb (band x) AF_BAND_LF_MF && band_eqb (band y) AF_BAND_UHF
       then true
       else false.

Definition is_freq_code_count (freq_code : Z) : bool :=
  (AF_MIN_COUNT_CODE <=? freq_code) && (freq_code <=? AF_MAX_COUNT_CODE).

Definition freq_code_to_count (freq_code : Z) : Z :=
  u8 (1 + freq_code - AF_MIN_COUNT_CODE).

Definition af_code_to_freq (freq_code : Z) (bnd : rds_band) : Z :=
  if band_eqb bnd AF_BAND_UHF then u16 (876 + freq_code - 1)
  else if freq_code <? 16 then u16 (153 + 9 * (freq_code - 1))
  else u16 (531 + 9 * (freq_code - 16)).

(** The loop of [find_af_freq_idx], started at index [i] with [n] iterations
    left; the result is the [int8_t] the C function returns. *)
Fixpoint find_af_freq_idx_from (n : nat) (i : Z) (t : rds_af_table)
  (f : rds_freq) : option Z :=
  match n with
  | O => Some (-1)
  | S n' =>
      e ← aget (entry t) i;
      if freq_eq e f then Some (s8 i)
      else find_af_freq_idx_from n' (u8 (i + 1)) t f
  end.

Definition find_af_freq_idx (t : rds_af_table) (f : rds_freq) : option Z :=
  find_af_freq_idx_from (Z.to_nat (count t)) 0 t f.

Definition freq_in_af_table (t : rds_af_table) (f : rds_freq) : option bool :=
  idx ← find_af_freq_idx t f; Some (negb (idx =? -1)).

Definition dec_af_expected_count (t : rds_af_decode_table)
  : rds_af_decode_table :=
  if pvt_expected_cnt t =? 0 then t
  else set_pvt_expected_cnt (u8 (pvt_expected_cnt t - 1)) t.

Definition insert_alt_freq (t : rds_af_table) (f : rds_freq)
  : option (bool * rds_af_table) :=
  if AF_TABLE_ENTRIES <=? count t then Some (false, t)
  else
    present ← freq_in_af_table t f;
    if present : bool then Some (false, t)
    else
      entry' ← aset (entry t) (count t) f;
      Some (true, {| tuned_freq := tuned_freq t;
                     count := u8 (count t + 1);
                     entry := entry' |}).

Definition add_alt_freq (t : rds_af_decode_table) (f : rds_freq)
  : option (bool * rds_af_decode_table) :=
  let t := dec_af_expected_count t in
  r ← insert_alt_freq (table t) f;
  Some (r.1, set_table r.2 t).

(** Returns [true] when the code was consumed as a special code. *)
Definition handle_freq_code (t : rds_af_decode_table) (freq_code : Z)
  : bool * rds_af_decode_table :=
  if freq_code =? AF_FILLER_CODE then (true, dec_af_expected_count t)
  else if freq_code =? AF_LF_MF_FOLLOWS
  then (true, dec_af_expected_count (set_pvt_band AF_BAND_LF_MF t))
  else
    let handled := negb (freq_code_is_freq freq_code) in
    if handled then (true, dec_af_expected_count t) else (false, t).

Definition decode_freq_table_start_block (t : rds_af_decode_table)
  (num_freqs_in_table second_byte : Z) : option rds_af_decode_table :=
  let t := set_pvt_expected_cnt num_freqs_in_table t in
  let t := set_pvt_band AF_BAND_UHF t in
  let t := if negb (enc_eqb (pvt_prev_enc_method t) AF_EM_UNKNOWN)
           then set_enc_method (pvt_prev_enc_method t) t else t in
  let '(handled, t) := handle_freq_code t second_byte in
  if handled then Some t
  else
    let f := {| band := pvt_band t; attrib := AF_ATTRIB_SAME_PROG;
                freq := af_code_to_freq second_byte (pvt_band t) |} in
    r ← add_alt_freq t f; Some r.2.

Definition decode_freq_table_nth_block (t : rds_af_decode_table)
  (first_byte second_byte : Z) : option rds_af_decode_table :=
  if pvt_expected_cnt t =? 0 then Some t
  else
    let '(handled_first, t) := handle_freq_code t first_byte in
    let first_freq := {| band := pvt_band t; attrib := AF_ATTRIB_SAME_PROG;
                         freq := af_code_to_freq first_byte (pvt_band t) |} in
    let '(handled_second, t) := handle_freq_code t second_byte in
    let second_freq := {| band := pvt_band t; attrib := AF_ATTRIB_SAME_PROG;
                          freq := af_code_to_freq second_byte (pvt_band t) |} in
    (* Encoding method still unknown: try to settle it. *)
    r ← (if enc_eqb (enc_method t) AF_EM_UNKNOWN then
           if handled_first && handled_second then Some (true, t)
           else if handled_first || handled_second
           then Some (false, set_enc_method AF_EM_A t)
           else if freq_eq first_freq (tuned_freq (table t))
                   || freq_eq second_freq (tuned_freq (table t))
           then Some (false, set_enc_method AF_EM_B t)
           else
             let t := set_enc_method AF_EM_A t in
             if negb (freq (tuned_freq (table t)) =? 0) then
               r ← add_alt_freq t (tuned_freq (table t));
               Some (false, set_table (set_tuned_freq freq_zero (table r.2)) r.2)
             else Some (false, t)
         else Some (false, t));
    let '(returned, t) := r in
    if returned : bool then Some t
    else
      let t := set_pvt_prev_enc_method (enc_method t) t in
      if enc_eqb (enc_method t) AF_EM_A then
        t ← (if negb handled_first
             then r ← add_alt_freq t first_freq; Some r.2 else Some t);
        t ← (if negb handled_second
             then r ← add_alt_freq t second_freq; Some r.2 else Some t);
        Some t
      else
        (* Method B. *)
        if handled_first || handled_second then Some t
        else if freq_eq (tuned_freq (table t)) first_freq then
          let second_freq :=
            if freq_lt first_freq second_freq
            then set_attrib AF_ATTRIB_REG_VARIANT second_freq
            else second_freq in
          r ← add_alt_freq t second_freq; Some r.2
        else if freq_eq (tuned_freq (table t)) second_freq then
          let first_freq :=
            if freq_lt first_freq second_freq
            then set_attrib AF_ATTRIB_REG_VARIANT first_freq
            else first_freq in
          r ← add_alt_freq t first_freq; Some r.2
        else Some t.

(** ** Groups of frequency tables ([freq_table_group.c]) *)

Definition set_g_current_table_idx (x : Z) (g : rds_af_table_group)
  : rds_af_table_group :=
  {| g_current_table_idx := x; g_count := g_count g; g_table := g_table g |}.

Definition set_g_count (x : Z) (g : rds_af_table_group)
  : rds_af_table_group :=
  {| g_current_table_idx := g_current_table_idx g; g_count := x;
     g_table := g_table g |}.

Definition set_g_table (x : list rds_af_decode_table)
  (g : rds_af_table_group) : rds_af_table_group :=
  {| g_current_table_idx := g_current_table_idx g; g_count := g_count g;
     g_table := x |}.

Fixpoint find_af_table_idx_from (n : nat) (i : Z) (g : rds_af_table_group)
  (tuned : rds_freq) : option Z :=
  match n with
  | O => Some (-1)
  | S n' =>
      t ← aget (g_table g) i;
      if freq_eq (tuned_freq (table t)) tuned then Some (s8 i)
      else find_af_table_idx_from n' (u8 (i + 1)) g tuned
  end.

Definition find_af_table_idx (g : rds_af_table_group) (tuned : rds_freq)
  : option Z :=
  find_af_table_idx_from (Z.to_nat (g_count g)) 0 g tuned.

(** The final statement of [decode_af_start_block]: run the start block on
    the table the current index names. *)
Definition start_current_table (g : rds_af_table_group)
  (num_freqs_in_table second_byte : Z) : option rds_af_table_group :=
  t ← aget (g_table g) (g_current_table_idx g);
  t' ← decode_freq_table_start_block t num_freqs_in_table second_byte;
  tbl ← aset (g_table g) (g_current_table_idx g) t';
  Some (set_g_table tbl g).

Definition decode_af_start_block (g : rds_af_table_group)
  (num_freqs_in_table second_byte : Z) : option rds_af_table_group :=
  only_a ← (if g_count g =? 1
            then t0 ← aget (g_table g) 0;
                 Some (enc_eqb (enc_method t0) AF_EM_A)
            else Some false);
  let '(idx, encoding_method) :=
    if only_a : bool then (0, AF_EM_A) else (-1, AF_EM_UNKNOWN) in
  let '(idx, encoding_method) :=
    if num_freqs_in_table =? 1 then (0, AF_EM_A)
    else (idx, encoding_method) in
  let g := set_g_current_table_idx idx g in
  if g_current_table_idx g =? -1 then
    let f := {| band := AF_BAND_UHF; attrib := AF_ATTRIB_SAME_PROG;
                freq := af_code_to_freq second_byte AF_BAND_UHF |} in
    found ← find_af_table_idx g f;
    let g := set_g_current_table_idx found g in
    if g_current_table_idx g =? -1 then
      if g_count g =? AF_GROUP_TABLES then Some g
      else
        (* Allocate a new table. *)
        let g := set_g_count (u8 (g_count g + 1))
                   (set_g_current_table_idx (s8 (g_count g)) g) in
        t ← aget (g_table g) (g_current_table_idx g);
        let t := set_enc_method encoding_method t in
        let t := if enc_eqb (enc_method t) AF_EM_UNKNOWN
                 then set_table (set_tuned_freq f (table t)) t else t in
        tbl ← aset (g_table g) (g_current_table_idx g) t;
        start_current_table (set_g_table tbl g) num_freqs_in_table second_byte
    else start_current_table g num_freqs_in_table second_byte
  else start_current_table g num_freqs_in_table second_byte.

Definition decode_af_nth_block (g : rds_af_table_group)
  (first_byte second_byte : Z) : option rds_af_table_group :=
  if g_current_table_idx g <? 0 then Some g
  else
    t ← aget (g_table g) (g_current_table_idx g);
    t' ← decode_freq_table_nth_block t first_byte second_byte;
    tbl ← aset (g_table g) (g_current_table_idx g) t';
    Some (set_g_table tbl g).

Definition decode_freq_group_block (g : rds_af_table_group) (block : Z)
  : option rds_af_table_group :=
  let first_byte := u8 (Z.shiftr block 8) in
  let second_byte := Z.land block 0xFF in
  if is_freq_code_count first_byte
  then decode_af_start_block g (freq_code_to_count first_byte) second_byte
  else decode_af_nth_block g first_byte second_byte.

(** ** The RDS state record ([struct rds_data]) *)

Record rds_pic := { day : Z; hour : Z; minute : Z }.

(** [rds_data.ps]; the fields of its nested [pvt] struct carry [pvt_]. *)
Record rds_ps :=
  { ps_display : list Z;
    ps_pvt_hi_prob : list Z;
    ps_pvt_lo_prob : list Z;
    ps_pvt_hi_prob_cnt : list Z }.

(** Modelled from the spec: [struct rds_rt] and [enum rds_rt_text] are used
    by [decode_group_type_2] but declared in no file under src/ (the public
    header still shows a single flat radiotext struct).  The record below
    has the members the code reads and writes ([display], [pvt.hi_prob],
    [pvt.lo_prob], [pvt.hi_prob_cnt], 64 bytes each as in the header), and
    [rds_data.rt] holds the two buffers [a], [b] and the selector
    [decode_rt] of the radiotext A/B flag. *)
Record rds_rt :=
  { rt_display : list Z;
    rt_pvt_hi_prob : list Z;
    rt_pvt_lo_prob : list Z;
    rt_pvt_hi_prob_cnt : list Z }.

Inductive rds_rt_text := RT_A | RT_B.

Record rds_rt_pair :=
  { rt_a : rds_rt; rt_b : rds_rt; rt_decode_rt : rds_rt_text }.

Record rds_clock :=
  { clock_day_high : bool;
    clock_day_low : Z;
    clock_hour : Z;
    clock_minute : Z;
    clock_utc_offset : Z }.

(** The [data] union of [rds_data.slc], as the member last written. *)
Inductive rds_slc_data :=
  | slc_paging (paging country_code : Z)
  | slc_tmc_id (x : Z)
  | slc_paging_id (x : Z)
  | slc_language_codes (x : Z)
  | slc_broadcasters (x : Z)
  | slc_ews_channel_id (x : Z).

Record rds_slc :=
  { slc_la : bool; slc_variant_code : rds_variant_code;
    slc_data : rds_slc_data }.

Record rds_ptyn := { ptyn_display : list Z; ptyn_last_ab : bool }.

Record rds_eon_on :=
  { on_ps : list Z;
    on_pty : Z;
    on_tp_code : bool;
    on_ta_code : bool;
    on_af : rds_af_decode_table;
    on_pi_code : Z;
    on_pic : rds_pic }.

Record rds_eon_map := { tn_tuned_freq : rds_freq; on_freq : rds_freq }.

Record rds_eon := { eon_on : rds_eon_on; eon_maps : list rds_eon_map }.

Record rds_oda :=
  { oda_id : Z; oda_gt : rds_group_type; oda_pkt_count : Z }.

Record rds_tdc := { tdc_data : list (list Z); tdc_curr_channel : Z }.

Record rds_ews := { ews_b : rds_block; ews_c : rds_block; ews_d : rds_block }.

Record rds_group_cnt := { cnt_a : Z; cnt_b : Z }.

Record rds_stats :=
  { stats_counts : list Z;
    stats_groups : list rds_group_cnt;
    stats_data_cnt : Z;
    stats_blckb_errors : Z }.

Record rds_data :=
  { pi_code : Z;
    pic : rds_pic;
    pty : Z;
    tp_code : bool;
    ta_code : bool;
    music : bool;
    ps : rds_ps;
    rt : rds_rt_pair;
    clock : rds_clock;
    slc : rds_slc;
    ptyn : rds_ptyn;
    af : rds_af_table_group;
    eon : rds_eon;
    oda_cnt : Z;
    oda : list rds_oda;
    tdc : rds_tdc;
    ews : rds_ews;
    stats : rds_stats;
    valid_values : Z }.

Definition PS_LEN : Z := 8.
Definition RT_LEN : Z := 64.
Definition PTYN_LEN : Z := 8.
Definition ODA_LEN : Z := 10.

(** *** Field updates *)

Definition set_pi_code (x : Z) (r : rds_data) : rds_data :=
  {| pi_code := x; pic := pic r; pty := pty r; tp_code := tp_code r;
     ta_code := ta_code r; music := music r; ps := ps r; rt := rt r;
     clock := clock r; slc := slc r; ptyn := ptyn r; af := af r;
     eon := eon r; oda_cnt := oda_cnt r; oda := oda r; tdc := tdc r;
     ews := ews r; stats := stats r; valid_values := valid_values r |}.

Definition set_pic (x : rds_pic) (r : rds_data) : rds_data :=
  {| pi_code := pi_code r; pic := x; pty := pty r; tp_code := tp_code r;
     ta_code := ta_code r; music := music r; ps := ps r; rt := rt r;
     clock := clock r; slc := slc r; ptyn := ptyn r; af := af r;
     eon := eon r; oda_cnt := oda_cnt r; oda := oda r; tdc := tdc r;
     ews := ews r; stats := stats r; valid_values := valid_values r |}.

Definition set_pty (x : Z) (r : rds_data) : rds_data :=
  {| pi_code := pi_code r; pic := pic r; pty := x; tp_code := tp_code r;
     ta_code := ta_code r; music := music r; ps := ps r; rt := rt r;
     clock := clock r; slc := slc r; ptyn := ptyn r; af := af r;
     eon := eon r; oda_cnt := oda_cnt r; oda := oda r; tdc := tdc r;
     ews := ews r; stats := stats r; valid_values := valid_values r |}.

Definition set_tp_code (x : bool) (r : rds_data) : rds_data :=
  {| pi_code := pi_code r; pic := pic r; pty := pty r; tp_code := x;
     ta_code := ta_code r; music := music r; ps := ps r; rt := rt r;
     clock := clock r; slc := slc r; ptyn := ptyn r; af := af r;
     eon := eon r; oda_cnt := oda_cnt r; oda := oda r; tdc := tdc r;
     ews := ews r; stats := stats r; valid_values := valid_values r |}.

Definition set_ta_code (x : bool) (r : rds_data) : rds_data :=
  {| pi_code := pi_code r; pic := pic r; pty := pty r; tp_code := tp_code r;
     ta_code := x; music := music r; ps := ps r; rt := rt r;
     clock := clock r; slc := slc r; ptyn := ptyn r; af := af r;
     eon := eon r; oda_cnt := oda_cnt r; oda := oda r; tdc := tdc r;
     ews := ews r; stats := stats r; valid_values := valid_values r |}.

Definition set_music (x : bool) (r : rds_data) : rds_data :=
  {| pi_code := pi_code r; pic := pic r; pty := pty r; tp_code := tp_code r;
     ta_code := ta_code r; music := x; ps := ps r; rt := rt r;
     clock := clock r; slc := slc r; ptyn := ptyn r; af := af r;
     eon := eon r; oda_cnt := oda_cnt r; oda := oda r; tdc := tdc r;
     ews := ews r; stats := stats r; valid_values := valid_values r |}.

Definition set_ps (x : rds_ps) (r : rds_data) : rds_data :=
  {| pi_code := pi_code r; pic := pic r; pty := pty r; tp_code := tp_code r;
     ta_code := ta_code r; music := music r; ps := x; rt := rt r;
     clock := clock r; slc := slc r; ptyn := ptyn r; af := af r;
     eon := eon r; oda_cnt := oda_cnt r; oda := oda r; tdc := tdc r;
     ews := ews r; stats := stats r; valid_values := valid_values r |}.

Definition set_rt (x : rds_rt_pair) (r : rds_data) : rds_data :=
  {| pi_code := pi_code r; pic := pic r; pty := pty r; tp_code := tp_code r;
     ta_code := ta_code r; music := music r; ps := ps r; rt := x;
     clock := clock r; slc := slc r; ptyn := ptyn r; af := af r;
     eon := eon r; oda_cnt := oda_cnt r; oda := oda r; tdc := tdc r;
     ews := ews r; stats := stats r; valid_values := valid_values r |}.

Definition set_clock (x : rds_clock) (r : rds_data) : rds_data :=
  {| pi_code := pi_code r; pic := pic r; pty := pty r; tp_code := tp_code r;
     ta_code := ta_code r; music := music r; ps := ps r; rt := rt r;
     clock := x; slc := slc r; ptyn := ptyn r; af := af r;
     eon := eon r; oda_cnt := oda_cnt r; oda := oda r; tdc := tdc r;
     ews := ews r; stats := stats r; valid_values := valid_values r |}.

Definition set_slc (x : rds_slc) (r : rds_data) : rds_data :=
  {| pi_code := pi_code r; pic := pic r; pty := pty r; tp_code := tp_code r;
     ta_code := ta_code r; music := music r; ps := ps r; rt := rt r;
     clock := clock r; slc := x; ptyn := ptyn r; af := af r;
     eon := eon r; oda_cnt := oda_cnt r; oda := oda r; tdc := tdc r;
     ews := ews r; stats := stats r; valid_values := valid_values r |}.

Definition set_ptyn (x : rds_ptyn) (r : rds_data) : rds_data :=
  {| pi_code := pi_code r; pic := pic r; pty := pty r; tp_code := tp_code r;
     ta_code := ta_code r; music := music r; ps := ps r; rt := rt r;
     clock := clock r; slc := slc r; ptyn := x; af := af r;
     eon := eon r; oda_cnt := oda_cnt r; oda := oda r; tdc := tdc r;
     ews := ews r; stats := stats r; valid_values := valid_values r |}.

Definition set_af (x : rds_af_table_group) (r : rds_data) : rds_data :=
  {| pi_code := pi_code r; pic := pic r; pty := pty r; tp_code := tp_code r;
     ta_code := ta_code r; music := music r; ps := ps r; rt := rt r;
     clock := clock r; slc := slc r; ptyn := ptyn r; af := x;
     eon := eon r; oda_cnt := oda_cnt r; oda := oda r; tdc := tdc r;
     ews := ews r; stats := stats r; valid_values := valid_values r |}.

Definition set_eon (x : rds_eon) (r : rds_data) : rds_data :=
  {| pi_code := pi_code r; pic := pic r; pty := pty r; tp_code := tp_code r;
     ta_code := ta_code r; music := music r; ps := ps r; rt := rt r;
     clock := clock r; slc := slc r; ptyn := ptyn r; af := af r;
     eon := x; oda_cnt := oda_cnt r; oda := oda r; tdc := tdc r;
     ews := ews r; stats := stats r; valid_values := valid_values r |}.

Definition set_oda_cnt (x : Z) (r : rds_data) : rds_data :=
  {| pi_code := pi_code r; pic := pic r; pty := pty r; tp_code := tp_code r;
     ta_code := ta_code r; music := music r; ps := ps r; rt := rt r;
     clock := clock r; slc := slc r; ptyn := ptyn r; af := af r;
     eon := eon r; oda_cnt := x; oda := oda r; tdc := tdc r;
     ews := ews r; stats := stats r; valid_values := valid_values r |}.

Definition set_oda (x : list rds_oda) (r : rds_data) : rds_data :=
  {| pi_code := pi_code r; pic := pic r; pty := pty r; tp_code := tp_code r;
     ta_code := ta_code r; music := music r; ps := ps r; rt := rt r;
     clock := clock r; slc := slc r; ptyn := ptyn r; af := af r;
     eon := eon r; oda_cnt := oda_cnt r; oda := x; tdc := tdc r;
     ews := ews r; stats := stats r; valid_values := valid_values r |}.

Definition set_tdc (x : rds_tdc) (r : rds_data) : rds_data :=
  {| pi_code := pi_code r; pic := pic r; pty := pty r; tp_code := tp_code r;
     ta_code := ta_code r; music := music r; ps := ps r; rt := rt r;
     clock := clock r; slc := slc r; ptyn := ptyn r; af := af r;
     eon := eon r; oda_cnt := oda_cnt r; oda := oda r; tdc := x;
     ews := ews r; stats := stats r; valid_values := valid_values r |}.

Definition set_ews (x : rds_ews) (r : rds_data) : rds_data :=
  {| pi_code := pi_code r; pic := pic r; pty := pty r; tp_code := tp_code r;
     ta_code := ta_code r; music := music r; ps := ps r; rt := rt r;
     clock := clock r; slc := slc r; ptyn := ptyn r; af := af r;
     eon := eon r; oda_cnt := oda_cnt r; oda := oda r; tdc := tdc r;
     ews := x; stats := stats r; valid_values := valid_values r |}.

Definition set_stats (x : rds_stats) (r : rds_data) : rds_data :=
  {| pi_code := pi_code r; pic := pic r; pty := pty r; tp_code := tp_code r;
     ta_code := ta_code r; music := music r; ps := ps r; rt := rt r;
     clock := clock r; slc := slc r; ptyn := ptyn r; af := af r;
     eon := eon r; oda_cnt := oda_cnt r; oda := oda r; tdc := tdc r;
     ews := ews r; stats := x; valid_values := valid_values r |}.

Definition set_valid_values (x : Z) (r : rds_data) : rds_data :=
  {| pi_code := pi_code r; pic := pic r; pty := pty r; tp_code := tp_code r;
     ta_code := ta_code r; music := music r; ps := ps r; rt := rt r;
     clock := clock r; slc := slc r; ptyn := ptyn r; af := af r;
     eon := eon r; oda_cnt := oda_cnt r; oda := oda r; tdc := tdc r;
     ews := ews r; stats := stats r; valid_values := x |}.

Definition set_stats_counts (x : list Z) (s : rds_stats) : rds_stats :=
  {| stats_counts := x; stats_groups := stats_groups s;
     stats_data_cnt := stats_data_cnt s;
     stats_blckb_errors := stats_blckb_errors s |}.

Definition set_stats_groups (x : list rds_group_cnt) (s : rds_stats)
  : rds_stats :=
  {| stats_counts := stats_counts s; stats_groups := x;
     stats_data_cnt := stats_data_cnt s;
     stats_blckb_errors := stats_blckb_errors s |}.

Definition set_stats_data_cnt (x : Z) (s : rds_stats) : rds_stats :=
  {| stats_counts := stats_counts s; stats_groups := stats_groups s;
     stats_data_cnt := x;
     stats_blckb_errors := stats_blckb_errors s |}.

Definition set_stats_blckb_errors (x : Z) (s : rds_stats) : rds_stats :=
  {| stats_counts := stats_counts s; stats_groups := stats_groups s;
     stats_data_cnt := stats_data_cnt s;
     stats_blckb_errors := x |}.

Definition set_eon_on (x : rds_eon_on) (e : rds_eon) : rds_eon :=
  {| eon_on := x; eon_maps := eon_maps e |}.

Definition set_on_ps (x : list Z) (o : rds_eon_on) : rds_eon_on :=
  {| on_ps := x; on_pty := on_pty o; on_tp_code := on_tp_code o;
     on_ta_code := on_ta_code o; on_af := on_af o;
     on_pi_code := on_pi_code o; on_pic := on_pic o |}.

Definition set_on_pty (x : Z) (o : rds_eon_on) : rds_eon_on :=
  {| on_ps := on_ps o; on_pty := x; on_tp_code := on_tp_code o;
     on_ta_code := on_ta_code o; on_af := on_af o;
     on_pi_code := on_pi_code o; on_pic := on_pic o |}.

Definition set_on_tp_code (x : bool) (o : rds_eon_on) : rds_eon_on :=
  {| on_ps := on_ps o; on_pty := on_pty o; on_tp_code := x;
     on_ta_code := on_ta_code o; on_af := on_af o;
     on_pi_code := on_pi_code o; on_pic := on_pic o |}.

Definition set_on_ta_code (x : bool) (o : rds_eon_on) : rds_eon_on :=
  {| on_ps := on_ps o; on_pty := on_pty o; on_tp_code := on_tp_code o;
     on_ta_code := x; on_af := on_af o;
     on_pi_code := on_pi_code o; on_pic := on_pic o |}.

Definition set_on_af (x : rds_af_decode_table) (o : rds_eon_on)
  : rds_eon_on :=
  {| on_ps := on_ps o; on_pty := on_pty o; on_tp_code := on_tp_code o;
     on_ta_code := on_ta_code o; on_af := x;
     on_pi_code := on_pi_code o; on_pic := on_pic o |}.

Definition set_on_pi_code (x : Z) (o : rds_eon_on) : rds_eon_on :=
  {| on_ps := on_ps o; on_pty := on_pty o; on_tp_code := on_tp_code o;
     on_ta_code := on_ta_code o; on_af := on_af o;
     on_pi_code := x; on_pic := on_pic o |}.

(** [SET_BITS (rds->valid_values, bits)] *)
Definition SET_BITS (bits : Z) (r : rds_data) : rds_data :=
  set_valid_values (Z.lor (valid_values r) bits) r.

(** [rds->stats.counts[k]++] (an [int] counter). *)
Definition count_packet (k : Z) (r : rds_data) : option rds_data :=
  x ← aget (stats_counts (stats r)) k;
  cs ← aset (stats_counts (stats r)) k (s32 (x + 1));
  Some (set_stats (set_stats_counts cs (stats r)) r).

(** ** The decoder ([rds_decoder.c]) *)

Definition GT_CODE_MASK : Z := 0xF000.
Definition VERSION_CODE : Z := 0x0800.
Definition TP_CODE : Z := 0x0400.
Definition PTY_MASK : Z := 0x03E0.

Definition RT_VALIDATE_LIMIT : Z := 2.
Definition PS_VALIDATE_LIMIT : Z := 2.

(** [struct rds_decoder] without its [rds] pointer: the record that pointer
    names is passed explicitly.  A callback is a function pointer, [0] when
    it is not bound. *)
Record rds_decoder :=
  { oda_decode_cb : Z;
    oda_clear_cb : Z;
    oda_cb_data : Z;
    advanced_ps_decoding : bool }.

(** One call of a host callback.  [call_decode_cb] carries the arguments of
    [DecodeODAFunc]; [call_clear_cb] carries the argument of [ClearODAFunc]
    and the contents of the state record at the moment of the call. *)
Inductive oda_call :=
  | call_decode_cb (fn app_id : Z) (rds : rds_data) (blocks : rds_blocks)
      (gt : rds_group_type) (cb_data : Z)
  | call_clear_cb (fn cb_data : Z) (rds : rds_data).

(** The state record together with the calls made so far (oldest first). *)
Record world := { w_rds : rds_data; w_calls : list oda_call }.

(** Run a step that only touches the state record. *)
Definition on_rds (f : rds_data → option rds_data) (w : world)
  : option world :=
  rds ← f (w_rds w); Some {| w_rds := rds; w_calls := w_calls w |}.

Definition GroupTypesEqual (gta gtb : rds_group_type) : bool :=
  (code gta =? code gtb) && Ascii.eqb (version gta) (version gtb).

Fixpoint IsGroupTypeUsedByODA_from (n : nat) (i : Z) (rds : rds_data)
  (gt : rds_group_type) : option bool :=
  match n with
  | O => Some false
  | S n' =>
      e ← aget (oda rds) i;
      if GroupTypesEqual (oda_gt e) gt then Some true
      else IsGroupTypeUsedByODA_from n' (i + 1) rds gt
  end.

Definition IsGroupTypeUsedByODA (rds : rds_data) (gt : rds_group_type)
  : option bool :=
  IsGroupTypeUsedByODA_from (Z.to_nat ODA_LEN) 0 rds gt.

Definition IsValidODAAppId (app_id : Z) : bool := negb (app_id =? 0).

Definition decode_pty (rds : rds_data) (block : rds_block)
  : option rds_data :=
  let rds := set_tp_code (to_bool (Z.land (val block) TP_CODE)) rds in
  let rds := set_pty (u8 (Z.shiftr (Z.land (val block) PTY_MASK) 5)) rds in
  let rds := SET_BITS RDS_TP_CODE rds in
  rds ← (if tp_code rds then count_packet PKTCNT_TP_CODE rds else Some rds);
  let rds := SET_BITS RDS_PTY rds in
  count_packet PKTCNT_PTY rds.

Definition TA_MASK : Z := 0x0010.
Definition MS_MASK : Z := 0x0008.

Definition decode_ta (rds : rds_data) (block : rds_block)
  : option rds_data :=
  let rds := set_ta_code (to_bool (Z.land (val block) TA_MASK)) rds in
  let rds := SET_BITS RDS_TA_CODE rds in
  count_packet PKTCNT_TA_CODE rds.

Definition decode_ms (rds : rds_data) (block : rds_block)
  : option rds_data :=
  let rds := set_music (to_bool (Z.land (val block) MS_MASK)) rds in
  let rds := SET_BITS RDS_MS rds in
  count_packet PKTCNT_MS rds.

(** *** Radiotext *)

Definition set_rt_display (x : list Z) (r : rds_rt) : rds_rt :=
  {| rt_display := x; rt_pvt_hi_prob := rt_pvt_hi_prob r;
     rt_pvt_lo_prob := rt_pvt_lo_prob r;
     rt_pvt_hi_prob_cnt := rt_pvt_hi_prob_cnt r |}.

Definition set_rt_pvt_hi_prob (x : list Z) (r : rds_rt) : rds_rt :=
  {| rt_display := rt_display r; rt_pvt_hi_prob := x;
     rt_pvt_lo_prob := rt_pvt_lo_prob r;
     rt_pvt_hi_prob_cnt := rt_pvt_hi_prob_cnt r |}.

Definition set_rt_pvt_lo_prob (x : list Z) (r : rds_rt) : rds_rt :=
  {| rt_display := rt_display r; rt_pvt_hi_prob := rt_pvt_hi_prob r;
     rt_pvt_lo_prob := x;
     rt_pvt_hi_prob_cnt := rt_pvt_hi_prob_cnt r |}.

Definition set_rt_pvt_hi_prob_cnt (x : list Z) (r : rds_rt) : rds_rt :=
  {| rt_display := rt_display r; rt_pvt_hi_prob := rt_pvt_hi_prob r;
     rt_pvt_lo_prob := rt_pvt_lo_prob r;
     rt_pvt_hi_prob_cnt := x |}.

(** The block whose error class gates character [i] of a [count]-character
    payload: block C for the first two of four, block D otherwise. *)
Definition rt_block_ok (blocks : rds_blocks) (count i : Z) : bool :=
  let '(errCount, blerMax) :=
    if (i <? 2) && (2 <? count) then (errors (c blocks), BLERC_MAX)
    else (errors (d blocks), BLERD_MAX) in
  errCount <=? blerMax.

Fixpoint update_rt_simple_loop (n : nat) (i : Z) (blocks : rds_blocks)
  (count addr : Z) (chars display : list Z) : option (list Z) :=
  match n with
  | O => Some display
  | S n' =>
      if rt_block_ok blocks count i then
        ch ← aget chars i;
        display ← aset display (addr + i) ch;
        if ch =? 0x0d then
          (* End of message: wipe the rest of the text and leave the loop. *)
          let j := u8 (addr + i + 1) in
          for_loop (Z.to_nat (RT_LEN - j)) j
            (λ j display, aset display j 0) display
        else update_rt_simple_loop n' (u8 (i + 1)) blocks count addr chars
               display
      else update_rt_simple_loop n' (u8 (i + 1)) blocks count addr chars
             display
  end.

Definition update_rt_simple (rt : rds_rt) (blocks : rds_blocks)
  (count addr : Z) (chars : list Z) : option rds_rt :=
  display ← update_rt_simple_loop (Z.to_nat count) 0 blocks count addr chars
              (rt_display rt);
  display ← for_loop (Z.to_nat addr) 0
              (λ i display,
                 x ← aget display i;
                 if x =? 0 then aset display i 0x20 else Some display)
              display;
  Some (set_rt_display display rt).

Definition bump_rt_validation_count (rt : rds_rt) : option rds_rt :=
  rt ← for_loop (Z.to_nat RT_LEN) 0
         (λ i rt,
            h ← aget (rt_pvt_hi_prob rt) i;
            if h =? 0 then
              hi ← aset (rt_pvt_hi_prob rt) i 0x20;
              x ← aget (rt_pvt_hi_prob_cnt rt) i;
              cnt ← aset (rt_pvt_hi_prob_cnt rt) i (u8 (x + 1));
              Some (set_rt_pvt_hi_prob_cnt cnt (set_rt_pvt_hi_prob hi rt))
            else Some rt) rt;
  rt ← for_loop (Z.to_nat RT_LEN) 0
         (λ i rt,
            x ← aget (rt_pvt_hi_prob_cnt rt) i;
            cnt ← aset (rt_pvt_hi_prob_cnt rt) i (u8 (x + 1));
            Some (set_rt_pvt_hi_prob_cnt cnt rt)) rt;
  (* Wipe out the cached text. *)
  Some {| rt_display := rt_display rt;
          rt_pvt_hi_prob := memset0 (rt_pvt_hi_prob rt);
          rt_pvt_lo_prob := memset0 (rt_pvt_lo_prob rt);
          rt_pvt_hi_prob_cnt := memset0 (rt_pvt_hi_prob_cnt rt) |}.

(** One iteration of the first loop of [update_rt_advance]; the state is the
    buffer, the caller's byte array and the [text_changing] flag. *)
Definition update_rt_advance_step (blocks : rds_blocks) (count addr i : Z)
  (st : rds_rt * list Z * bool) : option (rds_rt * list Z * bool) :=
  let '(rt, byte, text_changing) := st in
  if rt_block_ok blocks count i then
    x ← aget byte i;
    byte ← (if x =? 0 then aset byte i 0x20 else Some byte);
    x ← aget byte i;
    hi ← aget (rt_pvt_hi_prob rt) (addr + i);
    if hi =? x then
      n ← aget (rt_pvt_hi_prob_cnt rt) (addr + i);
      if n <? RT_VALIDATE_LIMIT then
        cnt ← aset (rt_pvt_hi_prob_cnt rt) (addr + i) (u8 (n + 1));
        Some (set_rt_pvt_hi_prob_cnt cnt rt, byte, text_changing)
      else
        cnt ← aset (rt_pvt_hi_prob_cnt rt) (addr + i) RT_VALIDATE_LIMIT;
        lo ← aset (rt_pvt_lo_prob rt) (addr + i) x;
        Some (set_rt_pvt_lo_prob lo (set_rt_pvt_hi_prob_cnt cnt rt),
              byte, text_changing)
    else
      lo ← aget (rt_pvt_lo_prob rt) (addr + i);
      if lo =? x then
        n ← aget (rt_pvt_hi_prob_cnt rt) (addr + i);
        let '(text_changing, n') :=
          if RT_VALIDATE_LIMIT <=? n then (true, RT_VALIDATE_LIMIT + 1)
          else (text_changing, RT_VALIDATE_LIMIT) in
        cnt ← aset (rt_pvt_hi_prob_cnt rt) (addr + i) n';
        hi ← aget (rt_pvt_hi_prob rt) (addr + i);
        los ← aset (rt_pvt_lo_prob rt) (addr + i) hi;
        his ← aset (rt_pvt_hi_prob rt) (addr + i) x;
        Some (set_rt_pvt_hi_prob his
                (set_rt_pvt_lo_prob los (set_rt_pvt_hi_prob_cnt cnt rt)),
              byte, text_changing)
      else
        n ← aget (rt_pvt_hi_prob_cnt rt) (addr + i);
        if n =? 0 then
          his ← aset (rt_pvt_hi_prob rt) (addr + i) x;
          cnt ← aset (rt_pvt_hi_prob_cnt rt) (addr + i) 1;
          Some (set_rt_pvt_hi_prob_cnt cnt (set_rt_pvt_hi_prob his rt),
                byte, text_changing)
        else
          los ← aset (rt_pvt_lo_prob rt) (addr + i) x;
          Some (set_rt_pvt_lo_prob los rt, byte, text_changing)
  else Some st.

(** [if (cnt[i] > 1) cnt[i]--] for every [i] below [len]: the tail of both
    confidence updates. *)
Definition knock_down_counts (len : Z) (cnt : list Z) : option (list Z) :=
  for_loop (Z.to_nat len) 0
    (λ i cnt,
       x ← aget cnt i;
       if 1 <? x then aset cnt i (u8 (x - 1)) else Some cnt) cnt.

Definition update_rt_advance (rt : rds_rt) (blocks : rds_blocks)
  (count addr : Z) (byte : list Z) : option rds_rt :=
  st ← for_loop (Z.to_nat count) 0 (update_rt_advance_step blocks count addr)
         (rt, byte, false);
  let '(rt, _, text_changing) := st in
  if negb text_changing then Some rt
  else
    cnt ← knock_down_counts RT_LEN (rt_pvt_hi_prob_cnt rt);
    Some (set_rt_pvt_hi_prob_cnt cnt rt).

(** *** Program Service name *)

Definition set_ps_display (x : list Z) (p : rds_ps) : rds_ps :=
  {| ps_display := x; ps_pvt_hi_prob := ps_pvt_hi_prob p;
     ps_pvt_lo_prob := ps_pvt_lo_prob p;
     ps_pvt_hi_prob_cnt := ps_pvt_hi_prob_cnt p |}.

Definition set_ps_pvt_hi_prob (x : list Z) (p : rds_ps) : rds_ps :=
  {| ps_display := ps_display p; ps_pvt_hi_prob := x;
     ps_pvt_lo_prob := ps_pvt_lo_prob p;
     ps_pvt_hi_prob_cnt := ps_pvt_hi_prob_cnt p |}.

Definition set_ps_pvt_lo_prob (x : list Z) (p : rds_ps) : rds_ps :=
  {| ps_display := ps_display p; ps_pvt_hi_prob := ps_pvt_hi_prob p;
     ps_pvt_lo_prob := x;
     ps_pvt_hi_prob_cnt := ps_pvt_hi_prob_cnt p |}.

Definition set_ps_pvt_hi_prob_cnt (x : list Z) (p : rds_ps) : rds_ps :=
  {| ps_display := ps_display p; ps_pvt_hi_prob := ps_pvt_hi_prob p;
     ps_pvt_lo_prob := ps_pvt_lo_prob p;
     ps_pvt_hi_prob_cnt := x |}.

(** The loop that clears [complete] in [update_ps_advanced]. *)
Fixpoint ps_complete_from (n : nat) (i : Z) (cnt : list Z) : option bool :=
  match n with
  | O => Some true
  | S n' =>
      x ← aget cnt i;
      if x <? PS_VALIDATE_LIMIT then Some false
      else ps_complete_from n' (i + 1) cnt
  end.

(** [memcpy (dst, src, n)] on byte arrays; fails when either array is
    shorter than [n]. *)
Definition memcpy (dst src : list Z) (n : Z) : option (list Z) :=
  if (n <=? Z.of_nat (length src)) && (n <=? Z.of_nat (length dst))
  then Some (take (Z.to_nat n) src ++ drop (Z.to_nat n) dst) else None.

(** The four-way case on the new byte in [update_ps_advanced]; returns the
    updated buffers and [in_transition]. *)
Definition ps_vote (p : rds_ps) (char_idx byte : Z) : option (rds_ps * bool) :=
  hi ← aget (ps_pvt_hi_prob p) char_idx;
  if hi =? byte then
    n ← aget (ps_pvt_hi_prob_cnt p) char_idx;
    if n <? PS_VALIDATE_LIMIT then
      cnt ← aset (ps_pvt_hi_prob_cnt p) char_idx (u8 (n + 1));
      Some (set_ps_pvt_hi_prob_cnt cnt p, false)
    else
      cnt ← aset (ps_pvt_hi_prob_cnt p) char_idx PS_VALIDATE_LIMIT;
      lo ← aset (ps_pvt_lo_prob p) char_idx byte;
      Some (set_ps_pvt_lo_prob lo (set_ps_pvt_hi_prob_cnt cnt p), false)
  else
    lo ← aget (ps_pvt_lo_prob p) char_idx;
    if lo =? byte then
      n ← aget (ps_pvt_hi_prob_cnt p) char_idx;
      let '(in_transition, n') :=
        if PS_VALIDATE_LIMIT <=? n then (true, PS_VALIDATE_LIMIT + 1)
        else (false, PS_VALIDATE_LIMIT) in
      cnt ← aset (ps_pvt_hi_prob_cnt p) char_idx n';
      hi ← aget (ps_pvt_hi_prob p) char_idx;
      los ← aset (ps_pvt_lo_prob p) char_idx hi;
      his ← aset (ps_pvt_hi_prob p) char_idx byte;
      Some (set_ps_pvt_hi_prob his
              (set_ps_pvt_lo_prob los (set_ps_pvt_hi_prob_cnt cnt p)),
            in_transition)
    else
      n ← aget (ps_pvt_hi_prob_cnt p) char_idx;
      if n =? 0 then
        his ← aset (ps_pvt_hi_prob p) char_idx byte;
        cnt ← aset (ps_pvt_hi_prob_cnt p) char_idx 1;
        Some (set_ps_pvt_hi_prob_cnt cnt (set_ps_pvt_hi_prob his p), false)
      else
        los ← aset (ps_pvt_lo_prob p) char_idx byte;
        Some (set_ps_pvt_lo_prob los p, false).

Definition update_ps_advanced (rds : rds_data) (char_idx byte : Z)
  : option rds_data :=
  if PS_LEN <=? char_idx then Some rds
  else
    r ← ps_vote (ps rds) char_idx byte;
    let '(p, in_transition) := r in
    p ← (if in_transition : bool then
           cnt ← knock_down_counts PS_LEN (ps_pvt_hi_prob_cnt p);
           Some (set_ps_pvt_hi_prob_cnt cnt p)
         else Some p);
    complete ← ps_complete_from (Z.to_nat PS_LEN) 0 (ps_pvt_hi_prob_cnt p);
    if complete : bool then
      let rds := SET_BITS RDS_PS rds in
      display ← memcpy (ps_display p) (ps_pvt_hi_prob p) PS_LEN;
      Some (set_ps (set_ps_display display p) rds)
    else Some (set_ps p rds).

Definition update_ps_simple (rds : rds_data) (char_idx current_ps_byte : Z)
  : option rds_data :=
  if PS_LEN <=? char_idx then Some rds
  else
    display ← aset (ps_display (ps rds)) char_idx current_ps_byte;
    Some (SET_BITS RDS_PS (set_ps (set_ps_display display (ps rds)) rds)).

(** *** Group 0: basic tuning *)

Definition decode_alt_freq (rds : rds_data) (blocks : rds_blocks)
  : option rds_data :=
  if negb (errors (c blocks) =? BLER_NONE) then Some rds
  else
    let rds := SET_BITS RDS_AF rds in
    rds ← count_packet PKTCNT_AF rds;
    g ← decode_freq_group_block (af rds) (val (c blocks));
    Some (set_af g rds).

Definition decode_group_type_0 (decoder : rds_decoder) (gt : rds_group_type)
  (blocks : rds_blocks) (rds : rds_data) : option rds_data :=
  rds ← (if Ascii.eqb (version gt) "A" then decode_alt_freq rds blocks
         else Some rds);
  if BLERD_MAX <? errors (d blocks) then Some rds
  else
    rds ← decode_ta rds (b blocks);
    rds ← decode_ms rds (b blocks);
    let pair_idx := u16 (Z.land (val (b blocks)) 0x03 * 2) in
    rds ← (if advanced_ps_decoding decoder then
             rds ← update_ps_advanced rds (u8 (pair_idx + 0))
                     (u8 (Z.shiftr (val (d blocks)) 8));
             update_ps_advanced rds (u8 (pair_idx + 1))
               (u8 (Z.land (val (d blocks)) 0xFF))
           else
             rds ← update_ps_simple rds (u8 (pair_idx + 0))
                     (u8 (Z.shiftr (val (d blocks)) 8));
             update_ps_simple rds (u8 (pair_idx + 1))
               (u8 (Z.land (val (d blocks)) 0xFF)));
    count_packet PKTCNT_PS rds.

(** *** Group 1: slow labelling codes and programme item number *)

Definition C_SLC_LA : Z := 0x8000.
Definition C_SLC_VC : Z := 0x7000.
Definition C_SLC_DATA : Z := 0x0FFF.
Definition C_SLC_PAGING_MASK : Z := 0x0F00.
Definition C_SLC_COUNTRY_MASK : Z := 0x00FF.

(** The cast to [enum rds_variant_code]; the argument is a 3-bit value. *)
Definition variant_code_of (x : Z) : rds_variant_code :=
  match x with
  | 0 => SLC_VARIANT_PAGING
  | 1 => SLC_VARIANT_TMC_ID
  | 2 => SLC_VARIANT_PAGING_ID
  | 3 => SLC_VARIANT_LANG
  | 4 => SLC_VARIANT_NOT_ASSIGNED1
  | 5 => SLC_VARIANT_NOT_ASSIGNED5
  | 6 => SLC_VARIANT_BROADCAST
  | _ => SLC_VARIANT_EWS
  end.

Definition decode_slow_labelling_codes (rds : rds_data) (blocks : rds_blocks)
  : option rds_data :=
  if BLERC_MAX <? errors (c blocks) then Some rds
  else
    let rds := SET_BITS RDS_SLC rds in
    rds ← count_packet PKTCNT_SLC rds;
    let cv := val (c blocks) in
    let la := to_bool (Z.land cv C_SLC_LA) in
    let vc := variant_code_of (Z.shiftr (Z.land cv C_SLC_VC) 12) in
    let data :=
      match vc with
      | SLC_VARIANT_PAGING =>
          slc_paging (u8 (Z.shiftr (Z.land cv C_SLC_PAGING_MASK) 8))
            (u8 (Z.land cv C_SLC_COUNTRY_MASK))
      | SLC_VARIANT_TMC_ID => slc_tmc_id (Z.land cv C_SLC_DATA)
      | SLC_VARIANT_PAGING_ID => slc_paging_id (Z.land cv C_SLC_DATA)
      | SLC_VARIANT_LANG => slc_language_codes (Z.land cv C_SLC_DATA)
      | SLC_VARIANT_NOT_ASSIGNED1 | SLC_VARIANT_NOT_ASSIGNED5 => slc_tmc_id 0
      | SLC_VARIANT_BROADCAST => slc_broadcasters (Z.land cv C_SLC_DATA)
      | SLC_VARIANT_EWS => slc_ews_channel_id (Z.land cv C_SLC_DATA)
      end in
    Some (set_slc {| slc_la := la; slc_variant_code := vc;
                     slc_data := data |} rds).

Definition PI_HOUR : Z := 0x07C0.
Definition PI_MINUTE : Z := 0x003F.

Definition decode_program_item_number_code (raw_value : Z) : rds_pic :=
  let dy := u8 (Z.shiftr raw_value 11) in
  if negb (dy =? 0) then
    {| day := dy; hour := u8 (Z.shiftr (Z.land raw_value PI_HOUR) 6);
       minute := u8 (Z.land raw_value PI_MINUTE) |}
  else {| day := dy; hour := 0; minute := 0 |}.

Definition decode_group_type_1 (decoder : rds_decoder) (gt : rds_group_type)
  (blocks : rds_blocks) (rds : rds_data) : option rds_data :=
  rds ← (if Ascii.eqb (version gt) "A"
         then decode_slow_labelling_codes rds blocks else Some rds);
  if errors (d blocks) <=? BLERD_MAX then
    let rds :=
      set_pic (decode_program_item_number_code (val (d blocks))) rds in
    let rds := SET_BITS RDS_PIC rds in
    count_packet PKTCNT_PIC rds
  else Some rds.

(** *** Group 2: radiotext *)

Definition rt_text_eqb (x y : rds_rt_text) : bool :=
  match x, y with
  | RT_A, RT_A | RT_B, RT_B => true
  | _, _ => false
  end.

(** The statements of [decode_group_type_2] after the two branches meet:
    store the buffer back, remember the flag, mark RT valid. *)
Definition rt_commit (decode_rt : rds_rt_text) (buf : rds_rt)
  (rds : rds_data) : option rds_data :=
  let pair :=
    match decode_rt with
    | RT_A => {| rt_a := buf; rt_b := rt_b (rt rds);
                 rt_decode_rt := decode_rt |}
    | RT_B => {| rt_a := rt_a (rt rds); rt_b := buf;
                 rt_decode_rt := decode_rt |}
    end in
  let rds := SET_BITS RDS_RT (set_rt pair rds) in
  count_packet PKTCNT_RT rds.

Definition decode_group_type_2 (decoder : rds_decoder) (gt : rds_group_type)
  (blocks : rds_blocks) (rds : rds_data) : option rds_data :=
  let decode_rt :=
    if to_bool (Z.shiftr (Z.land (val (b blocks)) 0x0010) 4)
    then RT_A else RT_B in
  let buf := match decode_rt with
             | RT_A => rt_a (rt rds)
             | RT_B => rt_b (rt rds)
             end in
  if Ascii.eqb (version gt) "A" then
    if (BLERC_MAX <? errors (c blocks)) || (BLERD_MAX <? errors (d blocks))
    then Some rds
    else
      let rtchars := [ u8 (Z.shiftr (val (c blocks)) 8);
                       u8 (Z.land (val (c blocks)) 0xFF);
                       u8 (Z.shiftr (val (d blocks)) 8);
                       u8 (Z.land (val (d blocks)) 0xFF) ] in
      let addr := u8 (Z.land (val (b blocks)) 0xf * 4) in
      buf ← update_rt_simple buf blocks 4 addr rtchars;
      buf ← (if negb (rt_text_eqb (rt_decode_rt (rt rds)) decode_rt)
             then bump_rt_validation_count buf else Some buf);
      buf ← update_rt_advance buf blocks 4 addr rtchars;
      rt_commit decode_rt buf rds
  else
    if BLERD_MAX <? errors (d blocks) then Some rds
    else
      let rtchars := [ u8 (Z.shiftr (val (d blocks)) 8);
                       u8 (Z.land (val (d blocks)) 0xFF); 0; 0 ] in
      let addr := u8 (Z.land (val (b blocks)) 0xf * 2) in
      (* The last 32 bytes are unused in this format. *)
      display ← aset (rt_display buf) 32 0x0d;
      his ← aset (rt_pvt_hi_prob buf) 32 0x0d;
      los ← aset (rt_pvt_lo_prob buf) 32 0x0d;
      cnt ← aset (rt_pvt_hi_prob_cnt buf) 32 RT_VALIDATE_LIMIT;
      let buf := {| rt_display := display; rt_pvt_hi_prob := his;
                    rt_pvt_lo_prob := los; rt_pvt_hi_prob_cnt := cnt |} in
      buf ← update_rt_simple buf blocks 2 addr rtchars;
      buf ← (if negb (rt_text_eqb (rt_decode_rt (rt rds)) decode_rt)
             then bump_rt_validation_count buf else Some buf);
      buf ← update_rt_advance buf blocks 2 addr rtchars;
      rt_commit decode_rt buf rds.

(** *** Open data applications *)

Definition set_oda_gt (x : rds_group_type) (e : rds_oda) : rds_oda :=
  {| oda_id := oda_id e; oda_gt := x; oda_pkt_count := oda_pkt_count e |}.

Definition set_oda_id (x : Z) (e : rds_oda) : rds_oda :=
  {| oda_id := x; oda_gt := oda_gt e; oda_pkt_count := oda_pkt_count e |}.

Definition set_oda_pkt_count (x : Z) (e : rds_oda) : rds_oda :=
  {| oda_id := oda_id e; oda_gt := oda_gt e; oda_pkt_count := x |}.

(** The search loop of [decode_oda]; returns the final value of [idx]. *)
Fixpoint decode_oda_find (n : nat) (idx : Z) (rds : rds_data)
  (gt : rds_group_type) : option Z :=
  match n with
  | O => Some idx
  | S n' =>
      e ← aget (oda rds) idx;
      if GroupTypesEqual (oda_gt e) gt then Some idx
      else decode_oda_find n' (u8 (idx + 1)) rds gt
  end.

Definition decode_oda (decoder : rds_decoder) (gt : rds_group_type)
  (blocks : rds_blocks) (w : world) : option world :=
  let rds := w_rds w in
  idx ← decode_oda_find (Z.to_nat (oda_cnt rds)) 0 rds gt;
  if idx =? oda_cnt rds then Some w
  else
    e ← aget (oda rds) idx;
    odas ← aset (oda rds) idx
             (set_oda_pkt_count (u16 (oda_pkt_count e + 1)) e);
    let rds := set_oda odas rds in
    if negb (oda_decode_cb decoder =? 0) then
      Some {| w_rds := rds;
              w_calls := w_calls w ++
                [call_decode_cb (oda_decode_cb decoder) (oda_id e) rds blocks
                   gt (oda_cb_data decoder)] |}
    else Some {| w_rds := rds; w_calls := w_calls w |}.

(** The [while] loop of [decode_group_type_3]: look for [app_id] among the
    first [oda_cnt] entries, rebinding its group type when found.  Returns
    the final value of [idx] and the table. *)
Fixpoint oda_rebind_loop (n : nat) (idx app_id : Z) (gt : rds_group_type)
  (odas : list rds_oda) : option (Z * list rds_oda) :=
  match n with
  | O => Some (idx, odas)
  | S n' =>
      e ← aget odas idx;
      if oda_id e =? app_id then
        odas ← aset odas idx (set_oda_gt gt e);
        Some (idx, odas)
      else oda_rebind_loop n' (u8 (idx + 1)) app_id gt odas
  end.

(** The group type a 3A group announces: [(B & 0b11110) >> 1] (the mask is
    [0x1E]) and bit 0. *)
Definition announced_gt (bv : Z) : rds_group_type :=
  {| code := u8 (Z.shiftr (Z.land bv 0x1E) 1);
     version := if to_bool (Z.land bv 0x1) then "B"%char else "A"%char |}.

Definition decode_group_type_3 (decoder : rds_decoder) (gt : rds_group_type)
  (blocks : rds_blocks) (w : world) : option world :=
  if Ascii.eqb (version gt) "A" then
    on_rds (λ rds,
      if errors (d blocks) =? BLER_NONE then
        let app_id := val (d blocks) in
        if negb (IsValidODAAppId app_id) then Some rds
        else
          r ← oda_rebind_loop (Z.to_nat (oda_cnt rds)) 0 app_id
                (announced_gt (val (b blocks))) (oda rds);
          let '(idx, odas) := r in
          if (idx =? oda_cnt rds) && (idx <? ODA_LEN) then
            e ← aget odas idx;
            odas ← aset odas idx
                     (set_oda_gt (announced_gt (val (b blocks)))
                        (set_oda_id app_id e));
            Some (set_oda_cnt (u8 (oda_cnt rds + 1)) (set_oda odas rds))
          else Some (set_oda odas rds)
      else Some rds) w
  else decode_oda decoder gt blocks w.

(** *** Group 4: clock *)

Definition B_JDATE : Z := 0x0003.
Definition C_JDATE : Z := 0xFFFE.
Definition D_HOUR : Z := 0xF000.
Definition D_MINUTE : Z := 0x0FC0.
Definition D_UTC_OFFSET : Z := 0x001F.
Definition D_UTC_OFFSET_SIGN : Z := 0x0020.

Definition update_clock (decoder : rds_decoder) (blocks : rds_blocks)
  (rds : rds_data) : option rds_data :=
  if BLERB_MAX <? errors (b blocks) then Some rds
  else if BLERC_MAX <? errors (c blocks) then Some rds
  else if BLERD_MAX <? errors (d blocks) then Some rds
  else if BLERB_MAX <?
            errors (b blocks) + errors (c blocks) + errors (d blocks)
  then Some rds
  else
    let bv := val (b blocks) in
    let cv := val (c blocks) in
    let dv := val (d blocks) in
    let rds := SET_BITS RDS_CLOCK rds in
    rds ← count_packet PKTCNT_CLOCK rds;
    let utc_offset := s8 (Z.land dv D_UTC_OFFSET) in
    let utc_offset :=
      if negb (Z.land dv D_UTC_OFFSET_SIGN =? 0) then s8 (- utc_offset)
      else utc_offset in
    Some (set_clock
            {| clock_day_high := to_bool (Z.shiftr (Z.land bv B_JDATE) 1);
               clock_day_low :=
                 u16 (Z.lor (Z.shiftl (Z.land bv 0x1) 15)
                        (Z.shiftr (Z.land cv C_JDATE) 1));
               clock_hour :=
                 u8 (Z.lor (Z.shiftl (Z.land cv 0x1) 4)
                       (Z.shiftr (Z.land dv D_HOUR) 12));
               clock_minute := u8 (Z.shiftr (Z.land dv D_MINUTE) 6);
               clock_utc_offset := utc_offset |} rds).

Definition decode_group_type_4 (decoder : rds_decoder) (gt : rds_group_type)
  (blocks : rds_blocks) (w : world) : option world :=
  if Ascii.eqb (version gt) "A" then on_rds (update_clock decoder blocks) w
  else decode_oda decoder gt blocks w.

(** *** Group 5: transparent data channels *)

(** [memmove (&arr[0], &arr[2], n)]; fails when [arr] has fewer than
    [n + 2] bytes. *)
Definition memmove_down2 (arr : list Z) (n : Z) : option (list Z) :=
  if n + 2 <=? Z.of_nat (length arr)
  then Some (take (Z.to_nat n) (drop 2 arr) ++ drop (Z.to_nat n) arr)
  else None.

Definition decode_tdc_block (rds : rds_data) (block : rds_block)
  : option rds_data :=
  let channel := tdc_curr_channel (tdc rds) in
  if NUM_TDC <=? channel then Some rds
  else
    let rds := SET_BITS RDS_TDC rds in
    rds ← count_packet PKTCNT_TDC rds;
    row ← aget (tdc_data (tdc rds)) channel;
    row ← memmove_down2 row (TDC_LEN - 2);
    row ← aset row (TDC_LEN - 2) (u8 (Z.shiftr (val block) 8));
    row ← aset row (TDC_LEN - 1) (u8 (Z.land (val block) 0xFF));
    data ← aset (tdc_data (tdc rds)) channel row;
    Some (set_tdc {| tdc_data := data;
                     tdc_curr_channel := tdc_curr_channel (tdc rds) |} rds).

Definition decode_group_type_5 (decoder : rds_decoder) (gt : rds_group_type)
  (blocks : rds_blocks) (w : world) : option world :=
  used ← IsGroupTypeUsedByODA (w_rds w) gt;
  if used : bool then decode_oda decoder gt blocks w
  else if Ascii.eqb (version gt) "A" then
    on_rds (λ rds,
      let rds :=
        set_tdc {| tdc_data := tdc_data (tdc rds);
                   tdc_curr_channel := u8 (Z.land (val (b blocks)) 0x11111) |}
          rds in
      rds ← decode_tdc_block rds (c blocks);
      decode_tdc_block rds (d blocks)) w
  else on_rds (λ rds, decode_tdc_block rds (d blocks)) w.

(** *** Groups 6 to 9 *)

Definition decode_in_house_data (rds : rds_data) : option rds_data :=
  count_packet PKTCNT_IH rds.

Definition decode_group_type_6 (decoder : rds_decoder) (gt : rds_group_type)
  (blocks : rds_blocks) (w : world) : option world :=
  used ← IsGroupTypeUsedByODA (w_rds w) gt;
  if used : bool then decode_oda decoder gt blocks w
  else on_rds decode_in_house_data w.

Definition decode_radio_paging (rds : rds_data) : option rds_data :=
  count_packet PKTCNT_PAGING rds.

Definition decode_group_type_7 (decoder : rds_decoder) (gt : rds_group_type)
  (blocks : rds_blocks) (w : world) : option world :=
  if Ascii.eqb (version gt) "A" then
    used ← IsGroupTypeUsedByODA (w_rds w) gt;
    if used : bool then decode_oda decoder gt blocks w
    else on_rds decode_radio_paging w
  else decode_oda decoder gt blocks w.

Definition decode_tmc (rds : rds_data) : option rds_data :=
  count_packet PKTCNT_TMC rds.

Definition decode_group_type_8 (decoder : rds_decoder) (gt : rds_group_type)
  (blocks : rds_blocks) (w : world) : option world :=
  used ← IsGroupTypeUsedByODA (w_rds w) gt;
  if used : bool then decode_oda decoder gt blocks w
  else if Ascii.eqb (version gt) "A" then on_rds decode_tmc w
  else Some w.

Definition decode_ews (blocks : rds_blocks) (rds : rds_data)
  : option rds_data :=
  rds ← count_packet PKTCNT_EWS rds;
  let rds := SET_BITS RDS_EWS rds in
  (* The mask is 0b11111. *)
  Some (set_ews {| ews_b := {| val := Z.land (val (b blocks)) 0x1F;
                               errors := errors (b blocks) |};
                   ews_c := c blocks;
                   ews_d := d blocks |} rds).

Definition decode_group_type_9 (decoder : rds_decoder) (gt : rds_group_type)
  (blocks : rds_blocks) (w : world) : option world :=
  used ← IsGroupTypeUsedByODA (w_rds w) gt;
  if used : bool then decode_oda decoder gt blocks w
  else if Ascii.eqb (version gt) "A" then on_rds (decode_ews blocks) w
  else Some w.

(** *** Group 10: programme type name *)

Definition update_ptyn (rds : rds_data) (char_idx ch : Z)
  : option rds_data :=
  if PTYN_LEN <=? char_idx then Some rds
  else
    display ← aset (ptyn_display (ptyn rds)) char_idx ch;
    Some (set_ptyn {| ptyn_display := display;
                      ptyn_last_ab := ptyn_last_ab (ptyn rds) |} rds).

Definition B_PTYN_AB_FLAG : Z := 0x10.
Definition B_PTYN_SEGMENT_ADDR : Z := 0x01.

Definition decode_ptyn (blocks : rds_blocks) (rds : rds_data)
  : option rds_data :=
  let rds := SET_BITS RDS_PTYN rds in
  rds ← count_packet PKTCNT_PTYN rds;
  let ab_val := to_bool (Z.land (val (b blocks)) B_PTYN_AB_FLAG) in
  let rds :=
    if negb (Bool.eqb (ptyn_last_ab (ptyn rds)) ab_val) then
      set_ptyn {| ptyn_display := memset0 (ptyn_display (ptyn rds));
                  ptyn_last_ab := ab_val |} rds
    else rds in
  let base :=
    if negb (Z.land (val (b blocks)) B_PTYN_SEGMENT_ADDR =? 0)
    then 4 else 0 in
  rds ← (if errors (c blocks) <=? BLERC_MAX then
           rds ← update_ptyn rds (u8 (base + 0))
                   (u8 (Z.shiftr (val (c blocks)) 8));
           update_ptyn rds (u8 (base + 1)) (u8 (Z.land (val (c blocks)) 0xFF))
         else Some rds);
  if errors (d blocks) <=? BLERD_MAX then
    rds ← update_ptyn rds (u8 (base + 2)) (u8 (Z.shiftr (val (d blocks)) 8));
    update_ptyn rds (u8 (base + 3)) (u8 (Z.land (val (d blocks)) 0xFF))
  else Some rds.

Definition decode_group_type_10 (decoder : rds_decoder) (gt : rds_group_type)
  (blocks : rds_blocks) (w : world) : option world :=
  if Ascii.eqb (version gt) "A" then on_rds (decode_ptyn blocks) w
  else decode_oda decoder gt blocks w.

(** *** Groups 11 to 13: open data *)

Definition decode_group_type_11 (decoder : rds_decoder) (gt : rds_group_type)
  (blocks : rds_blocks) (w : world) : option world :=
  decode_oda decoder gt blocks w.

Definition decode_group_type_12 (decoder : rds_decoder) (gt : rds_group_type)
  (blocks : rds_blocks) (w : world) : option world :=
  decode_oda decoder gt blocks w.

Definition decode_group_type_13 (decoder : rds_decoder) (gt : rds_group_type)
  (blocks : rds_blocks) (w : world) : option world :=
  decode_oda decoder gt blocks w.

(** *** Group 14: enhanced other networks *)

Definition EON_VC_PS1 : Z := 0.
Definition EON_VC_PS2 : Z := 1.
Definition EON_VC_PS3 : Z := 2.
Definition EON_VC_PS4 : Z := 3.
Definition EON_VC_AF : Z := 4.
Definition EON_VC_PTY_TA : Z := 13.

(** [rds->eon.on.ps[i] = hi; rds->eon.on.ps[i + 1] = lo] *)
Definition eon_ps_pair (i : Z) (blocks : rds_blocks) (o : rds_eon_on)
  : option rds_eon_on :=
  p ← aset (on_ps o) i (u8 (Z.shiftr (val (c blocks)) 8));
  p ← aset p (i + 1) (u8 (Z.land (val (c blocks)) 0xFF));
  Some (set_on_ps p o).

Definition decode_eon_block_a (rds : rds_data) (blocks : rds_blocks)
  : option rds_data :=
  let o := eon_on (eon rds) in
  let vc := Z.land (val (b blocks)) 0xf in
  o ← (if vc =? EON_VC_PS1 then eon_ps_pair 0 blocks o
       else if vc =? EON_VC_PS2 then eon_ps_pair 2 blocks o
       else if vc =? EON_VC_PS3 then eon_ps_pair 4 blocks o
       else if vc =? EON_VC_PS4 then eon_ps_pair 6 blocks o
       else if vc =? EON_VC_AF then
         let first_byte := u8 (Z.shiftr (val (c blocks)) 8) in
         if is_freq_code_count first_byte then
           t ← decode_freq_table_start_block
                 (set_pvt_band AF_BAND_UHF (on_af o))
                 (freq_code_to_count first_byte)
                 (Z.land (val (c blocks)) 0xFF);
           Some (set_on_af t o)
         else
           t ← decode_freq_table_nth_block (on_af o) first_byte
                 (Z.land (val (c blocks)) 0xFF);
           Some (set_on_af t o)
       else if vc =? EON_VC_PTY_TA then
         Some (set_on_ta_code (to_bool (Z.land (val (c blocks)) 0x1))
                 (set_on_pty (if 11 <? val (c blocks) then 1 else 0) o))
       else Some o);
  Some (set_eon (set_eon_on o (eon rds)) rds).

Definition decode_group_type_14 (decoder : rds_decoder) (gt : rds_group_type)
  (blocks : rds_blocks) (rds : rds_data) : option rds_data :=
  rds ← count_packet PKTCNT_EON rds;
  let rds := SET_BITS RDS_EON rds in
  if Ascii.eqb (version gt) "A" then decode_eon_block_a rds blocks
  else
    let o := eon_on (eon rds) in
    let o := if errors (d blocks) <=? BLERD_MAX
             then set_on_pi_code (val (d blocks)) o else o in
    let o := set_on_tp_code (to_bool (Z.land (val (b blocks)) 0x8)) o in
    let o := set_on_ta_code (to_bool (Z.land (val (b blocks)) 0x4)) o in
    Some (set_eon (set_eon_on o (eon rds)) rds).

(** *** Group 15 *)

Definition decode_fast_basic_tuning (blocks : rds_blocks) (rds : rds_data)
  : option rds_data :=
  rds ← count_packet PKTCNT_FBT rds;
  if BLERD_MAX <? errors (d blocks) then Some rds else Some rds.

Definition decode_group_type_15 (decoder : rds_decoder) (gt : rds_group_type)
  (blocks : rds_blocks) (rds : rds_data) : option rds_data :=
  rds ← (if Ascii.eqb (version gt) "A" then Some rds
         else decode_fast_basic_tuning blocks rds);
  decode_ta rds (b blocks).

(** *** Exported functions *)

(** [decoder->rds->stats.groups[gt.code].a++] or [.b++] *)
Definition count_group (gt : rds_group_type) (rds : rds_data)
  : option rds_data :=
  e ← aget (stats_groups (stats rds)) (code gt);
  let e := if Ascii.eqb (version gt) "A"
           then {| cnt_a := u16 (cnt_a e + 1); cnt_b := cnt_b e |}
           else {| cnt_a := cnt_a e; cnt_b := u16 (cnt_b e + 1) |} in
  gs ← aset (stats_groups (stats rds)) (code gt) e;
  Some (set_stats (set_stats_groups gs (stats rds)) rds).

(** The [switch (gt.code)] of [rds_decoder_decode]. *)
Definition dispatch (decoder : rds_decoder) (gt : rds_group_type)
  (blocks : rds_blocks) (w : world) : option world :=
  match code gt with
  | 0 => on_rds (decode_group_type_0 decoder gt blocks) w
  | 1 => on_rds (decode_group_type_1 decoder gt blocks) w
  | 2 => on_rds (decode_group_type_2 decoder gt blocks) w
  | 3 => decode_group_type_3 decoder gt blocks w
  | 4 => decode_group_type_4 decoder gt blocks w
  | 5 => decode_group_type_5 decoder gt blocks w
  | 6 => decode_group_type_6 decoder gt blocks w
  | 7 => decode_group_type_7 decoder gt blocks w
  | 8 => decode_group_type_8 decoder gt blocks w
  | 9 => decode_group_type_9 decoder gt blocks w
  | 10 => decode_group_type_10 decoder gt blocks w
  | 11 => decode_group_type_11 decoder gt blocks w
  | 12 => decode_group_type_12 decoder gt blocks w
  | 13 => decode_group_type_13 decoder gt blocks w
  | 14 => on_rds (decode_group_type_14 decoder gt blocks) w
  | 15 => on_rds (decode_group_type_15 decoder gt blocks) w
  | _ => Some w
  end.

(** The group type the dispatcher derives from block B. *)
Definition group_type_of (bv : Z) : rds_group_type :=
  {| code := u8 (Z.shiftr (Z.land bv GT_CODE_MASK) 12);
     version := if to_bool (Z.land bv VERSION_CODE)
                then "B"%char else "A"%char |}.

(** [rds->pi_code = block->val; SET_BITS (..., RDS_PI_CODE); counts[...]++] *)
Definition latch_pi_code (block : rds_block) (rds : rds_data)
  : option rds_data :=
  count_packet PKTCNT_PI_CODE
    (SET_BITS RDS_PI_CODE (set_pi_code (val block) rds)).

Definition rds_decoder_decode (decoder : rds_decoder) (blocks : rds_blocks)
  (w : world) : option world :=
  let rds := w_rds w in
  let rds :=
    set_stats (set_stats_data_cnt (u16 (stats_data_cnt (stats rds) + 1))
                 (stats rds)) rds in
  rds ← (if errors (a blocks) <=? BLERA_MAX
         then latch_pi_code (a blocks) rds else Some rds);
  if BLERB_MAX <? errors (b blocks) then
    Some {| w_rds :=
              set_stats
                (set_stats_blckb_errors
                   (u16 (stats_blckb_errors (stats rds) + 1)) (stats rds))
                rds;
            w_calls := w_calls w |}
  else
    let gt := group_type_of (val (b blocks)) in
    rds ← (if Ascii.eqb (version gt) "B"
              && (errors (c blocks) <=? BLERC_MAX)
              && (errors (c blocks) <? errors (b blocks))
           then latch_pi_code (c blocks) rds else Some rds);
    rds ← count_group gt rds;
    rds ← decode_pty rds (b blocks);
    dispatch decoder gt blocks {| w_rds := rds; w_calls := w_calls w |}.

(** The all-zero [struct rds_data] that [memset] leaves behind. *)
Definition pic_zero : rds_pic := {| day := 0; hour := 0; minute := 0 |}.

Definition af_table_zero : rds_af_table :=
  {| tuned_freq := freq_zero; count := 0;
     entry := replicate (Z.to_nat AF_TABLE_ENTRIES) freq_zero |}.

Definition af_decode_table_zero : rds_af_decode_table :=
  {| table := af_table_zero; enc_method := AF_EM_UNKNOWN;
     pvt_band := AF_BAND_UHF; pvt_prev_enc_method := AF_EM_UNKNOWN;
     pvt_expected_cnt := 0 |}.

Definition rt_zero : rds_rt :=
  {| rt_display := replicate (Z.to_nat RT_LEN) 0;
     rt_pvt_hi_prob := replicate (Z.to_nat RT_LEN) 0;
     rt_pvt_lo_prob := replicate (Z.to_nat RT_LEN) 0;
     rt_pvt_hi_prob_cnt := replicate (Z.to_nat RT_LEN) 0 |}.

Definition block_zero : rds_block := {| val := 0; errors := 0 |}.

Definition rds_data_zero : rds_data :=
  {| pi_code := 0;
     pic := pic_zero;
     pty := 0;
     tp_code := false;
     ta_code := false;
     music := false;
     ps := {| ps_display := replicate (Z.to_nat PS_LEN) 0;
              ps_pvt_hi_prob := replicate (Z.to_nat PS_LEN) 0;
              ps_pvt_lo_prob := replicate (Z.to_nat PS_LEN) 0;
              ps_pvt_hi_prob_cnt := replicate (Z.to_nat PS_LEN) 0 |};
     rt := {| rt_a := rt_zero; rt_b := rt_zero; rt_decode_rt := RT_A |};
     clock := {| clock_day_high := false; clock_day_low := 0;
                 clock_hour := 0; clock_minute := 0;
                 clock_utc_offset := 0 |};
     slc := {| slc_la := false; slc_variant_code := SLC_VARIANT_PAGING;
               slc_data := slc_paging 0 0 |};
     ptyn := {| ptyn_display := replicate (Z.to_nat PTYN_LEN) 0;
                ptyn_last_ab := false |};
     af := {| g_current_table_idx := 0; g_count := 0;
              g_table := replicate (Z.to_nat AF_GROUP_TABLES)
                           af_decode_table_zero |};
     eon := {| eon_on := {| on_ps := replicate 8 0; on_pty := 0;
                            on_tp_code := false; on_ta_code := false;
                            on_af := af_decode_table_zero;
                            on_pi_code := 0; on_pic := pic_zero |};
               eon_maps := replicate 5
                             {| tn_tuned_freq := freq_zero;
                                on_freq := freq_zero |} |};
     oda_cnt := 0;
     oda := replicate (Z.to_nat ODA_LEN)
              {| oda_id := 0;
                 oda_gt := {| code := 0; version := zero |};
                 oda_pkt_count := 0 |};
     tdc := {| tdc_data := replicate (Z.to_nat NUM_TDC)
                             (replicate (Z.to_nat TDC_LEN) 0);
               tdc_curr_channel := 0 |};
     ews := {| ews_b := block_zero; ews_c := block_zero;
               ews_d := block_zero |};
     stats := {| stats_counts := replicate (Z.to_nat PKTCNT_NUM) 0;
                 stats_groups := replicate 16 {| cnt_a := 0; cnt_b := 0 |};
                 stats_data_cnt := 0;
                 stats_blckb_errors := 0 |};
     valid_values := 0 |}.

Definition rds_decoder_reset (decoder : rds_decoder) (w : world) : world :=
  let rds := rds_data_zero in
  let rds := set_af (set_g_current_table_idx (-1) (af rds)) rds in
  if negb (oda_clear_cb decoder =? 0) then
    {| w_rds := rds;
       w_calls := w_calls w ++
         [call_clear_cb (oda_clear_cb decoder) (oda_cb_data decoder) rds] |}
  else {| w_rds := rds; w_calls := w_calls w |}.

(** [struct rds_decoder_config] without its [rds_data] pointer. *)
Record rds_decoder_config := { cfg_advanced_ps_decoding : bool }.

Definition rds_decoder_create (config : rds_decoder_config) : rds_decoder :=
  {| oda_decode_cb := 0; oda_clear_cb := 0; oda_cb_data := 0;
     advanced_ps_decoding := cfg_advanced_ps_decoding config |}.

Definition rds_decoder_set_oda_callbacks (decoder : rds_decoder)
  (decode_cb clear_cb cb_data : Z) : rds_decoder :=
  {| oda_decode_cb := decode_cb; oda_clear_cb := clear_cb;
     oda_cb_data := cb_data;
     advanced_ps_decoding := advanced_ps_decoding decoder |}.

(** Decoding a sequence of groups, in the order delivered. *)
Fixpoint decode_all (decoder : rds_decoder) (groups : list rds_blocks)
  (w : world) : option world :=
  match groups with
  | [] => Some w
  | g :: rest => w' ← rds_decoder_decode decoder g w;
                 decode_all decoder rest w'
  end.

(** ** States of the data model

    A [struct rds_data] has arrays of fixed size and counters that index
    them.  [rds_data_okb] says that a value of the embedding's record is such
    a state: every list has the length of the C array, and every counter the
    code uses as an index or bound lies within its array. *)

Definition has_len {A} (n : Z) (l : list A) : bool :=
  Z.of_nat (length l) =? n.

Definition af_table_okb (t : rds_af_table) : bool :=
  has_len AF_TABLE_ENTRIES (entry t)
  && (0 <=? count t) && (count t <=? AF_TABLE_ENTRIES).

Definition decode_table_okb (t : rds_af_decode_table) : bool :=
  af_table_okb (table t).

Definition af_group_okb (g : rds_af_table_group) : bool :=
  has_len AF_GROUP_TABLES (g_table g)
  && (0 <=? g_count g) && (g_count g <=? AF_GROUP_TABLES)
  && (-1 <=? g_current_table_idx g)
  && (g_current_table_idx g <? AF_GROUP_TABLES)
  && forallb decode_table_okb (g_table g).

Definition ps_okb (p : rds_ps) : bool :=
  has_len PS_LEN (ps_display p) && has_len PS_LEN (ps_pvt_hi_prob p)
  && has_len PS_LEN (ps_pvt_lo_prob p)
  && has_len PS_LEN (ps_pvt_hi_prob_cnt p).

Definition rt_okb (r : rds_rt) : bool :=
  has_len RT_LEN (rt_display r) && has_len RT_LEN (rt_pvt_hi_prob r)
  && has_len RT_LEN (rt_pvt_lo_prob r)
  && has_len RT_LEN (rt_pvt_hi_prob_cnt r).

Definition ptyn_okb (p : rds_ptyn) : bool :=
  has_len PTYN_LEN (ptyn_display p).

Definition eon_okb (e : rds_eon) : bool :=
  has_len 8 (on_ps (eon_on e)) && decode_table_okb (on_af (eon_on e)).

Definition oda_okb (cnt : Z) (l : list rds_oda) : bool :=
  has_len ODA_LEN l && (0 <=? cnt) && (cnt <=? ODA_LEN).

Definition tdc_okb (t : rds_tdc) : bool :=
  has_len NUM_TDC (tdc_data t) && forallb (has_len TDC_LEN) (tdc_data t)
  && (0 <=? tdc_curr_channel t).

Definition stats_okb (s : rds_stats) : bool :=
  has_len PKTCNT_NUM (stats_counts s) && has_len 16 (stats_groups s).

Definition rds_data_okb (rds : rds_data) : bool :=
  ps_okb (ps rds)
  && rt_okb (rt_a (rt rds)) && rt_okb (rt_b (rt rds))
  && ptyn_okb (ptyn rds)
  && af_group_okb (af rds)
  && eon_okb (eon rds)
  && oda_okb (oda_cnt rds) (oda rds)
  && tdc_okb (tdc rds)
  && stats_okb (stats rds).

Definition rds_data_ok (rds : rds_data) : Prop := rds_data_okb rds = true.

(** ** Growth of frequency tables

    Two frequencies are the same entry when [freq_eq] says so, that is when
    they agree on band and value.  The entries in use are the first [count]
    ones. *)

Definition freq_key (f : rds_freq) : rds_band * Z := (band f, freq f).

Definition active (t : rds_af_table) : list rds_freq :=
  take (Z.to_nat (count t)) (entry t).

(** [t'] is [t] with entries appended, none of which was in [t] and no two
    of which are the same. *)
Definition table_grows (t t' : rds_af_table) : Prop :=
  count t ≤ count t' ∧
  ∃ ext, active t' = active t ++ ext ∧
         NoDup (freq_key <$> ext) ∧
         ∀ f, f ∈ ext → freq_key f ∉ (freq_key <$> active t).

Definition group_grows (g g' : rds_af_table_group) : Prop :=
  g_count g ≤ g_count g' ∧
  Forall2 (λ t t', table_grows (table t) (table t')) (g_table g) (g_table g').

(** What one step of the decoder may do to a state: it stays a state of the
    data model and its frequency tables only grow. *)
Definition evolves (rds rds' : rds_data) : Prop :=
  rds_data_ok rds' ∧
  group_grows (af rds) (af rds') ∧
  table_grows (table (on_af (eon_on (eon rds))))
              (table (on_af (eon_on (eon rds')))).

(** ** Outcomes of fallible steps *)

(** [wp m Q]: the step [m] does not fail and its result satisfies [Q]. *)
Definition wp {A} (m : option A) (Q : A → Prop) : Prop :=
  match m with
  | Some x => Q x
  | None => False
  end.

(** ** Sample inputs *)

Definition sample_decoder : rds_decoder :=
  rds_decoder_set_oda_callbacks
    (rds_decoder_create {| cfg_advanced_ps_decoding := false |}) 7 8 9.

Definition fresh_world : world :=
  rds_decoder_reset sample_decoder
    {| w_rds := rds_data_zero; w_calls := [] |}.

Definition mk_blocks (av ae bv be cv ce dv de : Z) : rds_blocks :=
  {| a := {| val := av; errors := ae |};
     b := {| val := bv; errors := be |};
     c := {| val := cv; errors := ce |};
     d := {| val := dv; errors := de |} |}.

(** ** Relations and statements used by the properties *)

(** The state [rds_decoder_reset] leaves behind: all zero, except that no
    frequency table is current. *)
Definition reset_state : rds_data :=
  set_af (set_g_current_table_idx (-1) (af rds_data_zero)) rds_data_zero.

(** *** A group dropped for block B *)

(** [rds'] differs from [rds] in [stats.data_cnt] and [stats.blckb_errors]
    at most. *)
Definition only_drop_counters_differ (rds rds' : rds_data) : Prop :=
  ∃ dc be,
    rds' = set_stats
             (set_stats_blckb_errors be (set_stats_data_cnt dc (stats rds)))
             rds.

(** The frame as documented: a group whose block B is over its threshold
    changes the two drop counters and nothing else. *)
Definition dropped_group_frame_claim (decoder : rds_decoder)
  (g : rds_blocks) (w : world) : Prop :=
  1 < errors (b g) →
  ∃ w', rds_decoder_decode decoder g w = Some w' ∧
        only_drop_counters_differ (w_rds w) (w_rds w').

(** [rds'] differs from [rds] at most in the fields the preamble of
    [rds_decoder_decode] writes: [pi_code], [tp_code], [pty], [valid_values]
    and the statistics. *)
Definition header_only (rds rds' : rds_data) : Prop :=
  stats_okb (stats rds') = true ∧
  rds' = set_stats (stats rds')
           (set_valid_values (valid_values rds')
              (set_pty (pty rds')
                 (set_tp_code (tp_code rds')
                    (set_pi_code (pi_code rds') rds)))).

(** [g] is a group of the given type, by the dispatcher's own reading of
    block B. *)
Definition is_group (c : Z) (v : ascii) (g : rds_blocks) : Prop :=
  group_type_of (val (b g)) = {| code := c; version := v |}.

(** *** Steps on frequency tables and footprints of the handlers *)

(** What a table-level step may do: keep the table a table of the data
    model and append fresh entries. *)
Definition table_step (t t' : rds_af_decode_table) : Prop :=
  decode_table_okb t' = true ∧ table_grows (table t) (table t').

(** What a group-level step may do. *)
Definition group_step (g g' : rds_af_table_group) : Prop :=
  af_group_okb g' = true ∧ group_grows g g'.

(** The fields the PS updates may write. *)
Definition ps_footprint (rds rds' : rds_data) : Prop :=
  ∃ p v, rds' = set_valid_values v (set_ps p rds) ∧ ps_okb p = true.

(** The fields a TDC append may write. *)
Definition tdc_footprint (rds rds' : rds_data) : Prop :=
  rds' = set_stats (stats rds')
           (set_valid_values (valid_values rds') (set_tdc (tdc rds') rds)) ∧
  tdc_curr_channel (tdc rds') = tdc_curr_channel (tdc rds) ∧
  tdc_okb (tdc rds') = true ∧ stats_okb (stats rds') = true.

(** The fields a PTYN character update may write. *)
Definition ptyn_footprint (rds rds' : rds_data) : Prop :=
  rds' = set_ptyn (ptyn rds') rds ∧ ptyn_okb (ptyn rds') = true.

(** A table after some decoding, compared with the table before: its count
    has not decreased and is at most 25; the entries in use before are
    still there, in place; what was appended was not in the table and holds
    no frequency twice; so a table without duplicates stays without. *)
Definition table_grown (t t' : rds_af_table) : Prop :=
  count t ≤ count t' ≤ AF_TABLE_ENTRIES ∧
  table_grows t t' ∧
  (NoDup (freq_key <$> active t) → NoDup (freq_key <$> active t')).

(** Three groups 0A: a start block announcing two frequencies with 87.6 MHz,
    then two Nth blocks. *)
Definition af_sample_groups : list rds_blocks :=
  [ mk_blocks 0 0 0 0 0xE201 0 0 0;
    mk_blocks 0 0 0 0 0x0105 0 0 0;
    mk_blocks 0 0 0 0 0x0301 0 0 0 ].

(** *** TA and MS in group 0 *)

(** The behaviour as documented: in a group of type 0 whose block D is over
    its threshold, TA and MS are still taken from block B. *)
Definition group0_flags_claim (decoder : rds_decoder) (g : rds_blocks)
  (w : world) : Prop :=
  code (group_type_of (val (b g))) = 0 →
  errors (b g) ≤ BLERB_MAX → BLERD_MAX < errors (d g) →
  ∃ w', rds_decoder_decode decoder g w = Some w' ∧
        ta_code (w_rds w') = Z.testbit (val (b g)) 4 ∧
        music (w_rds w') = Z.testbit (val (b g)) 3.

(** *** Pairs under encoding method B *)

(** The frequency a code byte stands for in the band the table is in, as
    [decode_freq_table_nth_block] builds it. *)
Definition code_freq (t : rds_af_decode_table) (freq_code : Z) : rds_freq :=
  {| band := pvt_band t; attrib := AF_ATTRIB_SAME_PROG;
     freq := af_code_to_freq freq_code (pvt_band t) |}.

(** An Nth-block pair that method B processes: the method is committed, the
    table still expects frequencies, both bytes are frequencies and exactly
    one of them is the tuned frequency. *)
Definition method_B_pair (t : rds_af_decode_table) (first second : Z) : Prop :=
  enc_method t = AF_EM_B ∧ pvt_expected_cnt t ≠ 0 ∧
  freq_code_is_freq first = true ∧ freq_code_is_freq second = true ∧
  freq_eq (tuned_freq (table t)) (code_freq t first)
    ≠ freq_eq (tuned_freq (table t)) (code_freq t second).

(** The member of the pair that is the tuned frequency. *)
Definition pair_anchor (t : rds_af_decode_table) (first second : Z) : rds_freq :=
  if freq_eq (tuned_freq (table t)) (code_freq t first)
  then code_freq t first else code_freq t second.

(** The member of the pair that is not the tuned frequency. *)
Definition pair_other (t : rds_af_decode_table) (first second : Z) : rds_freq :=
  if freq_eq (tuned_freq (table t)) (code_freq t first)
  then code_freq t second else code_freq t first.

(** There is room for [f] in the table and it is not there yet. *)
Definition can_append (t : rds_af_table) (f : rds_freq) : Prop :=
  count t < AF_TABLE_ENTRIES ∧ freq_key f ∉ (freq_key <$> active t).

(** The behaviour as documented: the other frequency is appended as a
    regional variant exactly when the anchor is the lower of the two. *)
Definition method_B_attrib_claim (t : rds_af_decode_table)
  (first second : Z) : Prop :=
  decode_table_okb t = true → method_B_pair t first second →
  can_append (table t) (pair_other t first second) →
  ∃ t', decode_freq_table_nth_block t first second = Some t' ∧
    active (table t') =
      active (table t) ++
        [set_attrib
           (if freq_lt (pair_anchor t first second) (pair_other t first second)
            then AF_ATTRIB_REG_VARIANT else AF_ATTRIB_SAME_PROG)
           (pair_other t first second)].

(** A table tuned to 87.6 MHz (code 1), method B, five frequencies to
    come. *)
Definition tuned_876 : rds_af_decode_table :=
  {| table := {| tuned_freq := {| band := AF_BAND_UHF;
                                  attrib := AF_ATTRIB_SAME_PROG;
                                  freq := 876 |};
                 count := 0;
                 entry := replicate 25 freq_zero |};
     enc_method := AF_EM_B; pvt_band := AF_BAND_UHF;
     pvt_prev_enc_method := AF_EM_B; pvt_expected_cnt := 5 |}.

(** *** Blocks over their thresholds *)

(** Two groups agree as far as the error gates let a handler look: same
    block B, same error classes for C and D, and the same value for each of
    C and D that is within its threshold. *)
Definition gated_agree (g g' : rds_blocks) : Prop :=
  b g' = b g ∧
  errors (c g') = errors (c g) ∧ errors (d g') = errors (d g) ∧
  (errors (c g) ≤ BLERC_MAX → val (c g') = val (c g)) ∧
  (errors (d g) ≤ BLERD_MAX → val (d g') = val (d g)).

(** Three handlers read block values without looking at the error class.
    The first is the TDC append: group 5 not bound to an ODA. *)
Definition routes_tdc (rds : rds_data) (gt : rds_group_type) : Prop :=
  code gt = 5 ∧ IsGroupTypeUsedByODA rds gt = Some false.

(** The second is the EWS capture: group 9A not bound to an ODA. *)
Definition routes_ews (rds : rds_data) (gt : rds_group_type) : Prop :=
  code gt = 9 ∧ version gt = "A"%char ∧
  IsGroupTypeUsedByODA rds gt = Some false.

(** The third is the variant decoding of group 14A. *)
Definition routes_eon_a (gt : rds_group_type) : Prop :=
  code gt = 14 ∧ version gt = "A"%char.

(** A group with the value of block A replaced; its error class stays. *)
Definition with_a_val (v : Z) (g : rds_blocks) : rds_blocks :=
  {| a := {| val := v; errors := errors (a g) |};
     b := b g; c := c g; d := d g |}.

(** The same for block C. *)
Definition with_c_val (v : Z) (g : rds_blocks) : rds_blocks :=
  {| a := a g; b := b g;
     c := {| val := v; errors := errors (c g) |}; d := d g |}.

(** The same for block D. *)
Definition with_d_val (v : Z) (g : rds_blocks) : rds_blocks :=
  {| a := a g; b := b g; c := c g;
     d := {| val := v; errors := errors (d g) |} |}.

(** The state record after decoding a group ([None] if decoding fails). *)
Definition rds_after (decoder : rds_decoder) (g : rds_blocks) (w : world)
  : option rds_data :=
  w_rds <$> rds_decoder_decode decoder g w.

(** The behaviour as documented: for an accepted group, the state after
    decode does not depend on the value of a block that is over its
    threshold. *)
Definition latch_gate_claim (decoder : rds_decoder) (g : rds_blocks)
  (w : world) : Prop :=
  errors (b g) ≤ BLERB_MAX →
  (BLERA_MAX < errors (a g) →
   ∀ v, rds_after decoder (with_a_val v g) w = rds_after decoder g w) ∧
  (BLERC_MAX < errors (c g) →
   ∀ v, rds_after decoder (with_c_val v g) w = rds_after decoder g w) ∧
  (BLERD_MAX < errors (d g) →
   ∀ v, rds_after decoder (with_d_val v g) w = rds_after decoder g w).

(** The decode callbacks made so far: function, application ID, group type
    and user data of each call, oldest first. *)
Definition decode_cb_calls (w : world) : list (Z * Z * rds_group_type * Z) :=
  omap (λ c, match c with
             | call_decode_cb fn app_id _ _ gt cb_data =>
                 Some (fn, app_id, gt, cb_data)
             | call_clear_cb _ _ _ => None
             end) (w_calls w).

(** *** What the handlers leave alone *)

(** The fields of [struct rds_data] that only the handlers of particular
    group types write.  ([pi_code], [pty], [tp_code], [valid_values] and
    [stats] are written for every accepted group.) *)
Inductive rds_field :=
  | F_pic | F_ta_code | F_music | F_ps | F_rt | F_clock | F_slc | F_ptyn
  | F_af | F_eon | F_oda | F_tdc | F_ews.

(** [rds] and [rds'] hold the same value in the given field; [F_oda] stands
    for the ODA table together with its count. *)
Definition same_field (f : rds_field) (rds rds' : rds_data) : Prop :=
  match f with
  | F_pic => pic rds' = pic rds
  | F_ta_code => ta_code rds' = ta_code rds
  | F_music => music rds' = music rds
  | F_ps => ps rds' = ps rds
  | F_rt => rt rds' = rt rds
  | F_clock => clock rds' = clock rds
  | F_slc => slc rds' = slc rds
  | F_ptyn => ptyn rds' = ptyn rds
  | F_af => af rds' = af rds
  | F_eon => eon rds' = eon rds
  | F_oda => oda_cnt rds' = oda_cnt rds ∧ oda rds' = oda rds
  | F_tdc => tdc rds' = tdc rds
  | F_ews => ews rds' = ews rds
  end.

(** The fields the handler of a group type can write. *)
Definition group_writes (gt : rds_group_type) : list rds_field :=
  let is_a := Ascii.eqb (version gt) "A" in
  match code gt with
  | 0 => if is_a then [F_af; F_ta_code; F_music; F_ps]
         else [F_ta_code; F_music; F_ps]
  | 1 => if is_a then [F_slc; F_pic] else [F_pic]
  | 2 => [F_rt]
  | 3 => [F_oda]
  | 4 => if is_a then [F_clock] else [F_oda]
  | 5 => [F_tdc; F_oda]
  | 6 | 7 | 8 => [F_oda]
  | 9 => if is_a then [F_ews; F_oda] else [F_oda]
  | 10 => if is_a then [F_ptyn] else [F_oda]
  | 11 | 12 | 13 => [F_oda]
  | 14 => [F_eon]
  | 15 => [F_ta_code]
  | _ => []
  end.

(** What no handler does to the fields of the preamble: [pi_code], [pty],
    [tp_code] and the group and drop statistics stay, and no bit of
    [valid_values] is cleared. *)
Definition handler_keeps (rds rds' : rds_data) : Prop :=
  pi_code rds' = pi_code rds ∧ pty rds' = pty rds ∧
  tp_code rds' = tp_code rds ∧
  stats_groups (stats rds') = stats_groups (stats rds) ∧
  stats_data_cnt (stats rds') = stats_data_cnt (stats rds) ∧
  stats_blckb_errors (stats rds') = stats_blckb_errors (stats rds) ∧
  ∃ bits, valid_values rds' = Z.lor (valid_values rds) bits.


(** [rds'] comes from [rds] by writes to the listed fields and to the
    statistics counters, and by setting bits of [valid_values]. *)
Definition changes_only (fs : list rds_field) (rds rds' : rds_data) : Prop :=
  handler_keeps rds rds' ∧ ∀ f, f ∉ fs → same_field f rds rds'.

(** The state after a group 3A that binds the application 0x4BD7 to group
    type 11A, starting from the reset state. *)
Definition announced_world : world :=
  default fresh_world
    (rds_decoder_decode sample_decoder
       (mk_blocks 0 0 0x3016 0 0 0 0x4BD7 0) fresh_world).

(** *** The source of the PI code *)

(** The block a group's PI code is taken from, if any: block C of an
    accepted B-version group when C is within its threshold and cleaner
    than block B; otherwise block A when A is within its threshold. *)
Definition pi_source (g : rds_blocks) : option rds_block :=
  if (errors (b g) <=? BLERB_MAX)
     && Ascii.eqb (version (group_type_of (val (b g)))) "B"
     && (errors (c g) <=? BLERC_MAX) && (errors (c g) <? errors (b g))
  then Some (c g)
  else if errors (a g) <=? BLERA_MAX then Some (a g) else None.

(** The groups of a sequence that are dropped for block B. *)
Definition dropped_groups (groups : list rds_blocks) : list rds_blocks :=
  filter (λ g, BLERB_MAX < errors (b g)) groups.

(** *** Groups that carry a segment of the PS name *)

(** [g] is an accepted group of type 0 (either version) whose block D is
    within its threshold and carries the characters [hi], [lo] for the
    pair of positions [2 * k], [2 * k + 1]. *)
Definition carries_ps (g : rds_blocks) (k hi lo : Z) : Prop :=
  code (group_type_of (val (b g))) = 0 ∧
  errors (b g) ≤ BLERB_MAX ∧ errors (d g) ≤ BLERD_MAX ∧
  Z.land (val (b g)) 0x03 = k ∧
  u8 (Z.shiftr (val (d g)) 8) = hi ∧ u8 (Z.land (val (d g)) 0xFF) = lo.

(** A group 0B that carries [hi], [lo] for pair [k] and nothing else. *)
Definition ps_segment (k hi lo : Z) : rds_blocks :=
  mk_blocks 0 0 (0x0800 + k) 0 0 0 (hi * 256 + lo) 0.

(** The PS buffers after a character [x] for position [i] that agrees with
    the high-probability character there, or that fills a position no
    character has been seen for: the character is the high-probability one,
    its counter is one higher, and the confident text is displayed once
    every counter has reached the validation limit. *)
Definition ps_feed (p : rds_ps) (i : nat) (x : Z) : rds_ps :=
  let cnt := alter (λ n, n + 1) i (ps_pvt_hi_prob_cnt p) in
  let hi := <[i := x]> (ps_pvt_hi_prob p) in
  {| ps_display := if forallb (λ n, PS_VALIDATE_LIMIT <=? n) cnt
                   then hi else ps_display p;
     ps_pvt_hi_prob := hi;
     ps_pvt_lo_prob := ps_pvt_lo_prob p;
     ps_pvt_hi_prob_cnt := cnt |}.

(** The four segments of an eight-character PS name, in order. *)
Definition ps_segments (name : list Z) : list (Z * Z * Z) :=
  (λ k, (Z.of_nat k, name !!! (2 * k)%nat, name !!! (2 * k + 1)%nat))
    <$> seq 0 4.

(** A decoder with advanced PS decoding, as [rdsstats] configures it, and
    no callbacks. *)
Definition advanced_decoder : rds_decoder :=
  rds_decoder_create {| cfg_advanced_ps_decoding := true |}.

(** *** The radiotext a group writes *)

(** The characters of a segment that are stored: all of them up to and
    including the first end-of-message character 0x0D. *)
Fixpoint rt_until_cr (chars : list Z) : list Z :=
  match chars with
  | [] => []
  | ch :: rest => if ch =? 0x0d then [ch] else ch :: rt_until_cr rest
  end.

Definition rt_has_cr (chars : list Z) : bool :=
  existsb (λ ch, ch =? 0x0d) chars.

(** The displayed radiotext after a segment [chars] is stored at [addr]:
    before the segment every null has become a space; then come the
    characters stored; behind them the text is wiped when the segment held
    an end-of-message character and is left as it was otherwise. *)
Definition rt_display_after (display : list Z) (addr : nat) (chars : list Z)
  : list Z :=
  ((λ x, if x =? 0 then 0x20 else x) <$> take addr display)
  ++ rt_until_cr chars
  ++ (if rt_has_cr chars
      then replicate (64 - addr - length (rt_until_cr chars)) 0
      else drop (addr + length chars) display).

(** The radiotext buffer the A/B flag [sel] selects, and the other one. *)
Definition rt_selected (sel : rds_rt_text) (p : rds_rt_pair) : rds_rt :=
  match sel with RT_A => rt_a p | RT_B => rt_b p end.

Definition rt_other (sel : rds_rt_text) (p : rds_rt_pair) : rds_rt :=
  match sel with RT_A => rt_b p | RT_B => rt_a p end.

(** *** Looking up the application of a group type *)

(** The first of the [oda_cnt] announced entries that is bound to [gt], with
    its index. *)
Definition oda_lookup (rds : rds_data) (gt : rds_group_type)
  : option (nat * rds_oda) :=
  list_find (λ e, GroupTypesEqual (oda_gt e) gt = true)
    (take (Z.to_nat (oda_cnt rds)) (oda rds)).

(** No entry at or past [oda_cnt] carries a version 'A' or 'B'; this is so
    after [memset (rds, 0, ...)]. *)
Definition oda_tail_unbound (rds : rds_data) : bool :=
  forallb (λ e, negb (Ascii.eqb (version (oda_gt e)) "A")
                && negb (Ascii.eqb (version (oda_gt e)) "B"))
    (drop (Z.to_nat (oda_cnt rds)) (oda rds)).

#[global] Instance rds_field_eq_dec : EqDecision rds_field.
Proof. solve_decision. Defined.

(** *** Packet counts and callbacks *)

Definition is_decode_for (aid : Z) (c : oda_call) : bool :=
  match c with
  | call_decode_cb _ app_id _ _ _ _ => app_id =? aid
  | call_clear_cb _ _ _ => false
  end.

(** The number of decode callbacks made for application [aid]. *)
Definition callbacks_for (aid : Z) (calls : list oda_call) : Z :=
  Z.of_nat (length (List.filter (is_decode_for aid) calls)).

(** No application announced, all packet counts zero, no decode callback made
    yet. *)
Definition oda_fresh (w : world) : bool :=
  (oda_cnt (w_rds w) =? 0)
  && forallb (λ e, oda_pkt_count e =? 0) (oda (w_rds w))
  && forallb (λ c, match c with
                   | call_decode_cb _ _ _ _ _ _ => false
                   | call_clear_cb _ _ _ => true
                   end) (w_calls w).

(** The invariant relating the ODA table to the trace. *)
Definition oda_counts_ok (w : world) : Prop :=
  let n := Z.to_nat (oda_cnt (w_rds w)) in
  let odas := oda (w_rds w) in
  (∀ j k ej ek, (j < n)%nat → (k < n)%nat → odas !! j = Some ej →
                odas !! k = Some ek → oda_id ej = oda_id ek → j = k) ∧
  (∀ k e, (n ≤ k)%nat → odas !! k = Some e → oda_pkt_count e = 0) ∧
  (∀ k e, (k < n)%nat → odas !! k = Some e →
          oda_pkt_count e = u16 (callbacks_for (oda_id e) (w_calls w))) ∧
  (∀ aid, callbacks_for aid (w_calls w) ≠ 0 →
          ∃ k e, (k < n)%nat ∧ odas !! k = Some e ∧ oda_id e = aid).

(** ** The statistics tool [util/rdsstats.cc]

    [main] decodes the groups of a log file and prints the statistics of the
    decoder together with its own counters of ODA packets.  The callbacks
    only touch the counters, so their effect is computed from the trace of
    calls.  The counters are [int]s, written with the wrap-around of
    [count_packet]; each grows by at most one per group, so on a file of
    fewer than 2^31 groups none of them can leave the range of [int]. *)

Module rdsstats.

Definition AID_RT_PLUS : Z := 0x4BD7.
Definition AID_TMC : Z := 0xCD46.
Definition AID_ITUNES : Z := 0xC3B0.

Record ODAStats := { rtplus_cnt : Z; tmc_cnt : Z; itunes_cnt : Z }.

(** [ODAStats ()] *)
Definition ODAStats_init : ODAStats :=
  {| rtplus_cnt := 0; tmc_cnt := 0; itunes_cnt := 0 |}.

Definition DecodeODA (app_id : Z) (oda_stats : ODAStats) : ODAStats :=
  if app_id =? AID_RT_PLUS then
    {| rtplus_cnt := s32 (rtplus_cnt oda_stats + 1);
       tmc_cnt := tmc_cnt oda_stats;
       itunes_cnt := itunes_cnt oda_stats |}
  else if app_id =? AID_TMC then
    {| rtplus_cnt := rtplus_cnt oda_stats;
       tmc_cnt := s32 (tmc_cnt oda_stats + 1);
       itunes_cnt := itunes_cnt oda_stats |}
  else if app_id =? AID_ITUNES then
    {| rtplus_cnt := rtplus_cnt oda_stats;
       tmc_cnt := tmc_cnt oda_stats;
       itunes_cnt := s32 (itunes_cnt oda_stats + 1) |}
  else oda_stats.

Definition ClearODA (oda_stats : ODAStats) : ODAStats := ODAStats_init.

(** Values standing for the addresses of [DecodeODA], [ClearODA] and
    [oda_stats]. *)
Definition DecodeODA_addr : Z := 1.
Definition ClearODA_addr : Z := 2.
Definition oda_stats_addr : Z := 3.

(** The effect of one recorded call on the counters. *)
Definition host_call (oda_stats : ODAStats) (c : oda_call) : ODAStats :=
  match c with
  | call_decode_cb _ app_id _ _ _ _ => DecodeODA app_id oda_stats
  | call_clear_cb _ _ _ => ClearODA oda_stats
  end.

(** The decoder [main] creates. *)
Definition decoder : rds_decoder :=
  rds_decoder_set_oda_callbacks
    (rds_decoder_create {| cfg_advanced_ps_decoding := true |})
    DecodeODA_addr ClearODA_addr oda_stats_addr.

(** What a run of [main] leaves behind: its return value and, when
    [PrintStats] is reached, the record and the counters handed to it. *)
Record result :=
  { exit_code : Z; printed : option (rds_data * ODAStats) }.

(** [main].  [LoadRdsSpyFile] is a host function: [load_ok] is the value it
    returns and [file_blocks] the vector it leaves. *)
Definition main (argc : Z) (load_ok : bool) (file_blocks : list rds_blocks)
  : option result :=
  if negb (argc =? 2) then Some {| exit_code := 1; printed := None |}
  else if negb load_ok then Some {| exit_code := 2; printed := None |}
  else
    match file_blocks with
    | [] => Some {| exit_code := 3; printed := None |}
    | _ :: _ =>
        w ← decode_all decoder file_blocks
               {| w_rds := rds_data_zero; w_calls := [] |};
        Some {| exit_code := 0;
                printed :=
                  Some (w_rds w,
                        foldl host_call ODAStats_init (w_calls w)) |}
    end.

End rdsstats.

(** *** Selecting a frequency table *)

(** The test [count == 1 && table[0].enc_method == AF_EM_A] that opens
    [decode_af_start_block]. *)
Definition single_method_A (g : rds_af_table_group) : bool :=
  (g_count g =? 1)
  && match g_table g !! 0%nat with
     | Some t0 => enc_eqb (enc_method t0) AF_EM_A
     | None => false
     end.

(** The first of the [count] tables in use whose tuned frequency is [f],
    with its index. *)
Definition af_table_lookup (g : rds_af_table_group) (f : rds_freq)
  : option (nat * rds_af_decode_table) :=
  list_find (λ t, freq_eq (tuned_freq (table t)) f = true)
    (take (Z.to_nat (g_count g)) (g_table g)).

(** The frequency a start block names in its second byte. *)
Definition start_block_freq (second_byte : Z) : rds_freq :=
  {| band := AF_BAND_UHF; attrib := AF_ATTRIB_SAME_PROG;
     freq := af_code_to_freq second_byte AF_BAND_UHF |}.

(** A sequence of AF blocks, in the order delivered. *)
Fixpoint decode_freq_group_blocks (g : rds_af_table_group) (blocks : list Z)
  : option rds_af_table_group :=
  match blocks with
  | [] => Some g
  | block :: rest => g' ← decode_freq_group_block g block;
                     decode_freq_group_blocks g' rest
  end.

(** * Properties *)

#[local] Arguments Z.testbit : simpl never.
#[local] Arguments Z.land : simpl never.
#[local] Arguments Z.lor : simpl never.
#[local] Arguments Z.shiftr : simpl never.
#[local] Arguments Z.shiftl : simpl never.

(** ** Outcomes *)

Lemma wp_some {A} (x : A) (Q : A → Prop) : Q x → wp (Some x) Q.
Proof. done. Qed.

Lemma wp_bind {A B} (m : option A) (k : A → option B) (Q : B → Prop) :
  wp m (λ x, wp (k x) Q) → wp (m ≫= k) Q.
Proof. by destruct m. Qed.

Lemma wp_mono {A} (m : option A) (P Q : A → Prop) :
  wp m P → (∀ x, P x → Q x) → wp m Q.
Proof. destruct m; simpl; eauto. Qed.

Lemma wp_elim {A} (m : option A) (Q : A → Prop) :
  wp m Q → ∃ x, m = Some x ∧ Q x.
Proof. destruct m; simpl; [eauto | done]. Qed.

Lemma wp_intro {A} (m : option A) (Q : A → Prop) x :
  m = Some x → Q x → wp m Q.
Proof. by intros ->. Qed.

(** ** Arrays *)

Lemma aget_wp {A} (l : list A) (i : Z) (Q : A → Prop) :
  0 ≤ i < Z.of_nat (length l) →
  (∀ x, l !! Z.to_nat i = Some x → Q x) → wp (aget l i) Q.
Proof.
  intros Hi HQ. unfold aget.
  destruct (Z.leb_spec 0 i); [|lia].
  destruct (lookup_lt_is_Some_2 l (Z.to_nat i)) as [x Hx]; [lia|].
  rewrite Hx. by apply HQ.
Qed.

Lemma aset_wp {A} (l : list A) (i : Z) (v : A) (Q : list A → Prop) :
  0 ≤ i < Z.of_nat (length l) →
  Q (<[Z.to_nat i := v]> l) → wp (aset l i v) Q.
Proof.
  intros Hi HQ. unfold aset.
  destruct (Z.leb_spec 0 i); [|lia].
  destruct (Z.ltb_spec i (Z.of_nat (length l))); [|lia]. done.
Qed.

Lemma aset_Some {A} (l l' : list A) (i : Z) (v : A) :
  aset l i v = Some l' →
  0 ≤ i < Z.of_nat (length l) ∧ l' = <[Z.to_nat i := v]> l.
Proof.
  unfold aset.
  destruct (Z.leb_spec 0 i); destruct (Z.ltb_spec i (Z.of_nat (length l)));
    simpl; intros; simplify_eq; split; (lia || done).
Qed.

Lemma aget_Some {A} (l : list A) (i : Z) (x : A) :
  aget l i = Some x → 0 ≤ i < Z.of_nat (length l) ∧ l !! Z.to_nat i = Some x.
Proof.
  unfold aget. destruct (Z.leb_spec 0 i); [|done].
  intros Hx. split; [|done]. apply lookup_lt_Some in Hx. lia.
Qed.

Lemma for_loop_wp {S} (I : S → Prop) (n : nat) (lo : Z)
  (body : Z → S → option S) (s : S) :
  (∀ i s, lo ≤ i < lo + Z.of_nat n → I s → wp (body i s) I) →
  I s → wp (for_loop n lo body s) I.
Proof.
  revert lo s. induction n as [|n IH]; intros lo s Hbody Hs; simpl; [done|].
  apply wp_bind. eapply wp_mono; [apply Hbody; [lia|done]|].
  intros s' Hs'. apply IH; [|done].
  intros i s0 Hi. apply Hbody. lia.
Qed.

(** ** States of the data model: projections *)

Lemma has_len_iff {A} (n : Z) (l : list A) :
  has_len n l = true ↔ Z.of_nat (length l) = n.
Proof. unfold has_len. apply Z.eqb_eq. Qed.

Lemma rds_data_ok_iff rds :
  rds_data_ok rds ↔
    ps_okb (ps rds) = true ∧ rt_okb (rt_a (rt rds)) = true ∧
    rt_okb (rt_b (rt rds)) = true ∧ ptyn_okb (ptyn rds) = true ∧
    af_group_okb (af rds) = true ∧ eon_okb (eon rds) = true ∧
    oda_okb (oda_cnt rds) (oda rds) = true ∧ tdc_okb (tdc rds) = true ∧
    stats_okb (stats rds) = true.
Proof.
  unfold rds_data_ok, rds_data_okb. rewrite !andb_true_iff. tauto.
Qed.

Lemma stats_okb_iff s :
  stats_okb s = true ↔
    Z.of_nat (length (stats_counts s)) = 20 ∧
    Z.of_nat (length (stats_groups s)) = 16.
Proof.
  unfold stats_okb. by rewrite andb_true_iff, !has_len_iff.
Qed.

Lemma rds_data_ok_stats rds :
  rds_data_ok rds → stats_okb (stats rds) = true.
Proof. rewrite rds_data_ok_iff. tauto. Qed.

(** [count_packet] only replaces one counter. *)
Lemma count_packet_Some k rds :
  stats_okb (stats rds) = true → 0 ≤ k < 20 →
  ∃ x, count_packet k rds =
         Some (set_stats
                 (set_stats_counts (<[Z.to_nat k := x]> (stats_counts (stats rds)))
                    (stats rds)) rds).
Proof.
  intros [Hc _]%stats_okb_iff Hk. unfold count_packet.
  destruct (aget (stats_counts (stats rds)) k) as [x|] eqn:Hx.
  - simpl. exists (s32 (x + 1)).
    unfold aset. destruct (Z.leb_spec 0 k); [|lia].
    destruct (Z.ltb_spec k (Z.of_nat (length (stats_counts (stats rds)))));
      [done|lia].
  - exfalso. revert Hx. unfold aget. destruct (Z.leb_spec 0 k); [|lia].
    intros Hx%lookup_ge_None. lia.
Qed.

(** ** C9: reset *)

(** C9.  For every state and every binding of the callbacks, [reset] leaves
    the all-zero record with the AF group's current table index at -1.  When
    a clear callback is bound it is called exactly once, with the decoder's
    callback data, and the record it finds is already the reset one; when
    none is bound no callback is called. *)
Theorem reset_zeroes_then_clears (decoder : rds_decoder) (w : world) :
  let w' := rds_decoder_reset decoder w in
  w_rds w' = reset_state ∧
  g_current_table_idx (af (w_rds w')) = -1 ∧
  set_af (set_g_current_table_idx 0 (af (w_rds w'))) (w_rds w')
    = rds_data_zero ∧
  w_calls w' =
    w_calls w ++
      (if oda_clear_cb decoder =? 0 then []
       else [call_clear_cb (oda_clear_cb decoder) (oda_cb_data decoder)
               reset_state]).
Proof.
  unfold rds_decoder_reset, reset_state.
  destruct (oda_clear_cb decoder =? 0); simpl;
    repeat split; try done; by rewrite app_nil_r.
Qed.

(** ** C1: a group dropped for block B *)

(** C1, counterexample.  A group with block B in class 3-5 and a clean block
    A still latches [pi_code] from block A. *)
Lemma dropped_group_frame_claim_fails :
  ¬ dropped_group_frame_claim sample_decoder
      (mk_blocks 0xD943 0 0 2 0 0 0 0) fresh_world.
Proof.
  intros H. destruct H as (w' & Hw' & dc & be & Heq); [simpl; lia|].
  vm_compute in Hw'. injection Hw' as <-.
  apply (f_equal pi_code) in Heq. vm_compute in Heq. discriminate.
Qed.

(** C1, as the code has it.  For every group whose block B is over its
    threshold, decode succeeds, calls no callback and leaves every field
    unchanged except: [stats.data_cnt] and [stats.blckb_errors], which are
    incremented; and, only when block A is within its threshold, [pi_code]
    (set to block A), the [RDS_PI_CODE] bit of [valid_values] (set) and the
    packet counter [stats.counts[PKTCNT_PI_CODE]]. *)
Theorem dropped_group_frame (decoder : rds_decoder) (g : rds_blocks)
  (w : world) :
  rds_data_ok (w_rds w) → BLERB_MAX < errors (b g) →
  ∃ w', rds_decoder_decode decoder g w = Some w' ∧
    w_calls w' = w_calls w ∧
    let rds := w_rds w in
    let rds' := w_rds w' in
    stats_data_cnt (stats rds') = u16 (stats_data_cnt (stats rds) + 1) ∧
    stats_blckb_errors (stats rds')
      = u16 (stats_blckb_errors (stats rds) + 1) ∧
    stats_groups (stats rds') = stats_groups (stats rds) ∧
    if errors (a g) <=? BLERA_MAX then
      pi_code rds' = val (a g) ∧
      valid_values rds' = Z.lor (valid_values rds) RDS_PI_CODE ∧
      (∃ x, stats_counts (stats rds')
            = <[Z.to_nat PKTCNT_PI_CODE := x]> (stats_counts (stats rds))) ∧
      rds' = set_stats (stats rds')
               (set_valid_values (valid_values rds')
                  (set_pi_code (pi_code rds') rds))
    else only_drop_counters_differ rds rds'.
Proof.
  intros Hok Hb. unfold rds_decoder_decode.
  destruct (Z.ltb_spec BLERB_MAX (errors (b g))) as [_|]; [|lia].
  destruct (errors (a g) <=? BLERA_MAX) eqn:Ha.
  - unfold latch_pi_code.
    destruct (count_packet_Some PKTCNT_PI_CODE
                (SET_BITS RDS_PI_CODE
                   (set_pi_code (val (a g))
                      (set_stats
                         (set_stats_data_cnt
                            (u16 (stats_data_cnt (stats (w_rds w)) + 1))
                            (stats (w_rds w))) (w_rds w)))))
      as [x Hx]; [by apply rds_data_ok_stats in Hok | done |].
    rewrite Hx. simpl. eexists; split; [done|]. simpl.
    repeat split; eauto.
  - simpl. eexists; split; [done|]. simpl. repeat split.
    unfold only_drop_counters_differ. eauto.
Qed.

Lemma dropped_group_frame_witness :
  ∃ w', rds_decoder_decode sample_decoder
          (mk_blocks 0xD943 0 0 2 0 0 0 0) fresh_world = Some w' ∧
        pi_code (w_rds w') = 0xD943.
Proof.
  destruct (dropped_group_frame sample_decoder
              (mk_blocks 0xD943 0 0 2 0 0 0 0) fresh_world)
    as (w' & Hw' & _ & _ & _ & _ & H); [reflexivity | reflexivity |].
  exists w'. split; [exact Hw'|]. simpl in H. tauto.
Defined.

(** ** Bit fields *)

Lemma land_ones_bounds a n : 0 ≤ n → 0 ≤ Z.land a (Z.ones n) < 2 ^ n.
Proof.
  intros Hn. rewrite Z.land_ones by done. apply Z.mod_pos_bound. lia.
Qed.

(** A field cut out by a contiguous mask [m = ones n << k] fits in [n]
    bits. *)
Lemma field_bounds a m k n :
  0 ≤ n → Z.shiftr m k = Z.ones n → 0 ≤ Z.shiftr (Z.land a m) k < 2 ^ n.
Proof.
  intros Hn Hm. rewrite Z.shiftr_land, Hm. by apply land_ones_bounds.
Qed.

Lemma field_shift a m k n :
  Z.shiftr m k = Z.ones n →
  Z.shiftr (Z.land a m) k = Z.land (Z.shiftr a k) (Z.ones n).
Proof. intros Hm. by rewrite Z.shiftr_land, Hm. Qed.

Lemma to_bool_land_bit v k :
  0 ≤ k → to_bool (Z.land v (2 ^ k)) = Z.testbit v k.
Proof.
  intros Hk. unfold to_bool.
  destruct (Z.eqb_spec (Z.land v (2 ^ k)) 0) as [H0|Hn0]; simpl.
  - apply (f_equal (λ x, Z.testbit x k)) in H0.
    rewrite Z.land_spec, Z.pow2_bits_true, Z.bits_0, andb_true_r in H0; done.
  - destruct (Z.testbit v k) eqn:Hb; [done|]. exfalso. apply Hn0.
    apply Z.bits_inj'. intros n Hn.
    rewrite Z.land_spec, Z.bits_0, Z.pow2_bits_eqb by done.
    destruct (Z.eqb_spec k n) as [->|]; [by rewrite Hb | by rewrite andb_false_r].
Qed.

Lemma u8_small x : 0 ≤ x < 256 → u8 x = x.
Proof. intros. unfold u8. by apply Z.mod_small. Qed.

Lemma u16_small x : 0 ≤ x < 65536 → u16 x = x.
Proof. intros. unfold u16. by apply Z.mod_small. Qed.

Lemma s8_small x : -128 ≤ x < 128 → s8 x = x.
Proof. intros. unfold s8. rewrite Z.mod_small; lia. Qed.

Lemma lor_bounds x y n :
  0 ≤ n → 0 ≤ x < 2 ^ n → 0 ≤ y < 2 ^ n → 0 ≤ Z.lor x y < 2 ^ n.
Proof.
  intros Hn Hx Hy. split; [apply Z.lor_nonneg; lia|].
  destruct (Z.eq_dec x 0) as [->|Hx0]; [rewrite Z.lor_0_l; lia|].
  destruct (Z.eq_dec y 0) as [->|Hy0]; [rewrite Z.lor_0_r; lia|].
  assert (0 < Z.lor x y).
  { pose proof (proj2 (Z.lor_nonneg x y)).
    assert (Z.lor x y ≠ 0) by (rewrite Z.lor_eq_0_iff; lia). lia. }
  apply Z.log2_lt_pow2; [done|].
  rewrite Z.log2_lor by lia.
  apply Z.max_lub_lt; apply Z.log2_lt_pow2; lia.
Qed.

(** ** The dispatcher's preamble *)

Lemma header_only_refl rds : stats_okb (stats rds) = true → header_only rds rds.
Proof. intros H. split; [done|]. by destruct rds. Qed.

Lemma header_only_step rds0 rds rds' :
  header_only rds0 rds → header_only rds rds' → header_only rds0 rds'.
Proof.
  intros [_ H1] [H2 H3]. split; [done|].
  rewrite H3, H1. by destruct rds0.
Qed.

Lemma stats_okb_set_counts s x k :
  stats_okb s = true →
  stats_okb (set_stats_counts (<[k := x]> (stats_counts s)) s) = true.
Proof.
  rewrite !stats_okb_iff. simpl. by rewrite length_insert.
Qed.

Lemma count_packet_header k rds0 rds :
  header_only rds0 rds → 0 ≤ k < 20 →
  ∃ rds', count_packet k rds = Some rds' ∧ header_only rds0 rds'.
Proof.
  intros H Hk. destruct (count_packet_Some k rds) as [x Hx]; [apply H|done|].
  eexists; split; [done|]. eapply header_only_step; [done|].
  split; [by apply stats_okb_set_counts, H|]. by destruct rds.
Qed.

Lemma group_code_bounds bv : 0 ≤ code (group_type_of bv) < 16.
Proof.
  simpl. pose proof (field_bounds bv GT_CODE_MASK 12 4) as H.
  rewrite u8_small; [apply H|]; try done. specialize (H ltac:(done) eq_refl).
  change (2 ^ 4) with 16 in H. lia.
Qed.

Lemma count_group_header gt rds0 rds :
  header_only rds0 rds → 0 ≤ code gt < 16 →
  ∃ rds', count_group gt rds = Some rds' ∧ header_only rds0 rds'.
Proof.
  intros H Hk. pose proof (proj1 H) as [Hc Hg]%stats_okb_iff.
  unfold count_group.
  destruct (aget (stats_groups (stats rds)) (code gt)) as [e|] eqn:He.
  2:{ exfalso. revert He. unfold aget. destruct (Z.leb_spec 0 (code gt)); [|lia].
      intros He%lookup_ge_None. lia. }
  simpl. unfold aset.
  destruct (Z.leb_spec 0 (code gt)); [|lia].
  destruct (Z.ltb_spec (code gt) (Z.of_nat (length (stats_groups (stats rds)))));
    [|lia].
  simpl. eexists; split; [done|]. eapply header_only_step; [done|].
  split; [|by destruct rds].
  apply stats_okb_iff. simpl. by rewrite length_insert.
Qed.

Lemma latch_pi_code_header blk rds0 rds :
  header_only rds0 rds →
  ∃ rds', latch_pi_code blk rds = Some rds' ∧ header_only rds0 rds'.
Proof.
  intros H. unfold latch_pi_code. apply count_packet_header; [|done].
  eapply header_only_step; [done|]. split; [apply H|]. by destruct rds.
Qed.

Lemma decode_pty_header blk rds0 rds :
  header_only rds0 rds →
  ∃ rds', decode_pty rds blk = Some rds' ∧ header_only rds0 rds'.
Proof.
  intros H. unfold decode_pty.
  set (rds1 := SET_BITS RDS_TP_CODE _).
  assert (header_only rds0 rds1) as H1.
  { eapply header_only_step; [done|]. split; [apply H|]. by destruct rds. }
  assert (∃ rds2, (if tp_code rds1 then count_packet PKTCNT_TP_CODE rds1
                   else Some rds1) = Some rds2 ∧ header_only rds0 rds2)
    as (rds2 & -> & H2).
  { destruct (tp_code rds1); [by apply count_packet_header|eauto]. }
  simpl. apply count_packet_header; [|done].
  eapply header_only_step; [done|]. split; [apply H2|]. by destruct rds2.
Qed.

(** An accepted group runs the preamble and is then dispatched on its group
    type. *)
Lemma decode_accepted decoder g w :
  stats_okb (stats (w_rds w)) = true → errors (b g) ≤ BLERB_MAX →
  ∃ rds1, header_only (w_rds w) rds1 ∧
    rds_decoder_decode decoder g w
    = dispatch decoder (group_type_of (val (b g))) g
        {| w_rds := rds1; w_calls := w_calls w |}.
Proof.
  intros Hok Hb. unfold rds_decoder_decode.
  set (rdsA := set_stats _ (w_rds w)).
  assert (header_only (w_rds w) rdsA) as HA.
  { split; [by apply stats_okb_iff; apply stats_okb_iff in Hok|].
    by destruct (w_rds w). }
  assert (∃ rdsB, (if errors (a g) <=? BLERA_MAX
                   then latch_pi_code (a g) rdsA else Some rdsA) = Some rdsB
                  ∧ header_only (w_rds w) rdsB) as (rdsB & -> & HB).
  { destruct (_ <=? _); [by apply latch_pi_code_header|eauto]. }
  simpl. destruct (Z.ltb_spec BLERB_MAX (errors (b g))); [lia|].
  match goal with |- context [(if ?c then latch_pi_code ?x rdsB else _)] =>
    assert (∃ rdsC, (if c then latch_pi_code x rdsB else Some rdsB) = Some rdsC
                  ∧ header_only (w_rds w) rdsC) as (rdsC & -> & HC) end.
  { destruct (_ && _); [by apply latch_pi_code_header|eauto]. }
  simpl.
  destruct (count_group_header (group_type_of (val (b g))) _ _ HC)
    as (rdsD & -> & HD); [apply group_code_bounds|].
  simpl.
  destruct (decode_pty_header (b g) _ _ HD) as (rdsE & -> & HE).
  simpl. eauto.
Qed.

Lemma header_only_fields rds rds' :
  header_only rds rds' →
  pic rds' = pic rds ∧ ta_code rds' = ta_code rds ∧ music rds' = music rds ∧
  ps rds' = ps rds ∧ rt rds' = rt rds ∧ clock rds' = clock rds ∧
  slc rds' = slc rds ∧ ptyn rds' = ptyn rds ∧ af rds' = af rds ∧
  eon rds' = eon rds ∧ oda_cnt rds' = oda_cnt rds ∧ oda rds' = oda rds ∧
  tdc rds' = tdc rds ∧ ews rds' = ews rds.
Proof. intros [_ H]. rewrite H. simpl. repeat split. Qed.

Lemma header_only_ok rds rds' :
  rds_data_ok rds → header_only rds rds' → rds_data_ok rds'.
Proof.
  rewrite !rds_data_ok_iff. intros Hok H.
  pose proof (proj1 H) as Hs.
  destruct (header_only_fields _ _ H)
    as (_ & _ & _ & -> & -> & _ & _ & -> & -> & -> & -> & -> & -> & _).
  tauto.
Qed.

(** A group whose block B is over its threshold only runs the preamble. *)
Lemma decode_dropped decoder g w :
  stats_okb (stats (w_rds w)) = true → BLERB_MAX < errors (b g) →
  ∃ rds1, header_only (w_rds w) rds1 ∧
    rds_decoder_decode decoder g w
    = Some {| w_rds := rds1; w_calls := w_calls w |}.
Proof.
  intros Hok Hb. unfold rds_decoder_decode.
  set (rdsA := set_stats _ (w_rds w)).
  assert (header_only (w_rds w) rdsA) as HA.
  { split; [by apply stats_okb_iff; apply stats_okb_iff in Hok|].
    by destruct (w_rds w). }
  assert (∃ rdsB, (if errors (a g) <=? BLERA_MAX
                   then latch_pi_code (a g) rdsA else Some rdsA) = Some rdsB
                  ∧ header_only (w_rds w) rdsB) as (rdsB & -> & HB).
  { destruct (_ <=? _); [by apply latch_pi_code_header|eauto]. }
  simpl. destruct (Z.ltb_spec BLERB_MAX (errors (b g))); [|lia].
  eexists; split; [|done]. eapply header_only_step; [done|].
  split; [|by destruct rdsB].
  destruct HB as [[? ?]%stats_okb_iff _]. by apply stats_okb_iff.
Qed.

(** ** C3: the clock of group 4A *)

Lemma update_clock_spec decoder g rds :
  stats_okb (stats rds) = true →
  ∃ rds', update_clock decoder g rds = Some rds' ∧
    let B := val (b g) in
    let C := val (c g) in
    let D := val (d g) in
    if (errors (b g) <=? BLERB_MAX) && (errors (c g) <=? BLERC_MAX)
       && (errors (d g) <=? BLERD_MAX)
       && (errors (b g) + errors (c g) + errors (d g) <=? BLERB_MAX)
    then
      Z.b2z (clock_day_high (clock rds')) = Z.shiftr (Z.land B 2) 1 ∧
      clock_day_low (clock rds')
        = Z.lor (Z.shiftl (Z.land B 1) 15) (Z.shiftr (Z.land C 0xFFFE) 1) ∧
      clock_hour (clock rds')
        = Z.lor (Z.shiftl (Z.land C 1) 4) (Z.land (Z.shiftr D 12) 0xF) ∧
      clock_minute (clock rds') = Z.land (Z.shiftr D 6) 0x3F ∧
      clock_utc_offset (clock rds')
        = (if Z.testbit D 5 then - Z.land D 0x1F else Z.land D 0x1F)
    else clock rds' = clock rds.
Proof.
  intros Hok. unfold update_clock.
  destruct (Z.ltb_spec BLERB_MAX (errors (b g)));
    [destruct (Z.leb_spec (errors (b g)) BLERB_MAX); [lia|]; by eexists|].
  destruct (Z.leb_spec (errors (b g)) BLERB_MAX); [|lia].
  destruct (Z.ltb_spec BLERC_MAX (errors (c g)));
    [destruct (Z.leb_spec (errors (c g)) BLERC_MAX); [lia|]; by eexists|].
  destruct (Z.leb_spec (errors (c g)) BLERC_MAX); [|lia].
  destruct (Z.ltb_spec BLERD_MAX (errors (d g)));
    [destruct (Z.leb_spec (errors (d g)) BLERD_MAX); [lia|]; by eexists|].
  destruct (Z.leb_spec (errors (d g)) BLERD_MAX); [|lia].
  destruct (Z.ltb_spec BLERB_MAX (errors (b g) + errors (c g) + errors (d g)));
    [destruct (Z.leb_spec (errors (b g) + errors (c g) + errors (d g)) BLERB_MAX);
       [lia|]; by eexists|].
  destruct (Z.leb_spec (errors (b g) + errors (c g) + errors (d g)) BLERB_MAX);
    [|lia].
  destruct (count_packet_Some PKTCNT_CLOCK (SET_BITS RDS_CLOCK rds))
    as [x ->]; [done|done|].
  simpl. eexists; split; [done|]. simpl.
  pose proof (land_ones_bounds (val (b g)) 1 ltac:(done)) as HB1.
  pose proof (land_ones_bounds (val (c g)) 1 ltac:(done)) as HC1.
  pose proof (land_ones_bounds (val (d g)) 5 ltac:(done)) as HD5.
  change (Z.ones 1) with 1 in *. change (Z.ones 5) with 0x1F in *.
  change (2 ^ 1) with 2 in *. change (2 ^ 5) with 32 in *.
  unfold B_JDATE, C_JDATE, D_HOUR, D_MINUTE, D_UTC_OFFSET, D_UTC_OFFSET_SIGN.
  repeat split.
  - rewrite (field_shift _ 3 1 1), (field_shift _ 2 1 1) by done.
    pose proof (land_ones_bounds (val (b g) ≫ 1) 1 ltac:(done)) as Hs1.
    change (2 ^ 1) with 2 in Hs1. unfold to_bool.
    destruct (Z.eqb_spec (Z.land (val (b g) ≫ 1) (Z.ones 1)) 0) as [->|];
      simpl; lia.
  - apply u16_small. apply (lor_bounds _ _ 16); [done| |].
    + rewrite Z.shiftl_mul_pow2 by done. change (2 ^ 15) with 32768.
      change (2 ^ 16) with 65536. lia.
    + pose proof (field_bounds (val (c g)) 0xFFFE 1 15 ltac:(done) eq_refl).
      change (2 ^ 15) with 32768 in *. change (2 ^ 16) with 65536. lia.
  - rewrite (field_shift _ 0xF000 12 4) by done. change (Z.ones 4) with 0xF.
    apply u8_small. apply (lor_bounds _ _ 8); [done| |].
    + rewrite Z.shiftl_mul_pow2 by done. change (2 ^ 4) with 16.
      change (2 ^ 8) with 256. lia.
    + pose proof (land_ones_bounds (val (d g) ≫ 12) 4 ltac:(done)) as Hn4.
      change (Z.ones 4) with 0xF in Hn4. change (2 ^ 4) with 16 in Hn4.
      change (2 ^ 8) with 256. lia.
  - rewrite (field_shift _ 0x0FC0 6 6) by done. change (Z.ones 6) with 0x3F.
    apply u8_small.
    pose proof (land_ones_bounds (val (d g) ≫ 6) 6 ltac:(done)) as Hn6.
    change (Z.ones 6) with 0x3F in Hn6. change (2 ^ 6) with 64 in Hn6. lia.
  - pose proof (to_bool_land_bit (val (d g)) 5 ltac:(done)) as Hbit.
    unfold to_bool in Hbit. change (2 ^ 5) with 32 in Hbit.
    rewrite Hbit.
    destruct (Z.testbit (val (d g)) 5);
      rewrite (s8_small (Z.land _ _)) by lia; [by rewrite s8_small by lia|done].
Qed.

(** C3.  For every group 4A: when blocks B, C and D are each within their
    thresholds and their error classes sum to at most the block-B threshold,
    decode sets [clock.day_high = (B&2)>>1],
    [clock.day_low = ((B&1)<<15) | ((C&0xFFFE)>>1)],
    [clock.hour = ((C&1)<<4) | ((D>>12)&0xF)], [clock.minute = (D>>6)&0x3F]
    and [clock.utc_offset = D&0x1F], negated when bit 5 of D is set; when one
    of these conditions fails, the clock is unchanged. *)
Theorem clock_of_group_4A (decoder : rds_decoder) (g : rds_blocks)
  (w : world) :
  rds_data_ok (w_rds w) → is_group 4 "A" g →
  ∃ w', rds_decoder_decode decoder g w = Some w' ∧
    let B := val (b g) in
    let C := val (c g) in
    let D := val (d g) in
    let clk := clock (w_rds w') in
    if (errors (b g) <=? BLERB_MAX) && (errors (c g) <=? BLERC_MAX)
       && (errors (d g) <=? BLERD_MAX)
       && (errors (b g) + errors (c g) + errors (d g) <=? BLERB_MAX)
    then
      Z.b2z (clock_day_high clk) = Z.shiftr (Z.land B 2) 1 ∧
      clock_day_low clk
        = Z.lor (Z.shiftl (Z.land B 1) 15) (Z.shiftr (Z.land C 0xFFFE) 1) ∧
      clock_hour clk
        = Z.lor (Z.shiftl (Z.land C 1) 4) (Z.land (Z.shiftr D 12) 0xF) ∧
      clock_minute clk = Z.land (Z.shiftr D 6) 0x3F ∧
      clock_utc_offset clk
        = (if Z.testbit D 5 then - Z.land D 0x1F else Z.land D 0x1F)
    else clk = clock (w_rds w).
Proof.
  intros Hok Hg. pose proof (rds_data_ok_stats _ Hok) as Hst.
  destruct (Z.leb_spec (errors (b g)) BLERB_MAX) as [Hb|Hb].
  - destruct (decode_accepted decoder g w Hst Hb) as (rds1 & H1 & ->).
    rewrite Hg. unfold dispatch, decode_group_type_4, on_rds. simpl.
    destruct (update_clock_spec decoder g rds1 (proj1 H1)) as (rds' & -> & H').
    simpl. eexists; split; [done|]. simpl in *.
    destruct (Z.leb_spec (errors (b g)) BLERB_MAX); [|lia]. simpl in *.
    destruct (header_only_fields _ _ H1)
      as (_ & _ & _ & _ & _ & <- & _). done.
  - destruct (decode_dropped decoder g w Hst Hb) as (rds1 & H1 & ->).
    eexists; split; [done|]. simpl.
    by destruct (header_only_fields _ _ H1) as (_ & _ & _ & _ & _ & -> & _).
Qed.

Lemma clock_of_group_4A_witness :
  ∃ w', rds_decoder_decode sample_decoder
          (mk_blocks 0xD943 0 0x4001 0 0xB32D 0 0xE6C0 0) fresh_world
        = Some w' ∧
        clock_day_low (clock (w_rds w')) = 55702 ∧
        clock_minute (clock (w_rds w')) = 27.
Proof.
  destruct (clock_of_group_4A sample_decoder
              (mk_blocks 0xD943 0 0x4001 0 0xB32D 0 0xE6C0 0) fresh_world)
    as (w' & Hw' & H); [reflexivity | reflexivity |].
  exists w'. split; [exact Hw'|]. simpl in H.
  destruct H as (_ & H1 & _ & H2 & _). split; [exact H1 | exact H2].
Defined.

(** ** Frequency tables only grow *)

Lemma band_eqb_eq x y : band_eqb x y = true ↔ x = y.
Proof. destruct x, y; simpl; split; (done || congruence). Qed.

Lemma freq_eq_key x y : freq_eq x y = true ↔ freq_key x = freq_key y.
Proof.
  unfold freq_eq, freq_key. rewrite andb_true_iff, band_eqb_eq, Z.eqb_eq.
  split; [by intros [-> ->] | by intros [= -> ->]].
Qed.

Lemma af_table_okb_iff t :
  af_table_okb t = true ↔
    Z.of_nat (length (entry t)) = 25 ∧ 0 ≤ count t ≤ 25.
Proof.
  unfold af_table_okb. rewrite !andb_true_iff, has_len_iff, !Z.leb_le.
  unfold AF_TABLE_ENTRIES. lia.
Qed.

Lemma table_grows_refl t : table_grows t t.
Proof.
  split; [lia|]. exists []. rewrite app_nil_r. split; [done|].
  split; [constructor|]. intros f Hf. by apply elem_of_nil in Hf.
Qed.

Lemma table_grows_trans t1 t2 t3 :
  table_grows t1 t2 → table_grows t2 t3 → table_grows t1 t3.
Proof.
  intros (Hc1 & e1 & He1 & Hn1 & Hf1) (Hc2 & e2 & He2 & Hn2 & Hf2).
  split; [lia|]. exists (e1 ++ e2).
  rewrite He2, He1, <-(assoc_L (++)). split; [done|]. split.
  - rewrite fmap_app. apply list.NoDup_app. split; [done|]. split; [|done].
    intros k Hk1 Hk2. apply list_elem_of_fmap in Hk2 as (f & -> & Hf).
    apply (Hf2 f Hf). rewrite He1, fmap_app. apply elem_of_app. by right.
  - intros f [Hf|Hf]%elem_of_app; [by apply Hf1|].
    intros Hk. apply (Hf2 f Hf). rewrite He1, fmap_app.
    apply elem_of_app. by left.
Qed.

(** Growth looks at the entries in use only. *)
Lemma table_grows_same t t' :
  count t' = count t → entry t' = entry t → table_grows t t'.
Proof.
  intros Hc He. split; [lia|]. exists []. unfold active.
  rewrite Hc, He, app_nil_r. split; [done|]. split; [constructor|].
  intros f Hf. by apply elem_of_nil in Hf.
Qed.

Lemma find_af_freq_idx_from_wp (n : nat) (i : Z) t f :
  0 ≤ i → i + Z.of_nat n ≤ Z.of_nat (length (entry t)) →
  Z.of_nat (length (entry t)) ≤ 127 →
  wp (find_af_freq_idx_from n i t f)
    (λ idx,
       (idx = -1 ∧
        ∀ j e, i ≤ j < i + Z.of_nat n → entry t !! Z.to_nat j = Some e →
               freq_eq e f = false)
       ∨ (i ≤ idx < i + Z.of_nat n)).
Proof.
  revert i. induction n as [|n IH]; intros i Hi Hn Hlen; simpl.
  - left. split; [done|]. intros; lia.
  - apply wp_bind, aget_wp; [lia|]. intros e He.
    destruct (freq_eq e f) eqn:Heq; simpl.
    + right. unfold s8. rewrite Z.mod_small; lia.
    + assert (u8 (i + 1) = i + 1) as -> by (apply u8_small; lia).
      eapply wp_mono; [apply IH; lia|]. simpl.
      intros idx [[-> Hall]|Hidx]; [left|right; lia].
      split; [done|]. intros j e' Hj He'.
      destruct (Z.eq_dec j i) as [->|]; [congruence|].
      apply (Hall j); [lia|done].
Qed.

Lemma freq_in_af_table_wp t f :
  af_table_okb t = true →
  wp (freq_in_af_table t f)
    (λ present, present = false → freq_key f ∉ (freq_key <$> active t)).
Proof.
  intros [Hlen Hc]%af_table_okb_iff. unfold freq_in_af_table, find_af_freq_idx.
  apply wp_bind. eapply wp_mono;
    [apply find_af_freq_idx_from_wp; lia|]. simpl.
  intros idx [[-> Hall]|Hidx]; simpl.
  - intros _ Hin. apply list_elem_of_fmap in Hin as (e & Hk & He).
    unfold active in He. apply list_elem_of_lookup in He as [j Hj].
    apply lookup_take_Some in Hj as [Hj Hlt].
    specialize (Hall (Z.of_nat j) e). rewrite Nat2Z.id in Hall.
    assert (freq_eq e f = false) as Hne by (apply Hall; [lia|done]).
    assert (freq_eq e f = true); [|congruence]. by apply freq_eq_key.
  - destruct (Z.eqb_spec idx (-1)); [lia|done].
Qed.

Lemma insert_alt_freq_wp t f :
  af_table_okb t = true →
  wp (insert_alt_freq t f)
    (λ r, af_table_okb r.2 = true ∧ table_grows t r.2 ∧
          tuned_freq r.2 = tuned_freq t).
Proof.
  intros Hok. pose proof Hok as [Hlen Hc]%af_table_okb_iff.
  unfold insert_alt_freq.
  destruct (Z.leb_spec AF_TABLE_ENTRIES (count t)) as [|Hlt]; simpl.
  { split; [done|]. split; [apply table_grows_refl|done]. }
  unfold AF_TABLE_ENTRIES in Hlt.
  apply wp_bind. eapply wp_mono; [by apply freq_in_af_table_wp|]. simpl.
  intros [|] Hfresh; simpl.
  { split; [done|]. split; [apply table_grows_refl|done]. }
  apply wp_bind, aset_wp; [lia|]. simpl.
  assert (u8 (count t + 1) = count t + 1) as -> by (apply u8_small; lia).
  split; [|split; [|done]].
  - apply af_table_okb_iff. simpl. rewrite length_insert. lia.
  - split; [simpl; lia|]. exists [f]. unfold active. simpl.
    split; [|split].
    + replace (Z.to_nat (count t + 1)) with (S (Z.to_nat (count t))) by lia.
      rewrite (take_S_r _ _ f); [by rewrite take_insert_ge by lia|].
      apply list_lookup_insert_eq. lia.
    + apply NoDup_singleton.
    + intros f' ->%list_elem_of_singleton. by apply Hfresh.
Qed.

Lemma dec_af_expected_count_table t :
  table (dec_af_expected_count t) = table t.
Proof. unfold dec_af_expected_count. by destruct (_ =? _). Qed.

Lemma add_alt_freq_wp t f :
  decode_table_okb t = true →
  wp (add_alt_freq t f)
    (λ r, decode_table_okb r.2 = true ∧ table_grows (table t) (table r.2) ∧
          tuned_freq (table r.2) = tuned_freq (table t) ∧
          enc_method r.2 = enc_method t ∧ pvt_band r.2 = pvt_band t ∧
          pvt_prev_enc_method r.2 = pvt_prev_enc_method t).
Proof.
  unfold decode_table_okb, add_alt_freq. intros Hok.
  apply wp_bind. eapply wp_mono;
    [apply insert_alt_freq_wp; by rewrite dec_af_expected_count_table|].
  simpl. rewrite dec_af_expected_count_table. intros r (H1 & H2 & H3).
  split_and!; try done; simpl; unfold dec_af_expected_count;
    by destruct (pvt_expected_cnt t =? 0).
Qed.

Lemma handle_freq_code_table t x :
  table (handle_freq_code t x).2 = table t ∧
  enc_method (handle_freq_code t x).2 = enc_method t ∧
  pvt_prev_enc_method (handle_freq_code t x).2 = pvt_prev_enc_method t.
Proof.
  unfold handle_freq_code, dec_af_expected_count.
  repeat (case_match; simpl); done.
Qed.

Lemma table_step_same t t' :
  decode_table_okb t = true → count (table t') = count (table t) →
  entry (table t') = entry (table t) → table_step t t'.
Proof.
  intros Hok Hc He. split; [|by apply table_grows_same].
  unfold decode_table_okb in *. apply af_table_okb_iff in Hok.
  apply af_table_okb_iff. by rewrite Hc, He.
Qed.

Lemma table_step_trans t1 t2 t3 :
  table_step t1 t2 → table_step t2 t3 → table_step t1 t3.
Proof.
  intros [_ H1] [H2 H3]. split; [done|]. by eapply table_grows_trans.
Qed.

Lemma add_alt_freq_step t0 t f :
  table_step t0 t →
  wp (add_alt_freq t f) (λ r, table_step t0 r.2 ∧
          tuned_freq (table r.2) = tuned_freq (table t) ∧
          enc_method r.2 = enc_method t ∧ pvt_band r.2 = pvt_band t ∧
          pvt_prev_enc_method r.2 = pvt_prev_enc_method t).
Proof.
  intros H0. eapply wp_mono; [apply add_alt_freq_wp, H0|]. simpl.
  intros r (H1 & H2 & H3). split; [|done].
  eapply table_step_trans; [done|]. by split.
Qed.

Lemma decode_freq_table_start_block_wp t num second :
  decode_table_okb t = true →
  wp (decode_freq_table_start_block t num second) (table_step t).
Proof.
  intros Hok. unfold decode_freq_table_start_block.
  match goal with |- context [handle_freq_code ?t0 second] =>
    set (t1 := t0);
    pose proof (handle_freq_code_table t1 second) as (Hh & _);
    destruct (handle_freq_code t1 second) as [handled t2] end.
  simpl in Hh.
  assert (table_step t t2) as H2.
  { apply table_step_same; [done|rewrite Hh..]; subst t1;
      by destruct (negb _). }
  destruct handled; [done|].
  apply wp_bind. eapply wp_mono; [by apply add_alt_freq_step|].
  simpl. by intros r [? _].
Qed.

Lemma table_step_keep t0 t t' :
  table_step t0 t → count (table t') = count (table t) →
  entry (table t') = entry (table t) → table_step t0 t'.
Proof.
  intros H Hc He. eapply table_step_trans; [done|].
  apply table_step_same; [apply H|done..].
Qed.

Lemma add_alt_freq_step' t0 t f :
  table_step t0 t → wp (r ← add_alt_freq t f; Some r.2) (table_step t0).
Proof.
  intros H. apply wp_bind. eapply wp_mono; [by apply add_alt_freq_step|].
  simpl. by intros r [? _].
Qed.

Lemma decode_freq_table_nth_block_wp t first second :
  decode_table_okb t = true →
  wp (decode_freq_table_nth_block t first second) (table_step t).
Proof.
  intros Hok. pose proof (table_step_same t t Hok eq_refl eq_refl) as H0.
  unfold decode_freq_table_nth_block.
  destruct (pvt_expected_cnt t =? 0); [done|].
  pose proof (handle_freq_code_table t first) as (Hh1 & _).
  destruct (handle_freq_code t first) as [h1 t1]. simpl in Hh1.
  assert (table_step t t1) as H1
    by (eapply table_step_keep; [done|by rewrite Hh1..]).
  pose proof (handle_freq_code_table t1 second) as (Hh2 & _).
  destruct (handle_freq_code t1 second) as [h2 t2]. simpl in Hh2.
  assert (table_step t t2) as H2
    by (eapply table_step_keep; [done|by rewrite Hh2..]).
  clear Hh1 Hh2 H1 H0.
  apply wp_bind.
  match goal with |- wp ?m _ =>
    assert (wp m (λ r, table_step t r.2)) as Hr end.
  { destruct (enc_eqb (enc_method t2) AF_EM_UNKNOWN); [|done].
    destruct (h1 && h2); [done|].
    destruct (h1 || h2); [by eapply table_step_keep|].
    destruct (_ || _); [by eapply table_step_keep|].
    destruct (negb _); [|by eapply table_step_keep].
    apply wp_bind. eapply wp_mono;
      [apply (add_alt_freq_step t); by eapply table_step_keep|].
    simpl. intros r [Hs _]. by eapply table_step_keep. }
  eapply wp_mono; [exact Hr|]. clear Hr. simpl.
  intros [returned t3] H3. simpl in H3. destruct returned; [done|].
  assert (table_step t (set_pvt_prev_enc_method (enc_method t3) t3)) as H4
    by (by eapply table_step_keep).
  destruct (enc_eqb (enc_method t3) AF_EM_A).
  - apply wp_bind.
    match goal with |- wp ?m _ => assert (wp m (table_step t)) as Ha end.
    { destruct (negb h1); [by apply add_alt_freq_step'|done]. }
    eapply wp_mono; [exact Ha|]. simpl. intros t4 Ht4.
    apply wp_bind.
    match goal with |- wp ?m _ => assert (wp m (table_step t)) as Hb end.
    { destruct (negb h2); [by apply add_alt_freq_step'|done]. }
    eapply wp_mono; [exact Hb|]. by simpl.
  - destruct (h1 || h2); [done|].
    destruct (freq_eq _ _); [by apply add_alt_freq_step'|].
    destruct (freq_eq _ _); [by apply add_alt_freq_step'|done].
Qed.

(** ** Groups of frequency tables only grow *)

Lemma af_group_okb_iff g :
  af_group_okb g = true ↔
    Z.of_nat (length (g_table g)) = 20 ∧ 0 ≤ g_count g ≤ 20 ∧
    -1 ≤ g_current_table_idx g < 20 ∧
    Forall (λ t, decode_table_okb t = true) (g_table g).
Proof.
  unfold af_group_okb.
  rewrite !andb_true_iff, has_len_iff, !Z.leb_le, Z.ltb_lt.
  unfold AF_GROUP_TABLES.
  assert (forallb decode_table_okb (g_table g) = true
          ↔ Forall (λ t, decode_table_okb t = true) (g_table g)) as ->.
  { rewrite forallb_forall. symmetry. apply Forall_forall. }
  tauto.
Qed.

Lemma group_grows_refl g : group_grows g g.
Proof.
  split; [lia|]. apply Forall2_same_length_lookup. split; [done|].
  intros i x y Hx Hy. assert (x = y) as -> by congruence.
  apply table_grows_refl.
Qed.

Lemma group_step_refl g : af_group_okb g = true → group_step g g.
Proof. intros H. split; [done|apply group_grows_refl]. Qed.

Lemma group_step_trans g1 g2 g3 :
  group_step g1 g2 → group_step g2 g3 → group_step g1 g3.
Proof.
  intros [_ [Hc1 H1]] [Hok [Hc2 H2]]. split; [done|]. split; [lia|].
  eapply Forall2_trans; [|done..]. simpl. intros x y z.
  apply table_grows_trans.
Qed.

(** Moving the current index or bumping the count. *)
Lemma group_step_header g idx cnt :
  af_group_okb g = true → -1 ≤ idx < 20 → g_count g ≤ cnt ≤ 20 →
  group_step g (set_g_count cnt (set_g_current_table_idx idx g)).
Proof.
  intros (Hl & Hc & Hi & Hall)%af_group_okb_iff Hidx Hcnt. split.
  - apply af_group_okb_iff. simpl. split_and!; first [done | lia].
  - split; [simpl; lia|]. simpl. apply (group_grows_refl g).
Qed.

Lemma group_step_idx g idx :
  af_group_okb g = true → -1 ≤ idx < 20 →
  group_step g (set_g_current_table_idx idx g).
Proof.
  intros Hok Hidx.
  pose proof (group_step_header g idx (g_count g) Hok Hidx) as H.
  apply af_group_okb_iff in Hok. destruct g. apply H. simpl in *. lia.
Qed.

(** Replacing one table by a grown one. *)
Lemma group_step_table g i t t' :
  af_group_okb g = true → g_table g !! i = Some t → table_step t t' →
  group_step g (set_g_table (<[i := t']> (g_table g)) g).
Proof.
  intros (Hl & Hc & Hi & Hall)%af_group_okb_iff Ht [Hok' Hgrow]. split.
  - apply af_group_okb_iff. simpl. rewrite length_insert.
    split_and!; first [done | lia | by apply Forall_insert].
  - split; [simpl; lia|]. simpl.
    apply Forall2_same_length_lookup. rewrite length_insert.
    split; [done|]. intros j x y Hx Hy.
    rewrite list_lookup_insert in Hy. case_decide as Hd.
    + destruct Hd as [<- _]. by simplify_eq.
    + assert (x = y) as -> by congruence. apply table_grows_refl.
Qed.

Lemma group_okb_lookup g i :
  af_group_okb g = true → 0 ≤ i < 20 →
  ∃ t, g_table g !! Z.to_nat i = Some t ∧ decode_table_okb t = true.
Proof.
  intros (Hl & Hc & Hi & Hall)%af_group_okb_iff Hidx.
  destruct (lookup_lt_is_Some_2 (g_table g) (Z.to_nat i)) as [t Ht]; [lia|].
  exists t. split; [done|]. by eapply Forall_lookup in Hall.
Qed.

Lemma find_af_table_idx_from_wp (n : nat) (i : Z) g tuned :
  0 ≤ i → i + Z.of_nat n ≤ Z.of_nat (length (g_table g)) →
  Z.of_nat (length (g_table g)) ≤ 127 →
  wp (find_af_table_idx_from n i g tuned)
    (λ idx, idx = -1 ∨ i ≤ idx < i + Z.of_nat n).
Proof.
  revert i. induction n as [|n IH]; intros i Hi Hn Hlen; simpl; [by left|].
  apply wp_bind, aget_wp; [lia|]. intros e He.
  destruct (freq_eq _ _); simpl.
  - right. unfold s8. rewrite Z.mod_small; lia.
  - assert (u8 (i + 1) = i + 1) as -> by (apply u8_small; lia).
    eapply wp_mono; [apply IH; lia|]. simpl. intros idx [->|?]; [by left|].
    right; lia.
Qed.

Lemma start_current_table_wp g0 g num second :
  group_step g0 g → 0 ≤ g_current_table_idx g →
  wp (start_current_table g num second) (group_step g0).
Proof.
  intros Hg Hidx. pose proof (proj1 Hg) as Hok.
  pose proof Hok as (Hl & Hc & Hi & Hall)%af_group_okb_iff.
  destruct (group_okb_lookup g (g_current_table_idx g) Hok) as (t & Ht & Htok);
    [lia|].
  unfold start_current_table.
  apply wp_bind, aget_wp; [lia|]. intros t0 Ht0.
  assert (t0 = t) as -> by congruence.
  apply wp_bind. eapply wp_mono;
    [by apply decode_freq_table_start_block_wp|]. simpl. intros t' Ht'.
  apply wp_bind, aset_wp; [lia|]. simpl.
  eapply group_step_trans; [done|]. by eapply group_step_table.
Qed.

Lemma decode_af_start_block_wp g num second :
  af_group_okb g = true →
  wp (decode_af_start_block g num second) (group_step g).
Proof.
  intros Hok. pose proof Hok as (Hl & Hc & Hi & Hall)%af_group_okb_iff.
  unfold decode_af_start_block. apply wp_bind.
  match goal with |- wp ?m _ => assert (wp m (λ _, True)) as Hm end.
  { destruct (g_count g =? 1); [|done]. apply wp_bind, aget_wp; [lia|done]. }
  eapply wp_mono; [exact Hm|]. clear Hm. simpl. intros only_a _.
  set (p := if only_a then (0, AF_EM_A) else (-1, AF_EM_UNKNOWN)).
  assert (p.1 = 0 ∨ p.1 = -1) as Hp by (subst p; destruct only_a; auto).
  destruct p as [idx0 em0]. simpl in Hp.
  set (p := if num =? 1 then (0, AF_EM_A) else (idx0, em0)).
  assert (p.1 = 0 ∨ p.1 = -1) as Hp'
    by (subst p; destruct (num =? 1); auto).
  destruct p as [idx em]. simpl in Hp'. clear Hp idx0 em0.
  assert (group_step g (set_g_current_table_idx idx g)) as H1
    by (apply group_step_idx; [done|lia]).
  simpl. destruct (Z.eqb_spec idx (-1)) as [->|Hne].
  2:{ apply start_current_table_wp; [done|simpl; lia]. }
  apply wp_bind. unfold find_af_table_idx. simpl.
  eapply wp_mono; [apply find_af_table_idx_from_wp; simpl; lia|]. simpl.
  intros found Hfound.
  assert (-1 ≤ found < 20) as Hf by lia.
  assert (group_step g (set_g_current_table_idx found
                          (set_g_current_table_idx (-1) g))) as H2.
  { eapply group_step_trans; [done|]. apply group_step_idx; [apply H1|done]. }
  destruct (Z.eqb_spec found (-1)) as [->|Hfne].
  2:{ apply start_current_table_wp; [done|simpl; lia]. }
  destruct (Z.eqb_spec (g_count g) AF_GROUP_TABLES) as [|Hfull]; [done|].
  unfold AF_GROUP_TABLES in Hfull.
  assert (s8 (g_count g) = g_count g) as -> by (apply s8_small; lia).
  assert (u8 (g_count g + 1) = g_count g + 1) as -> by (apply u8_small; lia).
  set (g1 := set_g_count _ _).
  assert (group_step g g1) as H3.
  { pose proof (group_step_header g (g_count g) (g_count g + 1) Hok) as H.
    subst g1. destruct g. apply H; simpl in *; lia. }
  destruct (group_okb_lookup g1 (g_count g) (proj1 H3)) as (t & Ht & Htok);
    [lia|].
  apply wp_bind, aget_wp; [subst g1; simpl; lia|]. intros t0 Ht0.
  simpl in Ht0. assert (t0 = t) as -> by (subst g1; simpl in *; congruence).
  apply wp_bind, aset_wp; [subst g1; simpl; lia|].
  apply start_current_table_wp; [|subst g1; simpl; lia].
  eapply group_step_trans; [done|].
  match goal with |- group_step _ (set_g_table (<[_ := ?t']> _) _) =>
    apply (group_step_table g1 _ t t'); [apply H3|done|] end.
  apply table_step_same; [done|by destruct (enc_eqb _ _)..].
Qed.

Lemma decode_af_nth_block_wp g first second :
  af_group_okb g = true →
  wp (decode_af_nth_block g first second) (group_step g).
Proof.
  intros Hok. pose proof Hok as (Hl & Hc & Hi & Hall)%af_group_okb_iff.
  unfold decode_af_nth_block.
  destruct (Z.ltb_spec (g_current_table_idx g) 0);
    [by apply group_step_refl|].
  destruct (group_okb_lookup g (g_current_table_idx g) Hok) as (t & Ht & Htok);
    [lia|].
  apply wp_bind, aget_wp; [lia|]. intros t0 Ht0.
  assert (t0 = t) as -> by congruence.
  apply wp_bind. eapply wp_mono;
    [by apply decode_freq_table_nth_block_wp|]. simpl. intros t' Ht'.
  apply wp_bind, aset_wp; [lia|]. simpl. by eapply group_step_table.
Qed.

Lemma decode_freq_group_block_wp g block :
  af_group_okb g = true →
  wp (decode_freq_group_block g block) (group_step g).
Proof.
  intros Hok. unfold decode_freq_group_block.
  destruct (is_freq_code_count _);
    [by apply decode_af_start_block_wp | by apply decode_af_nth_block_wp].
Qed.

(** ** Steps of the decoder keep the state a state of the data model *)

Lemma ps_okb_iff p :
  ps_okb p = true ↔
    Z.of_nat (length (ps_display p)) = 8 ∧
    Z.of_nat (length (ps_pvt_hi_prob p)) = 8 ∧
    Z.of_nat (length (ps_pvt_lo_prob p)) = 8 ∧
    Z.of_nat (length (ps_pvt_hi_prob_cnt p)) = 8.
Proof.
  unfold ps_okb. rewrite !andb_true_iff, !has_len_iff. unfold PS_LEN. tauto.
Qed.

Lemma rt_okb_iff r :
  rt_okb r = true ↔
    Z.of_nat (length (rt_display r)) = 64 ∧
    Z.of_nat (length (rt_pvt_hi_prob r)) = 64 ∧
    Z.of_nat (length (rt_pvt_lo_prob r)) = 64 ∧
    Z.of_nat (length (rt_pvt_hi_prob_cnt r)) = 64.
Proof.
  unfold rt_okb. rewrite !andb_true_iff, !has_len_iff. unfold RT_LEN. tauto.
Qed.

Lemma ptyn_okb_iff p :
  ptyn_okb p = true ↔ Z.of_nat (length (ptyn_display p)) = 8.
Proof. unfold ptyn_okb. by rewrite has_len_iff. Qed.

Lemma oda_okb_iff cnt l :
  oda_okb cnt l = true ↔ Z.of_nat (length l) = 10 ∧ 0 ≤ cnt ≤ 10.
Proof.
  unfold oda_okb. rewrite !andb_true_iff, has_len_iff, !Z.leb_le.
  unfold ODA_LEN. tauto.
Qed.

Lemma tdc_okb_iff t :
  tdc_okb t = true ↔
    Z.of_nat (length (tdc_data t)) = 32 ∧
    Forall (λ row, Z.of_nat (length row) = 32) (tdc_data t) ∧
    0 ≤ tdc_curr_channel t.
Proof.
  unfold tdc_okb. rewrite !andb_true_iff, has_len_iff, Z.leb_le.
  assert (forallb (has_len TDC_LEN) (tdc_data t) = true
          ↔ Forall (λ row, Z.of_nat (length row) = 32) (tdc_data t)) as ->.
  { rewrite forallb_forall, Forall_forall.
    split; intros H x Hx; apply (has_len_iff TDC_LEN), H, Hx. }
  unfold NUM_TDC. tauto.
Qed.

Lemma eon_okb_iff e :
  eon_okb e = true ↔
    Z.of_nat (length (on_ps (eon_on e))) = 8 ∧
    decode_table_okb (on_af (eon_on e)) = true.
Proof. unfold eon_okb. by rewrite andb_true_iff, has_len_iff. Qed.

Lemma evolves_refl rds : rds_data_ok rds → evolves rds rds.
Proof.
  intros H. split; [done|]. split; [apply group_grows_refl|].
  apply table_grows_refl.
Qed.

Lemma group_grows_trans g1 g2 g3 :
  group_grows g1 g2 → group_grows g2 g3 → group_grows g1 g3.
Proof.
  intros [Hc1 H1] [Hc2 H2]. split; [lia|].
  eapply Forall2_trans; [|done..]. simpl. intros x y z.
  apply table_grows_trans.
Qed.

Lemma evolves_trans rds1 rds2 rds3 :
  evolves rds1 rds2 → evolves rds2 rds3 → evolves rds1 rds3.
Proof.
  intros (_ & Hg1 & Ht1) (Hok & Hg2 & Ht2). split; [done|].
  split; [by eapply group_grows_trans | by eapply table_grows_trans].
Qed.

(** Chaining steps. *)
Lemma evolves_bind rds0 (m : option rds_data) (k : rds_data → option rds_data) :
  wp m (evolves rds0) →
  (∀ rds1, evolves rds0 rds1 → wp (k rds1) (evolves rds0)) →
  wp (m ≫= k) (evolves rds0).
Proof. intros Hm Hk. apply wp_bind. by eapply wp_mono. Qed.

(** [ev]: a state that differs from an evolved one in components whose
    well-formedness is at hand has evolved as well. *)
Ltac ev :=
  lazymatch goal with
  | H : evolves ?rds0 ?rds |- evolves ?rds0 _ =>
      let Hok := fresh in let Hg := fresh in let Ht := fresh in
      pose proof H as (Hok & Hg & Ht);
      split; [apply rds_data_ok_iff; apply rds_data_ok_iff in Hok; simpl;
              tauto
             |split; simpl; assumption]
  end.

Lemma evolves_stats rds0 rds :
  evolves rds0 rds → stats_okb (stats rds) = true.
Proof. intros [H _]. by apply rds_data_ok_stats. Qed.

Lemma count_packet_evolves k rds0 rds :
  evolves rds0 rds → 0 ≤ k < 20 → wp (count_packet k rds) (evolves rds0).
Proof.
  intros H Hk.
  destruct (count_packet_Some k rds (evolves_stats _ _ H) Hk) as [x ->].
  simpl.
  pose proof (stats_okb_set_counts (stats rds) x (Z.to_nat k)
                (evolves_stats _ _ H)).
  ev.
Qed.

Lemma decode_pty_evolves blk rds0 rds :
  evolves rds0 rds → wp (decode_pty rds blk) (evolves rds0).
Proof.
  intros H. unfold decode_pty. apply evolves_bind.
  - case_match; [apply count_packet_evolves; [ev|done]|]. simpl. ev.
  - intros rds1 H1. apply count_packet_evolves; [ev|done].
Qed.

Lemma decode_ta_evolves blk rds0 rds :
  evolves rds0 rds → wp (decode_ta rds blk) (evolves rds0).
Proof. intros H. apply count_packet_evolves; [ev|done]. Qed.

Lemma decode_ms_evolves blk rds0 rds :
  evolves rds0 rds → wp (decode_ms rds blk) (evolves rds0).
Proof. intros H. apply count_packet_evolves; [ev|done]. Qed.

Lemma latch_pi_code_evolves blk rds0 rds :
  evolves rds0 rds → wp (latch_pi_code blk rds) (evolves rds0).
Proof. intros H. apply count_packet_evolves; [ev|done]. Qed.

Lemma count_group_evolves gt rds0 rds :
  evolves rds0 rds → 0 ≤ code gt < 16 →
  wp (count_group gt rds) (evolves rds0).
Proof.
  intros H Hk. pose proof (evolves_stats _ _ H) as Hs.
  pose proof Hs as [Hc Hg]%stats_okb_iff. unfold count_group.
  apply wp_bind, aget_wp; [lia|]. intros e He.
  apply wp_bind, aset_wp; [lia|]. simpl.
  match goal with |- evolves _ (set_stats ?s _) =>
    assert (stats_okb s = true)
      by (apply stats_okb_iff; simpl; by rewrite length_insert) end.
  ev.
Qed.

(** ** The text buffers *)

(** [wp_arr] walks through a chain of checked array accesses, discharging
    the bounds from the lengths at hand. *)
Ltac wp_arr :=
  repeat first
    [ progress simpl
    | apply wp_bind
    | (apply aget_wp; [rewrite ?length_insert; lia | intros ? ?])
    | (apply aset_wp; [rewrite ?length_insert; lia | ])
    | case_match ].

Lemma knock_down_counts_wp len cnt :
  0 ≤ len ≤ Z.of_nat (length cnt) →
  wp (knock_down_counts len cnt) (λ cnt', length cnt' = length cnt).
Proof.
  intros Hlen. unfold knock_down_counts.
  apply (for_loop_wp (λ c, length c = length cnt)); [|done].
  intros i c Hi Hc. wp_arr; by rewrite ?length_insert.
Qed.

Lemma ps_complete_from_wp (n : nat) i cnt :
  0 ≤ i → i + Z.of_nat n ≤ Z.of_nat (length cnt) →
  wp (ps_complete_from n i cnt) (λ _, True).
Proof.
  revert i. induction n as [|n IH]; intros i Hi Hn; simpl; [done|].
  apply wp_bind, aget_wp; [lia|]. intros x _.
  case_match; [done|]. apply IH; lia.
Qed.

#[local] Arguments ps_complete_from : simpl never.
#[local] Arguments for_loop : simpl never.

Lemma ps_vote_wp p idx x :
  ps_okb p = true → 0 ≤ idx < 8 →
  wp (ps_vote p idx x) (λ r, ps_okb r.1 = true).
Proof.
  intros (Hd & Hh & Hl & Hc)%ps_okb_iff Hidx. unfold ps_vote.
  wp_arr; apply ps_okb_iff; simpl; rewrite ?length_insert; done.
Qed.

Lemma ps_footprint_refl rds : ps_okb (ps rds) = true → ps_footprint rds rds.
Proof. intros H. exists (ps rds), (valid_values rds). by destruct rds. Qed.

Lemma ps_footprint_trans rds1 rds2 rds3 :
  ps_footprint rds1 rds2 → ps_footprint rds2 rds3 → ps_footprint rds1 rds3.
Proof.
  intros (p1 & v1 & -> & H1) (p2 & v2 & -> & H2). exists p2, v2.
  by destruct rds1.
Qed.

Lemma update_ps_simple_wp rds idx x :
  ps_okb (ps rds) = true → 0 ≤ idx →
  wp (update_ps_simple rds idx x)
    (λ rds', ps_footprint rds rds' ∧ (8 ≤ idx → rds' = rds)).
Proof.
  intros Hok Hidx. pose proof Hok as (Hd & Hh & Hl & Hc)%ps_okb_iff.
  unfold update_ps_simple, PS_LEN.
  destruct (Z.leb_spec 8 idx); simpl.
  { split; [by apply ps_footprint_refl|done]. }
  apply wp_bind, aset_wp; [lia|]. simpl. split; [|lia].
  eexists _, _. split; [reflexivity|].
  apply ps_okb_iff; simpl; by rewrite length_insert.
Qed.

Lemma update_ps_advanced_wp rds idx x :
  ps_okb (ps rds) = true → 0 ≤ idx →
  wp (update_ps_advanced rds idx x)
    (λ rds', ps_footprint rds rds' ∧ (8 ≤ idx → rds' = rds)).
Proof.
  intros Hok Hidx. unfold update_ps_advanced, PS_LEN.
  destruct (Z.leb_spec 8 idx); simpl.
  { split; [by apply ps_footprint_refl|done]. }
  apply wp_bind. eapply wp_mono; [apply ps_vote_wp; [done|lia]|]. simpl.
  intros [p in_transition] Hp. simpl in Hp.
  apply wp_bind.
  match goal with |- wp ?m _ =>
    assert (wp m (λ p', ps_okb p' = true)) as Hm end.
  { destruct in_transition; [|done].
    pose proof Hp as (Hd & Hh & Hl & Hc)%ps_okb_iff.
    apply wp_bind. eapply wp_mono;
      [apply knock_down_counts_wp; unfold PS_LEN; lia|]. simpl.
    intros cnt Hcnt. apply ps_okb_iff. simpl. rewrite Hcnt. done. }
  eapply wp_mono; [exact Hm|]. clear Hm Hp p. simpl. intros p Hp.
  pose proof Hp as (Hd & Hh & Hl & Hc)%ps_okb_iff.
  apply wp_bind. eapply wp_mono;
    [apply ps_complete_from_wp; simpl; lia|]. simpl. intros complete _.
  destruct complete.
  - unfold memcpy.
    destruct (Z.leb_spec 8 (Z.of_nat (length (ps_pvt_hi_prob p)))); [|lia].
    destruct (Z.leb_spec 8 (Z.of_nat (length (ps_display p)))); [|lia].
    simpl. split; [|lia]. eexists _, _. split; [reflexivity|].
    apply ps_okb_iff. simpl.
    rewrite length_app, length_take, length_drop. lia.
  - simpl. split; [|lia]. exists p, (valid_values rds).
    split; [by destruct rds|done].
Qed.

Lemma update_rt_simple_loop_wp (n : nat) i blocks count addr chars display :
  0 ≤ i → 0 ≤ addr → i + Z.of_nat n ≤ Z.of_nat (length chars) →
  addr + i + Z.of_nat n ≤ 64 → Z.of_nat (length chars) ≤ 255 →
  Z.of_nat (length display) = 64 →
  wp (update_rt_simple_loop n i blocks count addr chars display)
    (λ d, Z.of_nat (length d) = 64).
Proof.
  revert i display. induction n as [|n IH]; intros i display Hi Ha Hn Hb Hc Hd;
    simpl; [done|].
  assert (u8 (i + 1) = i + 1) as -> by (apply u8_small; lia).
  destruct (rt_block_ok blocks count i); [|apply IH; lia].
  apply wp_bind, aget_wp; [lia|]. intros ch _.
  apply wp_bind, aset_wp; [lia|].
  destruct (ch =? 13).
  - assert (u8 (addr + i + 1) = addr + i + 1) as -> by (apply u8_small; lia).
    apply (for_loop_wp (λ d, Z.of_nat (length d) = 64));
      [|by rewrite length_insert].
    intros j d Hj Hlen. unfold RT_LEN in Hj.
    apply aset_wp; [lia|]. by rewrite length_insert.
  - apply IH; try lia. by rewrite length_insert.
Qed.

#[local] Arguments update_rt_simple_loop : simpl never.

Lemma update_rt_simple_wp rt blocks count addr chars :
  rt_okb rt = true → 0 ≤ addr → 0 ≤ count →
  count ≤ Z.of_nat (length chars) ≤ 255 → addr + count ≤ 64 →
  wp (update_rt_simple rt blocks count addr chars) (λ rt', rt_okb rt' = true).
Proof.
  intros (Hd & Hh & Hl & Hc)%rt_okb_iff Ha Hcnt Hch Hb.
  unfold update_rt_simple. apply wp_bind.
  eapply wp_mono; [apply update_rt_simple_loop_wp; lia|]. simpl.
  intros d Hlen. apply wp_bind.
  eapply wp_mono;
    [apply (for_loop_wp (λ d, Z.of_nat (length d) = 64)); [|done]|].
  - intros i d' Hi Hlen'. apply wp_bind, aget_wp; [lia|]. intros x _.
    case_match; [|done]. apply aset_wp; [lia|]. by rewrite length_insert.
  - simpl. intros d' Hlen'. by apply rt_okb_iff.
Qed.

Lemma bump_rt_validation_count_wp rt :
  rt_okb rt = true →
  wp (bump_rt_validation_count rt) (λ rt', rt_okb rt' = true).
Proof.
  intros Hok. unfold bump_rt_validation_count, RT_LEN.
  apply wp_bind. eapply wp_mono;
    [apply (for_loop_wp (λ r, rt_okb r = true)); [|done]|].
  { intros i r Hi (Hd & Hh & Hl & Hc)%rt_okb_iff.
    wp_arr; apply rt_okb_iff; simpl; rewrite ?length_insert; done. }
  simpl. intros rt1 Hok1.
  apply wp_bind. eapply wp_mono;
    [apply (for_loop_wp (λ r, rt_okb r = true)); [|done]|].
  { intros i r Hi (Hd & Hh & Hl & Hc)%rt_okb_iff.
    wp_arr; apply rt_okb_iff; simpl; rewrite ?length_insert; done. }
  simpl. intros rt2 (Hd & Hh & Hl & Hc)%rt_okb_iff.
  apply rt_okb_iff. simpl. unfold memset0. by rewrite !length_replicate.
Qed.

Lemma update_rt_advance_step_wp blocks count addr i st n :
  rt_okb st.1.1 = true → Z.of_nat (length st.1.2) = n →
  0 ≤ addr → 0 ≤ i < n → addr + i < 64 →
  wp (update_rt_advance_step blocks count addr i st)
    (λ st', rt_okb st'.1.1 = true ∧ Z.of_nat (length st'.1.2) = n).
Proof.
  destruct st as [[rt byte] tc]. simpl.
  intros (Hd & Hh & Hl & Hc)%rt_okb_iff Hb Ha Hi Hai.
  unfold update_rt_advance_step.
  wp_arr; (split; [apply rt_okb_iff|]); simpl; rewrite ?length_insert; done.
Qed.

Lemma update_rt_advance_wp rt blocks count addr byte :
  rt_okb rt = true → 0 ≤ addr → 0 ≤ count ≤ Z.of_nat (length byte) →
  addr + count ≤ 64 →
  wp (update_rt_advance rt blocks count addr byte) (λ rt', rt_okb rt' = true).
Proof.
  intros Hok Ha Hcnt Hb. unfold update_rt_advance. apply wp_bind.
  eapply wp_mono;
    [apply (for_loop_wp
              (λ st, rt_okb st.1.1 = true
                     ∧ Z.of_nat (length st.1.2) = Z.of_nat (length byte)));
     [|done]|].
  - intros i st Hi [H1 H2]. apply update_rt_advance_step_wp; (done || lia).
  - simpl. intros [[rt' byte'] tc] [Hok' _]. simpl in *.
    destruct tc; simpl; [|done].
    pose proof Hok' as (Hd & Hh & Hl & Hc)%rt_okb_iff.
    apply wp_bind. eapply wp_mono;
      [apply knock_down_counts_wp; unfold RT_LEN; lia|]. simpl.
    intros cnt Hcnt'. apply rt_okb_iff. simpl. by rewrite Hcnt'.
Qed.

(** ** The group handlers keep the state a state of the data model *)

Lemma u8_bounds x : 0 ≤ u8 x < 256.
Proof. unfold u8. apply Z.mod_pos_bound. lia. Qed.

Lemma u16_bounds x : 0 ≤ u16 x < 65536.
Proof. unfold u16. apply Z.mod_pos_bound. lia. Qed.

Lemma evolves_ok rds0 rds : evolves rds0 rds → rds_data_ok rds.
Proof. by intros [H _]. Qed.

Lemma ps_footprint_evolves rds0 rds rds' :
  evolves rds0 rds → ps_footprint rds rds' → evolves rds0 rds'.
Proof. intros H (p & v & -> & Hp). ev. Qed.

Lemma evolves_ps rds0 rds : evolves rds0 rds → ps_okb (ps rds) = true.
Proof. intros [H%rds_data_ok_iff _]. tauto. Qed.

Lemma evolves_af rds0 rds : evolves rds0 rds → af_group_okb (af rds) = true.
Proof. intros [H%rds_data_ok_iff _]. tauto. Qed.

Lemma decode_alt_freq_evolves blocks rds0 rds :
  evolves rds0 rds → wp (decode_alt_freq rds blocks) (evolves rds0).
Proof.
  intros H. unfold decode_alt_freq. case_match; [done|].
  apply evolves_bind; [apply count_packet_evolves; [ev|done]|].
  intros rds1 H1. apply wp_bind.
  eapply wp_mono; [apply decode_freq_group_block_wp, (evolves_af _ _ H1)|].
  simpl. intros g [Hg1 Hg2].
  eapply evolves_trans; [done|].
  pose proof (evolves_ok _ _ H1) as Hok1. split; [|split].
  - apply rds_data_ok_iff. apply rds_data_ok_iff in Hok1. simpl. tauto.
  - done.
  - simpl. apply table_grows_refl.
Qed.

Lemma update_ps_evolves (adv : bool) rds0 rds idx x :
  evolves rds0 rds → 0 ≤ idx →
  wp (if adv then update_ps_advanced rds idx x else update_ps_simple rds idx x)
    (evolves rds0).
Proof.
  intros H Hidx. destruct adv.
  - eapply wp_mono; [apply update_ps_advanced_wp; [apply (evolves_ps _ _ H)|done]|].
    simpl. intros rds' [Hf _]. by eapply ps_footprint_evolves.
  - eapply wp_mono; [apply update_ps_simple_wp; [apply (evolves_ps _ _ H)|done]|].
    simpl. intros rds' [Hf _]. by eapply ps_footprint_evolves.
Qed.

Lemma decode_group_type_0_evolves decoder gt blocks rds0 rds :
  evolves rds0 rds →
  wp (decode_group_type_0 decoder gt blocks rds) (evolves rds0).
Proof.
  intros H. unfold decode_group_type_0. apply evolves_bind.
  { case_match; [by apply decode_alt_freq_evolves|done]. }
  intros rds1 H1. case_match; [done|].
  apply evolves_bind; [by apply decode_ta_evolves|]. intros rds2 H2.
  apply evolves_bind; [by apply decode_ms_evolves|]. intros rds3 H3.
  apply evolves_bind; [|intros; by apply count_packet_evolves].
  destruct (advanced_ps_decoding decoder).
  - apply evolves_bind;
      [apply (update_ps_evolves true); [done|apply u8_bounds]|].
    intros rds4 H4. apply (update_ps_evolves true); [done|apply u8_bounds].
  - apply evolves_bind;
      [apply (update_ps_evolves false); [done|apply u8_bounds]|].
    intros rds4 H4. apply (update_ps_evolves false); [done|apply u8_bounds].
Qed.

Lemma decode_slow_labelling_codes_evolves blocks rds0 rds :
  evolves rds0 rds →
  wp (decode_slow_labelling_codes rds blocks) (evolves rds0).
Proof.
  intros H. unfold decode_slow_labelling_codes. case_match; [done|].
  apply evolves_bind; [apply count_packet_evolves; [ev|done]|].
  intros rds1 H1. simpl. ev.
Qed.

Lemma decode_group_type_1_evolves decoder gt blocks rds0 rds :
  evolves rds0 rds →
  wp (decode_group_type_1 decoder gt blocks rds) (evolves rds0).
Proof.
  intros H. unfold decode_group_type_1. apply evolves_bind.
  { case_match; [by apply decode_slow_labelling_codes_evolves|done]. }
  intros rds1 H1. case_match; [|done].
  apply count_packet_evolves; [ev|done].
Qed.

Lemma evolves_rt rds0 rds :
  evolves rds0 rds →
  rt_okb (rt_a (rt rds)) = true ∧ rt_okb (rt_b (rt rds)) = true.
Proof. intros [H%rds_data_ok_iff _]. tauto. Qed.

Lemma rt_commit_evolves decode_rt buf rds0 rds :
  evolves rds0 rds → rt_okb buf = true →
  wp (rt_commit decode_rt buf rds) (evolves rds0).
Proof.
  intros H Hbuf. unfold rt_commit.
  destruct (evolves_rt _ _ H) as [Ha Hb].
  apply count_packet_evolves; [|done]. destruct decode_rt; ev.
Qed.

Lemma rt_addr_bounds bv k : 0 ≤ k ≤ 4 → 0 ≤ u8 (Z.land bv 0xf * k) ≤ 15 * k.
Proof.
  intros Hk. pose proof (land_ones_bounds bv 4 ltac:(done)) as H.
  change (Z.ones 4) with 0xf in H. change (2 ^ 4) with 16 in H.
  rewrite u8_small; nia.
Qed.

Lemma decode_group_type_2_evolves decoder gt blocks rds0 rds :
  evolves rds0 rds →
  wp (decode_group_type_2 decoder gt blocks rds) (evolves rds0).
Proof.
  intros H. unfold decode_group_type_2.
  set (decode_rt := if to_bool _ then RT_A else RT_B).
  set (buf := match decode_rt with RT_A => _ | RT_B => _ end).
  assert (rt_okb buf = true) as Hbuf.
  { destruct (evolves_rt _ _ H). subst buf. by destruct decode_rt. }
  clearbody buf decode_rt.
  destruct (Ascii.eqb (version gt) "A").
  - case_match; [done|].
    pose proof (rt_addr_bounds (val (b blocks)) 4 ltac:(lia)) as Haddr.
    apply wp_bind. eapply wp_mono;
      [apply update_rt_simple_wp; simpl; (done || lia)|].
    simpl. intros buf1 Hbuf1. apply wp_bind.
    match goal with |- wp ?m _ =>
      assert (wp m (λ r, rt_okb r = true)) as Hm
        by (case_match; [by apply bump_rt_validation_count_wp|done]) end.
    eapply wp_mono; [exact Hm|]. clear Hm. simpl. intros buf2 Hbuf2.
    apply wp_bind. eapply wp_mono;
      [apply update_rt_advance_wp; simpl; (done || lia)|].
    simpl. intros buf3 Hbuf3. by apply rt_commit_evolves.
  - case_match; [done|].
    pose proof (rt_addr_bounds (val (b blocks)) 2 ltac:(lia)) as Haddr.
    pose proof Hbuf as (Hd & Hh & Hl & Hc)%rt_okb_iff.
    apply wp_bind, aset_wp; [lia|]. apply wp_bind, aset_wp; [lia|].
    apply wp_bind, aset_wp; [lia|]. apply wp_bind, aset_wp; [lia|].
    apply wp_bind. eapply wp_mono;
      [apply update_rt_simple_wp; simpl; try (done || lia)|].
    { apply rt_okb_iff. simpl. by rewrite !length_insert. }
    simpl. intros buf1 Hbuf1. apply wp_bind.
    match goal with |- wp ?m _ =>
      assert (wp m (λ r, rt_okb r = true)) as Hm
        by (case_match; [by apply bump_rt_validation_count_wp|done]) end.
    eapply wp_mono; [exact Hm|]. clear Hm. simpl. intros buf2 Hbuf2.
    apply wp_bind. eapply wp_mono;
      [apply update_rt_advance_wp; simpl; (done || lia)|].
    simpl. intros buf3 Hbuf3. by apply rt_commit_evolves.
Qed.

Lemma update_clock_evolves decoder blocks rds0 rds :
  evolves rds0 rds → wp (update_clock decoder blocks rds) (evolves rds0).
Proof.
  intros H. unfold update_clock. repeat (case_match; [done|]).
  apply evolves_bind; [apply count_packet_evolves; [ev|done]|].
  intros rds1 Hr1. simpl. ev.
Qed.

Lemma on_rds_evolves f w rds0 :
  wp (f (w_rds w)) (evolves rds0) →
  wp (on_rds f w) (λ w', evolves rds0 (w_rds w')).
Proof. intros H. unfold on_rds. apply wp_bind. by eapply wp_mono. Qed.

Lemma evolves_oda rds0 rds :
  evolves rds0 rds →
  Z.of_nat (length (oda rds)) = 10 ∧ 0 ≤ oda_cnt rds ≤ 10.
Proof. intros [H%rds_data_ok_iff _]. apply oda_okb_iff. tauto. Qed.

Lemma IsGroupTypeUsedByODA_from_wp (n : nat) i rds gt :
  0 ≤ i → i + Z.of_nat n ≤ Z.of_nat (length (oda rds)) →
  wp (IsGroupTypeUsedByODA_from n i rds gt) (λ _, True).
Proof.
  revert i. induction n as [|n IH]; intros i Hi Hn; simpl; [done|].
  apply wp_bind, aget_wp; [lia|]. intros e _.
  case_match; [done|]. apply IH; lia.
Qed.

Lemma IsGroupTypeUsedByODA_wp rds0 rds gt :
  evolves rds0 rds → wp (IsGroupTypeUsedByODA rds gt) (λ _, True).
Proof.
  intros [Hl Hc]%evolves_oda. unfold IsGroupTypeUsedByODA, ODA_LEN.
  apply IsGroupTypeUsedByODA_from_wp; lia.
Qed.

Lemma decode_oda_find_wp (n : nat) idx rds gt :
  0 ≤ idx → idx + Z.of_nat n ≤ Z.of_nat (length (oda rds)) →
  Z.of_nat (length (oda rds)) ≤ 255 →
  wp (decode_oda_find n idx rds gt) (λ r, idx ≤ r ≤ idx + Z.of_nat n).
Proof.
  revert idx. induction n as [|n IH]; intros idx Hi Hn Hlen; simpl; [lia|].
  apply wp_bind, aget_wp; [lia|]. intros e _.
  case_match; [simpl; lia|].
  assert (u8 (idx + 1) = idx + 1) as -> by (apply u8_small; lia).
  eapply wp_mono; [apply IH; lia|]. simpl. lia.
Qed.

#[local] Arguments IsGroupTypeUsedByODA_from : simpl never.
#[local] Arguments decode_oda_find : simpl never.

Lemma decode_oda_evolves decoder gt blocks rds0 w :
  evolves rds0 (w_rds w) →
  wp (decode_oda decoder gt blocks w) (λ w', evolves rds0 (w_rds w')).
Proof.
  intros H. pose proof (evolves_oda _ _ H) as [Hl Hc]. unfold decode_oda.
  apply wp_bind. eapply wp_mono; [apply decode_oda_find_wp; lia|]. simpl.
  intros idx Hidx. destruct (Z.eqb_spec idx (oda_cnt (w_rds w))); [done|].
  apply wp_bind, aget_wp; [lia|]. intros e _.
  apply wp_bind, aset_wp; [lia|].
  match goal with |- context [set_oda ?l _] =>
    assert (oda_okb (oda_cnt (w_rds w)) l = true)
      by (apply oda_okb_iff; by rewrite length_insert) end.
  case_match; simpl; ev.
Qed.

(** The search of [decode_group_type_3], in full: either no entry below
    [oda_cnt] carries the application ID and nothing changes, or the first
    such entry is rebound. *)
Lemma oda_rebind_loop_wp (n : nat) idx app_id gt odas :
  0 ≤ idx → idx + Z.of_nat n ≤ Z.of_nat (length odas) →
  Z.of_nat (length odas) ≤ 255 →
  wp (oda_rebind_loop n idx app_id gt odas)
    (λ r,
       (r.1 = idx + Z.of_nat n ∧ r.2 = odas ∧
        ∀ j e, idx ≤ j < idx + Z.of_nat n → odas !! Z.to_nat j = Some e →
               oda_id e ≠ app_id)
       ∨ (idx ≤ r.1 < idx + Z.of_nat n ∧
          ∃ e, odas !! Z.to_nat r.1 = Some e ∧ oda_id e = app_id ∧
               r.2 = <[Z.to_nat r.1 := set_oda_gt gt e]> odas ∧
               ∀ j e', idx ≤ j < r.1 → odas !! Z.to_nat j = Some e' →
                       oda_id e' ≠ app_id)).
Proof.
  revert idx. induction n as [|n IH]; intros idx Hi Hn Hlen; simpl.
  { left. split; [lia|]. split; [done|]. intros; lia. }
  apply wp_bind, aget_wp; [lia|]. intros e He.
  destruct (Z.eqb_spec (oda_id e) app_id) as [Heq|Hne].
  - apply wp_bind, aset_wp; [lia|]. simpl. right. split; [lia|].
    exists e. split_and!; try done. intros; lia.
  - assert (u8 (idx + 1) = idx + 1) as -> by (apply u8_small; lia).
    eapply wp_mono; [apply IH; lia|]. simpl.
    intros r [(Hr1 & Hr2 & Hall)|(Hr1 & e' & He' & Hid & Hr2 & Hall)].
    + left. split; [lia|]. split; [done|]. intros j e0 Hj He0.
      destruct (Z.eq_dec j idx) as [->|]; [congruence|].
      apply (Hall j); [lia|done].
    + right. split; [lia|]. exists e'. split_and!; try done.
      intros j e0 Hj He0.
      destruct (Z.eq_dec j idx) as [->|]; [congruence|].
      apply (Hall j); [lia|done].
Qed.

#[local] Arguments oda_rebind_loop : simpl never.

Lemma decode_group_type_3_evolves decoder gt blocks rds0 w :
  evolves rds0 (w_rds w) →
  wp (decode_group_type_3 decoder gt blocks w)
    (λ w', evolves rds0 (w_rds w')).
Proof.
  intros H. unfold decode_group_type_3.
  case_match; [|by apply decode_oda_evolves].
  apply on_rds_evolves. pose proof (evolves_oda _ _ H) as [Hl Hc].
  case_match; [|done]. case_match; [done|].
  apply wp_bind. eapply wp_mono; [apply oda_rebind_loop_wp; lia|].
  intros [idx odas] Hr. simpl in Hr.
  assert (Z.of_nat (length odas) = 10) as Hl'.
  { destruct Hr as [(_ & -> & _)|(_ & e & _ & _ & -> & _)];
      [done|by rewrite length_insert]. }
  assert (0 ≤ idx ≤ oda_cnt (w_rds w)) as Hidx
    by (destruct Hr as [(? & _)|(? & _)]; lia).
  clear Hr. simpl.
  destruct (Z.eqb_spec idx (oda_cnt (w_rds w))) as [->|]; simpl.
  - destruct (Z.ltb_spec (oda_cnt (w_rds w)) ODA_LEN) as [Hlt|]; simpl.
    + unfold ODA_LEN in Hlt.
      apply wp_bind, aget_wp; [lia|]. intros e _.
      apply wp_bind, aset_wp; [lia|]. simpl.
      match goal with |- context [set_oda ?l _] =>
        assert (oda_okb (u8 (oda_cnt (w_rds w) + 1)) l = true)
          by (apply oda_okb_iff; rewrite length_insert, u8_small; lia) end.
      ev.
    + assert (oda_okb (oda_cnt (w_rds w)) odas = true)
        by (by apply oda_okb_iff).
      ev.
  - assert (oda_okb (oda_cnt (w_rds w)) odas = true)
      by (by apply oda_okb_iff).
    ev.
Qed.

Lemma decode_group_type_4_evolves decoder gt blocks rds0 w :
  evolves rds0 (w_rds w) →
  wp (decode_group_type_4 decoder gt blocks w)
    (λ w', evolves rds0 (w_rds w')).
Proof.
  intros H. unfold decode_group_type_4.
  case_match; [|by apply decode_oda_evolves].
  by apply on_rds_evolves, update_clock_evolves.
Qed.

Lemma evolves_tdc rds0 rds :
  evolves rds0 rds → tdc_okb (tdc rds) = true.
Proof. intros [H%rds_data_ok_iff _]. tauto. Qed.

Lemma memmove_down2_wp arr n :
  0 ≤ n → n + 2 ≤ Z.of_nat (length arr) →
  wp (memmove_down2 arr n) (λ arr', length arr' = length arr).
Proof.
  intros Hn Hlen. unfold memmove_down2.
  destruct (Z.leb_spec (n + 2) (Z.of_nat (length arr))); [|lia]. simpl.
  rewrite length_app, length_take, !length_drop. lia.
Qed.

Lemma decode_tdc_block_wp rds block :
  tdc_okb (tdc rds) = true → stats_okb (stats rds) = true →
  wp (decode_tdc_block rds block)
    (λ rds', tdc_footprint rds rds' ∧
             (32 ≤ tdc_curr_channel (tdc rds) → rds' = rds)).
Proof.
  intros Hok Hst. pose proof Hok as (Hl & Hrows & Hch)%tdc_okb_iff.
  unfold decode_tdc_block, NUM_TDC.
  destruct (Z.leb_spec 32 (tdc_curr_channel (tdc rds))) as [|Hlt]; simpl.
  { split; [|done]. split; [by destruct rds|done]. }
  destruct (count_packet_Some PKTCNT_TDC (SET_BITS RDS_TDC rds))
    as [x ->]; [done..|]. simpl.
  apply wp_bind, aget_wp; [lia|]. intros row Hrow.
  assert (Z.of_nat (length row) = 32) as Hrl
    by (by eapply Forall_lookup in Hrows).
  apply wp_bind. eapply wp_mono;
    [apply memmove_down2_wp; unfold TDC_LEN; lia|]. simpl.
  intros row1 Hrl1. unfold TDC_LEN.
  apply wp_bind, aset_wp; [lia|]. apply wp_bind, aset_wp;
    [rewrite length_insert; lia|].
  apply wp_bind, aset_wp; [lia|]. simpl. split; [|lia].
  split; [reflexivity|]. simpl. split; [done|]. split.
  - apply tdc_okb_iff. simpl. rewrite length_insert. split_and!; try done.
    apply Forall_insert; [done|]. rewrite !length_insert. lia.
  - by apply stats_okb_set_counts.
Qed.

Lemma tdc_footprint_evolves rds0 rds rds' :
  evolves rds0 rds → tdc_footprint rds rds' → evolves rds0 rds'.
Proof. intros H (-> & _ & Hd & Hs). ev. Qed.

Lemma decode_tdc_block_evolves block rds0 rds :
  evolves rds0 rds → wp (decode_tdc_block rds block) (evolves rds0).
Proof.
  intros H. eapply wp_mono;
    [apply decode_tdc_block_wp;
       [apply (evolves_tdc _ _ H)|apply (evolves_stats _ _ H)]|].
  simpl. intros rds' [Hf _]. by eapply tdc_footprint_evolves.
Qed.

Lemma decode_group_type_5_evolves decoder gt blocks rds0 w :
  evolves rds0 (w_rds w) →
  wp (decode_group_type_5 decoder gt blocks w)
    (λ w', evolves rds0 (w_rds w')).
Proof.
  intros H. unfold decode_group_type_5. apply wp_bind.
  eapply wp_mono; [by eapply IsGroupTypeUsedByODA_wp|]. simpl. intros used _.
  destruct used; [by apply decode_oda_evolves|].
  case_match; apply on_rds_evolves; [|by apply decode_tdc_block_evolves].
  apply evolves_bind; [|intros; by apply decode_tdc_block_evolves].
  apply decode_tdc_block_evolves.
  pose proof (evolves_tdc _ _ H) as (Hl & Hrows & Hch)%tdc_okb_iff.
  pose proof (u8_bounds (Z.land (val (b blocks)) 69905)).
  assert (tdc_okb {| tdc_data := tdc_data (tdc (w_rds w));
                     tdc_curr_channel := u8 (Z.land (val (b blocks)) 69905) |}
          = true) by (apply tdc_okb_iff; simpl; split_and!; (done || lia)).
  ev.
Qed.

Lemma decode_group_type_6_evolves decoder gt blocks rds0 w :
  evolves rds0 (w_rds w) →
  wp (decode_group_type_6 decoder gt blocks w)
    (λ w', evolves rds0 (w_rds w')).
Proof.
  intros H. unfold decode_group_type_6. apply wp_bind.
  eapply wp_mono; [by eapply IsGroupTypeUsedByODA_wp|]. simpl. intros used _.
  destruct used; [by apply decode_oda_evolves|].
  by apply on_rds_evolves, count_packet_evolves.
Qed.

Lemma decode_group_type_7_evolves decoder gt blocks rds0 w :
  evolves rds0 (w_rds w) →
  wp (decode_group_type_7 decoder gt blocks w)
    (λ w', evolves rds0 (w_rds w')).
Proof.
  intros H. unfold decode_group_type_7.
  case_match; [|by apply decode_oda_evolves]. apply wp_bind.
  eapply wp_mono; [by eapply IsGroupTypeUsedByODA_wp|]. simpl. intros used _.
  destruct used; [by apply decode_oda_evolves|].
  by apply on_rds_evolves, count_packet_evolves.
Qed.

Lemma decode_group_type_8_evolves decoder gt blocks rds0 w :
  evolves rds0 (w_rds w) →
  wp (decode_group_type_8 decoder gt blocks w)
    (λ w', evolves rds0 (w_rds w')).
Proof.
  intros H. unfold decode_group_type_8. apply wp_bind.
  eapply wp_mono; [by eapply IsGroupTypeUsedByODA_wp|]. simpl. intros used _.
  destruct used; [by apply decode_oda_evolves|].
  case_match; [|done]. by apply on_rds_evolves, count_packet_evolves.
Qed.

Lemma decode_ews_evolves blocks rds0 rds :
  evolves rds0 rds → wp (decode_ews blocks rds) (evolves rds0).
Proof.
  intros H. unfold decode_ews.
  apply evolves_bind; [by apply count_packet_evolves|].
  intros rds1 H1. simpl. ev.
Qed.

Lemma decode_group_type_9_evolves decoder gt blocks rds0 w :
  evolves rds0 (w_rds w) →
  wp (decode_group_type_9 decoder gt blocks w)
    (λ w', evolves rds0 (w_rds w')).
Proof.
  intros H. unfold decode_group_type_9. apply wp_bind.
  eapply wp_mono; [by eapply IsGroupTypeUsedByODA_wp|]. simpl. intros used _.
  destruct used; [by apply decode_oda_evolves|].
  case_match; [|done]. by apply on_rds_evolves, decode_ews_evolves.
Qed.

Lemma update_ptyn_wp rds idx ch :
  ptyn_okb (ptyn rds) = true → 0 ≤ idx →
  wp (update_ptyn rds idx ch)
    (λ rds', ptyn_footprint rds rds' ∧ (8 ≤ idx → rds' = rds)).
Proof.
  intros Hok Hidx. pose proof Hok as Hl%ptyn_okb_iff.
  unfold update_ptyn, PTYN_LEN.
  destruct (Z.leb_spec 8 idx); simpl.
  { split; [|done]. split; [by destruct rds|done]. }
  apply wp_bind, aset_wp; [lia|]. simpl. split; [|lia].
  split; [reflexivity|]. apply ptyn_okb_iff. simpl. by rewrite length_insert.
Qed.

Lemma update_ptyn_evolves rds0 rds idx ch :
  evolves rds0 rds → 0 ≤ idx → wp (update_ptyn rds idx ch) (evolves rds0).
Proof.
  intros H Hidx.
  assert (ptyn_okb (ptyn rds) = true) as Hp
    by (destruct H as [H%rds_data_ok_iff _]; tauto).
  eapply wp_mono; [by apply update_ptyn_wp|]. simpl.
  intros rds' [[-> Hok'] _]. ev.
Qed.

Lemma decode_ptyn_evolves blocks rds0 rds :
  evolves rds0 rds → wp (decode_ptyn blocks rds) (evolves rds0).
Proof.
  intros H. unfold decode_ptyn.
  apply evolves_bind; [apply count_packet_evolves; [ev|done]|].
  intros rds1 H1.
  match goal with |- context [update_ptyn ?r _ _] => set (rds2 := r) end.
  assert (evolves rds0 rds2) as H2.
  { subst rds2. assert (ptyn_okb (ptyn rds1) = true) as Hp%ptyn_okb_iff
      by (destruct H1 as [H1%rds_data_ok_iff _]; tauto).
    case_match; [|done].
    assert (ptyn_okb {| ptyn_display := memset0 (ptyn_display (ptyn rds1));
                        ptyn_last_ab :=
                          to_bool (Z.land (val (b blocks)) B_PTYN_AB_FLAG) |}
            = true)
      by (apply ptyn_okb_iff; simpl; unfold memset0;
          by rewrite length_replicate).
    ev. }
  clearbody rds2. apply evolves_bind.
  { case_match; [|done].
    apply evolves_bind; [apply update_ptyn_evolves; [done|apply u8_bounds]|].
    intros rds3 H3. apply update_ptyn_evolves; [done|apply u8_bounds]. }
  intros rds3 H3. case_match; [|done].
  apply evolves_bind; [apply update_ptyn_evolves; [done|apply u8_bounds]|].
  intros rds4 H4. apply update_ptyn_evolves; [done|apply u8_bounds].
Qed.

Lemma decode_group_type_10_evolves decoder gt blocks rds0 w :
  evolves rds0 (w_rds w) →
  wp (decode_group_type_10 decoder gt blocks w)
    (λ w', evolves rds0 (w_rds w')).
Proof.
  intros H. unfold decode_group_type_10.
  case_match; [|by apply decode_oda_evolves].
  by apply on_rds_evolves, decode_ptyn_evolves.
Qed.

Lemma evolves_eon rds0 rds :
  evolves rds0 rds →
  Z.of_nat (length (on_ps (eon_on (eon rds)))) = 8 ∧
  decode_table_okb (on_af (eon_on (eon rds))) = true.
Proof. intros [H%rds_data_ok_iff _]. apply eon_okb_iff. tauto. Qed.

(** Replacing the EON record by one whose frequency table has grown. *)
Lemma evolves_set_eon_on rds0 rds o :
  evolves rds0 rds → Z.of_nat (length (on_ps o)) = 8 →
  table_step (on_af (eon_on (eon rds))) (on_af o) →
  evolves rds0 (set_eon (set_eon_on o (eon rds)) rds).
Proof.
  intros H Hps [Hok Hgrow]. eapply evolves_trans; [done|].
  pose proof (evolves_ok _ _ H) as Hok0. split; [|split].
  - apply rds_data_ok_iff. apply rds_data_ok_iff in Hok0. simpl.
    assert (eon_okb (set_eon_on o (eon rds)) = true)
      by (by apply eon_okb_iff). tauto.
  - simpl. apply group_grows_refl.
  - done.
Qed.

Lemma eon_ps_pair_wp i blocks o :
  Z.of_nat (length (on_ps o)) = 8 → 0 ≤ i ≤ 6 →
  wp (eon_ps_pair i blocks o)
    (λ o', Z.of_nat (length (on_ps o')) = 8 ∧ on_af o' = on_af o).
Proof.
  intros Hl Hi. unfold eon_ps_pair.
  apply wp_bind, aset_wp; [lia|]. apply wp_bind, aset_wp;
    [rewrite length_insert; lia|]. simpl. by rewrite !length_insert.
Qed.

Lemma decode_eon_block_a_evolves blocks rds0 rds :
  evolves rds0 rds → wp (decode_eon_block_a rds blocks) (evolves rds0).
Proof.
  intros H. pose proof (evolves_eon _ _ H) as [Hl Hok].
  unfold decode_eon_block_a. apply wp_bind.
  match goal with |- wp ?m _ =>
    assert (wp m (λ o, Z.of_nat (length (on_ps o)) = 8 ∧
                       table_step (on_af (eon_on (eon rds))) (on_af o)))
      as Hm end.
  { pose proof (table_step_same _ _ Hok eq_refl eq_refl) as Hrefl.
    repeat (case_match;
      [eapply wp_mono; [apply eon_ps_pair_wp; [done|lia]|];
       simpl; by intros o [? ->]|]).
    case_match.
    { case_match; apply wp_bind.
      - eapply wp_mono; [by apply decode_freq_table_start_block_wp|]. simpl.
        intros t [Ht1 Ht2]. split; [done|]. by split.
      - eapply wp_mono; [by apply decode_freq_table_nth_block_wp|]. by simpl. }
    case_match; simpl; done. }
  eapply wp_mono; [exact Hm|]. simpl. intros o [Ho1 Ho2].
  by apply evolves_set_eon_on.
Qed.

Lemma decode_group_type_14_evolves decoder gt blocks rds0 rds :
  evolves rds0 rds →
  wp (decode_group_type_14 decoder gt blocks rds) (evolves rds0).
Proof.
  intros H. unfold decode_group_type_14.
  apply evolves_bind; [by apply count_packet_evolves|]. intros rds1 H1.
  case_match; [apply decode_eon_block_a_evolves; ev|].
  simpl. pose proof (evolves_eon _ _ H1) as [Hl Hok].
  apply (evolves_set_eon_on rds0 (SET_BITS RDS_EON rds1)); [ev| |].
  - by case_match.
  - apply table_step_same; [done|by case_match..].
Qed.

Lemma decode_group_type_15_evolves decoder gt blocks rds0 rds :
  evolves rds0 rds →
  wp (decode_group_type_15 decoder gt blocks rds) (evolves rds0).
Proof.
  intros H. unfold decode_group_type_15. apply evolves_bind.
  { case_match; [done|]. unfold decode_fast_basic_tuning.
    apply evolves_bind; [by apply count_packet_evolves|].
    intros rds1 H1. by case_match. }
  intros rds1 H1. by apply decode_ta_evolves.
Qed.

Lemma dispatch_evolves decoder gt blocks rds0 w :
  evolves rds0 (w_rds w) →
  wp (dispatch decoder gt blocks w) (λ w', evolves rds0 (w_rds w')).
Proof.
  intros H. unfold dispatch.
  repeat case_match; try done;
    first [ apply on_rds_evolves;
            first [ by apply decode_group_type_0_evolves
                  | by apply decode_group_type_1_evolves
                  | by apply decode_group_type_2_evolves
                  | by apply decode_group_type_14_evolves
                  | by apply decode_group_type_15_evolves ]
          | by apply decode_group_type_3_evolves
          | by apply decode_group_type_4_evolves
          | by apply decode_group_type_5_evolves
          | by apply decode_group_type_6_evolves
          | by apply decode_group_type_7_evolves
          | by apply decode_group_type_8_evolves
          | by apply decode_group_type_9_evolves
          | by apply decode_group_type_10_evolves
          | by apply decode_oda_evolves ].
Qed.

(** Every group takes a state of the data model to a state of the data
    model in which the frequency tables have only grown. *)
Lemma rds_decoder_decode_evolves decoder g w :
  rds_data_ok (w_rds w) →
  wp (rds_decoder_decode decoder g w) (λ w', evolves (w_rds w) (w_rds w')).
Proof.
  intros Hok. pose proof (rds_data_ok_stats _ Hok) as Hst.
  destruct (Z.leb_spec (errors (b g)) BLERB_MAX) as [Hb|Hb].
  - destruct (decode_accepted decoder g w Hst Hb) as (rds1 & H1 & ->).
    apply dispatch_evolves. simpl. split; [by eapply header_only_ok|].
    destruct (header_only_fields _ _ H1)
      as (_ & _ & _ & _ & _ & _ & _ & _ & -> & -> & _).
    split; [apply group_grows_refl|apply table_grows_refl].
  - destruct (decode_dropped decoder g w Hst Hb) as (rds1 & H1 & ->).
    simpl. split; [by eapply header_only_ok|].
    destruct (header_only_fields _ _ H1)
      as (_ & _ & _ & _ & _ & _ & _ & _ & -> & -> & _).
    split; [apply group_grows_refl|apply table_grows_refl].
Qed.

Lemma decode_all_evolves decoder groups w :
  rds_data_ok (w_rds w) →
  wp (decode_all decoder groups w) (λ w', evolves (w_rds w) (w_rds w')).
Proof.
  revert w. induction groups as [|g groups IH]; intros w Hok; simpl.
  { by apply evolves_refl. }
  apply wp_bind. eapply wp_mono; [by apply rds_decoder_decode_evolves|].
  simpl. intros w1 H1. eapply wp_mono; [apply IH, H1|]. simpl.
  intros w2 H2. by eapply evolves_trans.
Qed.

(** ** C8: the frequency tables only grow *)

Lemma table_grows_NoDup t t' :
  table_grows t t' →
  NoDup (freq_key <$> active t) → NoDup (freq_key <$> active t').
Proof.
  intros (_ & ext & -> & Hnd & Hfresh) Ht. rewrite fmap_app.
  apply list.NoDup_app. split; [done|]. split; [|done].
  intros k Hk Hk'. apply list_elem_of_fmap in Hk' as (f & -> & Hf).
  by apply (Hfresh f).
Qed.

Lemma table_grown_intro t t' :
  af_table_okb t' = true → table_grows t t' → table_grown t t'.
Proof.
  intros [_ Hc]%af_table_okb_iff Hg. split; [|split; [done|]].
  - destruct Hg as [Hle _]. unfold AF_TABLE_ENTRIES. lia.
  - by apply table_grows_NoDup.
Qed.

(** C8.  From every state of the data model and for every sequence of
    groups, decoding the sequence succeeds and ends in a state of the data
    model in which: the AF group's count has not decreased and is at most
    20; every AF table of the group, and the EON table, has a count that has
    not decreased and is at most 25, and has only been extended by
    frequencies that were not in it (so no frequency is inserted twice). *)
Theorem af_tables_only_grow (decoder : rds_decoder)
  (groups : list rds_blocks) (w : world) :
  rds_data_ok (w_rds w) →
  ∃ w', decode_all decoder groups w = Some w' ∧
    rds_data_ok (w_rds w') ∧
    g_count (af (w_rds w)) ≤ g_count (af (w_rds w')) ≤ AF_GROUP_TABLES ∧
    Forall2 (λ t t', table_grown (table t) (table t'))
      (g_table (af (w_rds w))) (g_table (af (w_rds w'))) ∧
    table_grown (table (on_af (eon_on (eon (w_rds w)))))
                (table (on_af (eon_on (eon (w_rds w'))))).
Proof.
  intros Hok.
  destruct (wp_elim _ _ (decode_all_evolves decoder groups w Hok))
    as (w' & Hw' & Hok' & [Hc Htabs] & Heon).
  exists w'. split; [done|]. split; [done|].
  pose proof (proj1 (rds_data_ok_iff _) Hok')
    as (_ & _ & _ & _ & Haf & Heo & _).
  apply af_group_okb_iff in Haf as (Hl & Hcnt & _ & Hall).
  apply eon_okb_iff in Heo as [_ Heo].
  split; [unfold AF_GROUP_TABLES; lia|]. split.
  - apply Forall2_same_length_lookup.
    apply Forall2_same_length_lookup in Htabs as [Hlen Hlk].
    split; [done|]. intros i t t' Ht Ht'.
    apply table_grown_intro; [|by eapply Hlk].
    by eapply Forall_lookup in Hall.
  - by apply table_grown_intro.
Qed.

Lemma af_tables_only_grow_witness :
  ∃ w', decode_all sample_decoder af_sample_groups fresh_world = Some w' ∧
        g_count (af (w_rds fresh_world)) ≤ g_count (af (w_rds w'))
        ≤ AF_GROUP_TABLES.
Proof.
  destruct (af_tables_only_grow sample_decoder af_sample_groups fresh_world)
    as (w' & Hw' & _ & H & _); [reflexivity|].
  exists w'. split; [exact Hw' | exact H].
Defined.

(** ** C10: decoding is total and stays within the arrays *)

(** C10.  In the embedding every array access is checked, so a function
    that returns [Some] made no access out of range.  On every state of the
    data model: the PS and PTYN character updates succeed for every index a
    [uint8_t] can hold and leave the state untouched when the index is 8 or
    more; the TDC append succeeds and leaves the state untouched when the
    current channel is 32 or more; and decoding any group succeeds and ends
    in a state of the data model. *)
Theorem decode_total_in_bounds (decoder : rds_decoder) (g : rds_blocks)
  (w : world) (rds : rds_data) (char_idx byte : Z) (block : rds_block) :
  rds_data_ok (w_rds w) → rds_data_ok rds → 0 ≤ char_idx →
  (∃ rds', update_ps_simple rds char_idx byte = Some rds' ∧
           rds_data_ok rds' ∧ (PS_LEN ≤ char_idx → rds' = rds)) ∧
  (∃ rds', update_ps_advanced rds char_idx byte = Some rds' ∧
           rds_data_ok rds' ∧ (PS_LEN ≤ char_idx → rds' = rds)) ∧
  (∃ rds', update_ptyn rds char_idx byte = Some rds' ∧
           rds_data_ok rds' ∧ (PTYN_LEN ≤ char_idx → rds' = rds)) ∧
  (∃ rds', decode_tdc_block rds block = Some rds' ∧
           rds_data_ok rds' ∧
           (NUM_TDC ≤ tdc_curr_channel (tdc rds) → rds' = rds)) ∧
  (∃ w', rds_decoder_decode decoder g w = Some w' ∧ rds_data_ok (w_rds w')).
Proof.
  intros Hw Hrds Hidx. pose proof (evolves_refl _ Hrds) as Hev.
  split_and!.
  - destruct (wp_elim _ _ (update_ps_simple_wp rds char_idx byte
                             (evolves_ps _ _ Hev) Hidx))
      as (rds' & -> & Hf & Hskip).
    exists rds'. split; [done|]. split; [|done].
    by eapply evolves_ok, ps_footprint_evolves.
  - destruct (wp_elim _ _ (update_ps_advanced_wp rds char_idx byte
                             (evolves_ps _ _ Hev) Hidx))
      as (rds' & -> & Hf & Hskip).
    exists rds'. split; [done|]. split; [|done].
    by eapply evolves_ok, ps_footprint_evolves.
  - destruct (wp_elim _ _ (update_ptyn_evolves rds rds char_idx byte Hev Hidx))
      as (rds' & Heq & Hev').
    assert (ptyn_okb (ptyn rds) = true) as Hp
      by (apply rds_data_ok_iff in Hrds; tauto).
    destruct (wp_elim _ _ (update_ptyn_wp rds char_idx byte Hp Hidx))
      as (rds'' & Heq' & _ & Hskip).
    exists rds'. split; [done|]. split; [by eapply evolves_ok|].
    by replace rds' with rds'' by congruence.
  - destruct (wp_elim _ _ (decode_tdc_block_wp rds block
                             (evolves_tdc _ _ Hev) (evolves_stats _ _ Hev)))
      as (rds' & -> & Hf & Hskip).
    exists rds'. split; [done|]. split; [|done].
    by eapply evolves_ok, tdc_footprint_evolves.
  - destruct (wp_elim _ _ (rds_decoder_decode_evolves decoder g w Hw))
      as (w' & -> & Hev').
    exists w'. split; [done|]. by eapply evolves_ok.
Qed.

Lemma decode_total_in_bounds_witness :
  ∃ w', rds_decoder_decode sample_decoder
          (mk_blocks 0xD943 0 0x0003 0 0 0 0x464D 0) fresh_world = Some w' ∧
        rds_data_ok (w_rds w').
Proof.
  exact (proj2 (proj2 (proj2 (proj2
    (decode_total_in_bounds sample_decoder
       (mk_blocks 0xD943 0 0x0003 0 0 0 0x464D 0) fresh_world
       (w_rds fresh_world) 9 65 {| val := 0x4142; errors := 0 |}
       eq_refl eq_refl ltac:(lia)))))).
Defined.

(** ** C5: TA and MS in group 0 *)

Lemma count_packet_frame k rds rds' :
  count_packet k rds = Some rds' → rds' = set_stats (stats rds') rds.
Proof.
  unfold count_packet. intros H.
  destruct (aget _ _) as [x|]; [|done]. simpl in H.
  destruct (aset _ _ _) as [cs|]; [|done]. simpl in H. by simplify_eq.
Qed.

(** [decode_alt_freq] writes the AF group, [valid_values] and the
    statistics only. *)
Lemma decode_alt_freq_frame rds blocks rds' :
  decode_alt_freq rds blocks = Some rds' →
  rds' = set_stats (stats rds')
           (set_valid_values (valid_values rds') (set_af (af rds') rds)).
Proof.
  unfold decode_alt_freq. case_match; [intros [= <-]; by destruct rds|].
  destruct (count_packet _ _) as [rds1|] eqn:H1; [|done]. simpl.
  destruct (decode_freq_group_block _ _) as [g|]; [|done]. simpl.
  intros [= <-]. apply count_packet_frame in H1. rewrite H1. simpl.
  by destruct rds.
Qed.

(** C5, counterexample.  A group 0A with TA and MS set in block B and block
    D in class 6+ leaves [ta_code] and [music] as they were. *)
Lemma group0_flags_claim_fails :
  ¬ group0_flags_claim sample_decoder (mk_blocks 0 0 0x0018 0 0 0 0 3)
      fresh_world.
Proof.
  intros H. destruct H as (w' & Hw' & Hta & _); [reflexivity|done|reflexivity|].
  vm_compute in Hw'. injection Hw' as <-. vm_compute in Hta. discriminate.
Qed.

Lemma decode_group_type_0_flags decoder gt blocks rds :
  rds_data_ok rds →
  ∃ rds', decode_group_type_0 decoder gt blocks rds = Some rds' ∧
    if errors (d blocks) <=? BLERD_MAX then
      ta_code rds' = Z.testbit (val (b blocks)) 4 ∧
      music rds' = Z.testbit (val (b blocks)) 3
    else
      ta_code rds' = ta_code rds ∧ music rds' = music rds ∧ ps rds' = ps rds.
Proof.
  intros Hok. pose proof (evolves_refl _ Hok) as Hev.
  unfold decode_group_type_0.
  assert (∃ rds1, (if Ascii.eqb (version gt) "A"
                   then decode_alt_freq rds blocks else Some rds) = Some rds1
                  ∧ evolves rds rds1
                  ∧ ta_code rds1 = ta_code rds ∧ music rds1 = music rds
                  ∧ ps rds1 = ps rds) as (rds1 & -> & Hev1 & Hta1 & Hm1 & Hps1).
  { destruct (Ascii.eqb (version gt) "A"); [|by exists rds].
    destruct (wp_elim _ _ (decode_alt_freq_evolves blocks rds rds Hev))
      as (rds1 & Heq & Hev1).
    exists rds1. split; [done|]. split; [done|].
    apply decode_alt_freq_frame in Heq. rewrite Heq. done. }
  simpl.
  destruct (Z.ltb_spec BLERD_MAX (errors (d blocks))) as [Hd|Hd];
    destruct (Z.leb_spec (errors (d blocks)) BLERD_MAX); try lia.
  { by exists rds1. }
  destruct (wp_elim _ _ (decode_ta_evolves (b blocks) rds rds1 Hev1))
    as (rds2 & Heq2 & Hev2).
  rewrite Heq2. simpl.
  destruct (wp_elim _ _ (decode_ms_evolves (b blocks) rds rds2 Hev2))
    as (rds3 & Heq3 & Hev3).
  rewrite Heq3. simpl.
  apply count_packet_frame in Heq2, Heq3.
  assert (ta_code rds3 = Z.testbit (val (b blocks)) 4 ∧
          music rds3 = Z.testbit (val (b blocks)) 3) as [Hta3 Hm3].
  { rewrite Heq3. simpl. rewrite Heq2. simpl.
    split; [apply (to_bool_land_bit _ 4) | apply (to_bool_land_bit _ 3)];
      done. }
  match goal with |- ∃ _, ?m ≫= _ = _ ∧ _ =>
    assert (∃ rds4, m = Some rds4 ∧ evolves rds rds4 ∧
                    ta_code rds4 = ta_code rds3 ∧ music rds4 = music rds3)
      as (rds4 & -> & Hev4 & Hta4 & Hm4) end.
  { set (i0 := u8 (_ + 0)). set (i1 := u8 (_ + 1)).
    pose proof (u8_bounds (u16 (Z.land (val (b blocks)) 3 * 2) + 0)) as Hi0.
    pose proof (u8_bounds (u16 (Z.land (val (b blocks)) 3 * 2) + 1)) as Hi1.
    fold i0 in Hi0. fold i1 in Hi1. clearbody i0 i1.
    destruct (advanced_ps_decoding decoder).
    - destruct (wp_elim _ _ (update_ps_advanced_wp rds3 i0
                  (u8 (val (d blocks) ≫ 8)) (evolves_ps _ _ Hev3)
                  ltac:(lia))) as (r1 & -> & Hf1 & _).
      simpl. pose proof (ps_footprint_evolves _ _ _ Hev3 Hf1) as He1.
      destruct (wp_elim _ _ (update_ps_advanced_wp r1 i1
                  (u8 (Z.land (val (d blocks)) 255)) (evolves_ps _ _ He1)
                  ltac:(lia))) as (r2 & -> & Hf2 & _).
      exists r2. split; [done|].
      pose proof (ps_footprint_trans _ _ _ Hf1 Hf2) as (p & v & -> & _).
      split; [|done]. eapply ps_footprint_evolves; [exact He1|done].
    - destruct (wp_elim _ _ (update_ps_simple_wp rds3 i0
                  (u8 (val (d blocks) ≫ 8)) (evolves_ps _ _ Hev3)
                  ltac:(lia))) as (r1 & -> & Hf1 & _).
      simpl. pose proof (ps_footprint_evolves _ _ _ Hev3 Hf1) as He1.
      destruct (wp_elim _ _ (update_ps_simple_wp r1 i1
                  (u8 (Z.land (val (d blocks)) 255)) (evolves_ps _ _ He1)
                  ltac:(lia))) as (r2 & -> & Hf2 & _).
      exists r2. split; [done|].
      pose proof (ps_footprint_trans _ _ _ Hf1 Hf2) as (p & v & -> & _).
      split; [|done]. eapply ps_footprint_evolves; [exact He1|done]. }
  simpl.
  destruct (wp_elim _ _ (count_packet_evolves PKTCNT_PS rds rds4 Hev4
                           ltac:(done))) as (rds5 & Heq5 & _).
  exists rds5. split; [done|].
  apply count_packet_frame in Heq5. rewrite Heq5. simpl.
  by rewrite Hta4, Hm4.
Qed.

(** C5, as the code has it.  For every accepted group of type 0 (version A
    or B): when block D is within its threshold, [ta_code] is bit 4 and
    [music] is bit 3 of block B; when block D is over its threshold,
    [ta_code], [music] and the PS buffers are all left unchanged. *)
Theorem group0_flags (decoder : rds_decoder) (g : rds_blocks) (w : world) :
  rds_data_ok (w_rds w) →
  code (group_type_of (val (b g))) = 0 → errors (b g) ≤ BLERB_MAX →
  ∃ w', rds_decoder_decode decoder g w = Some w' ∧
    if errors (d g) <=? BLERD_MAX then
      ta_code (w_rds w') = Z.testbit (val (b g)) 4 ∧
      music (w_rds w') = Z.testbit (val (b g)) 3
    else
      ta_code (w_rds w') = ta_code (w_rds w) ∧
      music (w_rds w') = music (w_rds w) ∧
      ps (w_rds w') = ps (w_rds w).
Proof.
  intros Hok Hcode Hb. pose proof (rds_data_ok_stats _ Hok) as Hst.
  destruct (decode_accepted decoder g w Hst Hb) as (rds1 & H1 & ->).
  unfold dispatch. rewrite Hcode. unfold on_rds. simpl.
  destruct (decode_group_type_0_flags decoder (group_type_of (val (b g))) g
              rds1 (header_only_ok _ _ Hok H1)) as (rds' & -> & H').
  simpl. eexists; split; [done|]. simpl.
  destruct (header_only_fields _ _ H1)
    as (_ & <- & <- & <- & _). done.
Qed.

Lemma group0_flags_witness :
  ∃ w', rds_decoder_decode sample_decoder (mk_blocks 0 0 0x0018 0 0 0 0 0)
          fresh_world = Some w' ∧
        ta_code (w_rds w') = true ∧ music (w_rds w') = true.
Proof.
  destruct (group0_flags sample_decoder (mk_blocks 0 0 0x0018 0 0 0 0 0)
              fresh_world) as (w' & Hw' & H);
    [reflexivity | reflexivity | done |].
  exists w'. split; [exact Hw' | exact H].
Defined.

(** ** C6: the TDC channel of group 5A *)

(** The mask [0x11111] of [decode_group_type_5], once the result is stored
    in the [uint8_t] channel, keeps bits 0 and 4 of block B only. *)
Lemma tdc_channel_mask bv : u8 (Z.land bv 0x11111) = Z.land bv 0x11.
Proof.
  unfold u8. change 256 with (2 ^ 8).
  rewrite <-Z.land_ones by done. by rewrite <-Z.land_assoc.
Qed.

(** C6, at the failing input.  A group 5A with [B = 0x5002], no ODA bound:
    [B & 0x1F] is 2, but decode sets the current channel to 0 and appends
    the bytes of blocks C and D to the buffer of channel 0; the buffer of
    channel 2 stays empty. *)
Theorem tdc_channel_of_5002 :
  ∃ w', rds_decoder_decode sample_decoder
          (mk_blocks 0 0 0x5002 0 0x1234 0 0x5678 0) fresh_world = Some w' ∧
        Z.land 0x5002 0x1F = 2 ∧
        tdc_curr_channel (tdc (w_rds w')) = 0 ∧
        drop 28 <$> tdc_data (tdc (w_rds w')) !! 0%nat
          = Some [0x12; 0x34; 0x56; 0x78] ∧
        tdc_data (tdc (w_rds w')) !! 2%nat = Some (replicate 32 0).
Proof. eexists. split; [vm_compute; reflexivity|]. by vm_compute. Qed.

(** ** C7: ODA announcements in group 3A *)

Lemma decode_group_type_3A_spec decoder gt blocks w :
  rds_data_ok (w_rds w) → version gt = "A"%char →
  errors (d blocks) = BLER_NONE → val (d blocks) ≠ 0 →
  ∃ w', decode_group_type_3 decoder gt blocks w = Some w' ∧
    let rds := w_rds w in
    let rds' := w_rds w' in
    let n := oda_cnt rds in
    let aid := val (d blocks) in
    let none_below (k : Z) :=
      ∀ j e, 0 ≤ j < k → oda rds !! Z.to_nat j = Some e → oda_id e ≠ aid in
    (∃ i e, oda rds !! Z.to_nat i = Some e ∧
            oda rds' = <[Z.to_nat i :=
                          {| oda_id := aid;
                             oda_gt := announced_gt (val (b blocks));
                             oda_pkt_count := oda_pkt_count e |}]> (oda rds) ∧
            none_below i ∧
            ((0 ≤ i < n ∧ oda_id e = aid ∧ oda_cnt rds' = n) ∨
             (i = n ∧ n < ODA_LEN ∧ oda_cnt rds' = n + 1)))
    ∨ (n = ODA_LEN ∧ none_below n ∧ oda rds' = oda rds ∧ oda_cnt rds' = n).
Proof.
  intros Hok Hv Hd Haid. unfold decode_group_type_3, on_rds.
  rewrite Hv. simpl. rewrite Hd. simpl.
  unfold IsValidODAAppId. destruct (Z.eqb_spec (val (d blocks)) 0); [done|].
  simpl.
  pose proof (evolves_oda _ _ (evolves_refl _ Hok)) as [Hl Hc].
  destruct (wp_elim _ _ (oda_rebind_loop_wp (Z.to_nat (oda_cnt (w_rds w))) 0
              (val (d blocks)) (announced_gt (val (b blocks)))
              (oda (w_rds w)) ltac:(done) ltac:(lia) ltac:(lia)))
    as ([idx odas] & -> & Hr).
  simpl in Hr. simpl.
  destruct Hr as [(-> & -> & Hnone)|(Hidx & e & He & Hid & -> & Hnone)].
  - replace (0 + Z.of_nat (Z.to_nat (oda_cnt (w_rds w))))
      with (oda_cnt (w_rds w)) in * by lia.
    rewrite Z.eqb_refl. simpl.
    destruct (Z.ltb_spec (oda_cnt (w_rds w)) ODA_LEN) as [Hlt|Hge]; simpl.
    + unfold ODA_LEN in Hlt.
      destruct (wp_elim _ _ (aget_wp (oda (w_rds w)) (oda_cnt (w_rds w))
                  (λ e, oda (w_rds w) !! Z.to_nat (oda_cnt (w_rds w)) = Some e)
                  ltac:(lia) (λ _ H, H))) as (e & -> & He).
      simpl.
      destruct (wp_elim _ _ (aset_wp (oda (w_rds w)) (oda_cnt (w_rds w))
                  (set_oda_gt (announced_gt (val (b blocks)))
                     (set_oda_id (val (d blocks)) e))
                  (λ l, l = <[Z.to_nat (oda_cnt (w_rds w)) :=
                               set_oda_gt (announced_gt (val (b blocks)))
                                 (set_oda_id (val (d blocks)) e)]>
                            (oda (w_rds w)))
                  ltac:(lia) eq_refl)) as (l & -> & ->).
      simpl. eexists; split; [done|]. simpl. left.
      exists (oda_cnt (w_rds w)), e. split_and!; try done.
      right. split_and!; try done. rewrite u8_small; lia.
    + eexists; split; [done|]. simpl. right. unfold ODA_LEN in *.
      split_and!; (done || lia).
  - destruct (Z.eqb_spec idx (oda_cnt (w_rds w))); [lia|]. simpl.
    eexists; split; [done|]. simpl. left. exists idx, e.
    split_and!; try done.
    + by rewrite <-Hid.
    + left. split_and!; (done || lia).
Qed.

(** The announced group type, bit by bit: the code is bits 4 to 1 of block B
    and the version is 'B' exactly when bit 0 is set. *)
Lemma announced_gt_bits bv :
  announced_gt bv =
    {| code := Z.shiftr (Z.land bv 0x1E) 1;
       version := if Z.testbit bv 0 then "B"%char else "A"%char |}.
Proof.
  unfold announced_gt. f_equal.
  - apply u8_small.
    pose proof (field_bounds bv 0x1E 1 4 ltac:(lia) eq_refl) as H.
    change (2 ^ 4) with 16 in H. lia.
  - by rewrite <-(to_bool_land_bit bv 0) by lia.
Qed.

(** C7.  For every group 3A with block D in class NONE and a nonzero
    application ID: decode succeeds and [oda_cnt] grows by 0 or 1.  When the
    group is accepted (block B within threshold), either one entry [i] of
    the table is written, with [id] the application ID, group type
    [{(B & 0b11110) >> 1, 'B' if B bit 0 else 'A'}] and its packet count
    kept, where [i] is the first entry below [oda_cnt] that already has the
    ID ([oda_cnt] unchanged), or, when there is none and [oda_cnt < 10],
    [i = oda_cnt] ([oda_cnt] incremented); or the table is full, no entry
    has the ID, and nothing changes.  When the group is dropped for block B
    the table is unchanged. *)
Theorem oda_announce_3A (decoder : rds_decoder) (g : rds_blocks) (w : world) :
  rds_data_ok (w_rds w) → is_group 3 "A" g →
  errors (d g) = BLER_NONE → val (d g) ≠ 0 →
  ∃ w', rds_decoder_decode decoder g w = Some w' ∧
    let rds := w_rds w in
    let rds' := w_rds w' in
    let n := oda_cnt rds in
    let aid := val (d g) in
    let none_below (k : Z) :=
      ∀ j e, 0 ≤ j < k → oda rds !! Z.to_nat j = Some e → oda_id e ≠ aid in
    (oda_cnt rds' = n ∨ oda_cnt rds' = n + 1) ∧
    if errors (b g) <=? BLERB_MAX then
      (∃ i e, oda rds !! Z.to_nat i = Some e ∧
              oda rds' = <[Z.to_nat i :=
                            {| oda_id := aid;
                               oda_gt :=
                                 {| code :=
                                      Z.shiftr (Z.land (val (b g)) 0x1E) 1;
                                    version :=
                                      if Z.testbit (val (b g)) 0
                                      then "B"%char else "A"%char |};
                               oda_pkt_count := oda_pkt_count e |}]> (oda rds) ∧
              none_below i ∧
              ((0 ≤ i < n ∧ oda_id e = aid ∧ oda_cnt rds' = n) ∨
               (i = n ∧ n < ODA_LEN ∧ oda_cnt rds' = n + 1)))
      ∨ (n = ODA_LEN ∧ none_below n ∧ oda rds' = oda rds ∧ oda_cnt rds' = n)
    else oda rds' = oda rds ∧ oda_cnt rds' = n.
Proof.
  intros Hok Hg Hd Haid. pose proof (rds_data_ok_stats _ Hok) as Hst.
  destruct (Z.leb_spec (errors (b g)) BLERB_MAX) as [Hb|Hb].
  - destruct (decode_accepted decoder g w Hst Hb) as (rds1 & H1 & ->).
    rewrite Hg. unfold dispatch. simpl.
    destruct (decode_group_type_3A_spec decoder {| code := 3; version := "A" |}
                g {| w_rds := rds1; w_calls := w_calls w |}
                (header_only_ok _ _ Hok H1) eq_refl Hd Haid)
      as (w' & -> & H').
    exists w'. split; [done|]. simpl in *.
    destruct (header_only_fields _ _ H1)
      as (_ & _ & _ & _ & _ & _ & _ & _ & _ & _ & Hcnt & Hoda & _).
    rewrite Hcnt, Hoda, announced_gt_bits in H'. split; [|done].
    destruct H' as [(i & e & _ & _ & _ & [(_ & _ & ->)|(_ & _ & ->)])
                   |(_ & _ & _ & ->)]; auto.
  - destruct (decode_dropped decoder g w Hst Hb) as (rds1 & H1 & ->).
    eexists; split; [done|]. simpl.
    destruct (header_only_fields _ _ H1)
      as (_ & _ & _ & _ & _ & _ & _ & _ & _ & _ & -> & -> & _). auto.
Qed.

Lemma oda_announce_3A_witness :
  ∃ w', rds_decoder_decode sample_decoder
          (mk_blocks 0 0 0x3016 0 0 0 0x4BD7 0) fresh_world = Some w' ∧
        oda_cnt (w_rds w') = 1 ∧
        oda (w_rds w') !! 0%nat =
          Some {| oda_id := 0x4BD7;
                  oda_gt := {| code := 11; version := "A" |};
                  oda_pkt_count := 0 |}.
Proof.
  destruct (oda_announce_3A sample_decoder
              (mk_blocks 0 0 0x3016 0 0 0 0x4BD7 0) fresh_world)
    as (w' & Hw' & _ & H); [reflexivity | reflexivity | reflexivity | done |].
  exists w'. split; [exact Hw'|].
  change (errors (b (mk_blocks 0 0 0x3016 0 0 0 0x4BD7 0)) <=? BLERB_MAX)
    with true in H. cbv iota in H.
  destruct H as [(i & e & He & Ho & _ & [(Hi & _)|(Hi & _ & Hn)])
                |(Hfull & _)].
  - exfalso. change (oda_cnt (w_rds fresh_world)) with 0 in Hi. lia.
  - change (oda_cnt (w_rds fresh_world)) with 0 in Hi, Hn. subst i.
    split; [exact Hn|]. rewrite Ho.
    change (oda (w_rds fresh_world) !! Z.to_nat 0) with
      (Some {| oda_id := 0; oda_gt := {| code := 0; version := zero |};
               oda_pkt_count := 0 |}) in He.
    injection He as <-. reflexivity.
  - exfalso. change (oda_cnt (w_rds fresh_world)) with 0 in Hfull.
    discriminate Hfull.
Defined.

(** ** C4: regional variants under encoding method B *)

Lemma method_B_pair_5_1 : method_B_pair tuned_876 5 1.
Proof. by vm_compute. Qed.

Lemma can_append_5_1 :
  can_append (table tuned_876) (pair_other tuned_876 5 1).
Proof.
  split; [done|]. vm_compute. intros H. by apply elem_of_nil in H.
Qed.

(** C4, counterexample.  Tuned to 87.6 MHz, the pair (88.0, 87.6) has the
    anchor second and lower; the code appends 88.0 as [SAME_PROG]. *)
Lemma method_B_attrib_claim_fails : ¬ method_B_attrib_claim tuned_876 5 1.
Proof.
  intros H.
  destruct (H eq_refl method_B_pair_5_1 can_append_5_1) as (t' & Ht' & Hact).
  vm_compute in Ht'. injection Ht' as <-. vm_compute in Hact. discriminate.
Qed.

Lemma handle_freq_code_freq t c :
  freq_code_is_freq c = true → handle_freq_code t c = (false, t).
Proof.
  intros Hc. unfold handle_freq_code. rewrite Hc. simpl.
  unfold freq_code_is_freq, AF_MIN_FREQ_CODE, AF_MAX_FREQ_CODE in Hc.
  apply andb_true_iff in Hc as [H1%Z.leb_le H2%Z.leb_le].
  unfold AF_FILLER_CODE, AF_LF_MF_FOLLOWS.
  destruct (Z.eqb_spec c 205); [lia|]. by destruct (Z.eqb_spec c 250); [lia|].
Qed.

Lemma find_af_freq_idx_from_fresh (n : nat) (i : Z) t f :
  0 ≤ i → i + Z.of_nat n ≤ Z.of_nat (length (entry t)) →
  Z.of_nat (length (entry t)) ≤ 127 →
  (∀ j e, i ≤ j < i + Z.of_nat n → entry t !! Z.to_nat j = Some e →
          freq_eq e f = false) →
  find_af_freq_idx_from n i t f = Some (-1).
Proof.
  revert i. induction n as [|n IH]; intros i Hi Hn Hlen Hall; simpl; [done|].
  destruct (wp_elim _ _ (aget_wp (entry t) i
              (λ e, entry t !! Z.to_nat i = Some e) ltac:(lia) (λ _ H, H)))
    as (e & -> & He).
  simpl. rewrite (Hall i e) by (done || lia).
  rewrite u8_small by lia. apply IH; try lia.
  intros j e' Hj. apply Hall. lia.
Qed.

(** Appending a fresh frequency to a table with room puts it right after
    the entries in use. *)
Lemma add_alt_freq_fresh t f :
  decode_table_okb t = true → can_append (table t) f →
  ∃ r, add_alt_freq t f = Some r ∧
       active (table r.2) = active (table t) ++ [f].
Proof.
  unfold decode_table_okb. intros Hok [Hroom Hfresh].
  pose proof Hok as [Hlen Hc]%af_table_okb_iff.
  unfold AF_TABLE_ENTRIES in Hroom.
  unfold add_alt_freq, insert_alt_freq. rewrite dec_af_expected_count_table.
  destruct (Z.leb_spec AF_TABLE_ENTRIES (count (table t)));
    [unfold AF_TABLE_ENTRIES in *; lia|].
  unfold freq_in_af_table, find_af_freq_idx.
  rewrite find_af_freq_idx_from_fresh; try lia.
  2:{ intros j e Hj He. destruct (freq_eq e f) eqn:Heq; [|done].
      exfalso. apply Hfresh. apply freq_eq_key in Heq. rewrite <-Heq.
      apply list_elem_of_fmap. exists e. split; [done|].
      apply list_elem_of_lookup. exists (Z.to_nat j).
      unfold active. rewrite lookup_take_lt by lia. done. }
  simpl.
  destruct (wp_elim _ _ (aset_wp (entry (table t)) (count (table t)) f
              (λ l, l = <[Z.to_nat (count (table t)) := f]> (entry (table t)))
              ltac:(lia) eq_refl)) as (l & -> & ->).
  simpl. eexists; split; [done|]. unfold active. simpl.
  rewrite u8_small by lia.
  replace (Z.to_nat (count (table t) + 1))
    with (S (Z.to_nat (count (table t)))) by lia.
  rewrite (take_S_r _ _ f); [by rewrite take_insert_ge by lia|].
  apply list_lookup_insert_eq. lia.
Qed.

(** C4, as the code has it.  For every Nth-block pair that method B
    processes (method committed, both bytes frequencies, exactly one of them
    the tuned frequency) and whose other frequency can be appended, that
    other frequency becomes the next entry, with attrib [REG_VARIANT]
    exactly when the first byte of the pair is the lower frequency and
    [SAME_PROG] otherwise - whether the anchor is the first byte or the
    second. *)
Theorem method_B_attrib (t : rds_af_decode_table) (first second : Z) :
  decode_table_okb t = true → method_B_pair t first second →
  can_append (table t) (pair_other t first second) →
  ∃ t', decode_freq_table_nth_block t first second = Some t' ∧
    active (table t') =
      active (table t) ++
        [set_attrib
           (if freq_lt (code_freq t first) (code_freq t second)
            then AF_ATTRIB_REG_VARIANT else AF_ATTRIB_SAME_PROG)
           (pair_other t first second)].
Proof.
  intros Hok (Hm & Hexp & Hf1 & Hf2 & Hone) Happ.
  unfold decode_freq_table_nth_block.
  destruct (Z.eqb_spec (pvt_expected_cnt t) 0); [done|].
  rewrite (handle_freq_code_freq t first Hf1).
  rewrite (handle_freq_code_freq t second Hf2).
  rewrite Hm. simpl. rewrite ?Hm. simpl.
  fold (code_freq t first). fold (code_freq t second).
  unfold pair_other in *.
  destruct (freq_eq (tuned_freq (table t)) (code_freq t first)) eqn:H1.
  - destruct (add_alt_freq_fresh (set_pvt_prev_enc_method AF_EM_B t)
                (if freq_lt (code_freq t first) (code_freq t second)
                 then set_attrib AF_ATTRIB_REG_VARIANT (code_freq t second)
                 else code_freq t second)) as (r & -> & Hr); [done| |].
    { by destruct (freq_lt _ _). }
    simpl. eexists; split; [done|]. rewrite Hr. simpl.
    by destruct (freq_lt _ _).
  - destruct (freq_eq (tuned_freq (table t)) (code_freq t second)) eqn:H2;
      [|done].
    destruct (add_alt_freq_fresh (set_pvt_prev_enc_method AF_EM_B t)
                (if freq_lt (code_freq t first) (code_freq t second)
                 then set_attrib AF_ATTRIB_REG_VARIANT (code_freq t first)
                 else code_freq t first)) as (r & -> & Hr); [done| |].
    { by destruct (freq_lt _ _). }
    simpl. eexists; split; [done|]. rewrite Hr. simpl.
    by destruct (freq_lt _ _).
Qed.

Lemma method_B_attrib_witness :
  ∃ t', decode_freq_table_nth_block tuned_876 5 1 = Some t' ∧
        active (table t') =
          [{| band := AF_BAND_UHF; attrib := AF_ATTRIB_SAME_PROG;
              freq := 880 |}].
Proof.
  destruct (method_B_attrib tuned_876 5 1 eq_refl method_B_pair_5_1
              can_append_5_1) as (t' & Ht' & H).
  exists t'. split; [exact Ht' | exact H].
Defined.

(** ** C2: what is latched from blocks over their thresholds *)

(** Bring two agreeing groups to components, and split on the two gates. *)
Ltac gated g g' H :=
  let Hb := fresh "Hb" in let Hce := fresh "Hce" in let Hde := fresh "Hde" in
  let Hcv := fresh "Hcv" in let Hdv := fresh "Hdv" in
  destruct g as [[av ae] [bv be] [cv ce] [dv de]];
  destruct g' as [[av' ae'] [bv' be'] [cv' ce'] [dv' de']];
  destruct H as (Hb & Hce & Hde & Hcv & Hdv); simpl in *;
  injection Hb as -> ->; subst ce' de';
  destruct (Z.leb_spec ce BLERC_MAX) as [Hc|Hc];
    [pose proof (Hcv Hc) as ->|]; clear Hcv;
  (destruct (Z.leb_spec de BLERD_MAX) as [Hd|Hd];
    [pose proof (Hdv Hd) as ->|]; clear Hdv).

Ltac resolve_gates :=
  repeat match goal with
  | H : ?m < ?e |- context [?m <? ?e] => rewrite (proj2 (Z.ltb_lt m e) H)
  | H : ?m < ?e |- context [?e <=? ?m] => rewrite (proj2 (Z.leb_gt e m) H)
  | H : BLERC_MAX < ?e |- context [?e =? BLER_NONE] =>
      rewrite (proj2 (Z.eqb_neq e BLER_NONE))
        by (unfold BLERC_MAX, BLER_3_5, BLER_NONE in *; lia)
  | H : BLERD_MAX < ?e |- context [?e =? BLER_NONE] =>
      rewrite (proj2 (Z.eqb_neq e BLER_NONE))
        by (unfold BLERD_MAX, BLER_3_5, BLER_NONE in *; lia)
  end.

Lemma decode_group_type_0_gated decoder gt g g' rds :
  gated_agree g g' →
  decode_group_type_0 decoder gt g' rds = decode_group_type_0 decoder gt g rds.
Proof.
  intros H. gated g g' H; try reflexivity;
    unfold decode_group_type_0, decode_alt_freq; simpl; resolve_gates;
    simpl; reflexivity.
Qed.

Lemma decode_group_type_1_gated decoder gt g g' rds :
  gated_agree g g' →
  decode_group_type_1 decoder gt g' rds = decode_group_type_1 decoder gt g rds.
Proof.
  intros H. gated g g' H; try reflexivity;
    unfold decode_group_type_1, decode_slow_labelling_codes; simpl;
    resolve_gates; simpl; reflexivity.
Qed.

Lemma rt_block_ok_ext g g' count i :
  errors (c g') = errors (c g) → errors (d g') = errors (d g) →
  rt_block_ok g' count i = rt_block_ok g count i.
Proof. unfold rt_block_ok. by intros -> ->. Qed.

Lemma update_rt_simple_loop_ext (n : nat) i g g' count addr chars display :
  errors (c g') = errors (c g) → errors (d g') = errors (d g) →
  update_rt_simple_loop n i g' count addr chars display
  = update_rt_simple_loop n i g count addr chars display.
Proof.
  intros Hc Hd. revert i display.
  induction n as [|n IH]; intros i display; [done|].
  change (update_rt_simple_loop (S n) i ?blocks count addr chars display)
    with (if rt_block_ok blocks count i then
            ch ← aget chars i;
            display ← aset display (addr + i) ch;
            if ch =? 0x0d then
              for_loop (Z.to_nat (RT_LEN - u8 (addr + i + 1)))
                (u8 (addr + i + 1)) (λ j display, aset display j 0) display
            else update_rt_simple_loop n (u8 (i + 1)) blocks count addr chars
                   display
          else update_rt_simple_loop n (u8 (i + 1)) blocks count addr chars
                 display).
  rewrite (rt_block_ok_ext g g') by done.
  destruct (rt_block_ok g count i); [|apply IH].
  destruct (aget chars i) as [ch|]; simpl; [|done].
  destruct (aset display (addr + i) ch); simpl; [|done].
  destruct (ch =? 13); [done|apply IH].
Qed.

Lemma for_loop_ext {S} (n : nat) lo (body body' : Z → S → option S) s :
  (∀ i s, body i s = body' i s) →
  for_loop n lo body s = for_loop n lo body' s.
Proof.
  intros Hext. revert lo s. induction n as [|n IH]; intros lo s; [done|].
  change (for_loop (Datatypes.S n) lo ?bd s)
    with (s' ← bd lo s; for_loop n (lo + 1) bd s').
  rewrite Hext. destruct (body' lo s); simpl; [apply IH|done].
Qed.

Lemma update_rt_simple_ext rt g g' count addr chars :
  errors (c g') = errors (c g) → errors (d g') = errors (d g) →
  update_rt_simple rt g' count addr chars
  = update_rt_simple rt g count addr chars.
Proof.
  intros Hc Hd. unfold update_rt_simple.
  by rewrite (update_rt_simple_loop_ext _ _ g g').
Qed.

Lemma update_rt_advance_ext rt g g' count addr byte :
  errors (c g') = errors (c g) → errors (d g') = errors (d g) →
  update_rt_advance rt g' count addr byte
  = update_rt_advance rt g count addr byte.
Proof.
  intros Hc Hd. unfold update_rt_advance.
  rewrite (for_loop_ext _ _ (update_rt_advance_step g' count addr)
             (update_rt_advance_step g count addr)); [done|].
  intros i [[r bs] tc]. unfold update_rt_advance_step.
  by rewrite (rt_block_ok_ext g g').
Qed.

Lemma decode_group_type_2_gated decoder gt g g' rds :
  gated_agree g g' →
  decode_group_type_2 decoder gt g' rds = decode_group_type_2 decoder gt g rds.
Proof.
  intros (Hb & Hce & Hde & Hcv & Hdv). unfold decode_group_type_2.
  rewrite Hb, Hce, Hde. destruct (Ascii.eqb (version gt) "A").
  - destruct (Z.ltb_spec BLERC_MAX (errors (c g))); [done|].
    destruct (Z.ltb_spec BLERD_MAX (errors (d g))); [done|]. simpl.
    rewrite Hcv, Hdv by done.
    rewrite (update_rt_simple_ext _ g g') by done.
    destruct (update_rt_simple _ _ _ _ _); simpl; [|done].
    destruct (if negb _ then _ else _); simpl; [|done].
    by rewrite (update_rt_advance_ext _ g g').
  - destruct (Z.ltb_spec BLERD_MAX (errors (d g))); [done|].
    rewrite Hdv by done.
    repeat (destruct (aset _ _ _); simpl; [|done]).
    rewrite (update_rt_simple_ext _ g g') by done.
    destruct (update_rt_simple _ _ _ _ _); simpl; [|done].
    destruct (if negb _ then _ else _); simpl; [|done].
    by rewrite (update_rt_advance_ext _ g g').
Qed.

(** A call of the ODA callback does not change the state record, whatever
    the blocks handed to it. *)
Lemma decode_oda_rds decoder gt g g' w :
  w_rds <$> decode_oda decoder gt g' w = w_rds <$> decode_oda decoder gt g w.
Proof.
  unfold decode_oda.
  destruct (decode_oda_find _ _ _ _) as [idx|]; simpl; [|done].
  destruct (idx =? _); [done|].
  destruct (aget _ _); simpl; [|done].
  destruct (aset _ _ _); simpl; [|done].
  by destruct (negb _).
Qed.

Lemma fmap_on_rds f w : w_rds <$> on_rds f w = f (w_rds w).
Proof. unfold on_rds. by destruct (f (w_rds w)). Qed.

Lemma decode_group_type_3_gated decoder gt g g' w :
  gated_agree g g' →
  w_rds <$> decode_group_type_3 decoder gt g' w
  = w_rds <$> decode_group_type_3 decoder gt g w.
Proof.
  intros H. unfold decode_group_type_3.
  destruct (Ascii.eqb (version gt) "A"); [|apply decode_oda_rds].
  rewrite !fmap_on_rds.
  gated g g' H; try reflexivity; simpl; resolve_gates; reflexivity.
Qed.

Lemma update_clock_gated decoder g g' rds :
  gated_agree g g' → update_clock decoder g' rds = update_clock decoder g rds.
Proof.
  intros H. gated g g' H; try reflexivity;
    unfold update_clock; simpl; resolve_gates;
    repeat (case_match; try reflexivity).
Qed.

Lemma decode_group_type_4_gated decoder gt g g' w :
  gated_agree g g' →
  w_rds <$> decode_group_type_4 decoder gt g' w
  = w_rds <$> decode_group_type_4 decoder gt g w.
Proof.
  intros H. unfold decode_group_type_4.
  destruct (Ascii.eqb (version gt) "A"); [|apply decode_oda_rds].
  rewrite !fmap_on_rds. by apply update_clock_gated.
Qed.

Lemma decode_ptyn_gated g g' rds :
  gated_agree g g' → decode_ptyn g' rds = decode_ptyn g rds.
Proof.
  intros H. gated g g' H; try reflexivity;
    unfold decode_ptyn; simpl; resolve_gates; reflexivity.
Qed.

Lemma decode_group_type_10_gated decoder gt g g' w :
  gated_agree g g' →
  w_rds <$> decode_group_type_10 decoder gt g' w
  = w_rds <$> decode_group_type_10 decoder gt g w.
Proof.
  intros H. unfold decode_group_type_10.
  destruct (Ascii.eqb (version gt) "A"); [|apply decode_oda_rds].
  rewrite !fmap_on_rds. by apply decode_ptyn_gated.
Qed.

Lemma decode_group_type_15_gated decoder gt g g' rds :
  gated_agree g g' →
  decode_group_type_15 decoder gt g' rds
  = decode_group_type_15 decoder gt g rds.
Proof.
  intros H. gated g g' H; try reflexivity;
    unfold decode_group_type_15, decode_fast_basic_tuning; simpl;
    resolve_gates; reflexivity.
Qed.

Lemma block_eq (x y : rds_block) :
  val x = val y → errors x = errors y → x = y.
Proof. destruct x, y. simpl. by intros -> ->. Qed.

Lemma decode_group_type_5_gated decoder gt g g' w :
  gated_agree g g' →
  (IsGroupTypeUsedByODA (w_rds w) gt = Some false → version gt = "A"%char →
   val (c g') = val (c g)) →
  (IsGroupTypeUsedByODA (w_rds w) gt = Some false →
   val (d g') = val (d g)) →
  w_rds <$> decode_group_type_5 decoder gt g' w
  = w_rds <$> decode_group_type_5 decoder gt g w.
Proof.
  intros (Hb & Hce & Hde & _ & _) Hc Hd. unfold decode_group_type_5.
  destruct (IsGroupTypeUsedByODA (w_rds w) gt) as [[|]|]; simpl;
    [apply decode_oda_rds| |done].
  rewrite (block_eq (d g') (d g)) by auto.
  destruct (Ascii.eqb_spec (version gt) "A"); [|done].
  by rewrite (block_eq (c g') (c g)), Hb by auto.
Qed.

Lemma decode_group_type_6_gated decoder gt g g' w :
  w_rds <$> decode_group_type_6 decoder gt g' w
  = w_rds <$> decode_group_type_6 decoder gt g w.
Proof.
  unfold decode_group_type_6.
  destruct (IsGroupTypeUsedByODA (w_rds w) gt) as [[|]|]; simpl;
    [apply decode_oda_rds|done..].
Qed.

Lemma decode_group_type_7_gated decoder gt g g' w :
  w_rds <$> decode_group_type_7 decoder gt g' w
  = w_rds <$> decode_group_type_7 decoder gt g w.
Proof.
  unfold decode_group_type_7.
  destruct (Ascii.eqb (version gt) "A"); [|apply decode_oda_rds].
  destruct (IsGroupTypeUsedByODA (w_rds w) gt) as [[|]|]; simpl;
    [apply decode_oda_rds|done..].
Qed.

Lemma decode_group_type_8_gated decoder gt g g' w :
  w_rds <$> decode_group_type_8 decoder gt g' w
  = w_rds <$> decode_group_type_8 decoder gt g w.
Proof.
  unfold decode_group_type_8.
  destruct (IsGroupTypeUsedByODA (w_rds w) gt) as [[|]|]; simpl;
    [apply decode_oda_rds|done..].
Qed.

Lemma decode_group_type_9_gated decoder gt g g' w :
  gated_agree g g' →
  (IsGroupTypeUsedByODA (w_rds w) gt = Some false → version gt = "A"%char →
   val (c g') = val (c g) ∧ val (d g') = val (d g)) →
  w_rds <$> decode_group_type_9 decoder gt g' w
  = w_rds <$> decode_group_type_9 decoder gt g w.
Proof.
  intros (Hb & Hce & Hde & _ & _) Hcd. unfold decode_group_type_9.
  destruct (IsGroupTypeUsedByODA (w_rds w) gt) as [[|]|]; simpl;
    [apply decode_oda_rds| |done].
  destruct (Ascii.eqb_spec (version gt) "A"); [|done].
  destruct Hcd as [Hc Hd]; [done..|].
  rewrite !fmap_on_rds. unfold decode_ews.
  by rewrite (block_eq (c g') (c g)), (block_eq (d g') (d g)), Hb by auto.
Qed.

Lemma decode_group_type_14_gated decoder gt g g' rds :
  gated_agree g g' →
  (version gt = "A"%char → val (c g') = val (c g)) →
  decode_group_type_14 decoder gt g' rds
  = decode_group_type_14 decoder gt g rds.
Proof.
  intros (Hb & Hce & Hde & _ & Hdv) Hc. unfold decode_group_type_14.
  destruct (count_packet _ _); simpl; [|done].
  destruct (Ascii.eqb_spec (version gt) "A").
  - unfold decode_eon_block_a, eon_ps_pair. by rewrite Hb, Hc.
  - rewrite Hb, Hde. destruct (Z.leb_spec (errors (d g)) BLERD_MAX); [|done].
    by rewrite Hdv.
Qed.

(** The state after the dispatch depends on the blocks only through block
    B, the error classes, the values of the blocks within threshold, and
    the values the three unchecked handlers read. *)
Lemma dispatch_gated decoder gt g g' w :
  gated_agree g g' →
  (routes_eon_a gt ∨ routes_ews (w_rds w) gt
   ∨ (routes_tdc (w_rds w) gt ∧ version gt = "A"%char) →
   val (c g') = val (c g)) →
  (routes_ews (w_rds w) gt ∨ routes_tdc (w_rds w) gt →
   val (d g') = val (d g)) →
  w_rds <$> dispatch decoder gt g' w = w_rds <$> dispatch decoder gt g w.
Proof.
  intros H Hc Hd. unfold dispatch, routes_eon_a, routes_ews, routes_tdc in *.
  repeat case_match; try done; rewrite ?fmap_on_rds;
    first [ by apply decode_group_type_0_gated
          | by apply decode_group_type_1_gated
          | by apply decode_group_type_2_gated
          | by apply decode_group_type_3_gated
          | by apply decode_group_type_4_gated
          | apply decode_group_type_5_gated; [done|intros; naive_solver..]
          | apply decode_group_type_6_gated
          | apply decode_group_type_7_gated
          | apply decode_group_type_8_gated
          | apply decode_group_type_9_gated; [done|intros; naive_solver]
          | by apply decode_group_type_10_gated
          | apply decode_oda_rds
          | apply decode_group_type_14_gated; [done|intros; naive_solver]
          | by apply decode_group_type_15_gated ].
Qed.

Lemma IsGroupTypeUsedByODA_from_oda (n : nat) i rds rds' gt :
  oda rds' = oda rds →
  IsGroupTypeUsedByODA_from n i rds' gt = IsGroupTypeUsedByODA_from n i rds gt.
Proof.
  intros Hoda. revert i. induction n as [|n IH]; intros i; [done|].
  change (IsGroupTypeUsedByODA_from (S n) i ?r gt)
    with (e ← aget (oda r) i;
          if GroupTypesEqual (oda_gt e) gt then Some true
          else IsGroupTypeUsedByODA_from n (i + 1) r gt).
  rewrite Hoda. destruct (aget (oda rds) i); simpl; [|done].
  by rewrite IH.
Qed.

Lemma count_group_frame gt rds rds' :
  count_group gt rds = Some rds' → rds' = set_stats (stats rds') rds.
Proof.
  unfold count_group. intros H.
  destruct (aget _ _) as [x|]; [|done]. simpl in H.
  destruct (aset _ _ _) as [cs|]; [|done]. simpl in H. by simplify_eq.
Qed.

Lemma latch_pi_code_oda blk rds rds' :
  latch_pi_code blk rds = Some rds' → oda rds' = oda rds.
Proof. intros ->%count_packet_frame. done. Qed.

Lemma decode_pty_oda rds blk rds' :
  decode_pty rds blk = Some rds' → oda rds' = oda rds.
Proof.
  unfold decode_pty. intros H.
  destruct (if tp_code _ then _ else _) as [rds1|] eqn:H1; [|done].
  simpl in H. apply count_packet_frame in H. rewrite H. simpl.
  destruct (tp_code _); [apply count_packet_frame in H1|injection H1 as <-];
    [by rewrite H1|done].
Qed.

(** The state after decode depends on the group only through block B, the
    error classes, the values of the blocks within threshold, and the
    values the three unchecked handlers read. *)
Lemma rds_decoder_decode_gated decoder g g' w :
  errors (a g') = errors (a g) →
  (errors (a g) ≤ BLERA_MAX → val (a g') = val (a g)) →
  gated_agree g g' →
  let gt := group_type_of (val (b g)) in
  (routes_eon_a gt ∨ routes_ews (w_rds w) gt
   ∨ (routes_tdc (w_rds w) gt ∧ version gt = "A"%char) →
   val (c g') = val (c g)) →
  (routes_ews (w_rds w) gt ∨ routes_tdc (w_rds w) gt →
   val (d g') = val (d g)) →
  w_rds <$> rds_decoder_decode decoder g' w
  = w_rds <$> rds_decoder_decode decoder g w.
Proof.
  intros Hae Hav Hg gt Hc Hd. pose proof Hg as (Hb & Hce & Hde & Hcv & Hdv).
  unfold rds_decoder_decode. rewrite Hb, Hae, Hce. fold gt.
  set (rdsA := set_stats _ (w_rds w)).
  assert (oda rdsA = oda (w_rds w)) as HodaA by done. clearbody rdsA.
  assert ((if errors (a g) <=? BLERA_MAX
           then latch_pi_code (a g') rdsA else Some rdsA)
          = (if errors (a g) <=? BLERA_MAX
             then latch_pi_code (a g) rdsA else Some rdsA)) as ->.
  { destruct (Z.leb_spec (errors (a g)) BLERA_MAX); [|done].
    by rewrite (block_eq (a g') (a g)) by auto. }
  destruct (if errors (a g) <=? BLERA_MAX then _ else _) as [rdsB|] eqn:HB;
    simpl; [|done].
  assert (oda rdsB = oda (w_rds w)) as HodaB.
  { destruct (_ <=? _); [apply latch_pi_code_oda in HB|injection HB as <-];
      congruence. }
  destruct (BLERB_MAX <? errors (b g)); [done|].
  match goal with
  | |- context [if ?cond then latch_pi_code (c g') rdsB else Some rdsB] =>
      assert ((if cond then latch_pi_code (c g') rdsB else Some rdsB)
              = (if cond then latch_pi_code (c g) rdsB else Some rdsB)) as ->
  end.
  { destruct (Z.leb_spec (errors (c g)) BLERC_MAX);
      [|by rewrite andb_false_r].
    by rewrite (block_eq (c g') (c g)) by auto. }
  destruct (if _ && _ && _ then _ else _) as [rdsC|] eqn:HC; simpl; [|done].
  assert (oda rdsC = oda (w_rds w)) as HodaC.
  { destruct (_ && _ && _); [apply latch_pi_code_oda in HC|injection HC as <-];
      congruence. }
  destruct (count_group gt rdsC) as [rdsD|] eqn:HD; simpl; [|done].
  apply count_group_frame in HD.
  destruct (decode_pty rdsD (b g)) as [rdsE|] eqn:HE; simpl; [|done].
  apply decode_pty_oda in HE.
  assert (oda rdsE = oda (w_rds w)) as HodaE
    by (rewrite HE, HD; simpl; done).
  assert (IsGroupTypeUsedByODA rdsE gt = IsGroupTypeUsedByODA (w_rds w) gt)
    as Hused by (by apply IsGroupTypeUsedByODA_from_oda).
  apply dispatch_gated; [done|..]; unfold routes_ews, routes_tdc in *;
    simpl; rewrite Hused; done.
Qed.

(** C2, counterexample.  A group 9A whose block C is in class 6+: the EWS
    capture stores block C all the same, so the state depends on its
    value. *)
Lemma latch_gate_claim_fails :
  ¬ latch_gate_claim sample_decoder (mk_blocks 0 0 0x9000 0 0 3 0 0)
      fresh_world.
Proof.
  intros H. destruct H as (_ & Hc & _); [done|].
  specialize (Hc eq_refl 0x1234). vm_compute in Hc. discriminate.
Qed.

(** The same for an EON group 14A (variant 0, PS characters from block
    C). *)
Lemma latch_gate_claim_fails_eon :
  ¬ latch_gate_claim sample_decoder (mk_blocks 0 0 0xE000 0 0 3 0 0)
      fresh_world.
Proof.
  intros H. destruct H as (_ & Hc & _); [done|].
  specialize (Hc eq_refl 0x4142). vm_compute in Hc. discriminate.
Qed.

Lemma decode_ews_captures g rds :
  stats_okb (stats rds) = true →
  ∃ rds', decode_ews g rds = Some rds' ∧
    ews rds' = {| ews_b := {| val := Z.land (val (b g)) 0x1F;
                              errors := errors (b g) |};
                  ews_c := c g; ews_d := d g |}.
Proof.
  intros Hst. unfold decode_ews.
  destruct (count_packet_Some PKTCNT_EWS rds Hst ltac:(done)) as [x ->].
  simpl. by eexists.
Qed.

(** C2, as the code has it.  For every accepted group: the state after
    decode does not depend on the value of block A when A is over its
    threshold; nor on the value of block C when C is over its threshold,
    unless the group is an EON 14A group, an EWS capture or a 5A TDC append;
    nor on the value of block D when D is over its threshold, unless the
    group is an EWS capture or a TDC append.  The EWS capture (group 9A not
    bound to an ODA) stores block B's low five bits and blocks C and D as
    received, each with its error class, whatever that class is. *)
Theorem latches_respect_gates (decoder : rds_decoder) (g : rds_blocks)
  (w : world) :
  rds_data_ok (w_rds w) → errors (b g) ≤ BLERB_MAX →
  let gt := group_type_of (val (b g)) in
  let rds := w_rds w in
  (BLERA_MAX < errors (a g) →
   ∀ v, rds_after decoder (with_a_val v g) w = rds_after decoder g w) ∧
  (BLERC_MAX < errors (c g) →
   ¬ routes_eon_a gt → ¬ routes_ews rds gt →
   ¬ (routes_tdc rds gt ∧ version gt = "A"%char) →
   ∀ v, rds_after decoder (with_c_val v g) w = rds_after decoder g w) ∧
  (BLERD_MAX < errors (d g) →
   ¬ routes_ews rds gt → ¬ routes_tdc rds gt →
   ∀ v, rds_after decoder (with_d_val v g) w = rds_after decoder g w) ∧
  (routes_ews rds gt →
   ∃ w', rds_decoder_decode decoder g w = Some w' ∧
     ews (w_rds w') =
       {| ews_b := {| val := Z.land (val (b g)) 0x1F;
                      errors := errors (b g) |};
          ews_c := c g; ews_d := d g |}).
Proof.
  intros Hok Hb gt rds. split_and!.
  - intros Ha v. apply rds_decoder_decode_gated; simpl;
      first [ done | intros; lia | split_and!; done ].
  - intros Hc H1 H2 H3 v.
    apply rds_decoder_decode_gated; simpl;
      first [ done | split_and!; first [done | intros; lia]
            | fold gt; fold rds; intros; exfalso; tauto ].
  - intros Hd H1 H2 v.
    apply rds_decoder_decode_gated; simpl;
      first [ done | split_and!; first [done | intros; lia]
            | fold gt; fold rds; intros; exfalso; tauto ].
  - intros (Hcode & Hv & Hused).
    destruct (decode_accepted decoder g w (rds_data_ok_stats _ Hok) Hb)
      as (rds1 & H1 & ->).
    fold gt. unfold dispatch. rewrite Hcode. unfold decode_group_type_9.
    rewrite Hv.
    change (w_rds {| w_rds := rds1; w_calls := w_calls w |}) with rds1.
    assert (IsGroupTypeUsedByODA rds1 gt = Some false) as ->.
    { rewrite <-Hused. apply IsGroupTypeUsedByODA_from_oda.
      by destruct (header_only_fields _ _ H1)
        as (_ & _ & _ & _ & _ & _ & _ & _ & _ & _ & _ & -> & _). }
    simpl. unfold on_rds. simpl.
    destruct (decode_ews_captures g rds1 (proj1 H1)) as (rds' & -> & H').
    simpl. by eexists.
Qed.

Lemma latches_respect_gates_witness :
  rds_after sample_decoder
    (with_c_val 0x1234 (mk_blocks 0 0 0x1000 0 0 3 0 0)) fresh_world
  = rds_after sample_decoder (mk_blocks 0 0 0x1000 0 0 3 0 0) fresh_world.
Proof.
  refine (proj1 (proj2 (latches_respect_gates sample_decoder
            (mk_blocks 0 0 0x1000 0 0 3 0 0) fresh_world eq_refl _))
            eq_refl _ _ _ 0x1234);
    vm_compute; (discriminate || intros H; intuition discriminate).
Defined.

(** ** End-to-end runs from the reset state *)

(** A clean block A is latched as the PI code and marked valid. *)
Example run_pi_latch :
  ∃ w', rds_decoder_decode sample_decoder
          (mk_blocks 0xD943 0 0x0000 0 0x0000 0 0x0000 0) fresh_world = Some w' ∧
        pi_code (w_rds w') = 0xD943 ∧
        Z.land (valid_values (w_rds w')) RDS_PI_CODE = RDS_PI_CODE.
Proof. eexists; split; [vm_compute; reflexivity|]. by vm_compute. Qed.

(** Four groups 0A carrying "RA", "DI", "O " and "FM" at pair indices 0 to 3
    spell the PS name; without advanced decoding the confidence buffers stay
    zero. *)
Example run_simple_ps :
  ∃ w', decode_all sample_decoder
          [ mk_blocks 0 0 0x0000 0 0 0 0x5241 0;
            mk_blocks 0 0 0x0001 0 0 0 0x4449 0;
            mk_blocks 0 0 0x0002 0 0 0 0x4F20 0;
            mk_blocks 0 0 0x0003 0 0 0 0x464D 0 ] fresh_world = Some w' ∧
        ps_display (ps (w_rds w')) =
          [0x52; 0x41; 0x44; 0x49; 0x4F; 0x20; 0x46; 0x4D] ∧
        Z.land (valid_values (w_rds w')) RDS_PS = RDS_PS ∧
        ps_pvt_hi_prob (ps (w_rds w')) = replicate 8 0 ∧
        ps_pvt_lo_prob (ps (w_rds w')) = replicate 8 0 ∧
        ps_pvt_hi_prob_cnt (ps (w_rds w')) = replicate 8 0.
Proof. eexists; split; [vm_compute; reflexivity|]. by vm_compute. Qed.

(** The clock of the group 4A with B = 0x4001, C = 0xB32D, D = 0xE6C0. *)
Example run_clock :
  ∃ w', rds_decoder_decode sample_decoder
          (mk_blocks 0 0 0x4001 0 0xB32D 0 0xE6C0 0) fresh_world = Some w' ∧
        clock (w_rds w') =
          {| clock_day_high := false; clock_day_low := 0xD996;
             clock_hour := 30; clock_minute := 27; clock_utc_offset := 0 |}.
Proof. eexists; split; [vm_compute; reflexivity|]. by vm_compute. Qed.

(** A group 3A binds the application 0x4BD7 to group 11A; the group 11A that
    follows is handed to the decode callback, once, with that application
    ID. *)
Example run_oda_announce_dispatch :
  ∃ w', decode_all sample_decoder
          [ mk_blocks 0 0 0x3016 0 0 0 0x4BD7 0;
            mk_blocks 0 0 0xB000 0 0x1111 0 0x2222 0 ] fresh_world = Some w' ∧
        decode_cb_calls w' =
          [(7, 0x4BD7, {| code := 11; version := "A" |}, 9)].
Proof. eexists; split; [vm_compute; reflexivity|]. by vm_compute. Qed.

(** A start block announcing two frequencies with 87.6 MHz, then the pairs
    (87.6, 88.0) and (87.8, 87.6): the start block enters 87.6 MHz itself,
    the first pair commits method B and appends 88.0 MHz as a regional
    variant, and the second pair arrives when no frequency is expected any
    more and is ignored. *)
Example run_af_method_B :
  ∃ w' t, decode_all sample_decoder af_sample_groups fresh_world = Some w' ∧
        g_table (af (w_rds w')) !! 0%nat = Some t ∧
        enc_method t = AF_EM_B ∧
        freq (tuned_freq (table t)) = 876 ∧
        pvt_expected_cnt t = 0 ∧
        active (table t) =
          [ {| band := AF_BAND_UHF; attrib := AF_ATTRIB_SAME_PROG;
               freq := 876 |};
            {| band := AF_BAND_UHF; attrib := AF_ATTRIB_REG_VARIANT;
               freq := 880 |} ].
Proof.
  eexists _, _; split; [vm_compute; reflexivity|].
  split; [vm_compute; reflexivity|]. by vm_compute.
Qed.

(** ** What the handlers leave alone *)

Lemma handler_keeps_refl rds : handler_keeps rds rds.
Proof. repeat split. exists 0. by rewrite Z.lor_0_r. Qed.

Lemma handler_keeps_trans rds1 rds2 rds3 :
  handler_keeps rds1 rds2 → handler_keeps rds2 rds3 → handler_keeps rds1 rds3.
Proof.
  intros (A1 & A2 & A3 & A4 & A5 & A6 & x & A7)
         (B1 & B2 & B3 & B4 & B5 & B6 & y & B7).
  repeat split; try congruence.
  exists (Z.lor x y). by rewrite B7, A7, Z.lor_assoc.
Qed.

Lemma same_field_refl f rds : same_field f rds rds.
Proof. by destruct f. Qed.

Lemma same_field_trans f rds1 rds2 rds3 :
  same_field f rds1 rds2 → same_field f rds2 rds3 → same_field f rds1 rds3.
Proof. destruct f; simpl; intuition congruence. Qed.

Lemma changes_only_refl fs rds : changes_only fs rds rds.
Proof. split; [apply handler_keeps_refl|]. intros. apply same_field_refl. Qed.

Lemma changes_only_trans fs rds1 rds2 rds3 :
  changes_only fs rds1 rds2 → changes_only fs rds2 rds3 →
  changes_only fs rds1 rds3.
Proof.
  intros [K1 F1] [K2 F2]. split; [by eapply handler_keeps_trans|].
  intros f Hf. eapply same_field_trans; eauto.
Qed.

(** One more write after a run that stays within [fs]. *)
Lemma changes_only_step fs rds0 rds rds' :
  changes_only fs rds rds' → changes_only fs rds0 rds →
  changes_only fs rds0 rds'.
Proof. intros. by eapply changes_only_trans. Qed.

Ltac field_write :=
  split;
  [ repeat split; exists 0; by rewrite Z.lor_0_r
  | let f := fresh "f" in let Hf := fresh "Hf" in
    intros f Hf; destruct f; simpl; try done; contradiction ].

Lemma SET_BITS_changes fs bits rds : changes_only fs rds (SET_BITS bits rds).
Proof.
  split; [repeat split; by eexists|]. intros f _. by destruct f.
Qed.

Lemma count_packet_changes fs k rds rds' :
  count_packet k rds = Some rds' → changes_only fs rds rds'.
Proof.
  unfold count_packet. intros H.
  destruct (aget _ _); simpl in H; [|done].
  destruct (aset _ _ _); simpl in H; [|done].
  injection H as <-.
  split; [repeat split; exists 0; by rewrite Z.lor_0_r|].
  intros f _. by destruct f.
Qed.

Lemma set_ta_code_changes fs x rds :
  F_ta_code ∈ fs → changes_only fs rds (set_ta_code x rds).
Proof. intros. field_write. Qed.

Lemma set_music_changes fs x rds :
  F_music ∈ fs → changes_only fs rds (set_music x rds).
Proof. intros. field_write. Qed.

Lemma set_ps_changes fs x rds :
  F_ps ∈ fs → changes_only fs rds (set_ps x rds).
Proof. intros. field_write. Qed.

Lemma set_af_changes fs x rds :
  F_af ∈ fs → changes_only fs rds (set_af x rds).
Proof. intros. field_write. Qed.

Lemma set_pic_changes fs x rds :
  F_pic ∈ fs → changes_only fs rds (set_pic x rds).
Proof. intros. field_write. Qed.

Lemma set_slc_changes fs x rds :
  F_slc ∈ fs → changes_only fs rds (set_slc x rds).
Proof. intros. field_write. Qed.

Lemma set_rt_changes fs x rds :
  F_rt ∈ fs → changes_only fs rds (set_rt x rds).
Proof. intros. field_write. Qed.

Lemma set_clock_changes fs x rds :
  F_clock ∈ fs → changes_only fs rds (set_clock x rds).
Proof. intros. field_write. Qed.

Lemma set_ptyn_changes fs x rds :
  F_ptyn ∈ fs → changes_only fs rds (set_ptyn x rds).
Proof. intros. field_write. Qed.

Lemma set_eon_changes fs x rds :
  F_eon ∈ fs → changes_only fs rds (set_eon x rds).
Proof. intros. field_write. Qed.

Lemma set_oda_changes fs x rds :
  F_oda ∈ fs → changes_only fs rds (set_oda x rds).
Proof. intros. field_write. Qed.

Lemma set_oda_cnt_changes fs x rds :
  F_oda ∈ fs → changes_only fs rds (set_oda_cnt x rds).
Proof. intros. field_write. Qed.

Lemma set_tdc_changes fs x rds :
  F_tdc ∈ fs → changes_only fs rds (set_tdc x rds).
Proof. intros. field_write. Qed.

Lemma set_ews_changes fs x rds :
  F_ews ∈ fs → changes_only fs rds (set_ews x rds).
Proof. intros. field_write. Qed.

(** [opt_inv] takes a successful run of a step apart into the runs of its
    parts. *)
Ltac opt_inv :=
  repeat match goal with
  | H : Some _ = Some _ |- _ => injection H as H; try subst
  | H : None = Some _ |- _ => discriminate H
  | H : mbind _ ?m = Some _ |- _ =>
      let E := fresh "E" in destruct m eqn:E; simpl in H; [|discriminate H]
  | H : (if ?c then _ else _) = Some _ |- _ =>
      let E := fresh "E" in destruct c eqn:E
  | H : (let '(_, _) := ?p in _) = Some _ |- _ => destruct p
  end.

(** Membership in a list of fields that is written out. *)
Ltac in_fields :=
  first [ assumption
        | repeat first [apply list_elem_of_here | apply list_elem_of_further] ].

(** [frame] follows the writes of a run back to its start. *)
Ltac frame_step :=
  lazymatch goal with
  | |- changes_only _ ?r ?r => apply changes_only_refl
  | |- changes_only _ _ (SET_BITS _ _) =>
      eapply changes_only_step; [apply SET_BITS_changes|]
  | |- changes_only _ _ (set_ta_code _ _) =>
      eapply changes_only_step; [apply set_ta_code_changes; in_fields|]
  | |- changes_only _ _ (set_music _ _) =>
      eapply changes_only_step; [apply set_music_changes; in_fields|]
  | |- changes_only _ _ (set_ps _ _) =>
      eapply changes_only_step; [apply set_ps_changes; in_fields|]
  | |- changes_only _ _ (set_af _ _) =>
      eapply changes_only_step; [apply set_af_changes; in_fields|]
  | |- changes_only _ _ (set_pic _ _) =>
      eapply changes_only_step; [apply set_pic_changes; in_fields|]
  | |- changes_only _ _ (set_slc _ _) =>
      eapply changes_only_step; [apply set_slc_changes; in_fields|]
  | |- changes_only _ _ (set_rt _ _) =>
      eapply changes_only_step; [apply set_rt_changes; in_fields|]
  | |- changes_only _ _ (set_clock _ _) =>
      eapply changes_only_step; [apply set_clock_changes; in_fields|]
  | |- changes_only _ _ (set_ptyn _ _) =>
      eapply changes_only_step; [apply set_ptyn_changes; in_fields|]
  | |- changes_only _ _ (set_eon _ _) =>
      eapply changes_only_step; [apply set_eon_changes; in_fields|]
  | |- changes_only _ _ (set_oda _ _) =>
      eapply changes_only_step; [apply set_oda_changes; in_fields|]
  | |- changes_only _ _ (set_oda_cnt _ _) =>
      eapply changes_only_step; [apply set_oda_cnt_changes; in_fields|]
  | |- changes_only _ _ (set_tdc _ _) =>
      eapply changes_only_step; [apply set_tdc_changes; in_fields|]
  | |- changes_only _ _ (set_ews _ _) =>
      eapply changes_only_step; [apply set_ews_changes; in_fields|]
  | |- changes_only _ _ ?r' =>
      match goal with
      | H : count_packet _ _ = Some r' |- _ =>
          eapply changes_only_step; [exact (count_packet_changes _ _ _ _ H)|]
      | H : changes_only _ _ r' |- _ =>
          eapply changes_only_step; [exact H|]
      end
  end.

Ltac frame := repeat frame_step.

Lemma decode_ta_changes fs rds blk rds' :
  F_ta_code ∈ fs → decode_ta rds blk = Some rds' → changes_only fs rds rds'.
Proof. unfold decode_ta. cbv zeta. intros Hf H. frame. Qed.

Lemma decode_ms_changes fs rds blk rds' :
  F_music ∈ fs → decode_ms rds blk = Some rds' → changes_only fs rds rds'.
Proof. unfold decode_ms. cbv zeta. intros Hf H. frame. Qed.

Lemma decode_alt_freq_changes fs rds blocks rds' :
  F_af ∈ fs → decode_alt_freq rds blocks = Some rds' →
  changes_only fs rds rds'.
Proof. unfold decode_alt_freq. cbv zeta. intros Hf H. opt_inv; frame. Qed.

Lemma update_ps_simple_changes fs rds i x rds' :
  F_ps ∈ fs → update_ps_simple rds i x = Some rds' →
  changes_only fs rds rds'.
Proof. unfold update_ps_simple. intros Hf H. opt_inv; frame. Qed.

Lemma update_ps_advanced_changes fs rds i x rds' :
  F_ps ∈ fs → update_ps_advanced rds i x = Some rds' →
  changes_only fs rds rds'.
Proof. unfold update_ps_advanced. cbv zeta. intros Hf H. opt_inv; frame. Qed.

(** [sub_frames] turns the runs of the steps already dealt with into
    statements about what they changed. *)
Ltac sub_frame lem :=
  match goal with
  | |- changes_only ?fs _ _ =>
      match goal with
      | H : _ = Some _ |- _ => apply (lem fs) in H; [|in_fields]
      end
  end.

Ltac sub_frames :=
  repeat first
    [ sub_frame decode_ta_changes | sub_frame decode_ms_changes
    | sub_frame decode_alt_freq_changes | sub_frame update_ps_simple_changes
    | sub_frame update_ps_advanced_changes ].

Lemma decode_group_type_0_changes decoder gt blocks rds rds' :
  code gt = 0 →
  decode_group_type_0 decoder gt blocks rds = Some rds' →
  changes_only (group_writes gt) rds rds'.
Proof.
  unfold decode_group_type_0, group_writes. cbv zeta. intros -> H.
  opt_inv; sub_frames; frame.
Qed.

Lemma decode_group_type_1_changes decoder gt blocks rds rds' :
  code gt = 1 →
  decode_group_type_1 decoder gt blocks rds = Some rds' →
  changes_only (group_writes gt) rds rds'.
Proof.
  unfold decode_group_type_1, decode_slow_labelling_codes, group_writes.
  cbv zeta. intros -> H. opt_inv; frame.
Qed.

Lemma rt_commit_changes fs decode_rt buf rds rds' :
  F_rt ∈ fs → rt_commit decode_rt buf rds = Some rds' →
  changes_only fs rds rds'.
Proof. unfold rt_commit. cbv zeta. intros Hf H. frame. Qed.

Lemma decode_group_type_2_changes decoder gt blocks rds rds' :
  code gt = 2 →
  decode_group_type_2 decoder gt blocks rds = Some rds' →
  changes_only (group_writes gt) rds rds'.
Proof.
  unfold decode_group_type_2, group_writes. cbv zeta. intros -> H.
  opt_inv; try sub_frame rt_commit_changes; frame.
Qed.

Lemma decode_oda_changes fs decoder gt blocks w w' :
  F_oda ∈ fs → decode_oda decoder gt blocks w = Some w' →
  changes_only fs (w_rds w) (w_rds w').
Proof.
  unfold decode_oda. cbv zeta. intros Hf H. opt_inv; simpl; frame.
Qed.

Lemma on_rds_inv f w w' :
  on_rds f w = Some w' →
  ∃ rds', f (w_rds w) = Some rds' ∧
          w' = {| w_rds := rds'; w_calls := w_calls w |}.
Proof.
  unfold on_rds. intros H. destruct (f (w_rds w)); simpl in H; [|done].
  injection H as <-. eauto.
Qed.

(** [on_rds_open] replaces a run of [on_rds] by the run of the step it
    wraps. *)
Ltac on_rds_open :=
  repeat match goal with
  | H : on_rds _ _ = Some _ |- _ =>
      let r := fresh "r" in
      apply on_rds_inv in H as (r & H & ->); cbv beta zeta in H; simpl w_rds
  end.

Lemma decode_group_type_3_changes decoder gt blocks w w' :
  code gt = 3 →
  decode_group_type_3 decoder gt blocks w = Some w' →
  changes_only (group_writes gt) (w_rds w) (w_rds w').
Proof.
  unfold decode_group_type_3, group_writes. intros -> H.
  opt_inv; on_rds_open; opt_inv; try sub_frame decode_oda_changes; frame.
Qed.

Lemma update_clock_changes fs decoder blocks rds rds' :
  F_clock ∈ fs → update_clock decoder blocks rds = Some rds' →
  changes_only fs rds rds'.
Proof. unfold update_clock. cbv zeta. intros Hf H. opt_inv; frame. Qed.

Lemma decode_group_type_4_changes decoder gt blocks w w' :
  code gt = 4 →
  decode_group_type_4 decoder gt blocks w = Some w' →
  changes_only (group_writes gt) (w_rds w) (w_rds w').
Proof.
  unfold decode_group_type_4, group_writes. intros -> H.
  opt_inv; on_rds_open;
    first [sub_frame decode_oda_changes | sub_frame update_clock_changes];
    frame.
Qed.

Lemma decode_tdc_block_changes fs rds block rds' :
  F_tdc ∈ fs → decode_tdc_block rds block = Some rds' →
  changes_only fs rds rds'.
Proof. unfold decode_tdc_block. cbv zeta. intros Hf H. opt_inv; frame. Qed.

Lemma decode_group_type_5_changes decoder gt blocks w w' :
  code gt = 5 →
  decode_group_type_5 decoder gt blocks w = Some w' →
  changes_only (group_writes gt) (w_rds w) (w_rds w').
Proof.
  unfold decode_group_type_5, group_writes. intros -> H.
  opt_inv; on_rds_open; opt_inv;
    repeat first [ sub_frame decode_oda_changes
                 | sub_frame decode_tdc_block_changes ];
    frame.
Qed.

Lemma decode_group_type_6_changes decoder gt blocks w w' :
  code gt = 6 →
  decode_group_type_6 decoder gt blocks w = Some w' →
  changes_only (group_writes gt) (w_rds w) (w_rds w').
Proof.
  unfold decode_group_type_6, decode_in_house_data, group_writes.
  intros -> H.
  opt_inv; on_rds_open; try sub_frame decode_oda_changes; frame.
Qed.

Lemma decode_group_type_7_changes decoder gt blocks w w' :
  code gt = 7 →
  decode_group_type_7 decoder gt blocks w = Some w' →
  changes_only (group_writes gt) (w_rds w) (w_rds w').
Proof.
  unfold decode_group_type_7, decode_radio_paging, group_writes.
  intros -> H.
  opt_inv; on_rds_open; try sub_frame decode_oda_changes; frame.
Qed.

Lemma decode_group_type_8_changes decoder gt blocks w w' :
  code gt = 8 →
  decode_group_type_8 decoder gt blocks w = Some w' →
  changes_only (group_writes gt) (w_rds w) (w_rds w').
Proof.
  unfold decode_group_type_8, decode_tmc, group_writes.
  intros -> H.
  opt_inv; on_rds_open; try sub_frame decode_oda_changes; frame.
Qed.

Lemma decode_group_type_9_changes decoder gt blocks w w' :
  code gt = 9 →
  decode_group_type_9 decoder gt blocks w = Some w' →
  changes_only (group_writes gt) (w_rds w) (w_rds w').
Proof.
  unfold decode_group_type_9, decode_ews, group_writes.
  cbv zeta. intros -> H. destruct (Ascii.eqb (version gt) "A") eqn:Hv;
    opt_inv; on_rds_open; opt_inv; try sub_frame decode_oda_changes; frame.
Qed.

Lemma update_ptyn_changes fs rds i ch rds' :
  F_ptyn ∈ fs → update_ptyn rds i ch = Some rds' → changes_only fs rds rds'.
Proof. unfold update_ptyn. intros Hf H. opt_inv; frame. Qed.

Lemma decode_ptyn_changes fs blocks rds rds' :
  F_ptyn ∈ fs → decode_ptyn blocks rds = Some rds' →
  changes_only fs rds rds'.
Proof.
  unfold decode_ptyn. cbv zeta. intros Hf H.
  opt_inv; repeat sub_frame update_ptyn_changes; frame;
    match goal with |- context [if ?c then _ else _] => destruct c end;
    frame.
Qed.

Lemma decode_group_type_10_changes decoder gt blocks w w' :
  code gt = 10 →
  decode_group_type_10 decoder gt blocks w = Some w' →
  changes_only (group_writes gt) (w_rds w) (w_rds w').
Proof.
  unfold decode_group_type_10, group_writes. intros -> H.
  opt_inv; on_rds_open;
    first [sub_frame decode_oda_changes | sub_frame decode_ptyn_changes];
    frame.
Qed.

Lemma decode_group_type_14_changes decoder gt blocks rds rds' :
  code gt = 14 →
  decode_group_type_14 decoder gt blocks rds = Some rds' →
  changes_only (group_writes gt) rds rds'.
Proof.
  unfold decode_group_type_14, decode_eon_block_a, group_writes.
  cbv zeta. intros -> H. opt_inv; frame.
Qed.

Lemma decode_group_type_15_changes decoder gt blocks rds rds' :
  code gt = 15 →
  decode_group_type_15 decoder gt blocks rds = Some rds' →
  changes_only (group_writes gt) rds rds'.
Proof.
  unfold decode_group_type_15, decode_fast_basic_tuning, group_writes.
  intros -> H. opt_inv; sub_frames; frame.
Qed.

(** Whatever the group type, its handler writes the fields listed for it
    and no others. *)
Lemma dispatch_changes decoder gt blocks w w' :
  dispatch decoder gt blocks w = Some w' →
  changes_only (group_writes gt) (w_rds w) (w_rds w').
Proof.
  unfold dispatch. intros H.
  repeat case_match; try (injection H as <-; apply changes_only_refl);
    on_rds_open;
    first [ by apply decode_group_type_0_changes in H
          | by apply decode_group_type_1_changes in H
          | by apply decode_group_type_2_changes in H
          | by apply decode_group_type_3_changes in H
          | by apply decode_group_type_4_changes in H
          | by apply decode_group_type_5_changes in H
          | by apply decode_group_type_6_changes in H
          | by apply decode_group_type_7_changes in H
          | by apply decode_group_type_8_changes in H
          | by apply decode_group_type_9_changes in H
          | by apply decode_group_type_10_changes in H
          | by apply decode_group_type_14_changes in H
          | by apply decode_group_type_15_changes in H
          | idtac ].
  all: unfold decode_group_type_11, decode_group_type_12,
         decode_group_type_13 in H;
       apply (decode_oda_changes (group_writes gt)) in H; [done|];
       unfold group_writes;
       match goal with Hc : code _ = _ |- _ => rewrite Hc end; in_fields.
Qed.

(** ** The preamble of [rds_decoder_decode], field by field *)

Lemma count_packet_inv k rds rds' :
  count_packet k rds = Some rds' →
  ∃ cs, rds' = set_stats (set_stats_counts cs (stats rds)) rds.
Proof.
  unfold count_packet. intros H.
  destruct (aget _ _); simpl in H; [|done].
  destruct (aset _ _ _); simpl in H; [|done].
  injection H as <-. eauto.
Qed.

Lemma aset_inv {A} (l : list A) i v l' :
  aset l i v = Some l' →
  0 ≤ i < Z.of_nat (length l) ∧ l' = <[Z.to_nat i := v]> l.
Proof.
  unfold aset. destruct (Z.leb_spec 0 i); [|done].
  destruct (Z.ltb_spec i (Z.of_nat (length l))); [|done].
  simpl. intros [= <-]. split; [lia|done].
Qed.

Lemma aget_inv {A} (l : list A) i x :
  aget l i = Some x → 0 ≤ i < Z.of_nat (length l) ∧ l !! Z.to_nat i = Some x.
Proof.
  unfold aget. destruct (Z.leb_spec 0 i); [|done].
  intros Hx. split; [|done]. apply lookup_lt_Some in Hx. lia.
Qed.

(** The group counter after one more group of type [gt]. *)
Lemma count_group_inv gt rds rds' :
  count_group gt rds = Some rds' →
  ∃ e, stats_groups (stats rds) !! Z.to_nat (code gt) = Some e ∧
    0 ≤ code gt ∧
    rds' = set_stats
             (set_stats_groups
                (<[Z.to_nat (code gt) :=
                     if Ascii.eqb (version gt) "A"
                     then {| cnt_a := u16 (cnt_a e + 1); cnt_b := cnt_b e |}
                     else {| cnt_a := cnt_a e; cnt_b := u16 (cnt_b e + 1) |}]>
                   (stats_groups (stats rds))) (stats rds)) rds.
Proof.
  unfold count_group. intros H.
  destruct (aget _ _) as [e|] eqn:He; simpl in H; [|done].
  destruct (aset _ _ _) as [gs|] eqn:Hgs; simpl in H; [|done].
  injection H as <-. apply aget_inv in He as [? He].
  apply aset_inv in Hgs as [_ ->]. exists e. split_and!; [done|lia|done].
Qed.

Lemma decode_accepted_inv decoder g w w' :
  errors (b g) ≤ BLERB_MAX →
  rds_decoder_decode decoder g w = Some w' →
  let rds := w_rds w in
  let gt := group_type_of (val (b g)) in
  ∃ rds1,
    dispatch decoder gt g {| w_rds := rds1; w_calls := w_calls w |} = Some w' ∧
    (∀ f, same_field f rds rds1) ∧
    pi_code rds1 =
      (if Ascii.eqb (version gt) "B" && (errors (c g) <=? BLERC_MAX)
          && (errors (c g) <? errors (b g)) then val (c g)
       else if errors (a g) <=? BLERA_MAX then val (a g) else pi_code rds) ∧
    pty rds1 = u8 (Z.shiftr (Z.land (val (b g)) PTY_MASK) 5) ∧
    tp_code rds1 = to_bool (Z.land (val (b g)) TP_CODE) ∧
    valid_values rds1 =
      Z.lor (Z.lor (Z.lor (valid_values rds)
                      (if (errors (a g) <=? BLERA_MAX)
                          || (Ascii.eqb (version gt) "B"
                              && (errors (c g) <=? BLERC_MAX)
                              && (errors (c g) <? errors (b g)))
                       then RDS_PI_CODE else 0))
               RDS_TP_CODE) RDS_PTY ∧
    stats_data_cnt (stats rds1) = u16 (stats_data_cnt (stats rds) + 1) ∧
    stats_blckb_errors (stats rds1) = stats_blckb_errors (stats rds) ∧
    ∃ e, stats_groups (stats rds) !! Z.to_nat (code gt) = Some e ∧
      stats_groups (stats rds1) =
        <[Z.to_nat (code gt) :=
            if Ascii.eqb (version gt) "A"
            then {| cnt_a := u16 (cnt_a e + 1); cnt_b := cnt_b e |}
            else {| cnt_a := cnt_a e; cnt_b := u16 (cnt_b e + 1) |}]>
          (stats_groups (stats rds)).
Proof.
  intros Hb H rds gt. revert H. unfold rds_decoder_decode.
  fold rds. fold gt. cbv zeta. unfold latch_pi_code, decode_pty. cbv zeta.
  intros H.
  destruct (Z.ltb_spec BLERB_MAX (errors (b g))); [lia|].
  opt_inv.
  all: repeat match goal with
       | H : count_packet _ _ = Some _ |- _ =>
           apply count_packet_inv in H as [? ->]
       | H : count_group _ _ = Some _ |- _ =>
           apply count_group_inv in H as (? & ? & ? & ->)
       end.
  all: eexists; split; [eassumption|].
  all: split; [intros []; simpl; done|].
  all: subst rds gt; simpl in *.
  all: repeat match goal with
       | E : ?c = _ |- context [?c] => rewrite E
       end; simpl.
  all: split_and!; try done.
  all: rewrite ?Z.lor_0_r, <- ?Z.lor_assoc, ?Z.lor_diag; try done.
  all: by eexists.
Qed.

(** A dropped group runs the start of the preamble only. *)
Lemma decode_dropped_inv decoder g w w' :
  BLERB_MAX < errors (b g) →
  rds_decoder_decode decoder g w = Some w' →
  let rds := w_rds w in
  w_calls w' = w_calls w ∧
  (∀ f, same_field f rds (w_rds w')) ∧
  pi_code (w_rds w') =
    (if errors (a g) <=? BLERA_MAX then val (a g) else pi_code rds) ∧
  pty (w_rds w') = pty rds ∧ tp_code (w_rds w') = tp_code rds ∧
  valid_values (w_rds w') =
    Z.lor (valid_values rds)
      (if errors (a g) <=? BLERA_MAX then RDS_PI_CODE else 0) ∧
  stats_data_cnt (stats (w_rds w')) = u16 (stats_data_cnt (stats rds) + 1) ∧
  stats_blckb_errors (stats (w_rds w'))
    = u16 (stats_blckb_errors (stats rds) + 1) ∧
  stats_groups (stats (w_rds w')) = stats_groups (stats rds).
Proof.
  intros Hb H rds. revert H. unfold rds_decoder_decode.
  fold rds. cbv zeta. unfold latch_pi_code.
  intros H.
  destruct (Z.ltb_spec BLERB_MAX (errors (b g))); [|lia].
  opt_inv.
  all: repeat match goal with
       | H : count_packet _ _ = Some _ |- _ =>
           apply count_packet_inv in H as [? ->]
       end.
  all: subst rds; simpl.
  all: split_and!; try done; try (intros []; simpl; done).
  all: by rewrite Z.lor_0_r.
Qed.

(** Decoding a group from a state of the data model succeeds. *)
Lemma decode_succeeds decoder g w :
  rds_data_ok (w_rds w) →
  ∃ w', rds_decoder_decode decoder g w = Some w' ∧ rds_data_ok (w_rds w').
Proof.
  intros Hok. pose proof (rds_decoder_decode_evolves decoder g w Hok) as H.
  destruct (rds_decoder_decode decoder g w) as [w'|]; [|done].
  exists w'. split; [done|]. apply H.
Qed.

(** The calls a handler makes: none, or one call of the decode callback that
    is handed the state the group leaves behind. *)
Lemma decode_oda_calls decoder gt blocks w w' :
  decode_oda decoder gt blocks w = Some w' →
  w_calls w' = w_calls w ∨
  (oda_decode_cb decoder ≠ 0 ∧
   ∃ e, e ∈ oda (w_rds w) ∧
     w_calls w' = w_calls w ++
       [call_decode_cb (oda_decode_cb decoder) (oda_id e) (w_rds w') blocks gt
          (oda_cb_data decoder)]).
Proof.
  unfold decode_oda. cbv zeta. intros H. opt_inv; simpl; auto.
  right. split.
  { intros Heq. rewrite Heq in *. done. }
  match goal with H : aget _ _ = Some ?e |- _ =>
    exists e; apply aget_inv in H as [_ H] end.
  split; [by eapply list_elem_of_lookup_2|done].
Qed.

Lemma dispatch_calls decoder gt blocks w w' :
  dispatch decoder gt blocks w = Some w' →
  w_calls w' = w_calls w ∨
  (oda_decode_cb decoder ≠ 0 ∧ F_oda ∈ group_writes gt ∧
   ∃ e, e ∈ oda (w_rds w) ∧
     w_calls w' = w_calls w ++
       [call_decode_cb (oda_decode_cb decoder) (oda_id e) (w_rds w') blocks gt
          (oda_cb_data decoder)]).
Proof.
  unfold dispatch, group_writes. cbv zeta. intros H.
  repeat case_match; try (injection H as <-; by left);
    unfold decode_group_type_3, decode_group_type_4, decode_group_type_5,
      decode_group_type_6, decode_group_type_7, decode_group_type_8,
      decode_group_type_9, decode_group_type_10, decode_group_type_11,
      decode_group_type_12, decode_group_type_13 in H;
    opt_inv; on_rds_open; try (by left);
    (apply decode_oda_calls in H as [H|(? & ? & ? & ?)]; [by left|right];
     split; [done|]; split; [|eauto];
     repeat match goal with
            | E : ?c = _ |- context [?c] => rewrite E
            end; in_fields).
Qed.

(** ** The valid bits *)

Lemma mask_set_here v m : Z.land (Z.lor v m) m = m.
Proof.
  apply Z.bits_inj'. intros n Hn. rewrite Z.land_spec, Z.lor_spec.
  destruct (Z.testbit m n); [by rewrite orb_true_r|by rewrite andb_false_r].
Qed.

Lemma mask_set_lor v x m : Z.land v m = m → Z.land (Z.lor v x) m = m.
Proof.
  intros H. apply Z.bits_inj'. intros n Hn.
  apply (f_equal (λ z, Z.testbit z n)) in H.
  rewrite Z.land_spec in H. rewrite Z.land_spec, Z.lor_spec.
  destruct (Z.testbit m n); [|by rewrite andb_false_r].
  rewrite andb_true_r in H. by rewrite H.
Qed.


(** ** What an accepted group writes *)

(** X1.  From every state of the data model, an accepted group (block B
    within its threshold) is decoded, and besides the fields of the preamble
    ([pi_code], [pty], [tp_code], [valid_values], [stats]) it changes only the
    fields its group type's handler writes: every field outside
    [group_writes] holds the value it held before. *)
Theorem group_footprint (decoder : rds_decoder) (g : rds_blocks) (w : world) :
  rds_data_ok (w_rds w) → errors (b g) ≤ BLERB_MAX →
  ∃ w', rds_decoder_decode decoder g w = Some w' ∧
    ∀ f, f ∉ group_writes (group_type_of (val (b g))) →
         same_field f (w_rds w) (w_rds w').
Proof.
  intros Hok Hb. destruct (decode_succeeds decoder g w Hok) as (w' & Hw' & _).
  exists w'. split; [done|]. intros f Hf.
  destruct (decode_accepted_inv _ _ _ _ Hb Hw') as (rds1 & Hd & Hs & _).
  apply dispatch_changes in Hd as [_ Hd]. simpl in Hd.
  eapply same_field_trans; [apply Hs|by apply Hd].
Qed.

Lemma group_footprint_witness :
  ∃ w', rds_decoder_decode sample_decoder
          (mk_blocks 0xD943 0 0x2000 0 0x4142 0 0x4344 0) fresh_world
        = Some w' ∧
    ps (w_rds w') = ps (w_rds fresh_world).
Proof.
  destruct (group_footprint sample_decoder
              (mk_blocks 0xD943 0 0x2000 0 0x4142 0 0x4344 0) fresh_world)
    as (w' & Hw' & H); [reflexivity | by vm_compute |].
  exists w'. split; [exact Hw'|].
  apply (H F_ps). vm_compute. by intros [?|[]%elem_of_nil]%elem_of_cons.
Defined.

(** X2.  Decoding one group makes at most one callback.  It is never the
    clear callback; it is made only when a decode callback is bound and the
    group's handler is one that serves open data; it names the application
    ID of an entry of the ODA table, and the record it is handed is the state
    the group leaves behind. *)
Theorem decode_callbacks (decoder : rds_decoder) (g : rds_blocks) (w : world) :
  rds_data_ok (w_rds w) →
  ∃ w', rds_decoder_decode decoder g w = Some w' ∧
    (w_calls w' = w_calls w ∨
     (oda_decode_cb decoder ≠ 0 ∧ errors (b g) ≤ BLERB_MAX ∧
      F_oda ∈ group_writes (group_type_of (val (b g))) ∧
      ∃ e, e ∈ oda (w_rds w) ∧
        w_calls w' = w_calls w ++
          [call_decode_cb (oda_decode_cb decoder) (oda_id e) (w_rds w') g
             (group_type_of (val (b g))) (oda_cb_data decoder)])).
Proof.
  intros Hok. destruct (decode_succeeds decoder g w Hok) as (w' & Hw' & _).
  exists w'. split; [done|].
  destruct (Z.leb_spec (errors (b g)) BLERB_MAX) as [Hb|Hb].
  - destruct (decode_accepted_inv _ _ _ _ Hb Hw') as (rds1 & Hd & Hs & _).
    apply dispatch_calls in Hd as [Hd|(Hcb & Hf & e & He & Hd)]; [by left|].
    right. split_and!; [done..|]. exists e. split; [|done].
    simpl in He. by destruct (Hs F_oda) as [_ <-].
  - left. by destruct (decode_dropped_inv _ _ _ _ Hb Hw') as [? _].
Qed.

Lemma decode_callbacks_witness :
  ∃ w', rds_decoder_decode sample_decoder
          (mk_blocks 0 0 0xB000 0 0x1111 0 0x2222 0) announced_world
        = Some w' ∧
        length (w_calls w') = 2%nat.
Proof.
  destruct (decode_callbacks sample_decoder
              (mk_blocks 0 0 0xB000 0 0x1111 0 0x2222 0) announced_world)
    as (w' & Hw' & H); [reflexivity|].
  exists w'. split; [exact Hw'|].
  destruct H as [H|(_ & _ & _ & e & _ & H)]; rewrite H.
  - exfalso. vm_compute in Hw'. injection Hw' as <-. discriminate H.
  - rewrite length_app. reflexivity.
Defined.

(** ** The fields of the preamble *)

(** X3.  After every accepted group the programme type is bits 9 to 5 of
    block B and the traffic-programme flag is bit 10 of block B, whatever the
    group type and whatever the other blocks carry, and both are marked
    valid: no handler touches them afterwards. *)
Theorem pty_tp_of_accepted_group (decoder : rds_decoder) (g : rds_blocks)
  (w : world) :
  rds_data_ok (w_rds w) → errors (b g) ≤ BLERB_MAX →
  ∃ w', rds_decoder_decode decoder g w = Some w' ∧
    pty (w_rds w') = Z.land (Z.shiftr (val (b g)) 5) 0x1F ∧
    tp_code (w_rds w') = Z.testbit (val (b g)) 10 ∧
    Z.land (valid_values (w_rds w')) RDS_PTY = RDS_PTY ∧
    Z.land (valid_values (w_rds w')) RDS_TP_CODE = RDS_TP_CODE.
Proof.
  intros Hok Hb. destruct (decode_succeeds decoder g w Hok) as (w' & Hw' & _).
  exists w'. split; [done|].
  destruct (decode_accepted_inv _ _ _ _ Hb Hw')
    as (rds1 & Hd & _ & _ & Hpty & Htp & Hv & _).
  apply dispatch_changes in Hd as [(_ & -> & -> & _ & _ & _ & bits & ->) _].
  simpl. rewrite Hpty, Htp, Hv. split_and!.
  - pose proof (field_bounds (val (b g)) PTY_MASK 5 5 ltac:(done) eq_refl).
    rewrite u8_small by (change (2 ^ 5) with 32 in *; lia).
    by apply (field_shift (val (b g)) PTY_MASK 5 5).
  - by apply (to_bool_land_bit (val (b g)) 10).
  - apply mask_set_lor, mask_set_here.
  - do 2 apply mask_set_lor. apply mask_set_here.
Qed.

Lemma pty_tp_of_accepted_group_witness :
  ∃ w', rds_decoder_decode sample_decoder
          (mk_blocks 0 0 0x25A0 0 0 0 0 0) fresh_world = Some w' ∧
    pty (w_rds w') = 13 ∧ tp_code (w_rds w') = true.
Proof.
  destruct (pty_tp_of_accepted_group sample_decoder
              (mk_blocks 0 0 0x25A0 0 0 0 0 0) fresh_world)
    as (w' & Hw' & Hp & Ht & _); [reflexivity | by vm_compute |].
  exists w'. split; [exact Hw'|]. split; [exact Hp | exact Ht].
Defined.

(** X4.  The PI code after any group: the value of block C when the group
    is an accepted B-version group whose block C is within its threshold and
    has a lower error class than block B; otherwise the value of block A
    when A is within its threshold; otherwise the PI code is the one held
    before.  When a block was the source, PI is marked valid. *)
Theorem pi_code_after_decode (decoder : rds_decoder) (g : rds_blocks)
  (w : world) :
  rds_data_ok (w_rds w) →
  ∃ w', rds_decoder_decode decoder g w = Some w' ∧
    match pi_source g with
    | Some blk => pi_code (w_rds w') = val blk ∧
                  Z.land (valid_values (w_rds w')) RDS_PI_CODE = RDS_PI_CODE
    | None => pi_code (w_rds w') = pi_code (w_rds w)
    end.
Proof.
  intros Hok. destruct (decode_succeeds decoder g w Hok) as (w' & Hw' & _).
  exists w'. split; [done|]. unfold pi_source.
  destruct (Z.leb_spec (errors (b g)) BLERB_MAX) as [Hb|Hb]; simpl.
  - destruct (decode_accepted_inv _ _ _ _ Hb Hw')
      as (rds1 & Hd & _ & Hpi & _ & _ & Hv & _).
    apply dispatch_changes in Hd as [(-> & _ & _ & _ & _ & _ & bits & ->) _].
    simpl. rewrite Hpi, Hv.
    destruct (_ && _ && _) eqn:Hc.
    + rewrite orb_true_r. split; [done|].
      do 3 apply mask_set_lor. apply mask_set_here.
    + rewrite orb_false_r.
      destruct (errors (a g) <=? BLERA_MAX); [|done]. split; [done|].
      do 3 apply mask_set_lor. apply mask_set_here.
  - destruct (decode_dropped_inv _ _ _ _ Hb Hw')
      as (_ & _ & -> & _ & _ & -> & _).
    destruct (errors (a g) <=? BLERA_MAX); [|done].
    split; [done|]. apply mask_set_here.
Qed.

Lemma pi_code_after_decode_witness :
  ∃ w', rds_decoder_decode sample_decoder
          (mk_blocks 0x1111 0 0x0800 1 0xD943 0 0 0) fresh_world = Some w' ∧
        pi_code (w_rds w') = 0xD943.
Proof.
  destruct (pi_code_after_decode sample_decoder
              (mk_blocks 0x1111 0 0x0800 1 0xD943 0 0 0) fresh_world)
    as (w' & Hw' & H); [reflexivity|].
  exists w'. split; [exact Hw' | exact (proj1 H)].
Defined.

(** One group never clears a bit of [valid_values]. *)
Lemma decode_valid_values decoder g w w' :
  rds_decoder_decode decoder g w = Some w' →
  ∃ bits, valid_values (w_rds w') = Z.lor (valid_values (w_rds w)) bits.
Proof.
  intros Hw'. destruct (Z.leb_spec (errors (b g)) BLERB_MAX) as [Hb|Hb].
  - destruct (decode_accepted_inv _ _ _ _ Hb Hw')
      as (rds1 & Hd & _ & _ & _ & _ & Hv & _).
    apply dispatch_changes in Hd as [(_ & _ & _ & _ & _ & _ & bits & ->) _].
    simpl. rewrite Hv. rewrite <- !Z.lor_assoc. by eexists.
  - destruct (decode_dropped_inv _ _ _ _ Hb Hw')
      as (_ & _ & _ & _ & _ & -> & _).
    by eexists.
Qed.

(** X5.  Decoding never withdraws a validity mark: over any sequence of
    groups, from any state of the data model, every bit of [valid_values]
    that was set before is still set afterwards.  (Only [rds_decoder_reset]
    clears them.) *)
Theorem valid_values_never_cleared (decoder : rds_decoder)
  (groups : list rds_blocks) (w : world) :
  rds_data_ok (w_rds w) →
  ∃ w', decode_all decoder groups w = Some w' ∧
    ∀ n, Z.testbit (valid_values (w_rds w)) n = true →
         Z.testbit (valid_values (w_rds w')) n = true.
Proof.
  revert w. induction groups as [|g groups IH]; intros w Hok; simpl.
  { by exists w. }
  destruct (decode_succeeds decoder g w Hok) as (w1 & Hw1 & Hok1).
  rewrite Hw1. simpl. destruct (IH w1 Hok1) as (w' & Hw' & H).
  exists w'. split; [done|]. intros n Hn. apply H.
  destruct (decode_valid_values _ _ _ _ Hw1) as [bits ->].
  by rewrite Z.lor_spec, Hn.
Qed.

Lemma valid_values_never_cleared_witness :
  ∃ w', decode_all sample_decoder af_sample_groups announced_world = Some w' ∧
        Z.testbit (valid_values (w_rds w')) 8 = true.
Proof.
  destruct (valid_values_never_cleared sample_decoder af_sample_groups
              announced_world) as (w' & Hw' & H); [reflexivity|].
  exists w'. split; [exact Hw'|]. apply H. reflexivity.
Defined.

(** ** The statistics *)

Lemma u16_add_l x y : u16 (u16 x + y) = u16 (x + y).
Proof. unfold u16. by rewrite Zplus_mod_idemp_l. Qed.

Lemma decode_counts decoder g w w' :
  rds_decoder_decode decoder g w = Some w' →
  stats_data_cnt (stats (w_rds w')) =
    u16 (stats_data_cnt (stats (w_rds w)) + 1) ∧
  stats_blckb_errors (stats (w_rds w')) =
    if bool_decide (BLERB_MAX < errors (b g))
    then u16 (stats_blckb_errors (stats (w_rds w)) + 1)
    else stats_blckb_errors (stats (w_rds w)).
Proof.
  intros Hw'. destruct (Z.leb_spec (errors (b g)) BLERB_MAX) as [Hb|Hb].
  - rewrite bool_decide_eq_false_2 by lia.
    destruct (decode_accepted_inv _ _ _ _ Hb Hw')
      as (rds1 & Hd & _ & _ & _ & _ & _ & Hdc & Hbe & _).
    apply dispatch_changes in Hd as [(_ & _ & _ & _ & -> & -> & _) _].
    by simpl.
  - rewrite bool_decide_eq_true_2 by lia.
    by destruct (decode_dropped_inv _ _ _ _ Hb Hw')
      as (_ & _ & _ & _ & _ & _ & -> & -> & _).
Qed.

(** X6.  The two group totals of the statistics count what they say, modulo
    2^16: over any sequence of groups, [data_cnt] grows by the number of
    groups delivered and [blckb_errors] by the number of groups dropped for
    block B.  (The counters start as values of their type, [uint16_t].) *)
Theorem stats_count_groups (decoder : rds_decoder) (groups : list rds_blocks)
  (w : world) :
  rds_data_ok (w_rds w) →
  0 ≤ stats_data_cnt (stats (w_rds w)) < 65536 →
  0 ≤ stats_blckb_errors (stats (w_rds w)) < 65536 →
  ∃ w', decode_all decoder groups w = Some w' ∧
    stats_data_cnt (stats (w_rds w')) =
      u16 (stats_data_cnt (stats (w_rds w)) + Z.of_nat (length groups)) ∧
    stats_blckb_errors (stats (w_rds w')) =
      u16 (stats_blckb_errors (stats (w_rds w))
           + Z.of_nat (length (dropped_groups groups))).
Proof.
  revert w. induction groups as [|g groups IH]; intros w Hok Hd Hb.
  { exists w. split; [done|]. simpl. rewrite !Z.add_0_r.
    by rewrite !u16_small. }
  simpl decode_all.
  destruct (decode_succeeds decoder g w Hok) as (w1 & Hw1 & Hok1).
  rewrite Hw1. simpl. destruct (decode_counts _ _ _ _ Hw1) as [Hd1 Hb1].
  destruct (IH w1 Hok1) as (w' & Hw' & Hd' & Hb').
  { rewrite Hd1. apply Z.mod_pos_bound. lia. }
  { rewrite Hb1. case_bool_decide; [apply Z.mod_pos_bound; lia|done]. }
  exists w'. split; [done|]. rewrite Hd', Hb', Hd1, Hb1. split.
  - rewrite u16_add_l. f_equal. lia.
  - unfold dropped_groups. rewrite filter_cons. case_bool_decide.
    + rewrite decide_True by done. rewrite u16_add_l. f_equal. simpl length. lia.
    + by rewrite decide_False by done.
Qed.

Lemma stats_count_groups_witness :
  ∃ w', decode_all sample_decoder
          [mk_blocks 0 0 0 0 0 0 0 0; mk_blocks 0 0 0 2 0 0 0 0;
           mk_blocks 0 0 0 0 0 0 0 0] fresh_world = Some w' ∧
    stats_data_cnt (stats (w_rds w')) = 3 ∧
    stats_blckb_errors (stats (w_rds w')) = 1.
Proof.
  destruct (stats_count_groups sample_decoder
              [mk_blocks 0 0 0 0 0 0 0 0; mk_blocks 0 0 0 2 0 0 0 0;
               mk_blocks 0 0 0 0 0 0 0 0] fresh_world)
    as (w' & Hw' & H1 & H2); [reflexivity | by vm_compute | by vm_compute |].
  exists w'. split; [exact Hw'|]. split; [exact H1 | exact H2].
Defined.

(** X7.  An accepted group of type (code, version) adds one, modulo 2^16, to
    the A or B counter of [stats.groups[code]] as its version says, and
    leaves the other counter of that entry and the other fifteen entries as
    they were. *)
Theorem group_counter (decoder : rds_decoder) (g : rds_blocks) (w : world) :
  rds_data_ok (w_rds w) → errors (b g) ≤ BLERB_MAX →
  let gt := group_type_of (val (b g)) in
  ∃ w' e, rds_decoder_decode decoder g w = Some w' ∧
    stats_groups (stats (w_rds w)) !! Z.to_nat (code gt) = Some e ∧
    stats_groups (stats (w_rds w')) =
      <[Z.to_nat (code gt) :=
          if Ascii.eqb (version gt) "A"
          then {| cnt_a := u16 (cnt_a e + 1); cnt_b := cnt_b e |}
          else {| cnt_a := cnt_a e; cnt_b := u16 (cnt_b e + 1) |}]>
        (stats_groups (stats (w_rds w))).
Proof.
  intros Hok Hb gt.
  destruct (decode_succeeds decoder g w Hok) as (w' & Hw' & _).
  destruct (decode_accepted_inv _ _ _ _ Hb Hw')
    as (rds1 & Hd & _ & _ & _ & _ & _ & _ & _ & e & He & Hg).
  apply dispatch_changes in Hd as [(_ & _ & _ & Hd & _) _]. simpl in Hd.
  exists w', e. split; [done|]. split; [done|]. by rewrite Hd.
Qed.

Lemma group_counter_witness :
  ∃ w' e, rds_decoder_decode sample_decoder
            (mk_blocks 0 0 0x2800 0 0 0 0 0) fresh_world = Some w' ∧
    stats_groups (stats (w_rds fresh_world)) !! 2%nat = Some e ∧
    stats_groups (stats (w_rds w')) =
      <[2%nat := {| cnt_a := cnt_a e; cnt_b := u16 (cnt_b e + 1) |}]>
        (stats_groups (stats (w_rds fresh_world))).
Proof.
  apply (group_counter sample_decoder (mk_blocks 0 0 0x2800 0 0 0 0 0)
           fresh_world); [reflexivity | by vm_compute].
Defined.

(** ** The Program Service name *)

Lemma ps_complete_from_spec (n : nat) i cnt b :
  0 ≤ i → ps_complete_from n i cnt = Some b →
  b = forallb (λ x, PS_VALIDATE_LIMIT <=? x)
        (take n (drop (Z.to_nat i) cnt)).
Proof.
  revert i b. induction n as [|n IH]; intros i b Hi.
  { change (ps_complete_from 0 i cnt) with (Some true). by intros [= <-]. }
  change (ps_complete_from (S n) i cnt)
    with (x ← aget cnt i;
          if x <? PS_VALIDATE_LIMIT then Some false
          else ps_complete_from n (i + 1) cnt).
  destruct (aget cnt i) as [x|] eqn:Hx; simpl; [|done].
  apply aget_inv in Hx as [Hlen Hx].
  rewrite (drop_S _ x) by done. simpl.
  destruct (Z.ltb_spec x PS_VALIDATE_LIMIT) as [Hlt|Hge].
  - intros [= <-]. destruct (Z.leb_spec PS_VALIDATE_LIMIT x); [lia|done].
  - intros H. apply IH in H; [|lia].
    destruct (Z.leb_spec PS_VALIDATE_LIMIT x); [|lia]. simpl.
    by replace (S (Z.to_nat i)) with (Z.to_nat (i + 1)) by lia.
Qed.

(** The loop that lowers the counters after a transition. *)
Lemma knock_down_loop (n : nat) i cnt0 :
  0 ≤ i → (Z.to_nat i + n)%nat = length cnt0 →
  for_loop n i
    (λ i cnt, x ← aget cnt i;
              if 1 <? x then aset cnt i (u8 (x - 1)) else Some cnt)
    (((λ x, if 1 <? x then u8 (x - 1) else x) <$> take (Z.to_nat i) cnt0)
       ++ drop (Z.to_nat i) cnt0)
  = Some ((λ x, if 1 <? x then u8 (x - 1) else x) <$> cnt0).
Proof.
  set (f := λ x, if 1 <? x then u8 (x - 1) else x).
  revert i. induction n as [|n IH]; intros i Hi Hlen.
  { change (for_loop 0 i ?b ?s) with (Some s).
    rewrite take_ge, drop_ge, app_nil_r by lia. done. }
  change (for_loop (S n) i ?b ?s) with (s' ← b i s; for_loop n (i + 1) b s').
  destruct (lookup_lt_is_Some_2 cnt0 (Z.to_nat i)) as [x Hx]; [lia|].
  assert (length (f <$> take (Z.to_nat i) cnt0) = Z.to_nat i) as Hl.
  { rewrite length_fmap, length_take. lia. }
  assert (((f <$> take (Z.to_nat i) cnt0) ++ drop (Z.to_nat i) cnt0)
            !! Z.to_nat i = Some x) as Hlook.
  { rewrite lookup_app_r by lia. rewrite Hl, Nat.sub_diag, lookup_drop.
    by rewrite Nat.add_0_r. }
  assert (aget ((f <$> take (Z.to_nat i) cnt0) ++ drop (Z.to_nat i) cnt0) i
          = Some x) as ->.
  { unfold aget. by destruct (Z.leb_spec 0 i); [|lia]. }
  simpl.
  assert (((f <$> take (Z.to_nat (i + 1)) cnt0)
             ++ drop (Z.to_nat (i + 1)) cnt0)
          = <[Z.to_nat i := f x]>
              ((f <$> take (Z.to_nat i) cnt0) ++ drop (Z.to_nat i) cnt0))
    as Hnext.
  { replace (Z.to_nat (i + 1)) with (S (Z.to_nat i)) by lia.
    rewrite (take_S_r _ _ x) by done. rewrite fmap_app. simpl.
    rewrite (drop_S _ x (Z.to_nat i)) by done.
    rewrite <- (Nat.add_0_r (Z.to_nat i)) at 3. rewrite <- Hl at 3.
    rewrite insert_app_r. simpl. by rewrite <- app_assoc. }
  destruct (Z.ltb_spec 1 x) as [Hx1|Hx1].
  - unfold aset. destruct (Z.leb_spec 0 i); [|lia].
    match goal with |- context [i <? ?m] => destruct (Z.ltb_spec i m) end.
    2:{ rewrite length_app, Hl, length_drop in *. lia. }
    simpl. rewrite <- (IH (i + 1)) by lia. f_equal. rewrite Hnext. unfold f.
    by destruct (Z.ltb_spec 1 x); [|lia].
  - simpl. rewrite <- (IH (i + 1)) by lia. f_equal. rewrite Hnext.
    symmetry. apply list_insert_id. rewrite Hlook. f_equal. unfold f.
    by destruct (Z.ltb_spec 1 x); [lia|].
Qed.

Lemma knock_down_counts_spec cnt :
  knock_down_counts (Z.of_nat (length cnt)) cnt
  = Some ((λ x, if 1 <? x then u8 (x - 1) else x) <$> cnt).
Proof.
  unfold knock_down_counts.
  rewrite <- (knock_down_loop (length cnt) 0 cnt) by (simpl; lia).
  by rewrite Nat2Z.id.
Qed.

Lemma aget_lookup {A} (l : list A) i x :
  0 ≤ i → l !! Z.to_nat i = Some x → aget l i = Some x.
Proof. intros Hi Hx. unfold aget. by destruct (Z.leb_spec 0 i); [|lia]. Qed.

Lemma aset_insert {A} (l : list A) i v :
  0 ≤ i < Z.of_nat (length l) → aset l i v = Some (<[Z.to_nat i := v]> l).
Proof.
  intros Hi. unfold aset. destruct (Z.leb_spec 0 i); [|lia].
  by destruct (Z.ltb_spec i (Z.of_nat (length l))); [|lia].
Qed.

(** The four-way vote of [update_ps_advanced], written out on the three
    confidence buffers. *)
Lemma ps_vote_spec p i x h l n :
  ps_okb p = true → 0 ≤ i < 8 →
  ps_pvt_hi_prob p !! Z.to_nat i = Some h →
  ps_pvt_lo_prob p !! Z.to_nat i = Some l →
  ps_pvt_hi_prob_cnt p !! Z.to_nat i = Some n →
  ps_vote p i x = Some
    (if h =? x then
       if n <? 2
       then (set_ps_pvt_hi_prob_cnt
               (<[Z.to_nat i := u8 (n + 1)]> (ps_pvt_hi_prob_cnt p)) p, false)
       else (set_ps_pvt_lo_prob (<[Z.to_nat i := x]> (ps_pvt_lo_prob p))
               (set_ps_pvt_hi_prob_cnt
                  (<[Z.to_nat i := 2]> (ps_pvt_hi_prob_cnt p)) p), false)
     else if l =? x then
       (set_ps_pvt_hi_prob (<[Z.to_nat i := x]> (ps_pvt_hi_prob p))
          (set_ps_pvt_lo_prob (<[Z.to_nat i := h]> (ps_pvt_lo_prob p))
             (set_ps_pvt_hi_prob_cnt
                (<[Z.to_nat i := if 2 <=? n then 3 else 2]>
                   (ps_pvt_hi_prob_cnt p)) p)),
        2 <=? n)
     else if n =? 0 then
       (set_ps_pvt_hi_prob_cnt (<[Z.to_nat i := 1]> (ps_pvt_hi_prob_cnt p))
          (set_ps_pvt_hi_prob (<[Z.to_nat i := x]> (ps_pvt_hi_prob p)) p),
        false)
     else
       (set_ps_pvt_lo_prob (<[Z.to_nat i := x]> (ps_pvt_lo_prob p)) p,
        false)).
Proof.
  intros (Hd & Hh & Hl & Hc)%ps_okb_iff Hi Hhi Hlo Hcnt. unfold ps_vote.
  rewrite (aget_lookup _ _ _ (proj1 Hi) Hhi). simpl.
  unfold PS_VALIDATE_LIMIT.
  destruct (h =? x).
  - rewrite (aget_lookup _ _ _ (proj1 Hi) Hcnt). simpl.
    destruct (n <? 2).
    + by rewrite aset_insert by lia.
    + rewrite !aset_insert by lia. done.
  - rewrite (aget_lookup _ _ _ (proj1 Hi) Hlo). simpl.
    destruct (l =? x).
    + rewrite (aget_lookup _ _ _ (proj1 Hi) Hcnt). simpl.
      destruct (2 <=? n); rewrite !aset_insert by lia; done.
    + rewrite (aget_lookup _ _ _ (proj1 Hi) Hcnt). simpl.
      destruct (n =? 0); rewrite !aset_insert by lia; done.
Qed.

(** [update_ps_advanced] on the PS buffers: vote, lower the counters on a
    transition, and show the confident text when every counter has reached
    the limit. *)
Lemma update_ps_advanced_spec rds i x p1 tr :
  ps_okb (ps rds) = true → 0 ≤ i < 8 →
  ps_vote (ps rds) i x = Some (p1, tr) →
  let p2 :=
    if tr then
      set_ps_pvt_hi_prob_cnt
        ((λ x, if 1 <? x then u8 (x - 1) else x) <$> ps_pvt_hi_prob_cnt p1) p1
    else p1 in
  update_ps_advanced rds i x = Some
    (if forallb (λ x, 2 <=? x) (ps_pvt_hi_prob_cnt p2)
     then set_ps (set_ps_display (ps_pvt_hi_prob p2) p2) (SET_BITS RDS_PS rds)
     else set_ps p2 rds).
Proof.
  intros Hok Hi Hv p2. unfold update_ps_advanced, PS_LEN.
  destruct (Z.leb_spec 8 i); [lia|]. rewrite Hv. simpl.
  pose proof (ps_vote_wp (ps rds) i x Hok Hi) as Hp1. rewrite Hv in Hp1.
  simpl in Hp1. pose proof Hp1 as (Hd & Hh & Hl & Hc)%ps_okb_iff.
  assert ((if tr
           then cnt ← knock_down_counts 8 (ps_pvt_hi_prob_cnt p1);
                Some (set_ps_pvt_hi_prob_cnt cnt p1)
           else Some p1) = Some p2) as ->.
  { subst p2. destruct tr; [|done].
    replace 8 with (Z.of_nat (length (ps_pvt_hi_prob_cnt p1))) by lia.
    by rewrite knock_down_counts_spec. }
  simpl.
  assert (ps_okb p2 = true) as (Hd2 & Hh2 & Hl2 & Hc2)%ps_okb_iff.
  { subst p2. destruct tr; [|done]. apply ps_okb_iff. simpl.
    by rewrite length_fmap. }
  destruct (ps_complete_from _ _ _) as [complete|] eqn:Hcomp.
  2:{ pose proof (ps_complete_from_wp (Z.to_nat 8) 0 (ps_pvt_hi_prob_cnt p2)
                    ltac:(lia) ltac:(lia)) as Hwp.
      by rewrite Hcomp in Hwp. }
  apply ps_complete_from_spec in Hcomp; [|lia]. simpl.
  rewrite drop_0, take_ge in Hcomp by lia.
  unfold PS_VALIDATE_LIMIT in Hcomp. rewrite <- Hcomp.
  destruct complete; [|done].
  unfold memcpy.
  destruct (Z.leb_spec 8 (Z.of_nat (length (ps_pvt_hi_prob p2)))); [|lia].
  destruct (Z.leb_spec 8 (Z.of_nat (length (ps_display p2)))); [|lia].
  simpl. by rewrite take_ge, drop_ge, app_nil_r by lia.
Qed.

Lemma pair_idx_bounds bv : 0 ≤ Z.land bv 0x03 < 4.
Proof. apply (land_ones_bounds bv 2). lia. Qed.

Lemma pair_idx_0 bv : u8 (u16 (Z.land bv 0x03 * 2) + 0) = 2 * Z.land bv 0x03.
Proof.
  pose proof (pair_idx_bounds bv). rewrite Z.add_0_r.
  rewrite u16_small, u8_small; lia.
Qed.

Lemma pair_idx_1 bv :
  u8 (u16 (Z.land bv 0x03 * 2) + 1) = 2 * Z.land bv 0x03 + 1.
Proof.
  pose proof (pair_idx_bounds bv). rewrite u16_small, u8_small; lia.
Qed.

(** The PS part of [decode_group_type_0] when block D is within its
    threshold: two character updates, at [2 k] and [2 k + 1]. *)
Lemma decode_group_type_0_inv decoder gt blocks rds rds' :
  decode_group_type_0 decoder gt blocks rds = Some rds' →
  errors (d blocks) ≤ BLERD_MAX →
  let k := Z.land (val (b blocks)) 0x03 in
  let hi := u8 (Z.shiftr (val (d blocks)) 8) in
  let lo := u8 (Z.land (val (d blocks)) 0xFF) in
  ∃ r1 r2 r3,
    ps r1 = ps rds ∧
    (if advanced_ps_decoding decoder
     then update_ps_advanced r1 (2 * k) hi = Some r2 ∧
          update_ps_advanced r2 (2 * k + 1) lo = Some r3
     else update_ps_simple r1 (2 * k) hi = Some r2 ∧
          update_ps_simple r2 (2 * k + 1) lo = Some r3) ∧
    ps rds' = ps r3 ∧ valid_values rds' = valid_values r3.
Proof.
  unfold decode_group_type_0. cbv zeta. intros H Hd.
  rewrite pair_idx_0, pair_idx_1 in H.
  destruct (Z.ltb_spec BLERD_MAX (errors (d blocks))); [lia|].
  opt_inv.
  all: repeat match goal with
       | H : decode_alt_freq _ _ = Some _ |- _ =>
           apply (decode_alt_freq_changes [F_af]) in H as [_ H]; [|in_fields];
           specialize (H F_ps); simpl in H
       | H : decode_ta _ _ = Some _ |- _ =>
           apply (decode_ta_changes [F_ta_code]) in H as [_ H]; [|in_fields];
           specialize (H F_ps); simpl in H
       | H : decode_ms _ _ = Some _ |- _ =>
           apply (decode_ms_changes [F_music]) in H as [_ H]; [|in_fields];
           specialize (H F_ps); simpl in H
       | H : count_packet _ _ = Some _ |- _ =>
           apply count_packet_inv in H as [? ->]
       end.
  all: eexists _, _, _; split_and!; [|eassumption|eassumption|done..].
  all: repeat match goal with
       | H : F_ps ∉ _ → _ |- _ =>
           rewrite H by (by intros [?|[]%elem_of_nil]%elem_of_cons)
       end; done.
Qed.

Lemma dispatch_group_0 decoder gt blocks w w' :
  code gt = 0 → dispatch decoder gt blocks w = Some w' →
  decode_group_type_0 decoder gt blocks (w_rds w) = Some (w_rds w').
Proof.
  unfold dispatch. intros -> H. apply on_rds_inv in H as (r & H & ->). done.
Qed.

(** An accepted group that carries a PS segment runs the two character
    updates on the PS buffers it found. *)
Lemma decode_ps_group decoder g w w' k hi lo :
  rds_decoder_decode decoder g w = Some w' → carries_ps g k hi lo →
  ∃ r1 r2 r3,
    ps r1 = ps (w_rds w) ∧
    (if advanced_ps_decoding decoder
     then update_ps_advanced r1 (2 * k) hi = Some r2 ∧
          update_ps_advanced r2 (2 * k + 1) lo = Some r3
     else update_ps_simple r1 (2 * k) hi = Some r2 ∧
          update_ps_simple r2 (2 * k + 1) lo = Some r3) ∧
    ps (w_rds w') = ps r3 ∧ valid_values (w_rds w') = valid_values r3.
Proof.
  intros Hw' (Hc & Hb & Hd & <- & <- & <-).
  destruct (decode_accepted_inv _ _ _ _ Hb Hw') as (rds1 & Hdis & Hs & _).
  apply dispatch_group_0 in Hdis; [|done]. simpl in Hdis.
  destruct (decode_group_type_0_inv _ _ _ _ _ Hdis Hd)
    as (r1 & r2 & r3 & H1 & H2 & H3 & H4).
  exists r1, r2, r3. split_and!; try done.
  rewrite H1. apply (Hs F_ps).
Qed.

Lemma update_ps_simple_spec rds i x rds' :
  0 ≤ i < 8 → update_ps_simple rds i x = Some rds' →
  ps rds' = set_ps_display (<[Z.to_nat i := x]> (ps_display (ps rds))) (ps rds)
  ∧ valid_values rds' = Z.lor (valid_values rds) RDS_PS.
Proof.
  unfold update_ps_simple, PS_LEN. intros Hi H.
  destruct (Z.leb_spec 8 i); [lia|]. opt_inv.
  match goal with H : aset _ _ _ = Some _ |- _ =>
    apply aset_inv in H as [_ ->] end.
  done.
Qed.

(** X8.  Simple PS decoding.  With [advanced_ps_decoding] off, an accepted
    group of type 0 whose block D is within its threshold stores the two
    characters of block D at positions [2 k] and [2 k + 1] of [ps.display],
    where [k] is the low two bits of block B; the other six characters and
    the three confidence buffers are left as they were, and PS is marked
    valid. *)
Theorem simple_ps_segment (decoder : rds_decoder) (g : rds_blocks) (w : world)
  (k hi lo : Z) :
  rds_data_ok (w_rds w) → advanced_ps_decoding decoder = false →
  carries_ps g k hi lo →
  ∃ w', rds_decoder_decode decoder g w = Some w' ∧
    ps (w_rds w') =
      set_ps_display
        (<[Z.to_nat (2 * k + 1) := lo]>
           (<[Z.to_nat (2 * k) := hi]> (ps_display (ps (w_rds w)))))
        (ps (w_rds w)) ∧
    Z.land (valid_values (w_rds w')) RDS_PS = RDS_PS.
Proof.
  intros Hok Hadv Hg.
  destruct (decode_succeeds decoder g w Hok) as (w' & Hw' & _).
  exists w'. split; [done|].
  destruct (decode_ps_group _ _ _ _ _ _ _ Hw' Hg)
    as (r1 & r2 & r3 & H1 & H2 & -> & ->).
  rewrite Hadv in H2. destruct H2 as [H2 H3].
  destruct Hg as (_ & _ & _ & Hk & _).
  pose proof (pair_idx_bounds (val (b g))) as Hkb. rewrite Hk in Hkb.
  apply update_ps_simple_spec in H2 as [H2 _]; [|lia].
  apply update_ps_simple_spec in H3 as [-> ->]; [|lia].
  rewrite H2, H1. split; [done|]. apply mask_set_here.
Qed.

Lemma simple_ps_segment_witness :
  ∃ w', rds_decoder_decode sample_decoder (ps_segment 1 0x44 0x49) fresh_world
        = Some w' ∧
    ps_display (ps (w_rds w')) = [0; 0; 0x44; 0x49; 0; 0; 0; 0].
Proof.
  destruct (simple_ps_segment sample_decoder (ps_segment 1 0x44 0x49)
              fresh_world 1 0x44 0x49) as (w' & Hw' & H & _);
    [reflexivity | reflexivity | by vm_compute |].
  exists w'. split; [exact Hw'|]. rewrite H. reflexivity.
Defined.

Lemma ps_lookups p i :
  ps_okb p = true → 0 ≤ i < 8 →
  ∃ h l n, ps_pvt_hi_prob p !! Z.to_nat i = Some h ∧
           ps_pvt_lo_prob p !! Z.to_nat i = Some l ∧
           ps_pvt_hi_prob_cnt p !! Z.to_nat i = Some n.
Proof.
  intros (Hd & Hh & Hl & Hc)%ps_okb_iff Hi.
  destruct (lookup_lt_is_Some_2 (ps_pvt_hi_prob p) (Z.to_nat i)) as [h Hh'];
    [lia|].
  destruct (lookup_lt_is_Some_2 (ps_pvt_lo_prob p) (Z.to_nat i)) as [l Hl'];
    [lia|].
  destruct (lookup_lt_is_Some_2 (ps_pvt_hi_prob_cnt p) (Z.to_nat i))
    as [n Hn']; [lia|].
  by exists h, l, n.
Qed.

(** X9.  Advanced PS decoding shows only validated text.  After a character
    update, either every confidence counter has reached the validation limit
    and the displayed name is the high-probability text, marked valid; or
    some counter is below the limit and the displayed name and
    [valid_values] are exactly what they were. *)
Theorem ps_display_validated (rds : rds_data) (i x : Z) :
  ps_okb (ps rds) = true → 0 ≤ i < 8 →
  ∃ rds', update_ps_advanced rds i x = Some rds' ∧
    if forallb (λ n, PS_VALIDATE_LIMIT <=? n)
         (ps_pvt_hi_prob_cnt (ps rds'))
    then ps_display (ps rds') = ps_pvt_hi_prob (ps rds') ∧
         Z.land (valid_values rds') RDS_PS = RDS_PS
    else ps_display (ps rds') = ps_display (ps rds) ∧
         valid_values rds' = valid_values rds.
Proof.
  intros Hok Hi. destruct (ps_lookups _ _ Hok Hi) as (h & l & n & Hh & Hl & Hn).
  pose proof (ps_vote_spec _ _ x _ _ _ Hok Hi Hh Hl Hn) as Hv.
  match type of Hv with _ = Some ?r =>
    destruct r as [p1 tr] eqn:Hr end.
  assert (ps_display p1 = ps_display (ps rds)) as Hdisp.
  { repeat case_match; by simplify_eq. }
  rewrite (update_ps_advanced_spec _ _ _ _ _ Hok Hi Hv).
  eexists; split; [done|]. unfold PS_VALIDATE_LIMIT.
  set (p2 := if tr then _ else p1).
  assert (ps_display p2 = ps_display p1) as Hdisp2 by (by destruct tr).
  destruct (forallb _ (ps_pvt_hi_prob_cnt p2)) eqn:Hall; simpl.
  - rewrite Hall. split; [done|]. apply mask_set_here.
  - rewrite Hall. by rewrite Hdisp2, Hdisp.
Qed.

Lemma ps_display_validated_witness :
  ∃ rds', update_ps_advanced (w_rds fresh_world) 0 0x52 = Some rds' ∧
          ps_display (ps rds') = ps_display (ps (w_rds fresh_world)).
Proof.
  destruct (ps_display_validated (w_rds fresh_world) 0 0x52)
    as (rds' & Hr & H); [reflexivity | lia |].
  exists rds'. split; [exact Hr|].
  vm_compute in Hr. injection Hr as <-. exact (proj1 H).
Defined.

Lemma ps_vote_bounded p i x p1 tr :
  ps_okb p = true → 0 ≤ i < 8 →
  Forall (λ n, 0 ≤ n ≤ 2) (ps_pvt_hi_prob_cnt p) →
  ps_vote p i x = Some (p1, tr) →
  Forall (λ n, 0 ≤ n ≤ if tr then 3 else 2) (ps_pvt_hi_prob_cnt p1).
Proof.
  intros Hok Hi Hall Hv.
  destruct (ps_lookups _ _ Hok Hi) as (h & l & n & Hh & Hl & Hn).
  rewrite (ps_vote_spec _ _ x _ _ _ Hok Hi Hh Hl Hn) in Hv.
  assert (0 ≤ n ≤ 2) as Hnb.
  { exact (Forall_lookup_1 _ _ _ _ Hall Hn). }
  assert (Forall (λ n, 0 ≤ n ≤ 3) (ps_pvt_hi_prob_cnt p)) as Hall3.
  { eapply Forall_impl; [|exact Hall]. simpl. intros; lia. }
  repeat case_match; simplify_eq; simpl;
    try apply Forall_insert; try done; try lia.
  rewrite u8_small; lia.
Qed.

Lemma update_ps_advanced_bounded rds i x rds' :
  ps_okb (ps rds) = true → 0 ≤ i →
  Forall (λ n, 0 ≤ n ≤ 2) (ps_pvt_hi_prob_cnt (ps rds)) →
  update_ps_advanced rds i x = Some rds' →
  ps_okb (ps rds') = true ∧
  Forall (λ n, 0 ≤ n ≤ 2) (ps_pvt_hi_prob_cnt (ps rds')).
Proof.
  intros Hok Hi Hall H.
  destruct (Z.leb_spec 8 i) as [Hi8|Hi8].
  { pose proof (update_ps_advanced_wp rds i x Hok Hi) as Hwp.
    rewrite H in Hwp. destruct Hwp as [_ ->]; done. }
  assert (0 ≤ i < 8) as Hi' by lia.
  destruct (ps_lookups (ps rds) i Hok Hi') as (h & l & n & Hh & Hl & Hn).
  pose proof (ps_vote_spec _ _ x _ _ _ Hok Hi' Hh Hl Hn) as Hv.
  match type of Hv with _ = Some ?r => destruct r as [p1 tr] eqn:Hr end.
  pose proof (ps_vote_bounded _ _ _ _ _ Hok Hi' Hall Hv) as Hb.
  pose proof (ps_vote_wp (ps rds) i x Hok Hi') as Hp1.
  rewrite Hv in Hp1. simpl in Hp1.
  rewrite (update_ps_advanced_spec _ _ _ _ _ Hok Hi' Hv) in H.
  set (p2 := if tr then _ else p1) in H.
  assert (ps_okb p2 = true ∧ Forall (λ n, 0 ≤ n ≤ 2) (ps_pvt_hi_prob_cnt p2))
    as [Hok2 Hb2].
  { subst p2. destruct tr; [|done]. split.
    - apply ps_okb_iff. apply ps_okb_iff in Hp1. simpl.
      by rewrite length_fmap.
    - simpl. apply Forall_fmap. eapply Forall_impl; [|exact Hb]. simpl.
      intros y Hy. destruct (Z.ltb_spec 1 y); [|lia].
      rewrite u8_small; lia. }
  destruct (forallb _ _); injection H as <-; simpl; [|done].
  split; [|done]. apply ps_okb_iff. apply ps_okb_iff in Hok2. simpl. tauto.
Qed.

Lemma update_ps_simple_counts rds i x rds' :
  update_ps_simple rds i x = Some rds' →
  ps_pvt_hi_prob_cnt (ps rds') = ps_pvt_hi_prob_cnt (ps rds).
Proof. unfold update_ps_simple. intros H. by opt_inv. Qed.

Lemma group_writes_ps gt : code gt ≠ 0 → F_ps ∉ group_writes gt.
Proof.
  intros Hc. unfold group_writes. cbv zeta.
  repeat case_match; try done;
    repeat (apply not_elem_of_cons; split; [done|]); apply not_elem_of_nil.
Qed.

(** What one group does to the PS buffers: nothing, unless it is an accepted
    group of type 0 whose block D is within its threshold. *)
Lemma decode_ps_cases decoder g w w' :
  rds_decoder_decode decoder g w = Some w' →
  ps (w_rds w') = ps (w_rds w) ∨
  ∃ k hi lo, 0 ≤ k < 4 ∧ carries_ps g k hi lo.
Proof.
  intros Hw'. destruct (Z.leb_spec (errors (b g)) BLERB_MAX) as [Hb|Hb].
  2:{ left. destruct (decode_dropped_inv _ _ _ _ Hb Hw') as (_ & Hs & _).
      apply (Hs F_ps). }
  destruct (Z.eq_dec (code (group_type_of (val (b g)))) 0) as [Hc|Hc].
  - destruct (Z.leb_spec (errors (d g)) BLERD_MAX) as [Hd|Hd].
    { right. eexists _, _, _. split; [apply (pair_idx_bounds (val (b g)))|].
      by split_and!. }
    left. destruct (decode_accepted_inv _ _ _ _ Hb Hw') as (rds1 & Hdis & Hs & _).
    apply dispatch_group_0 in Hdis; [|done]. simpl in Hdis.
    rewrite <- (Hs F_ps). revert Hdis. unfold decode_group_type_0.
    destruct (Z.ltb_spec BLERD_MAX (errors (d g))); [|lia].
    intros Hz. opt_inv; [|done].
    match goal with H : decode_alt_freq _ _ = Some _ |- _ =>
      apply (decode_alt_freq_changes [F_af]) in H as [_ H]; [|in_fields];
      apply (H F_ps) end.
    by intros [?|[]%elem_of_nil]%elem_of_cons.
  - left. destruct (decode_accepted_inv _ _ _ _ Hb Hw') as (rds1 & Hdis & Hs & _).
    apply dispatch_changes in Hdis as [_ Hdis]. simpl in Hdis.
    rewrite <- (Hs F_ps). apply (Hdis F_ps). by apply group_writes_ps.
Qed.

(** X10.  The PS confidence counters stay within the validation limit.  If
    every counter of [ps.pvt.hi_prob_cnt] lies between 0 and
    [PS_VALIDATE_LIMIT] (as after a reset), it still does after any sequence
    of groups, in either PS mode: the value [PS_VALIDATE_LIMIT + 1] that a
    transition writes never outlives the update that wrote it. *)
Theorem ps_counters_bounded (decoder : rds_decoder) (groups : list rds_blocks)
  (w : world) :
  rds_data_ok (w_rds w) →
  Forall (λ n, 0 ≤ n ≤ PS_VALIDATE_LIMIT)
    (ps_pvt_hi_prob_cnt (ps (w_rds w))) →
  ∃ w', decode_all decoder groups w = Some w' ∧
    Forall (λ n, 0 ≤ n ≤ PS_VALIDATE_LIMIT)
      (ps_pvt_hi_prob_cnt (ps (w_rds w'))).
Proof.
  unfold PS_VALIDATE_LIMIT.
  revert w. induction groups as [|g groups IH]; intros w Hok Hall; simpl.
  { by exists w. }
  destruct (decode_succeeds decoder g w Hok) as (w1 & Hw1 & Hok1).
  rewrite Hw1. simpl. apply IH; [done|].
  destruct (decode_ps_cases _ _ _ _ Hw1) as [->|(k & hi & lo & Hk & Hg)];
    [done|].
  destruct (decode_ps_group _ _ _ _ _ _ _ Hw1 Hg)
    as (r1 & r2 & r3 & H1 & H2 & -> & _).
  assert (ps_okb (ps r1) = true) as Hok_r1.
  { rewrite H1. apply rds_data_ok_iff in Hok. tauto. }
  rewrite <- H1 in Hall.
  assert (0 ≤ 2 * k ∧ 0 ≤ 2 * k + 1) as [Hk0 Hk1] by lia.
  destruct (advanced_ps_decoding decoder); destruct H2 as [H2 H3].
  - destruct (update_ps_advanced_bounded _ _ _ _ Hok_r1 Hk0 Hall H2)
      as [Hok2 Hall2].
    by destruct (update_ps_advanced_bounded _ _ _ _ Hok2 Hk1 Hall2 H3).
  - rewrite (update_ps_simple_counts _ _ _ _ H3).
    by rewrite (update_ps_simple_counts _ _ _ _ H2).
Qed.

Lemma ps_counters_bounded_witness :
  ∃ w', decode_all sample_decoder
          [ps_segment 0 0x52 0x41; ps_segment 0 0x52 0x41] fresh_world
        = Some w' ∧
    Forall (λ n, 0 ≤ n ≤ PS_VALIDATE_LIMIT)
      (ps_pvt_hi_prob_cnt (ps (w_rds w'))).
Proof.
  apply (ps_counters_bounded sample_decoder
           [ps_segment 0 0x52 0x41; ps_segment 0 0x52 0x41] fresh_world);
    [reflexivity|].
  vm_compute. repeat constructor; discriminate.
Defined.

Lemma update_ps_advanced_feed rds i x rds' h l n :
  ps_okb (ps rds) = true → 0 ≤ i < 8 →
  ps_pvt_hi_prob (ps rds) !! Z.to_nat i = Some h →
  ps_pvt_lo_prob (ps rds) !! Z.to_nat i = Some l →
  ps_pvt_hi_prob_cnt (ps rds) !! Z.to_nat i = Some n →
  0 ≤ n < 2 →
  (h =? x) || ((n =? 0) && negb (l =? x)) = true →
  update_ps_advanced rds i x = Some rds' →
  ps rds' = ps_feed (ps rds) (Z.to_nat i) x ∧
  valid_values rds' =
    if forallb (λ n, PS_VALIDATE_LIMIT <=? n)
         (ps_pvt_hi_prob_cnt (ps_feed (ps rds) (Z.to_nat i) x))
    then Z.lor (valid_values rds) RDS_PS else valid_values rds.
Proof.
  intros Hok Hi Hh Hl Hn Hnb Hag H.
  pose proof (ps_vote_spec _ _ x _ _ _ Hok Hi Hh Hl Hn) as Hv.
  assert (ps_vote (ps rds) i x = Some
            (set_ps_pvt_hi_prob_cnt
               (alter (λ n, n + 1) (Z.to_nat i) (ps_pvt_hi_prob_cnt (ps rds)))
               (set_ps_pvt_hi_prob
                  (<[Z.to_nat i := x]> (ps_pvt_hi_prob (ps rds))) (ps rds)),
             false)) as Hv'.
  { rewrite Hv. f_equal.
    assert (alter (λ n, n + 1) (Z.to_nat i) (ps_pvt_hi_prob_cnt (ps rds))
            = <[Z.to_nat i := n + 1]> (ps_pvt_hi_prob_cnt (ps rds))) as ->.
    { apply list_eq. intros j.
      destruct (decide (j = Z.to_nat i)) as [->|Hne].
      - rewrite list_lookup_alter_eq, Hn. simpl.
        apply ps_okb_iff in Hok.
        by rewrite list_lookup_insert_eq by lia.
      - by rewrite list_lookup_alter_ne, list_lookup_insert_ne. }
    destruct (Z.eqb_spec h x) as [->|Hne].
    - destruct (Z.ltb_spec n 2); [|lia]. rewrite u8_small by lia.
      f_equal. by rewrite (list_insert_id _ _ _ Hh).
    - simpl in Hag. apply andb_true_iff in Hag as [Hn0 Hlx].
      destruct (l =? x); [done|]. by apply Z.eqb_eq in Hn0 as ->. }
  rewrite (update_ps_advanced_spec _ _ _ _ _ Hok Hi Hv') in H.
  cbv zeta in H. unfold ps_feed, PS_VALIDATE_LIMIT. cbv zeta. simpl in H.
  destruct (forallb _ _); injection H as <-; done.
Qed.

(** One group of a pass in which every character agrees with the confident
    text or fills an empty position. *)
Tactic Notation "ps_pass_step" constr(Hadv) constr(Hw) constr(Hok)
    constr(Hps) constr(Hg) "as" ident(Hps') ident(Hv') :=
  let r1 := fresh "r1" in let r2 := fresh "r2" in let r3 := fresh "r3" in
  let H1 := fresh "H1" in let U1 := fresh "U1" in let U2 := fresh "U2" in
  let H3 := fresh "H3" in let H4 := fresh "H4" in
  let V1 := fresh "V1" in let V2 := fresh "V2" in
  destruct (decode_ps_group _ _ _ _ _ _ _ Hw Hg)
    as (r1 & r2 & r3 & H1 & U1 & H3 & H4);
  rewrite Hadv in U1; destruct U1 as [U1 U2];
  eapply update_ps_advanced_feed in U1 as [U1 V1];
    [ | rewrite H1; apply rds_data_ok_iff in Hok; tauto | simpl; lia
      | rewrite H1, Hps; reflexivity | rewrite H1, Hps; reflexivity
      | rewrite H1, Hps; reflexivity | simpl; lia
      | rewrite ?Z.eqb_refl;
        repeat match goal with
               | |- context [?a =? ?b] => destruct (a =? b)
               end; reflexivity ];
  rewrite H1, Hps in U1; simpl in U1;
  eapply update_ps_advanced_feed in U2 as [U2 V2];
    [ | rewrite U1; apply ps_okb_iff; apply rds_data_ok_iff in Hok;
        destruct Hok as ((Hd & _)%ps_okb_iff & _); rewrite Hps in Hd;
        simpl in *; done
      | simpl; lia
      | rewrite U1; reflexivity | rewrite U1; reflexivity
      | rewrite U1; reflexivity | simpl; lia
      | rewrite ?Z.eqb_refl;
        repeat match goal with
               | |- context [?a =? ?b] => destruct (a =? b)
               end; reflexivity ];
  rewrite U1 in U2; simpl in U2; rewrite <- H3 in U2;
  rewrite U1 in V2; simpl in V2; rewrite <- H4 in V2;
  clear H1 H3 H4 U1 V1 r1;
  match type of U2 with
  | ?lhs = ?rhs => let v := eval vm_compute in rhs in change (lhs = v) in U2
  end;
  rename U2 into Hps'; rename V2 into Hv'.

(** X11.  A PS name delivered twice is displayed.  Start from any state of
    the data model whose PS confidence buffers are zero (as after a reset),
    with advanced PS decoding on.  Let eight accepted groups of type 0 carry
    the four segments of an eight-character name, in order, and then the same
    four segments again.  Then the displayed name is what it was after each
    of the first seven groups, and after the eighth it is the name, marked
    valid. *)
Theorem ps_converges_in_two_passes (decoder : rds_decoder)
  (gs : list rds_blocks) (w : world) (c0 c1 c2 c3 c4 c5 c6 c7 : Z) :
  let name := [c0; c1; c2; c3; c4; c5; c6; c7] in
  rds_data_ok (w_rds w) → advanced_ps_decoding decoder = true →
  ps_pvt_hi_prob (ps (w_rds w)) = replicate 8 0 →
  ps_pvt_lo_prob (ps (w_rds w)) = replicate 8 0 →
  ps_pvt_hi_prob_cnt (ps (w_rds w)) = replicate 8 0 →
  Forall2 (λ g s, carries_ps g s.1.1 s.1.2 s.2) gs
    (ps_segments name ++ ps_segments name) →
  (∀ n, (n < 8)%nat →
     ∃ w1, decode_all decoder (take n gs) w = Some w1 ∧
           ps_display (ps (w_rds w1)) = ps_display (ps (w_rds w))) ∧
  ∃ w', decode_all decoder gs w = Some w' ∧
        ps_display (ps (w_rds w')) = name ∧
        Z.land (valid_values (w_rds w')) RDS_PS = RDS_PS.
Proof.
  intros name Hok Hadv Hhi Hlo Hcnt Hgs. subst name.
  change (ps_segments [c0; c1; c2; c3; c4; c5; c6; c7]
          ++ ps_segments [c0; c1; c2; c3; c4; c5; c6; c7])
    with [(0, c0, c1); (1, c2, c3); (2, c4, c5); (3, c6, c7);
          (0, c0, c1); (1, c2, c3); (2, c4, c5); (3, c6, c7)] in Hgs.
  apply Forall2_cons_inv_r in Hgs as (g0 & gs0 & Hg0 & Hgs & ->).
  apply Forall2_cons_inv_r in Hgs as (g1 & gs1 & Hg1 & Hgs & ->).
  apply Forall2_cons_inv_r in Hgs as (g2 & gs2 & Hg2 & Hgs & ->).
  apply Forall2_cons_inv_r in Hgs as (g3 & gs3 & Hg3 & Hgs & ->).
  apply Forall2_cons_inv_r in Hgs as (g4 & gs4 & Hg4 & Hgs & ->).
  apply Forall2_cons_inv_r in Hgs as (g5 & gs5 & Hg5 & Hgs & ->).
  apply Forall2_cons_inv_r in Hgs as (g6 & gs6 & Hg6 & Hgs & ->).
  apply Forall2_cons_inv_r in Hgs as (g7 & gs7 & Hg7 & Hgs & ->).
  apply Forall2_nil_inv_r in Hgs as ->.
  simpl in Hg0, Hg1, Hg2, Hg3, Hg4, Hg5, Hg6, Hg7.
  assert (ps (w_rds w) =
            {| ps_display := ps_display (ps (w_rds w));
               ps_pvt_hi_prob := replicate 8 0;
               ps_pvt_lo_prob := replicate 8 0;
               ps_pvt_hi_prob_cnt := replicate 8 0 |}) as Hps0.
  { destruct (ps (w_rds w)); simpl in *. by subst. }
  simpl in Hps0. set (d0 := ps_display (ps (w_rds w))) in *.
  clearbody d0.
  destruct (decode_succeeds decoder g0 w Hok) as (w1 & Hw1 & Hok1).
  ps_pass_step Hadv Hw1 Hok Hps0 Hg0 as Hps1 Hv1.
  destruct (decode_succeeds decoder g1 w1 Hok1) as (w2 & Hw2 & Hok2).
  ps_pass_step Hadv Hw2 Hok1 Hps1 Hg1 as Hps2 Hv2.
  destruct (decode_succeeds decoder g2 w2 Hok2) as (w3 & Hw3 & Hok3).
  ps_pass_step Hadv Hw3 Hok2 Hps2 Hg2 as Hps3 Hv3.
  destruct (decode_succeeds decoder g3 w3 Hok3) as (w4 & Hw4 & Hok4).
  ps_pass_step Hadv Hw4 Hok3 Hps3 Hg3 as Hps4 Hv4.
  destruct (decode_succeeds decoder g4 w4 Hok4) as (w5 & Hw5 & Hok5).
  ps_pass_step Hadv Hw5 Hok4 Hps4 Hg4 as Hps5 Hv5.
  destruct (decode_succeeds decoder g5 w5 Hok5) as (w6 & Hw6 & Hok6).
  ps_pass_step Hadv Hw6 Hok5 Hps5 Hg5 as Hps6 Hv6.
  destruct (decode_succeeds decoder g6 w6 Hok6) as (w7 & Hw7 & Hok7).
  ps_pass_step Hadv Hw7 Hok6 Hps6 Hg6 as Hps7 Hv7.
  destruct (decode_succeeds decoder g7 w7 Hok7) as (w8 & Hw8 & Hok8).
  ps_pass_step Hadv Hw8 Hok7 Hps7 Hg7 as Hps8 Hv8.
  split.
  - intros n Hn.
    destruct n as [|[|[|[|[|[|[|[|n]]]]]]]]; [..|lia]; simpl;
      rewrite ?Hw1; simpl; rewrite ?Hw2; simpl; rewrite ?Hw3; simpl;
      rewrite ?Hw4; simpl; rewrite ?Hw5; simpl; rewrite ?Hw6; simpl;
      rewrite ?Hw7; simpl; (eexists; split; [reflexivity|]);
      first [ by rewrite Hps0 | by rewrite Hps1 | by rewrite Hps2
            | by rewrite Hps3 | by rewrite Hps4 | by rewrite Hps5
            | by rewrite Hps6 | by rewrite Hps7 ].
  - exists w8. simpl. rewrite Hw1; simpl. rewrite Hw2; simpl.
    rewrite Hw3; simpl. rewrite Hw4; simpl. rewrite Hw5; simpl.
    rewrite Hw6; simpl. rewrite Hw7; simpl. rewrite Hw8; simpl.
    split; [done|]. rewrite Hps8. split; [done|].
    rewrite Hv8. apply mask_set_here.
Qed.

Lemma ps_converges_in_two_passes_witness :
  ∃ w', decode_all advanced_decoder
          [ ps_segment 0 0x52 0x41; ps_segment 1 0x44 0x49;
            ps_segment 2 0x4F 0x20; ps_segment 3 0x46 0x4D;
            ps_segment 0 0x52 0x41; ps_segment 1 0x44 0x49;
            ps_segment 2 0x4F 0x20; ps_segment 3 0x46 0x4D ] fresh_world
        = Some w' ∧
    ps_display (ps (w_rds w')) =
      [0x52; 0x41; 0x44; 0x49; 0x4F; 0x20; 0x46; 0x4D].
Proof.
  destruct (ps_converges_in_two_passes advanced_decoder
              [ ps_segment 0 0x52 0x41; ps_segment 1 0x44 0x49;
                ps_segment 2 0x4F 0x20; ps_segment 3 0x46 0x4D;
                ps_segment 0 0x52 0x41; ps_segment 1 0x44 0x49;
                ps_segment 2 0x4F 0x20; ps_segment 3 0x46 0x4D ]
              fresh_world 0x52 0x41 0x44 0x49 0x4F 0x20 0x46 0x4D)
    as (_ & w' & Hw' & H & _);
    [reflexivity | reflexivity | reflexivity | reflexivity | reflexivity | |].
  - repeat (apply Forall2_cons; [by vm_compute|]). apply Forall2_nil.
  - exists w'. split; [exact Hw' | exact H].
Defined.

(** ** Programme type name (group 10A) *)

Lemma update_ptyn_spec rds i ch rds' :
  0 ≤ i < 8 → update_ptyn rds i ch = Some rds' →
  rds' = set_ptyn {| ptyn_display := <[Z.to_nat i := ch]>
                                       (ptyn_display (ptyn rds));
                     ptyn_last_ab := ptyn_last_ab (ptyn rds) |} rds.
Proof.
  unfold update_ptyn, PTYN_LEN. intros Hi H.
  destruct (Z.leb_spec 8 i); [lia|]. opt_inv.
  match goal with H : aset _ _ _ = Some _ |- _ =>
    apply aset_inv in H as [_ ->] end.
  done.
Qed.

Lemma dispatch_group_10A decoder gt blocks w w' :
  code gt = 10 → version gt = "A"%char →
  dispatch decoder gt blocks w = Some w' →
  decode_ptyn blocks (w_rds w) = Some (w_rds w').
Proof.
  unfold dispatch, decode_group_type_10. intros -> -> H.
  apply on_rds_inv in H as (r & H & ->). done.
Qed.

(** X12.  The programme type name of an accepted group 10A.  The text the
    group writes into starts as the displayed name, or as eight zero bytes
    when bit 4 of block B (the A/B flag) differs from the flag of the last
    group; blocks C and D, each only when within its threshold, then supply
    the four characters of the half that bit 0 of block B selects.  The
    flag is remembered and PTYN is marked valid. *)
Theorem ptyn_of_group_10A (decoder : rds_decoder) (g : rds_blocks) (w : world) :
  rds_data_ok (w_rds w) → errors (b g) ≤ BLERB_MAX → is_group 10 "A" g →
  let flag := Z.testbit (val (b g)) 4 in
  let base := if Z.testbit (val (b g)) 0 then 4%nat else 0%nat in
  let old := ptyn (w_rds w) in
  let d0 := if Bool.eqb (ptyn_last_ab old) flag then ptyn_display old
            else replicate 8 0 in
  let d1 := if errors (c g) <=? BLERC_MAX
            then <[(base + 1)%nat := u8 (Z.land (val (c g)) 0xFF)]>
                   (<[base := u8 (Z.shiftr (val (c g)) 8)]> d0)
            else d0 in
  let d2 := if errors (d g) <=? BLERD_MAX
            then <[(base + 3)%nat := u8 (Z.land (val (d g)) 0xFF)]>
                   (<[(base + 2)%nat := u8 (Z.shiftr (val (d g)) 8)]> d1)
            else d1 in
  ∃ w', rds_decoder_decode decoder g w = Some w' ∧
    ptyn (w_rds w') = {| ptyn_display := d2; ptyn_last_ab := flag |} ∧
    Z.land (valid_values (w_rds w')) RDS_PTYN = RDS_PTYN.
Proof.
  intros Hok Hb Hg flag base old d0 d1 d2.
  destruct (decode_succeeds decoder g w Hok) as (w' & Hw' & _).
  exists w'. split; [done|].
  destruct (decode_accepted_inv _ _ _ _ Hb Hw') as (rds1 & Hdis & Hs & _).
  pose proof (Hs F_ptyn) as Hp. simpl in Hp.
  assert (Z.of_nat (length (ptyn_display (ptyn rds1))) = 8) as Hlen.
  { rewrite Hp. apply rds_data_ok_iff in Hok.
    destruct Hok as (_ & _ & _ & Hpt & _). by apply ptyn_okb_iff in Hpt. }
  apply dispatch_group_10A in Hdis; [|by rewrite Hg..]. simpl in Hdis.
  revert Hdis. unfold decode_ptyn. cbv zeta.
  assert (to_bool (Z.land (val (b g)) B_PTYN_AB_FLAG) = flag) as ->.
  { apply (to_bool_land_bit (val (b g)) 4). done. }
  assert (negb (Z.land (val (b g)) B_PTYN_SEGMENT_ADDR =? 0)
          = Z.testbit (val (b g)) 0) as ->.
  { apply (to_bool_land_bit (val (b g)) 0). done. }
  destruct (count_packet PKTCNT_PTYN (SET_BITS RDS_PTYN rds1))
    as [r|] eqn:Hcp; simpl; [|done].
  apply count_packet_inv in Hcp as [cs ->]. simpl.
  rewrite Hp. fold old.
  set (r0 := if negb (Bool.eqb (ptyn_last_ab old) flag) then _ else _).
  assert (ptyn r0 = {| ptyn_display := d0; ptyn_last_ab := flag |}
          ∧ valid_values r0 = Z.lor (valid_values rds1) RDS_PTYN) as [Hr0 Hv0].
  { subst r0 d0. destruct (Bool.eqb (ptyn_last_ab old) flag) eqn:Hf; simpl.
    - split; [|done]. etrans; [exact Hp|]. fold old.
      apply Bool.eqb_prop in Hf. rewrite <- Hf. by destruct old.
    - split; [|done]. unfold memset0.
      replace (length (ptyn_display old)) with 8%nat; [done|].
      subst old. rewrite <- Hp. lia. }
  clearbody r0.
  assert (∀ r i1 x1 i2 x2 r' l,
            ptyn r = {| ptyn_display := l; ptyn_last_ab := flag |} →
            0 ≤ i1 < 8 → 0 ≤ i2 < 8 →
            (r1 ← update_ptyn r i1 x1; update_ptyn r1 i2 x2) = Some r' →
            ptyn r' = {| ptyn_display := <[Z.to_nat i2 := x2]>
                                           (<[Z.to_nat i1 := x1]> l);
                         ptyn_last_ab := flag |}
            ∧ valid_values r' = valid_values r) as Hpair.
  { intros r i1 x1 i2 x2 r' l Hr Hi1 Hi2 H.
    destruct (update_ptyn r i1 x1) as [ra|] eqn:Ha; simpl in H; [|done].
    apply update_ptyn_spec in Ha; [|done]. subst ra.
    apply update_ptyn_spec in H; [|done]. subst r'. simpl.
    by rewrite Hr. }
  assert (base = 0%nat ∨ base = 4%nat) as Hbase
    by (subst base; destruct (Z.testbit _ 0); auto).
  assert ((if Z.testbit (val (b g)) 0 then 4 else 0) = Z.of_nat base)
    as -> by (subst base; by destruct (Z.testbit _ 0)).
  intros H.
  match type of H with
  | (?m ≫= _) = _ => destruct m as [ra|] eqn:Hc; simpl in H; [|done]
  end.
  assert (ptyn ra = {| ptyn_display := d1; ptyn_last_ab := flag |}
          ∧ valid_values ra = valid_values r0) as [Hra Hva].
  { subst d1. destruct (errors (c g) <=? BLERC_MAX).
    - apply (Hpair _ _ _ _ _ _ d0) in Hc as [-> ->]; [|done|..].
      + split; [|done]. by destruct Hbase as [Hb0|Hb0]; rewrite Hb0.
      + destruct Hbase as [Hb0|Hb0]; rewrite Hb0; done.
      + destruct Hbase as [Hb0|Hb0]; rewrite Hb0; done.
    - by injection Hc as <-. }
  assert (ptyn (w_rds w') = {| ptyn_display := d2; ptyn_last_ab := flag |}
          ∧ valid_values (w_rds w') = valid_values ra) as [-> ->].
  { subst d2. destruct (errors (d g) <=? BLERD_MAX).
    - apply (Hpair _ _ _ _ _ _ d1) in H as [-> ->]; [|done|..].
      + split; [|done]. by destruct Hbase as [Hb0|Hb0]; rewrite Hb0.
      + destruct Hbase as [Hb0|Hb0]; rewrite Hb0; done.
      + destruct Hbase as [Hb0|Hb0]; rewrite Hb0; done.
    - by injection H as <-. }
  split; [done|]. rewrite Hva, Hv0. apply mask_set_here.
Qed.

Lemma ptyn_of_group_10A_witness :
  ∃ w', rds_decoder_decode sample_decoder
          (mk_blocks 0 0 0xA010 0 0x4E45 0 0x5753 0) fresh_world = Some w' ∧
    ptyn_display (ptyn (w_rds w')) = [0x4E; 0x45; 0x57; 0x53; 0; 0; 0; 0].
Proof.
  destruct (ptyn_of_group_10A sample_decoder
              (mk_blocks 0 0 0xA010 0 0x4E45 0 0x5753 0) fresh_world)
    as (w' & Hw' & H & _); [reflexivity | by vm_compute | reflexivity |].
  exists w'. split; [exact Hw'|]. rewrite H. reflexivity.
Defined.

(** ** Programme item number (group 1) *)

(** X13.  The programme item number decodes what a broadcaster encodes.  For
    a day of the month from 1 to 31, an hour below 32 and a minute below 64,
    the 16-bit word [day * 2048 + hour * 64 + minute] decodes to exactly
    that day, hour and minute; and a word whose top five bits are zero
    decodes to day 0 with hour and minute forced to 0, whatever its low
    eleven bits hold. *)
Theorem pin_round_trip (dy hr mi : Z) :
  0 ≤ dy < 32 → 0 ≤ hr < 32 → 0 ≤ mi < 64 →
  decode_program_item_number_code (dy * 2048 + hr * 64 + mi) =
    if dy =? 0 then {| day := 0; hour := 0; minute := 0 |}
    else {| day := dy; hour := hr; minute := mi |}.
Proof.
  intros Hd Hh Hm. unfold decode_program_item_number_code.
  set (raw := dy * 2048 + hr * 64 + mi).
  assert (Z.shiftr raw 11 = dy) as Hday.
  { rewrite Z.shiftr_div_pow2 by lia. change (2 ^ 11) with 2048.
    subst raw. symmetry. apply (Z.div_unique _ _ _ (hr * 64 + mi)); lia. }
  assert (Z.shiftr (Z.land raw PI_HOUR) 6 = hr) as Hhour.
  { rewrite (field_shift raw PI_HOUR 6 5) by done.
    rewrite Z.land_ones by lia. rewrite Z.shiftr_div_pow2 by lia.
    change (2 ^ 6) with 64. change (2 ^ 5) with 32. subst raw.
    replace ((dy * 2048 + hr * 64 + mi) / 64) with (dy * 32 + hr).
    - rewrite Z.add_comm, Z.mod_add by lia. apply Z.mod_small. lia.
    - apply (Z.div_unique _ _ _ mi); lia. }
  assert (Z.land raw PI_MINUTE = mi) as Hmin.
  { change PI_MINUTE with (Z.ones 6). rewrite Z.land_ones by lia.
    change (2 ^ 6) with 64. subst raw.
    replace (dy * 2048 + hr * 64 + mi) with (mi + (dy * 32 + hr) * 64) by lia.
    rewrite Z.mod_add by lia. apply Z.mod_small. lia. }
  rewrite Hday, Hhour, Hmin.
  rewrite !u8_small by lia.
  destruct (Z.eqb_spec dy 0) as [->|Hne]; simpl; [done|].
  by destruct (Z.eqb_spec dy 0).
Qed.

Lemma pin_round_trip_witness :
  decode_program_item_number_code (17 * 2048 + 21 * 64 + 45) =
    {| day := 17; hour := 21; minute := 45 |}.
Proof.
  exact (pin_round_trip 17 21 45 ltac:(lia) ltac:(lia) ltac:(lia)).
Defined.

(** ** Radiotext (group 2) *)

(** A loop that rewrites the elements [c] selects, one index at a time, has
    mapped the part of the array it went over. *)
Lemma for_loop_map_prefix (c : Z → bool) (gf : Z → Z) (n : nat) (i : nat)
  (l0 : list Z) :
  (i + n ≤ length l0)%nat →
  let f := λ x, if c x then gf x else x in
  for_loop n (Z.of_nat i)
    (λ i l, x ← aget l i; if c x then aset l i (gf x) else Some l)
    ((f <$> take i l0) ++ drop i l0)
  = Some ((f <$> take (i + n) l0) ++ drop (i + n) l0).
Proof.
  intros Hlen f. revert i Hlen. induction n as [|n IH]; intros i Hlen.
  { change (for_loop 0 ?j ?b ?s) with (Some s). by rewrite Nat.add_0_r. }
  change (for_loop (S n) ?j ?b ?s) with (s' ← b j s; for_loop n (j + 1) b s').
  destruct (lookup_lt_is_Some_2 l0 i) as [x Hx]; [lia|].
  assert (length (f <$> take i l0) = i) as Hl.
  { rewrite length_fmap, length_take. lia. }
  assert (((f <$> take i l0) ++ drop i l0) !! i = Some x) as Hlook.
  { rewrite lookup_app_r by lia. rewrite Hl, Nat.sub_diag, lookup_drop.
    by rewrite Nat.add_0_r. }
  assert (aget ((f <$> take i l0) ++ drop i l0) (Z.of_nat i) = Some x)
    as Haget.
  { apply aget_lookup; [lia|]. by rewrite Nat2Z.id. }
  rewrite Haget. simpl.
  assert (((f <$> take (S i) l0) ++ drop (S i) l0)
          = <[i := f x]> ((f <$> take i l0) ++ drop i l0)) as Hnext.
  { rewrite (take_S_r _ _ x) by done. rewrite fmap_app. simpl.
    rewrite (drop_S _ x i) by done.
    rewrite <- (Nat.add_0_r i) at 3. rewrite <- Hl at 3.
    rewrite insert_app_r. simpl. by rewrite <- app_assoc. }
  replace (Z.of_nat i + 1) with (Z.of_nat (S i)) by lia.
  replace (i + S n)%nat with (S i + n)%nat by lia.
  rewrite <- (IH (S i)) by lia. rewrite Hnext. unfold f at 3.
  destruct (c x).
  - rewrite aset_insert, Nat2Z.id; [done|].
    rewrite length_app, Hl, length_drop. lia.
  - simpl. by rewrite list_insert_id.
Qed.

(** The loop that wipes the text behind an end-of-message character. *)
Lemma for_loop_wipe (n : nat) (j : nat) (d : list Z) :
  (j + n ≤ length d)%nat →
  for_loop n (Z.of_nat j) (λ j d, aset d j 0) d
  = Some (take j d ++ replicate n 0 ++ drop (j + n) d).
Proof.
  revert j d. induction n as [|n IH]; intros j d Hlen.
  { change (for_loop 0 ?i ?b ?s) with (Some s). simpl.
    by rewrite Nat.add_0_r, take_drop. }
  change (for_loop (S n) ?i ?b ?s) with (s' ← b i s; for_loop n (i + 1) b s').
  cbv beta. rewrite aset_insert by lia. simpl. rewrite Nat2Z.id.
  replace (Z.of_nat j + 1) with (Z.of_nat (S j)) by lia.
  rewrite IH by (rewrite length_insert; lia). f_equal.
  rewrite (take_S_r _ _ 0) by (apply list_lookup_insert_eq; lia).
  rewrite take_insert_ge, drop_insert_lt by lia.
  rewrite <- app_assoc. simpl.
  by replace (j + S n)%nat with (S (j + n)) by lia.
Qed.

Lemma rt_block_ok_2A blocks i :
  errors (c blocks) ≤ BLERC_MAX → errors (d blocks) ≤ BLERD_MAX →
  rt_block_ok blocks 4 i = true.
Proof.
  intros Hc Hd. unfold rt_block_ok.
  destruct ((i <? 2) && (2 <? 4)); by apply Z.leb_le.
Qed.

Lemma rt_block_ok_2B blocks i :
  errors (d blocks) ≤ BLERD_MAX → rt_block_ok blocks 2 i = true.
Proof.
  intros Hd. unfold rt_block_ok. rewrite andb_false_r. by apply Z.leb_le.
Qed.

(** The first loop of [update_rt_simple] when every character passes its
    block's gate. *)
Lemma update_rt_simple_loop_spec (n : nat) (i a : nat) blocks count chars
  display :
  (∀ k, rt_block_ok blocks count k = true) →
  (i + n ≤ length chars)%nat → (a + i + n ≤ 64)%nat →
  length display = 64%nat →
  let cs := take n (drop i chars) in
  update_rt_simple_loop n (Z.of_nat i) blocks count (Z.of_nat a) chars display
  = Some (take (a + i) display ++ rt_until_cr cs
          ++ (if rt_has_cr cs
              then replicate (64 - (a + i) - length (rt_until_cr cs)) 0
              else drop (a + i + n) display)).
Proof.
  intros Hok. revert i display. induction n as [|n IH];
    intros i display Hc Ha Hd cs.
  { change (update_rt_simple_loop 0 ?i ?b ?c ?a ?ch ?d) with (Some d).
    subst cs. simpl. by rewrite Nat.add_0_r, take_drop. }
  change (update_rt_simple_loop (S n) ?i0 ?b0 ?c0 ?ad ?chs ?dd)
    with (if rt_block_ok b0 c0 i0 then
            ch ← aget chs i0;
            display ← aset dd (ad + i0) ch;
            if ch =? 0x0d then
              let k := u8 (ad + i0 + 1) in
              for_loop (Z.to_nat (RT_LEN - k)) k
                (λ j display, aset display j 0) display
            else update_rt_simple_loop n (u8 (i0 + 1)) b0 c0 ad chs display
          else update_rt_simple_loop n (u8 (i0 + 1)) b0 c0 ad chs dd).
  rewrite Hok.
  destruct (lookup_lt_is_Some_2 chars i) as [ch Hch]; [lia|].
  rewrite (aget_lookup _ _ ch) by (rewrite ?Nat2Z.id; first [lia|done]).
  simpl. rewrite aset_insert by lia. simpl.
  replace (Z.to_nat (Z.of_nat a + Z.of_nat i)) with (a + i)%nat by lia.
  assert (cs = ch :: take n (drop (S i) chars)) as ->.
  { subst cs. by rewrite (drop_S _ ch i) by done. }
  destruct (lookup_lt_is_Some_2 display (a + i)) as [x Hx]; [lia|].
  assert (take (S (a + i)) (<[(a + i)%nat := ch]> display)
          = take (a + i) display ++ [ch]) as Htake.
  { rewrite (take_S_r _ _ ch).
    - by rewrite take_insert_ge by lia.
    - apply list_lookup_insert_eq. lia. }
  simpl. destruct (ch =? 13) eqn:Hcr; simpl.
  - rewrite u8_small by lia. unfold RT_LEN.
    replace (Z.of_nat a + Z.of_nat i + 1) with (Z.of_nat (S (a + i))) by lia.
    replace (Z.to_nat (64 - Z.of_nat (S (a + i))))
      with (64 - S (a + i))%nat by lia.
    rewrite for_loop_wipe by (rewrite length_insert; lia).
    rewrite Htake, drop_ge, app_nil_r by (rewrite length_insert; lia).
    rewrite <- app_assoc. simpl.
    by replace (64 - (a + i) - 1)%nat with (63 - (a + i))%nat by lia.
  - rewrite u8_small by lia.
    replace (Z.of_nat i + 1) with (Z.of_nat (S i)) by lia.
    rewrite IH by (rewrite ?length_insert; lia). cbv zeta.
    replace (a + S i)%nat with (S (a + i)) by lia.
    rewrite Htake, <- app_assoc. simpl. do 4 f_equal.
    destruct (rt_has_cr _).
    + f_equal. lia.
    + rewrite drop_insert_lt by lia. f_equal. lia.
Qed.

Lemma update_rt_simple_spec rt blocks (n a : nat) chars :
  (∀ k, rt_block_ok blocks (Z.of_nat n) k = true) →
  (n ≤ length chars)%nat → (a + n ≤ 64)%nat →
  length (rt_display rt) = 64%nat →
  update_rt_simple rt blocks (Z.of_nat n) (Z.of_nat a) chars
  = Some (set_rt_display
            (rt_display_after (rt_display rt) a (take n chars)) rt).
Proof.
  intros Hok Hn Ha Hd. unfold update_rt_simple.
  rewrite !Nat2Z.id.
  rewrite (update_rt_simple_loop_spec n 0 a) by (simpl; first [done|lia]).
  cbv zeta. simpl. rewrite drop_0, !Nat.add_0_r.
  set (cs := take n chars).
  set (tl := if rt_has_cr cs then _ else _).
  pose proof (for_loop_map_prefix (λ x, x =? 0) (λ _, 0x20) a 0
                (take a (rt_display rt) ++ rt_until_cr cs ++ tl)) as Hfill.
  simpl in Hfill. change (Z.of_nat 0) with 0 in Hfill.
  rewrite drop_0 in Hfill. rewrite Hfill.
  2:{ rewrite length_app, length_take. lia. }
  simpl. do 2 f_equal. unfold rt_display_after. fold cs.
  assert (length (take a (rt_display rt)) = a) as Hl
    by (rewrite length_take; lia).
  rewrite take_app_length' by done. rewrite drop_app_length' by done.
  do 2 f_equal. subst tl.
  assert (length cs = n) as Hcs by (subst cs; rewrite length_take; lia).
  destruct (rt_has_cr cs); [f_equal; lia|]. by rewrite Hcs.
Qed.

(** A loop whose every iteration keeps a property keeps it. *)
Lemma for_loop_preserves {St} (I : St → Prop) (n : nat) lo
  (body : Z → St → option St) s s' :
  (∀ i s s', body i s = Some s' → I s → I s') →
  for_loop n lo body s = Some s' → I s → I s'.
Proof.
  intros Hbody. revert lo s. induction n as [|n IH]; intros lo s.
  { change (for_loop 0 lo body s) with (Some s). by intros [= <-]. }
  change (for_loop (S n) lo body s)
    with (s1 ← body lo s; for_loop n (lo + 1) body s1).
  destruct (body lo s) as [s1|] eqn:Hs1; simpl; [|done].
  intros H Hs. eapply IH; [done|]. by eapply Hbody.
Qed.

Lemma bump_rt_validation_count_display rt rt' :
  bump_rt_validation_count rt = Some rt' → rt_display rt' = rt_display rt.
Proof.
  unfold bump_rt_validation_count. intros H.
  destruct (for_loop _ _ _ rt) as [rt1|] eqn:H1; simpl in H; [|done].
  destruct (for_loop _ _ _ rt1) as [rt2|] eqn:H2; simpl in H; [|done].
  injection H as <-. simpl.
  apply (for_loop_preserves (λ r, rt_display r = rt_display rt)) in H1;
    [|intros i s s' Hb Hs; opt_inv; done|done].
  apply (for_loop_preserves (λ r, rt_display r = rt_display rt)) in H2;
    [done|intros i s s' Hb Hs; opt_inv; done|done].
Qed.

Lemma update_rt_advance_display rt blocks count addr byte rt' :
  update_rt_advance rt blocks count addr byte = Some rt' →
  rt_display rt' = rt_display rt.
Proof.
  unfold update_rt_advance. intros H.
  destruct (for_loop _ _ _ _) as [[[rt1 b1] tc]|] eqn:H1; simpl in H; [|done].
  apply (for_loop_preserves (λ st, rt_display st.1.1 = rt_display rt)) in H1;
    [|clear; intros i [[r by0] t] [[r' by'] t'] Hb Hs;
      unfold update_rt_advance_step in Hb; simpl in *;
      opt_inv; simpl; done|done].
  simpl in H1. opt_inv; done.
Qed.

Lemma rt_flag_bit bv :
  to_bool (Z.shiftr (Z.land bv 0x0010) 4) = Z.testbit bv 4.
Proof.
  rewrite (field_shift bv 0x0010 4 1) by done.
  change (Z.ones 1) with (2 ^ 0).
  rewrite (to_bool_land_bit (Z.shiftr bv 4) 0) by done.
  by rewrite Z.shiftr_spec by done.
Qed.

Lemma rt_seg_addr bv k :
  0 ≤ k ≤ 4 →
  u8 (Z.land bv 0xf * k)
  = Z.of_nat (Z.to_nat k * Z.to_nat (Z.land bv 0xF)) ∧
  (Z.to_nat (Z.land bv 0xF) ≤ 15)%nat.
Proof.
  intros Hk. pose proof (land_ones_bounds bv 4 ltac:(done)) as H.
  change (Z.ones 4) with 0xf in H. change (2 ^ 4) with 16 in H.
  split; [|lia]. rewrite u8_small by nia. nia.
Qed.

Lemma rt_commit_spec sel buf rds rds' :
  rt_commit sel buf rds = Some rds' →
  rt_selected sel (rt rds') = buf ∧
  rt_other sel (rt rds') = rt_other sel (rt rds) ∧
  rt_decode_rt (rt rds') = sel ∧
  valid_values rds' = Z.lor (valid_values rds) RDS_RT.
Proof.
  unfold rt_commit. cbv zeta. intros H.
  apply count_packet_inv in H as [cs ->]. by destruct sel.
Qed.

(** The radiotext part of [decode_group_type_2] when the blocks the group
    reads are within their thresholds. *)
Lemma decode_group_type_2_spec decoder gt blocks rds rds' :
  rt_okb (rt_a (rt rds)) = true → rt_okb (rt_b (rt rds)) = true →
  errors (d blocks) ≤ BLERD_MAX →
  (version gt = "A"%char → errors (c blocks) ≤ BLERC_MAX) →
  decode_group_type_2 decoder gt blocks rds = Some rds' →
  let sel := if Z.testbit (val (b blocks)) 4 then RT_A else RT_B in
  let seg := Z.to_nat (Z.land (val (b blocks)) 0xF) in
  let old := rt_display (rt_selected sel (rt rds)) in
  rt_display (rt_selected sel (rt rds')) =
    (if Ascii.eqb (version gt) "A"
     then rt_display_after old (4 * seg)
            [ u8 (Z.shiftr (val (c blocks)) 8);
              u8 (Z.land (val (c blocks)) 0xFF);
              u8 (Z.shiftr (val (d blocks)) 8);
              u8 (Z.land (val (d blocks)) 0xFF) ]
     else rt_display_after (<[32%nat := 0x0d]> old) (2 * seg)
            [ u8 (Z.shiftr (val (d blocks)) 8);
              u8 (Z.land (val (d blocks)) 0xFF) ]) ∧
  rt_other sel (rt rds') = rt_other sel (rt rds) ∧
  rt_decode_rt (rt rds') = sel ∧
  valid_values rds' = Z.lor (valid_values rds) RDS_RT.
Proof.
  intros Ha Hb Hd Hc H sel seg old. revert H.
  unfold decode_group_type_2. cbv zeta. rewrite rt_flag_bit.
  fold sel.
  assert ((match sel with RT_A => rt_a (rt rds) | RT_B => rt_b (rt rds) end)
          = rt_selected sel (rt rds)) as -> by done.
  assert (rt_okb (rt_selected sel (rt rds)) = true) as Hsel
    by (by destruct sel).
  pose proof Hsel as (Hl1 & Hl2 & Hl3 & Hl4)%rt_okb_iff.
  destruct (Ascii.eqb (version gt) "A") eqn:Hv.
  - apply Ascii.eqb_eq in Hv. specialize (Hc Hv).
    destruct (Z.ltb_spec BLERC_MAX (errors (c blocks))); [lia|].
    destruct (Z.ltb_spec BLERD_MAX (errors (d blocks))); [lia|].
    simpl orb. cbv iota.
    destruct (rt_seg_addr (val (b blocks)) 4 ltac:(lia)) as [-> Hseg].
    fold seg in Hseg |- *.
    rewrite (update_rt_simple_spec _ blocks 4 (Z.to_nat 4 * seg));
      [|intros; by apply rt_block_ok_2A|simpl; lia|simpl; lia|lia].
    intros Hrun. simpl in Hrun.
    match type of Hrun with (?m ≫= _) = _ =>
      destruct m as [b1|] eqn:H1; simpl in Hrun; [|done] end.
    match type of Hrun with (?m ≫= _) = _ =>
      destruct m as [b2|] eqn:H2; simpl in Hrun; [|done] end.
    apply rt_commit_spec in Hrun as (Hs & Ho & Hdr & Hvv).
    split_and!; try done. rewrite Hs.
    apply update_rt_advance_display in H2. rewrite H2.
    destruct (negb _).
    + apply bump_rt_validation_count_display in H1. by rewrite H1.
    + by injection H1 as <-.
  - destruct (Z.ltb_spec BLERD_MAX (errors (d blocks))); [lia|].
    cbv iota.
    destruct (rt_seg_addr (val (b blocks)) 2 ltac:(lia)) as [-> Hseg].
    fold seg in Hseg |- *.
    rewrite !aset_insert by lia. simpl mbind.
    rewrite (update_rt_simple_spec _ blocks 2 (Z.to_nat 2 * seg));
      [|intros; by apply rt_block_ok_2B|simpl; lia|simpl; lia
       |simpl; rewrite length_insert; lia].
    intros Hrun. simpl in Hrun.
    match type of Hrun with (?m ≫= _) = _ =>
      destruct m as [b1|] eqn:H1; simpl in Hrun; [|done] end.
    match type of Hrun with (?m ≫= _) = _ =>
      destruct m as [b2|] eqn:H2; simpl in Hrun; [|done] end.
    apply rt_commit_spec in Hrun as (Hs & Ho & Hdr & Hvv).
    split_and!; try done. rewrite Hs.
    apply update_rt_advance_display in H2. rewrite H2.
    destruct (negb _).
    + apply bump_rt_validation_count_display in H1. by rewrite H1.
    + by injection H1 as <-.
Qed.

Lemma dispatch_group_2 decoder gt blocks w w' :
  code gt = 2 → dispatch decoder gt blocks w = Some w' →
  decode_group_type_2 decoder gt blocks (w_rds w) = Some (w_rds w').
Proof.
  unfold dispatch. intros -> H. apply on_rds_inv in H as (r & H & ->). done.
Qed.

(** X14.  The displayed radiotext after an accepted group of type 2 whose
    text blocks (C and D in version A, D in version B) are within their
    thresholds.  The buffer is the one bit 4 of block B selects.  The segment
    address is the low four bits of block B, times four (2A) or two (2B);
    in 2B position 32 is first set to the end-of-message character.  In the
    selected buffer every null before the segment becomes a space, the
    segment's characters are stored up to and including the first 0x0D, and
    the text behind a stored 0x0D is wiped; without a 0x0D the text behind
    the segment is left as it was.  The other buffer is untouched, the flag
    is remembered, and RT is marked valid.  The confidence buffers have no
    part in what is displayed. *)
Theorem rt_display_of_group_2 (decoder : rds_decoder) (g : rds_blocks)
  (w : world) :
  let gt := group_type_of (val (b g)) in
  rds_data_ok (w_rds w) → errors (b g) ≤ BLERB_MAX → code gt = 2 →
  errors (d g) ≤ BLERD_MAX →
  (version gt = "A"%char → errors (c g) ≤ BLERC_MAX) →
  let sel := if Z.testbit (val (b g)) 4 then RT_A else RT_B in
  let seg := Z.to_nat (Z.land (val (b g)) 0xF) in
  let old := rt_display (rt_selected sel (rt (w_rds w))) in
  ∃ w', rds_decoder_decode decoder g w = Some w' ∧
    rt_display (rt_selected sel (rt (w_rds w'))) =
      (if Ascii.eqb (version gt) "A"
       then rt_display_after old (4 * seg)
              [ u8 (Z.shiftr (val (c g)) 8); u8 (Z.land (val (c g)) 0xFF);
                u8 (Z.shiftr (val (d g)) 8); u8 (Z.land (val (d g)) 0xFF) ]
       else rt_display_after (<[32%nat := 0x0d]> old) (2 * seg)
              [ u8 (Z.shiftr (val (d g)) 8); u8 (Z.land (val (d g)) 0xFF) ]) ∧
    rt_other sel (rt (w_rds w')) = rt_other sel (rt (w_rds w)) ∧
    rt_decode_rt (rt (w_rds w')) = sel ∧
    Z.land (valid_values (w_rds w')) RDS_RT = RDS_RT.
Proof.
  intros gt Hok Hb Hcode Hd Hc sel seg old.
  destruct (decode_succeeds decoder g w Hok) as (w' & Hw' & _).
  exists w'. split; [done|].
  destruct (decode_accepted_inv _ _ _ _ Hb Hw') as (rds1 & Hdis & Hs & _).
  apply dispatch_group_2 in Hdis; [|done]. simpl in Hdis.
  pose proof (Hs F_rt) as Hrt. simpl in Hrt.
  apply rds_data_ok_iff in Hok as (_ & Ha & Hbb & _).
  rewrite <- Hrt in Ha, Hbb.
  destruct (decode_group_type_2_spec _ _ _ _ _ Ha Hbb Hd Hc Hdis)
    as (H1 & H2 & H3 & H4).
  rewrite Hrt in H1, H2. split_and!; try done.
  rewrite H4. apply mask_set_here.
Qed.

Lemma rt_display_of_group_2_witness :
  ∃ w', rds_decoder_decode sample_decoder
          (mk_blocks 0 0 0x2010 0 0x4849 0 0x0D00 0) fresh_world = Some w' ∧
    rt_display (rt_a (rt (w_rds w'))) =
      [0x48; 0x49; 0x0D] ++ replicate 61 0.
Proof.
  destruct (rt_display_of_group_2 sample_decoder
              (mk_blocks 0 0 0x2010 0 0x4849 0 0x0D00 0) fresh_world)
    as (w' & Hw' & H & _);
    [reflexivity | by vm_compute | reflexivity | by vm_compute
    | intros _; by vm_compute |].
  exists w'. split; [exact Hw'|]. exact H.
Defined.

(** ** Open data: lookup and dispatch *)

Lemma decode_oda_find_spec (n : nat) idx rds gt :
  0 ≤ idx → idx + Z.of_nat n ≤ Z.of_nat (length (oda rds)) →
  Z.of_nat (length (oda rds)) ≤ 255 →
  decode_oda_find n idx rds gt =
    Some (match list_find (λ e, GroupTypesEqual (oda_gt e) gt = true)
                  (take n (drop (Z.to_nat idx) (oda rds))) with
          | Some (k, _) => idx + Z.of_nat k
          | None => idx + Z.of_nat n
          end).
Proof.
  revert idx. induction n as [|n IH]; intros idx Hi Hn Hlen.
  { change (decode_oda_find 0 idx rds gt) with (Some idx). simpl.
    f_equal. lia. }
  change (decode_oda_find (S n) idx rds gt)
    with (e ← aget (oda rds) idx;
          if GroupTypesEqual (oda_gt e) gt then Some idx
          else decode_oda_find n (u8 (idx + 1)) rds gt).
  destruct (lookup_lt_is_Some_2 (oda rds) (Z.to_nat idx)) as [e He]; [lia|].
  rewrite (aget_lookup _ _ _ Hi He). simpl.
  rewrite (drop_S _ _ _ He). simpl.
  destruct (GroupTypesEqual (oda_gt e) gt) eqn:Hg.
  - rewrite decide_True by done. f_equal. lia.
  - rewrite decide_False by congruence.
    rewrite u8_small by lia. rewrite IH by lia.
    replace (Z.to_nat (idx + 1)) with (S (Z.to_nat idx)) by lia.
    destruct (list_find _ _) as [[k x]|]; simpl; f_equal; lia.
Qed.

Lemma oda_lookup_Some rds gt i e :
  oda_lookup rds gt = Some (i, e) →
  oda rds !! i = Some e ∧ Z.of_nat i < oda_cnt rds ∧
  GroupTypesEqual (oda_gt e) gt = true.
Proof.
  unfold oda_lookup. intros (He & Hp & _)%list_find_Some.
  apply lookup_take_Some in He as [He Hi]. split_and!; [done|lia|done].
Qed.

Lemma decode_oda_spec decoder gt blocks w :
  rds_data_ok (w_rds w) →
  decode_oda decoder gt blocks w =
    Some (match oda_lookup (w_rds w) gt with
          | Some (i, e) =>
              let rds' :=
                set_oda (<[i := set_oda_pkt_count
                                  (u16 (oda_pkt_count e + 1)) e]>
                           (oda (w_rds w))) (w_rds w) in
              {| w_rds := rds';
                 w_calls := w_calls w ++
                   (if oda_decode_cb decoder =? 0 then []
                    else [call_decode_cb (oda_decode_cb decoder) (oda_id e)
                            rds' blocks gt (oda_cb_data decoder)]) |}
          | None => w
          end).
Proof.
  intros Hok.
  pose proof (evolves_oda _ _ (evolves_refl _ Hok)) as [Hl Hc].
  unfold decode_oda. cbv zeta.
  rewrite decode_oda_find_spec by lia. simpl.
  change (Z.to_nat 0) with 0%nat. rewrite drop_0.
  destruct (oda_lookup (w_rds w) gt) as [[i e]|] eqn:Hf.
  - pose proof (oda_lookup_Some _ _ _ _ Hf) as (He & Hi & _).
    unfold oda_lookup in Hf. rewrite Hf.
    destruct (Z.eqb_spec (0 + Z.of_nat i) (oda_cnt (w_rds w))); [lia|].
    rewrite (aget_lookup _ (0 + Z.of_nat i) e) by
      (try lia; by replace (Z.to_nat (0 + Z.of_nat i)) with i by lia).
    simpl. unfold aset.
    destruct (Z.leb_spec 0 (0 + Z.of_nat i)); [|lia].
    destruct (Z.ltb_spec (0 + Z.of_nat i) (Z.of_nat (length (oda (w_rds w)))));
      [|lia].
    simpl. replace (Z.to_nat (0 + Z.of_nat i)) with i by lia.
    destruct (oda_decode_cb decoder =? 0); simpl; [|done].
    by rewrite app_nil_r.
  - unfold oda_lookup in Hf. rewrite Hf.
    replace (0 + Z.of_nat (Z.to_nat (oda_cnt (w_rds w))))
      with (oda_cnt (w_rds w)) by lia.
    by rewrite Z.eqb_refl.
Qed.

Lemma IsGroupTypeUsedByODA_from_spec (n : nat) i rds gt :
  0 ≤ i → i + Z.of_nat n ≤ Z.of_nat (length (oda rds)) →
  IsGroupTypeUsedByODA_from n i rds gt =
    Some (existsb (λ e, GroupTypesEqual (oda_gt e) gt)
            (take n (drop (Z.to_nat i) (oda rds)))).
Proof.
  revert i. induction n as [|n IH]; intros i Hi Hn; [done|].
  change (IsGroupTypeUsedByODA_from (S n) i rds gt)
    with (e ← aget (oda rds) i;
          if GroupTypesEqual (oda_gt e) gt then Some true
          else IsGroupTypeUsedByODA_from n (i + 1) rds gt).
  destruct (lookup_lt_is_Some_2 (oda rds) (Z.to_nat i)) as [e He]; [lia|].
  rewrite (aget_lookup _ _ _ Hi He). simpl.
  rewrite (drop_S _ _ _ He). simpl.
  destruct (GroupTypesEqual (oda_gt e) gt); [done|]. simpl.
  rewrite IH by lia. by replace (Z.to_nat (i + 1)) with (S (Z.to_nat i)) by lia.
Qed.

Lemma IsGroupTypeUsedByODA_spec rds gt :
  rds_data_ok rds →
  IsGroupTypeUsedByODA rds gt =
    Some (existsb (λ e, GroupTypesEqual (oda_gt e) gt) (oda rds)).
Proof.
  intros Hok. pose proof (evolves_oda _ _ (evolves_refl _ Hok)) as [Hl Hc].
  unfold IsGroupTypeUsedByODA, ODA_LEN.
  rewrite IsGroupTypeUsedByODA_from_spec by lia.
  change (Z.to_nat 0) with 0%nat. rewrite drop_0.
  by rewrite take_ge by lia.
Qed.

Lemma existsb_elem {A} (p : A → bool) l x :
  x ∈ l → p x = true → existsb p l = true.
Proof.
  intros Hx Hp. apply existsb_exists. exists x. split; [|done].
  by apply list_elem_of_In.
Qed.

Lemma oda_lookup_used rds gt i e :
  rds_data_ok rds → oda_lookup rds gt = Some (i, e) →
  IsGroupTypeUsedByODA rds gt = Some true.
Proof.
  intros Hok (He & _ & Hp)%oda_lookup_Some.
  rewrite IsGroupTypeUsedByODA_spec by done. f_equal.
  eapply existsb_elem; [|exact Hp]. by eapply list_elem_of_lookup_2.
Qed.

(** The handlers with an open-data path take it when the group type is in
    use. *)
Lemma dispatch_oda_used decoder gt blocks w :
  F_oda ∈ group_writes gt → ¬ (code gt = 3 ∧ version gt = "A"%char) →
  IsGroupTypeUsedByODA (w_rds w) gt = Some true →
  dispatch decoder gt blocks w = decode_oda decoder gt blocks w.
Proof.
  unfold dispatch, group_writes. cbv zeta. intros Hf H3 Hu.
  unfold decode_group_type_3, decode_group_type_4, decode_group_type_5,
    decode_group_type_6, decode_group_type_7, decode_group_type_8,
    decode_group_type_9, decode_group_type_10, decode_group_type_11,
    decode_group_type_12, decode_group_type_13.
  rewrite Hu. simpl.
  destruct (Ascii.eqb_spec (version gt) "A") as [Hv|Hv];
    repeat case_match; try done;
    try (exfalso; apply H3; by split);
    exfalso;
    repeat match goal with
           | H : _ ∈ _ :: _ |- _ => apply elem_of_cons in H as [H|H]
           | H : F_oda = _ |- _ => discriminate H
           | H : _ ∈ [] |- _ => by apply elem_of_nil in H
           end.
Qed.

Lemma decode_oda_bound decoder g w i e :
  rds_data_ok (w_rds w) → errors (b g) ≤ BLERB_MAX →
  F_oda ∈ group_writes (group_type_of (val (b g))) →
  ¬ (code (group_type_of (val (b g))) = 3 ∧
     version (group_type_of (val (b g))) = "A"%char) →
  oda_lookup (w_rds w) (group_type_of (val (b g))) = Some (i, e) →
  ∃ w', rds_decoder_decode decoder g w = Some w' ∧
    oda (w_rds w') =
      <[i := set_oda_pkt_count (u16 (oda_pkt_count e + 1)) e]>
        (oda (w_rds w)) ∧
    oda_cnt (w_rds w') = oda_cnt (w_rds w) ∧
    tdc (w_rds w') = tdc (w_rds w) ∧ ews (w_rds w') = ews (w_rds w) ∧
    w_calls w' = w_calls w ++
      (if oda_decode_cb decoder =? 0 then []
       else [call_decode_cb (oda_decode_cb decoder) (oda_id e) (w_rds w') g
               (group_type_of (val (b g))) (oda_cb_data decoder)]).
Proof.
  intros Hok Hb Hf H3 Hl. pose proof (rds_data_ok_stats _ Hok) as Hst.
  destruct (decode_accepted decoder g w Hst Hb) as (rds1 & H1 & ->).
  pose proof (header_only_ok _ _ Hok H1) as Hok1.
  destruct (header_only_fields _ _ H1)
    as (_ & _ & _ & _ & _ & _ & _ & _ & _ & _ & Hcnt & Hoda & Htdc & Hews).
  assert (oda_lookup rds1 (group_type_of (val (b g))) = Some (i, e)) as Hl1.
  { unfold oda_lookup in *. by rewrite Hcnt, Hoda. }
  rewrite dispatch_oda_used; [|done..|by eapply oda_lookup_used].
  rewrite decode_oda_spec by done. simpl. rewrite Hl1.
  eexists; split; [done|]. simpl. by rewrite Hoda.
Qed.

(** X15.  An accepted group of a type with an open-data path (any of 3B, 4B,
    5 to 9, 10B, 11 to 13) that is bound in the ODA table: the packet count
    of the first bound entry is incremented modulo 2^16, the table is
    otherwise unchanged, the group is not decoded as TDC or EWS data, and the
    decode callback, when one is bound, is called exactly once, with that
    entry's application ID and the state the group leaves behind. *)
Theorem oda_dispatch (decoder : rds_decoder) (g : rds_blocks) (w : world)
  (i : nat) (e : rds_oda) :
  rds_data_ok (w_rds w) → errors (b g) ≤ BLERB_MAX →
  F_oda ∈ group_writes (group_type_of (val (b g))) →
  ¬ (code (group_type_of (val (b g))) = 3 ∧
     version (group_type_of (val (b g))) = "A"%char) →
  oda_lookup (w_rds w) (group_type_of (val (b g))) = Some (i, e) →
  ∃ w', rds_decoder_decode decoder g w = Some w' ∧
    oda (w_rds w') =
      <[i := set_oda_pkt_count (u16 (oda_pkt_count e + 1)) e]>
        (oda (w_rds w)) ∧
    oda_cnt (w_rds w') = oda_cnt (w_rds w) ∧
    tdc (w_rds w') = tdc (w_rds w) ∧ ews (w_rds w') = ews (w_rds w) ∧
    w_calls w' = w_calls w ++
      (if oda_decode_cb decoder =? 0 then []
       else [call_decode_cb (oda_decode_cb decoder) (oda_id e) (w_rds w') g
               (group_type_of (val (b g))) (oda_cb_data decoder)]).
Proof. apply decode_oda_bound. Qed.

Lemma oda_dispatch_witness :
  ∃ w', rds_decoder_decode sample_decoder
          (mk_blocks 0 0 0xB000 0 0x1111 0 0x2222 0) announced_world
        = Some w' ∧
        oda_pkt_count <$> oda (w_rds w') !! 0%nat = Some 1.
Proof.
  destruct (oda_dispatch sample_decoder
              (mk_blocks 0 0 0xB000 0 0x1111 0 0x2222 0) announced_world
              0%nat {| oda_id := 0x4BD7;
                       oda_gt := {| code := 11; version := "A" |};
                       oda_pkt_count := 0 |})
    as (w' & Hw' & Ho & _);
    [reflexivity | by vm_compute | | | reflexivity |].
  { vm_compute. apply list_elem_of_here. }
  { vm_compute. intros [H _]. discriminate H. }
  exists w'. split; [exact Hw'|]. by rewrite Ho.
Defined.

(** ** Open data: the two scans of the table *)

Lemma oda_tail_unbound_iff rds :
  oda_tail_unbound rds = true ↔
  Forall (λ e, version (oda_gt e) ≠ "A"%char ∧ version (oda_gt e) ≠ "B"%char)
    (drop (Z.to_nat (oda_cnt rds)) (oda rds)).
Proof.
  unfold oda_tail_unbound.
  induction (drop (Z.to_nat (oda_cnt rds)) (oda rds)) as [|e l IH]; simpl.
  { split; [constructor|done]. }
  rewrite andb_true_iff, IH, andb_true_iff, !negb_true_iff.
  split.
  - intros [[HA HB] Hl]. constructor; [|done].
    split; intros Heq; rewrite Heq in *; done.
  - intros [[HA HB] Hl]%Forall_cons_1. split; [|done].
    split; by apply Ascii.eqb_neq.
Qed.

Lemma existsb_list_find {A} (p : A → bool) l :
  existsb p l = bool_decide (is_Some (list_find (λ x, p x = true) l)).
Proof.
  induction l as [|x l IH]; simpl.
  { done. }
  destruct (p x) eqn:Hp; simpl.
  - done.
  - rewrite IH.
    apply bool_decide_ext. by rewrite fmap_is_Some.
Qed.

Lemma group_type_of_version bv :
  version (group_type_of bv) = "A"%char ∨
  version (group_type_of bv) = "B"%char.
Proof. unfold group_type_of. simpl. destruct (to_bool _); auto. Qed.

Lemma oda_scans_agree_here rds gt :
  rds_data_ok rds → oda_tail_unbound rds = true →
  version gt = "A"%char ∨ version gt = "B"%char →
  IsGroupTypeUsedByODA rds gt =
    Some (bool_decide (is_Some (oda_lookup rds gt))).
Proof.
  intros Hok HJ Hv. rewrite IsGroupTypeUsedByODA_spec by done. f_equal.
  unfold oda_lookup. rewrite <-existsb_list_find.
  rewrite <-(take_drop (Z.to_nat (oda_cnt rds)) (oda rds)) at 1.
  rewrite existsb_app.
  apply oda_tail_unbound_iff in HJ.
  assert (existsb (λ e, GroupTypesEqual (oda_gt e) gt)
            (drop (Z.to_nat (oda_cnt rds)) (oda rds)) = false) as ->;
    [|by rewrite orb_false_r].
  induction HJ as [|e l [HA HB] _ IH]; [done|]. simpl. rewrite IH.
  rewrite orb_false_r. unfold GroupTypesEqual.
  destruct (Ascii.eqb_spec (version (oda_gt e)) (version gt)) as [Heq|];
    [|by rewrite andb_false_r].
  destruct Hv; congruence.
Qed.

(** A group of a type with an open-data path that is not in use goes to the
    handler of the type's original meaning. *)
Lemma dispatch_oda_cases decoder gt blocks w (u : bool) :
  F_oda ∈ group_writes gt → ¬ (code gt = 3 ∧ version gt = "A"%char) →
  IsGroupTypeUsedByODA (w_rds w) gt = Some u →
  dispatch decoder gt blocks w = decode_oda decoder gt blocks w ∨
  (u = false ∧
   ∀ w', dispatch decoder gt blocks w = Some w' →
         changes_only [F_tdc; F_ews] (w_rds w) (w_rds w') ∧
         w_calls w' = w_calls w).
Proof.
  intros Hf H3 Hu. destruct u; [left; by apply dispatch_oda_used|].
  revert Hf. unfold dispatch, group_writes. cbv zeta.
  unfold decode_group_type_3, decode_group_type_4, decode_group_type_5,
    decode_group_type_6, decode_group_type_7, decode_group_type_8,
    decode_group_type_9, decode_group_type_10, decode_group_type_11,
    decode_group_type_12, decode_group_type_13, decode_in_house_data,
    decode_radio_paging, decode_tmc, decode_ews.
  rewrite Hu. simpl. intros Hf.
  destruct (Ascii.eqb_spec (version gt) "A") as [Hv|Hv];
    repeat case_match; try (by left);
    try (exfalso; apply H3; by split);
    try (exfalso;
         repeat match goal with
                | H : _ ∈ _ :: _ |- _ => apply elem_of_cons in H as [H|H]
                | H : F_oda = _ |- _ => discriminate H
                | H : _ ∈ [] |- _ => by apply elem_of_nil in H
                end; fail);
    right; (split; [done|]); intros w' Hrun;
    try (injection Hrun as <-; split; [apply changes_only_refl|done]);
    on_rds_open; (split; [|done]); opt_inv;
    repeat sub_frame decode_tdc_block_changes; frame.
Qed.

Lemma decode_group_type_3A_cases decoder gt blocks w w' :
  rds_data_ok (w_rds w) → version gt = "A"%char →
  decode_group_type_3 decoder gt blocks w = Some w' →
  (oda (w_rds w') = oda (w_rds w) ∧ oda_cnt (w_rds w') = oda_cnt (w_rds w)) ∨
  (errors (d blocks) = BLER_NONE ∧ val (d blocks) ≠ 0 ∧
   ∃ i e, oda (w_rds w) !! Z.to_nat i = Some e ∧
     oda (w_rds w') =
       <[Z.to_nat i := {| oda_id := val (d blocks);
                          oda_gt := announced_gt (val (b blocks));
                          oda_pkt_count := oda_pkt_count e |}]>
         (oda (w_rds w)) ∧
     (∀ j e', 0 ≤ j < i → oda (w_rds w) !! Z.to_nat j = Some e' →
              oda_id e' ≠ val (d blocks)) ∧
     ((0 ≤ i < oda_cnt (w_rds w) ∧ oda_id e = val (d blocks) ∧
       oda_cnt (w_rds w') = oda_cnt (w_rds w)) ∨
      (i = oda_cnt (w_rds w) ∧ oda_cnt (w_rds w) < ODA_LEN ∧
       oda_cnt (w_rds w') = oda_cnt (w_rds w) + 1))).
Proof.
  intros Hok Hv H.
  destruct (Z.eqb_spec (errors (d blocks)) BLER_NONE) as [Hd|Hd].
  - destruct (Z.eqb_spec (val (d blocks)) 0) as [Hz|Hz].
    + left. revert H. unfold decode_group_type_3, on_rds. rewrite Hv. simpl.
      rewrite Hd. simpl. unfold IsValidODAAppId. rewrite Hz. simpl.
      by intros [= <-].
    + destruct (decode_group_type_3A_spec decoder gt blocks w Hok Hv Hd Hz)
        as (w2 & Hw2 & Hs).
      rewrite H in Hw2. injection Hw2 as <-. cbv zeta in Hs.
      destruct Hs as [Hs|(_ & _ & ? & ?)]; [right|by left].
      by split_and!.
  - left. revert H. unfold decode_group_type_3, on_rds. rewrite Hv. simpl.
    destruct (Z.eqb_spec (errors (d blocks)) BLER_NONE); [done|]. simpl.
    by intros [= <-].
Qed.

Lemma forallb_drop_S {A} (p : A → bool) n l :
  forallb p (drop n l) = true → forallb p (drop (S n) l) = true.
Proof.
  revert l. induction n as [|n IH]; intros [|x l]; simpl; try done.
  - rewrite drop_0. by intros [_ ?]%andb_true_iff.
  - apply IH.
Qed.

Lemma dispatch_oda_tail decoder gt blocks w w' :
  rds_data_ok (w_rds w) → oda_tail_unbound (w_rds w) = true →
  dispatch decoder gt blocks w = Some w' →
  oda_tail_unbound (w_rds w') = true.
Proof.
  intros Hok HJ H.
  pose proof (evolves_oda _ _ (evolves_refl _ Hok)) as [Hl Hc].
  assert (∀ rds', oda_cnt rds' = oda_cnt (w_rds w) → oda rds' = oda (w_rds w) →
                  oda_tail_unbound rds' = true) as Hsame.
  { intros rds' Hn Ho. unfold oda_tail_unbound in *. by rewrite Hn, Ho. }
  destruct (decide (F_oda ∈ group_writes gt)) as [Hf|Hf].
  2:{ apply dispatch_changes in H as [_ H]. destruct (H F_oda Hf) as [? ?].
      by apply Hsame. }
  assert (code gt = 3 ∧ version gt = "A"%char ∨
          ¬ (code gt = 3 ∧ version gt = "A"%char)) as [[Hc3 Hv]|H3].
  { destruct (Z.eq_dec (code gt) 3), (Ascii.eqb_spec (version gt) "A"); tauto. }
  - unfold dispatch in H. rewrite Hc3 in H.
    apply (decode_group_type_3A_cases _ _ _ _ _ Hok Hv) in H
      as [[Ho Hn]|(_ & _ & i & e & He & Ho & _ & Hi)]; [by apply Hsame|].
    unfold oda_tail_unbound in *. rewrite Ho.
    destruct Hi as [(Hi & _ & ->)|(-> & Hlt & ->)].
    + rewrite drop_insert_lt by lia. done.
    + rewrite drop_insert_lt by lia.
      replace (Z.to_nat (oda_cnt (w_rds w) + 1))
        with (S (Z.to_nat (oda_cnt (w_rds w)))) by lia.
      by apply forallb_drop_S.
  - destruct (IsGroupTypeUsedByODA (w_rds w) gt) as [u|] eqn:Hu.
    2:{ by rewrite IsGroupTypeUsedByODA_spec in Hu. }
    destruct (dispatch_oda_cases decoder gt blocks w u Hf H3 Hu)
      as [Hd|[_ Hd]].
    + rewrite Hd, decode_oda_spec in H by done. injection H as <-.
      destruct (oda_lookup (w_rds w) gt) as [[i e]|] eqn:Hlk; [|done].
      apply oda_lookup_Some in Hlk as (_ & Hi & _).
      unfold oda_tail_unbound in *. simpl.
      by rewrite drop_insert_lt by lia.
    + destruct (Hd _ H) as [[_ Hk] _].
      destruct (Hk F_oda) as [? ?]; [|by apply Hsame].
      by intros [?|[?|?%elem_of_nil]%elem_of_cons]%elem_of_cons.
Qed.

Lemma decode_oda_tail decoder g w w' :
  rds_data_ok (w_rds w) → oda_tail_unbound (w_rds w) = true →
  rds_decoder_decode decoder g w = Some w' →
  oda_tail_unbound (w_rds w') = true.
Proof.
  intros Hok HJ H. pose proof (rds_data_ok_stats _ Hok) as Hst.
  destruct (Z.leb_spec (errors (b g)) BLERB_MAX) as [Hb|Hb].
  - destruct (decode_accepted decoder g w Hst Hb) as (rds1 & H1 & Hd).
    rewrite Hd in H.
    apply dispatch_oda_tail in H; [done|by eapply header_only_ok|].
    destruct (header_only_fields _ _ H1)
      as (_ & _ & _ & _ & _ & _ & _ & _ & _ & _ & Hcnt & Hoda & _).
    unfold oda_tail_unbound in *. simpl. by rewrite Hcnt, Hoda.
  - destruct (decode_dropped decoder g w Hst Hb) as (rds1 & H1 & Hd).
    rewrite Hd in H. injection H as <-.
    destruct (header_only_fields _ _ H1)
      as (_ & _ & _ & _ & _ & _ & _ & _ & _ & _ & Hcnt & Hoda & _).
    unfold oda_tail_unbound in *. simpl. by rewrite Hcnt, Hoda.
Qed.

Lemma decode_all_oda_tail decoder groups w :
  rds_data_ok (w_rds w) → oda_tail_unbound (w_rds w) = true →
  ∃ w', decode_all decoder groups w = Some w' ∧
        rds_data_ok (w_rds w') ∧ oda_tail_unbound (w_rds w') = true.
Proof.
  revert w. induction groups as [|g groups IH]; intros w Hok HJ; simpl.
  { by exists w. }
  destruct (decode_succeeds decoder g w Hok) as (w1 & Hw1 & Hok1).
  rewrite Hw1. simpl. apply IH; [done|].
  by apply (decode_oda_tail decoder g w).
Qed.

(** X16.  [IsGroupTypeUsedByODA] scans all ten entries of the ODA table while
    [decode_oda] scans only the first [oda_cnt].  Starting from a state in
    which no entry at or past [oda_cnt] carries a version 'A' or 'B' (as
    after zeroing the record), this stays so after any sequence of groups,
    and the two scans then agree on every group type the dispatcher can
    derive: a type is reported in use exactly when [decode_oda] finds an
    entry for it. *)
Theorem oda_scans_agree (decoder : rds_decoder) (groups : list rds_blocks)
  (w : world) :
  rds_data_ok (w_rds w) → oda_tail_unbound (w_rds w) = true →
  ∃ w', decode_all decoder groups w = Some w' ∧
    oda_tail_unbound (w_rds w') = true ∧
    ∀ bv, IsGroupTypeUsedByODA (w_rds w') (group_type_of bv) =
            Some (bool_decide
                    (is_Some (oda_lookup (w_rds w') (group_type_of bv)))).
Proof.
  intros Hok HJ.
  destruct (decode_all_oda_tail decoder groups w Hok HJ)
    as (w' & Hw' & Hok' & HJ').
  exists w'. split_and!; [done..|]. intros bv.
  apply oda_scans_agree_here; [done..|apply group_type_of_version].
Qed.

Lemma oda_scans_agree_witness :
  ∃ w', decode_all sample_decoder
          [mk_blocks 0 0 0x3016 0 0 0 0x4BD7 0;
           mk_blocks 0 0 0xB000 0 0x1111 0 0x2222 0] fresh_world = Some w' ∧
        IsGroupTypeUsedByODA (w_rds w') (group_type_of 0xB000) = Some true.
Proof.
  destruct (oda_scans_agree sample_decoder
              [mk_blocks 0 0 0x3016 0 0 0 0x4BD7 0;
               mk_blocks 0 0 0xB000 0 0x1111 0 0x2222 0] fresh_world)
    as (w' & Hw' & _ & H); [reflexivity | reflexivity |].
  exists w'. split; [exact Hw'|].
  rewrite H. f_equal. apply bool_decide_eq_true.
  vm_compute in Hw'. injection Hw' as <-. vm_compute. by eexists.
Defined.

(** ** Open data: announcing an application, then receiving its groups *)

Lemma decode_group_type_3A_calls decoder gt blocks w w' :
  version gt = "A"%char →
  decode_group_type_3 decoder gt blocks w = Some w' →
  w_calls w' = w_calls w.
Proof.
  unfold decode_group_type_3. intros ->. simpl.
  by intros (? & _ & ->)%on_rds_inv.
Qed.

Lemma GroupTypesEqual_refl gt : GroupTypesEqual gt gt = true.
Proof.
  unfold GroupTypesEqual. by rewrite Z.eqb_refl, Ascii.eqb_refl.
Qed.

(** After an announcement of [aid] for [gt], the lookup of [gt] yields the
    entry of [aid], provided the entry found before, if any, was that of
    [aid] already. *)
Lemma oda_lookup_announced rds rds' gt aid (j : Z) e :
  0 ≤ j < oda_cnt rds' → oda_cnt rds ≤ oda_cnt rds' →
  oda rds !! Z.to_nat j = Some e →
  oda rds' = <[Z.to_nat j := {| oda_id := aid; oda_gt := gt;
                               oda_pkt_count := oda_pkt_count e |}]>
               (oda rds) →
  (∀ k e', 0 ≤ k < j → oda rds !! Z.to_nat k = Some e' → oda_id e' ≠ aid) →
  (j < oda_cnt rds ∨ j = oda_cnt rds) →
  (∀ i e', oda_lookup rds gt = Some (i, e') → oda_id e' = aid) →
  oda_lookup rds' gt =
    Some (Z.to_nat j, {| oda_id := aid; oda_gt := gt;
                         oda_pkt_count := oda_pkt_count e |}).
Proof.
  intros Hj Hn He Ho Hnone Hjn Hfirst. unfold oda_lookup.
  apply list_find_Some. split_and!.
  - rewrite lookup_take_lt by lia. rewrite Ho.
    apply list_lookup_insert_eq. apply lookup_lt_Some in He. lia.
  - apply GroupTypesEqual_refl.
  - intros k y Hy Hk Hp. rewrite lookup_take_lt in Hy by lia.
    rewrite Ho, list_lookup_insert_ne in Hy by lia.
    assert (take (Z.to_nat (oda_cnt rds)) (oda rds) !! k = Some y) as Hy'.
    { rewrite lookup_take_lt by lia. done. }
    destruct (list_find_elem_of
                (λ e0, GroupTypesEqual (oda_gt e0) gt = true)
                (take (Z.to_nat (oda_cnt rds)) (oda rds)) y)
      as [[i e'] Hf]; [by eapply list_elem_of_lookup_2|done|].
    pose proof (Hfirst _ _ Hf) as Hid.
    apply list_find_Some in Hf as (Hi & _ & Hmin).
    assert (i ≤ k)%nat as Hik.
    { destruct (decide (i ≤ k)%nat); [done|]. exfalso.
      apply (Hmin k y); [done|lia|done]. }
    apply lookup_take_Some in Hi as [Hi _].
    apply (Hnone (Z.of_nat i) e'); [lia| |done].
    by rewrite Nat2Z.id.
Qed.

(** X17.  Announcing an application and then receiving one of its groups.
    Group [g1] is an accepted 3A group, its block D error-free, announcing
    the application [val (d g1)] for the group type
    [gt = {(B & 0b11110) >> 1, 'B' if B bit 0 else 'A'}] of its block B, and
    [gt] is a type with an open-data path (one of 3B, 4B, 5 to 9, 10B,
    11 to 13; an announcement for any other type is recorded but its groups
    never reach the application); [g2] is an accepted group of type [gt].
    If the table has room for the application (or holds it already) and the
    entry so far found for [gt], if any, belongs to this application, then
    decoding [g1] and [g2] calls the decode callback, when one is bound,
    exactly once: for [g2], with the announced application ID and the final
    state. *)
Theorem announce_then_dispatch (decoder : rds_decoder) (g1 g2 : rds_blocks)
  (w : world) :
  let gt := {| code := Z.shiftr (Z.land (val (b g1)) 0x1E) 1;
               version := if Z.testbit (val (b g1)) 0
                          then "B"%char else "A"%char |} in
  rds_data_ok (w_rds w) →
  errors (b g1) ≤ BLERB_MAX → is_group 3 "A" g1 →
  errors (d g1) = BLER_NONE → val (d g1) ≠ 0 →
  errors (b g2) ≤ BLERB_MAX → group_type_of (val (b g2)) = gt →
  F_oda ∈ group_writes gt → ¬ (code gt = 3 ∧ version gt = "A"%char) →
  (oda_cnt (w_rds w) < ODA_LEN ∨
   ∃ e, e ∈ take (Z.to_nat (oda_cnt (w_rds w))) (oda (w_rds w)) ∧
        oda_id e = val (d g1)) →
  (∀ i e, oda_lookup (w_rds w) gt = Some (i, e) → oda_id e = val (d g1)) →
  ∃ w', decode_all decoder [g1; g2] w = Some w' ∧
    w_calls w' = w_calls w ++
      (if oda_decode_cb decoder =? 0 then []
       else [call_decode_cb (oda_decode_cb decoder) (val (d g1)) (w_rds w')
               g2 gt (oda_cb_data decoder)]).
Proof.
  intros gt.
  assert (gt = announced_gt (val (b g1))) as ->
    by (symmetry; apply announced_gt_bits).
  intros Hok Hb1 Hg1 Hd1 Haid Hb2 Hg2 Hf H3 Hroom Hfirst.
  pose proof (rds_data_ok_stats _ Hok) as Hst.
  pose proof (evolves_oda _ _ (evolves_refl _ Hok)) as [Hlen Hcnt].
  destruct (decode_succeeds decoder g1 w Hok) as (w1 & Hw1 & Hok1).
  assert (w_calls w1 = w_calls w ∧
          ∃ j e, oda_lookup (w_rds w1) (announced_gt (val (b g1)))
                 = Some (j, e) ∧ oda_id e = val (d g1)) as (Hc1 & j & e & Hlk & Hid).
  { destruct (decode_accepted decoder g1 w Hst Hb1) as (rds1 & H1 & Hd).
    rewrite Hd, Hg1 in Hw1. unfold dispatch in Hw1. simpl in Hw1.
    pose proof (header_only_ok _ _ Hok H1) as Hok'.
    destruct (header_only_fields _ _ H1)
      as (_ & _ & _ & _ & _ & _ & _ & _ & _ & _ & Hn & Ho & _).
    split; [by apply decode_group_type_3A_calls in Hw1|].
    destruct (decode_group_type_3A_spec decoder {| code := 3; version := "A" |}
                g1 {| w_rds := rds1; w_calls := w_calls w |}
                Hok' eq_refl Hd1 Haid) as (w2 & Hw2 & Hs).
    rewrite Hw1 in Hw2. injection Hw2 as <-. cbv zeta in Hs. simpl in Hs.
    rewrite Hn, Ho in Hs.
    destruct Hs as [(i & e & He & Ho' & Hnone & Hi)|(Hfull & Hnone & _)].
    - exists (Z.to_nat i),
        {| oda_id := val (d g1); oda_gt := announced_gt (val (b g1));
           oda_pkt_count := oda_pkt_count e |}.
      split; [|reflexivity].
      apply (oda_lookup_announced (w_rds w) (w_rds w1) _ _ i e);
        try done; destruct Hi as [(? & ? & ?)|(? & ? & ?)]; lia.
    - exfalso. destruct Hroom as [?|(e & He & Hide)]; [lia|].
      apply list_elem_of_lookup_1 in He as [k Hk].
      apply lookup_take_Some in Hk as [Hk Hlt].
      apply (Hnone (Z.of_nat k) e); [lia| |done]. by rewrite Nat2Z.id. }
  rewrite <-Hg2 in Hlk, Hf, H3.
  destruct (decode_oda_bound decoder g2 w1 j e Hok1 Hb2 Hf H3 Hlk)
    as (w' & Hw' & _ & _ & _ & _ & Hcalls).
  exists w'. simpl. rewrite Hw1. simpl. rewrite Hw'. split; [done|].
  by rewrite Hcalls, Hc1, Hid, Hg2.
Qed.

Lemma announce_then_dispatch_witness :
  ∃ w', decode_all sample_decoder
          [mk_blocks 0 0 0x3016 0 0 0 0x4BD7 0;
           mk_blocks 0 0 0xB000 0 0x1111 0 0x2222 0] fresh_world = Some w' ∧
        w_calls w' = w_calls fresh_world ++
          [call_decode_cb 7 0x4BD7 (w_rds w')
             (mk_blocks 0 0 0xB000 0 0x1111 0 0x2222 0)
             {| code := 11; version := "A" |} 9].
Proof.
  destruct (announce_then_dispatch sample_decoder
              (mk_blocks 0 0 0x3016 0 0 0 0x4BD7 0)
              (mk_blocks 0 0 0xB000 0 0x1111 0 0x2222 0) fresh_world)
    as (w' & Hw' & Hc);
    [ reflexivity | by vm_compute | reflexivity | reflexivity | by vm_compute
    | by vm_compute | reflexivity | | | | | ].
  { vm_compute. apply list_elem_of_here. }
  { vm_compute. intros [H _]. discriminate H. }
  { left. by vm_compute. }
  { intros i e H. vm_compute in H. discriminate H. }
  exists w'. split; [exact Hw'|]. rewrite Hc. reflexivity.
Defined.

(** ** Open data: packet counts and callbacks *)

(** What decoding one group does to the ODA table and the trace: nothing; or
    an announcement rebinds or appends an entry; or a group is handed to the
    application of the first entry bound to its type. *)
Lemma decode_oda_step decoder g w w' :
  rds_data_ok (w_rds w) →
  rds_decoder_decode decoder g w = Some w' →
  let rds := w_rds w in
  let rds' := w_rds w' in
  (oda rds' = oda rds ∧ oda_cnt rds' = oda_cnt rds ∧ w_calls w' = w_calls w)
  ∨ (w_calls w' = w_calls w ∧
     ∃ i e aid gt,
       oda rds !! Z.to_nat i = Some e ∧
       oda rds' = <[Z.to_nat i := {| oda_id := aid; oda_gt := gt;
                                     oda_pkt_count := oda_pkt_count e |}]>
                    (oda rds) ∧
       (∀ j e', 0 ≤ j < i → oda rds !! Z.to_nat j = Some e' →
                oda_id e' ≠ aid) ∧
       ((0 ≤ i < oda_cnt rds ∧ oda_id e = aid ∧ oda_cnt rds' = oda_cnt rds) ∨
        (i = oda_cnt rds ∧ oda_cnt rds < ODA_LEN ∧
         oda_cnt rds' = oda_cnt rds + 1)))
  ∨ (oda_cnt rds' = oda_cnt rds ∧
     ∃ i e,
       oda_lookup rds (group_type_of (val (b g))) = Some (i, e) ∧
       oda rds' = <[i := set_oda_pkt_count (u16 (oda_pkt_count e + 1)) e]>
                    (oda rds) ∧
       w_calls w' = w_calls w ++
         (if oda_decode_cb decoder =? 0 then []
          else [call_decode_cb (oda_decode_cb decoder) (oda_id e) rds' g
                  (group_type_of (val (b g))) (oda_cb_data decoder)])).
Proof.
  intros Hok H. cbv zeta. pose proof (rds_data_ok_stats _ Hok) as Hst.
  destruct (Z.leb_spec (errors (b g)) BLERB_MAX) as [Hb|Hb].
  2:{ destruct (decode_dropped decoder g w Hst Hb) as (rds1 & H1 & Hd).
      rewrite Hd in H. injection H as <-.
      destruct (header_only_fields _ _ H1)
        as (_ & _ & _ & _ & _ & _ & _ & _ & _ & _ & Hcnt & Hoda & _).
      by left. }
  destruct (decode_accepted decoder g w Hst Hb) as (rds1 & H1 & Hd).
  rewrite Hd in H. clear Hd.
  pose proof (header_only_ok _ _ Hok H1) as Hok1.
  destruct (header_only_fields _ _ H1)
    as (_ & _ & _ & _ & _ & _ & _ & _ & _ & _ & Hcnt & Hoda & _).
  set (gt := group_type_of (val (b g))) in *.
  set (w1 := {| w_rds := rds1; w_calls := w_calls w |}) in *.
  assert (oda_lookup rds1 gt = oda_lookup (w_rds w) gt) as Hlk.
  { unfold oda_lookup. by rewrite Hcnt, Hoda. }
  destruct (decide (F_oda ∈ group_writes gt)) as [Hf|Hf].
  2:{ left. pose proof (dispatch_calls _ _ _ _ _ H) as [Hc|(_ & ? & _)];
        [|done].
      apply dispatch_changes in H as [_ H].
      destruct (H F_oda Hf) as [-> ->]. by rewrite Hc. }
  assert (code gt = 3 ∧ version gt = "A"%char ∨
          ¬ (code gt = 3 ∧ version gt = "A"%char)) as [[Hc3 Hv]|H3].
  { destruct (Z.eq_dec (code gt) 3), (Ascii.eqb_spec (version gt) "A"); tauto. }
  - unfold dispatch in H. rewrite Hc3 in H.
    pose proof (decode_group_type_3A_calls _ _ _ _ _ Hv H) as Hc.
    apply (decode_group_type_3A_cases decoder gt g w1 w' Hok1 Hv) in H
      as [[Ho Hn]|(_ & _ & i & e & He & Ho & Hnone & Hi)].
    + left. simpl in *. by rewrite Ho, Hn, Hc.
    + right. left. simpl in *. rewrite Hcnt, Hoda in *. split; [done|].
      by exists i, e, (val (d g)), (announced_gt (val (b g))).
  - destruct (IsGroupTypeUsedByODA (w_rds w1) gt) as [u|] eqn:Hu.
    2:{ by rewrite IsGroupTypeUsedByODA_spec in Hu. }
    destruct (dispatch_oda_cases decoder gt g w1 u Hf H3 Hu)
      as [Hd|[_ Hd]].
    + rewrite Hd, decode_oda_spec in H by done. injection H as <-.
      rewrite Hlk.
      destruct (oda_lookup (w_rds w) gt) as [[i e]|] eqn:Hl; [|by left].
      right. right. simpl. split; [done|]. exists i, e.
      by rewrite Hoda.
    + destruct (Hd _ H) as [[_ Hk] Hc]. left.
      destruct (Hk F_oda) as [-> ->]; [|done].
      by intros [?|[?|?%elem_of_nil]%elem_of_cons]%elem_of_cons.
Qed.

Lemma callbacks_for_app aid calls calls' :
  callbacks_for aid (calls ++ calls') =
  callbacks_for aid calls + callbacks_for aid calls'.
Proof.
  unfold callbacks_for. rewrite List.filter_app, length_app. lia.
Qed.

Lemma callbacks_for_nonneg aid calls : 0 ≤ callbacks_for aid calls.
Proof. unfold callbacks_for. lia. Qed.

Lemma u16_succ x : u16 (u16 x + 1) = u16 (x + 1).
Proof. unfold u16. by rewrite Z.add_mod_idemp_l. Qed.

Lemma oda_fresh_counts_ok w : oda_fresh w = true → oda_counts_ok w.
Proof.
  unfold oda_fresh. intros [[Hn Hp]%andb_true_iff Hc]%andb_true_iff.
  apply Z.eqb_eq in Hn.
  assert (∀ aid, callbacks_for aid (w_calls w) = 0) as Hz.
  { intros aid. unfold callbacks_for.
    induction (w_calls w) as [|c l IH]; [done|]. simpl in *.
    apply andb_true_iff in Hc as [Hc Hl]. destruct c; [done|]. simpl.
    by apply IH. }
  unfold oda_counts_ok. cbv zeta. rewrite Hn. split_and!.
  - intros; lia.
  - intros k e _ He. rewrite forallb_forall in Hp.
    apply Z.eqb_eq, Hp, list_elem_of_In. by eapply list_elem_of_lookup_2.
  - intros; lia.
  - intros aid Ha. by rewrite Hz in Ha.
Qed.

Lemma decode_counts_ok decoder g w w' :
  oda_decode_cb decoder ≠ 0 →
  rds_data_ok (w_rds w) → oda_counts_ok w →
  rds_decoder_decode decoder g w = Some w' → oda_counts_ok w'.
Proof.
  intros Hcb Hok (K1 & K2 & K3 & K4) H.
  pose proof (evolves_oda _ _ (evolves_refl _ Hok)) as [Hlen Hcnt].
  apply decode_oda_step in H; [|done]. cbv zeta in H.
  destruct H as [(Ho & Hn & Hc)
                |[(Hc & i & e & aid & gt & He & Ho & Hnone & Hi)
                 |(Hn & i & e & Hlk & Ho & Hc)]];
    unfold oda_counts_ok; cbv zeta.
  - rewrite Ho, Hn, Hc. by split_and!.
  - rewrite Ho, Hc.
    destruct Hi as [(Hi & Hid & ->)|(-> & Hlt & ->)].
    + (* an entry of the application is rebound *)
      split_and!.
      * intros j k ej ek Hj Hk Hej Hek Hjk.
        assert (∀ m em, <[Z.to_nat i := {| oda_id := aid; oda_gt := gt;
                          oda_pkt_count := oda_pkt_count e |}]>
                          (oda (w_rds w)) !! m = Some em →
                        ∃ em', oda (w_rds w) !! m = Some em' ∧
                               oda_id em' = oda_id em) as Hsame.
        { intros m em Hm. destruct (decide (m = Z.to_nat i)) as [->|Hne].
          - rewrite list_lookup_insert_eq in Hm
              by (apply lookup_lt_Some in He; lia).
            injection Hm as <-. by exists e.
          - rewrite list_lookup_insert_ne in Hm by done. by exists em. }
        destruct (Hsame _ _ Hej) as (ej' & Hej' & Hidj).
        destruct (Hsame _ _ Hek) as (ek' & Hek' & Hidk).
        apply (K1 j k ej' ek'); (done || congruence).
      * intros k e' Hk He'. rewrite list_lookup_insert_ne in He' by lia.
        by apply (K2 k).
      * intros k e' Hk He'. destruct (decide (k = Z.to_nat i)) as [->|Hne].
        -- rewrite list_lookup_insert_eq in He'
             by (apply lookup_lt_Some in He; lia).
           injection He' as <-. simpl. rewrite <-Hid. by apply (K3 (Z.to_nat i)).
        -- rewrite list_lookup_insert_ne in He' by done. by apply (K3 k).
      * intros a Ha. destruct (K4 a Ha) as (k & e' & Hk & He' & Hid').
        destruct (decide (k = Z.to_nat i)) as [->|Hne].
        -- eexists (Z.to_nat i), _. split; [done|].
           rewrite list_lookup_insert_eq by (apply lookup_lt_Some in He; lia).
           split; [done|]. simpl. congruence.
        -- exists k, e'. by rewrite list_lookup_insert_ne by done.
    + (* a new entry is appended *)
      assert (callbacks_for aid (w_calls w) = 0) as Hzero.
      { destruct (Z.eq_dec (callbacks_for aid (w_calls w)) 0) as [|Hnz];
          [done|].
        destruct (K4 _ Hnz) as (k & e' & Hk & He' & Hid').
        exfalso. apply (Hnone (Z.of_nat k) e'); [lia| |done].
        by rewrite Nat2Z.id. }
      assert (oda_pkt_count e = 0) as Hp0 by (by apply (K2 _ _ (le_n _) He)).
      replace (Z.to_nat (oda_cnt (w_rds w) + 1))
        with (S (Z.to_nat (oda_cnt (w_rds w)))) by lia.
      set (n := Z.to_nat (oda_cnt (w_rds w))) in *.
      assert (n < length (oda (w_rds w)))%nat as Hnl
        by (by apply lookup_lt_Some in He).
      split_and!.
      * intros j k ej ek Hj Hk Hej Hek Hjk.
        destruct (decide (j = n)) as [->|Hjn], (decide (k = n)) as [->|Hkn];
          [done| | |].
        -- rewrite list_lookup_insert_eq in Hej by done.
           rewrite list_lookup_insert_ne in Hek by done.
           injection Hej as <-. simpl in Hjk. exfalso.
           apply (Hnone (Z.of_nat k) ek); [lia|by rewrite Nat2Z.id|done].
        -- rewrite list_lookup_insert_ne in Hej by done.
           rewrite list_lookup_insert_eq in Hek by done.
           injection Hek as <-. simpl in Hjk. exfalso.
           apply (Hnone (Z.of_nat j) ej); [lia|by rewrite Nat2Z.id|done].
        -- rewrite list_lookup_insert_ne in Hej by done.
           rewrite list_lookup_insert_ne in Hek by done.
           apply (K1 j k ej ek); (done || lia).
      * intros k e' Hk He'. rewrite list_lookup_insert_ne in He' by lia.
        apply (K2 k); [lia|done].
      * intros k e' Hk He'. destruct (decide (k = n)) as [->|Hne].
        -- rewrite list_lookup_insert_eq in He' by done.
           injection He' as <-. simpl. by rewrite Hp0, Hzero.
        -- rewrite list_lookup_insert_ne in He' by done.
           apply (K3 k); [lia|done].
      * intros a Ha. destruct (K4 a Ha) as (k & e' & Hk & He' & Hid').
        exists k, e'. split; [lia|].
        rewrite list_lookup_insert_ne by lia. done.
  - (* a group is handed to an application *)
    pose proof (oda_lookup_Some _ _ _ _ Hlk) as (He & Hi & _).
    destruct (Z.eqb_spec (oda_decode_cb decoder) 0) as [|_]; [done|].
    rewrite Ho, Hn, Hc.
    assert (i < length (oda (w_rds w)))%nat as Hil
      by (by apply lookup_lt_Some in He).
    assert (∀ a, callbacks_for a
                   (w_calls w ++
                    [call_decode_cb (oda_decode_cb decoder) (oda_id e)
                       (w_rds w') g (group_type_of (val (b g)))
                       (oda_cb_data decoder)])
                 = callbacks_for a (w_calls w)
                   + (if oda_id e =? a then 1 else 0)) as Hcalls.
    { intros a. rewrite callbacks_for_app. f_equal.
      unfold callbacks_for. simpl. by destruct (oda_id e =? a). }
    assert (∀ m em, <[i := set_oda_pkt_count (u16 (oda_pkt_count e + 1)) e]>
                      (oda (w_rds w)) !! m = Some em →
                    ∃ em', oda (w_rds w) !! m = Some em' ∧
                           oda_id em' = oda_id em) as Hsame.
    { intros m em Hm. destruct (decide (m = i)) as [->|Hne].
      - rewrite list_lookup_insert_eq in Hm by done.
        injection Hm as <-. by exists e.
      - rewrite list_lookup_insert_ne in Hm by done. by exists em. }
    split_and!.
    + intros j k ej ek Hj Hk Hej Hek Hjk.
      destruct (Hsame _ _ Hej) as (ej' & Hej' & Hidj).
      destruct (Hsame _ _ Hek) as (ek' & Hek' & Hidk).
      apply (K1 j k ej' ek'); (done || congruence).
    + intros k e' Hk He'. rewrite list_lookup_insert_ne in He' by lia.
      by apply (K2 k).
    + intros k e' Hk He'. rewrite Hcalls.
      destruct (decide (k = i)) as [->|Hne].
      * rewrite list_lookup_insert_eq in He' by done.
        injection He' as <-. simpl. rewrite Z.eqb_refl.
        rewrite (K3 i e) by (done || lia). apply u16_succ.
      * rewrite list_lookup_insert_ne in He' by done.
        destruct (Z.eqb_spec (oda_id e) (oda_id e')) as [Heq|_].
        -- exfalso. apply Hne. apply (K1 k i e' e); (done || lia).
        -- rewrite Z.add_0_r. by apply (K3 k).
    + intros a Ha. rewrite Hcalls in Ha.
      destruct (Z.eqb_spec (oda_id e) a) as [Heq|_].
      * eexists i, _. split; [lia|].
        rewrite list_lookup_insert_eq by done. done.
      * rewrite Z.add_0_r in Ha.
        destruct (K4 a Ha) as (k & e' & Hk & He' & Hid').
        destruct (decide (k = i)) as [->|Hne].
        -- eexists i, _. split; [done|].
           rewrite list_lookup_insert_eq by done. split; [done|].
           simpl. congruence.
        -- exists k, e'. by rewrite list_lookup_insert_ne by done.
Qed.

Lemma decode_all_counts_ok decoder groups w :
  oda_decode_cb decoder ≠ 0 →
  rds_data_ok (w_rds w) → oda_counts_ok w →
  ∃ w', decode_all decoder groups w = Some w' ∧
        rds_data_ok (w_rds w') ∧ oda_counts_ok w'.
Proof.
  intros Hcb. revert w.
  induction groups as [|g groups IH]; intros w Hok HK; simpl.
  { by exists w. }
  destruct (decode_succeeds decoder g w Hok) as (w1 & Hw1 & Hok1).
  rewrite Hw1. simpl. apply IH; [done|].
  by apply (decode_counts_ok decoder g w).
Qed.

Lemma oda_counts_ok_entries w e :
  oda_counts_ok w →
  e ∈ take (Z.to_nat (oda_cnt (w_rds w))) (oda (w_rds w)) →
  oda_pkt_count e = u16 (callbacks_for (oda_id e) (w_calls w)).
Proof.
  intros (_ & _ & K3 & _) [k Hk]%list_elem_of_lookup_1.
  apply lookup_take_Some in Hk as [Hk Hlt]. by apply (K3 k).
Qed.

Lemma oda_counts_ok_absent w aid :
  oda_counts_ok w →
  (∀ e, e ∈ take (Z.to_nat (oda_cnt (w_rds w))) (oda (w_rds w)) →
        oda_id e ≠ aid) →
  callbacks_for aid (w_calls w) = 0.
Proof.
  intros (_ & _ & _ & K4) Hno.
  destruct (Z.eq_dec (callbacks_for aid (w_calls w)) 0) as [|Hnz]; [done|].
  destruct (K4 _ Hnz) as (k & e & Hk & He & Hid). exfalso.
  apply (Hno e); [|done]. apply list_elem_of_lookup. exists k.
  by rewrite lookup_take_lt by done.
Qed.

(** X18.  Packet counts and callbacks agree.  Starting from a state with no
    application announced, all packet counts zero and no decode callback made
    (as after a reset), and with a decode callback bound: after any sequence
    of groups, every announced entry's [pkt_count] is the number of decode
    callbacks made for its application ID, modulo 2^16; no callback was made
    for an ID that has no entry; and no two announced entries share an
    ID. *)
Theorem pkt_count_counts_callbacks (decoder : rds_decoder)
  (groups : list rds_blocks) (w : world) :
  rds_data_ok (w_rds w) → oda_fresh w = true → oda_decode_cb decoder ≠ 0 →
  ∃ w', decode_all decoder groups w = Some w' ∧
    let announced := take (Z.to_nat (oda_cnt (w_rds w'))) (oda (w_rds w')) in
    (∀ e, e ∈ announced →
          oda_pkt_count e = u16 (callbacks_for (oda_id e) (w_calls w'))) ∧
    (∀ aid, (∀ e, e ∈ announced → oda_id e ≠ aid) →
            callbacks_for aid (w_calls w') = 0) ∧
    NoDup (oda_id <$> announced).
Proof.
  intros Hok Hfresh Hcb.
  destruct (decode_all_counts_ok decoder groups w Hcb Hok
              (oda_fresh_counts_ok _ Hfresh)) as (w' & Hw' & Hok' & HK).
  exists w'. split; [done|]. cbv zeta. split_and!.
  - intros e. by apply oda_counts_ok_entries.
  - intros aid. by apply oda_counts_ok_absent.
  - destruct HK as (K1 & _). apply NoDup_alt. intros j k x Hj Hk.
    rewrite list_lookup_fmap in Hj, Hk.
    destruct (take _ _ !! j) as [ej|] eqn:Hej; [|done].
    destruct (take _ _ !! k) as [ek|] eqn:Hek; [|done].
    simpl in *. apply lookup_take_Some in Hej as [Hej ?].
    apply lookup_take_Some in Hek as [Hek ?].
    apply (K1 j k ej ek); (done || congruence).
Qed.

Lemma pkt_count_counts_callbacks_witness :
  ∃ w', decode_all sample_decoder
          [mk_blocks 0 0 0x3016 0 0 0 0x4BD7 0;
           mk_blocks 0 0 0xB000 0 0x1111 0 0x2222 0;
           mk_blocks 0 0 0xB000 0 0x3333 0 0x4444 0] fresh_world = Some w' ∧
        callbacks_for 0x4BD7 (w_calls w') = 2.
Proof.
  destruct (pkt_count_counts_callbacks sample_decoder
              [mk_blocks 0 0 0x3016 0 0 0 0x4BD7 0;
               mk_blocks 0 0 0xB000 0 0x1111 0 0x2222 0;
               mk_blocks 0 0 0xB000 0 0x3333 0 0x4444 0] fresh_world)
    as (w' & Hw' & _); [reflexivity | reflexivity | by vm_compute |].
  exists w'. split; [exact Hw'|].
  vm_compute in Hw'. injection Hw' as <-. reflexivity.
Defined.

(** ** The statistics tool *)

Lemma u16_s32 x : u16 (s32 x) = u16 x.
Proof.
  unfold u16, s32.
  pose proof (Z.div_mod (x + 2147483648) 4294967296 ltac:(lia)) as H.
  replace ((x + 2147483648) mod 4294967296 - 2147483648)
    with (x + (- 65536 * ((x + 2147483648) / 4294967296)) * 65536) by lia.
  apply Z_mod_plus_full.
Qed.

Lemma s32_succ x : s32 (s32 x + 1) = s32 (x + 1).
Proof.
  unfold s32. f_equal.
  replace ((x + 2147483648) mod 4294967296 - 2147483648 + 1 + 2147483648)
    with ((x + 2147483648) mod 4294967296 + 1) by lia.
  rewrite Z.add_mod_idemp_l by lia. f_equal. lia.
Qed.

Lemma callbacks_for_snoc aid calls c :
  callbacks_for aid (calls ++ [c]) =
  callbacks_for aid calls + (if is_decode_for aid c then 1 else 0).
Proof.
  rewrite callbacks_for_app. f_equal. unfold callbacks_for. simpl.
  by destruct (is_decode_for aid c).
Qed.

(** The counters of the tool count the decode callbacks, as long as no clear
    callback is made. *)
Lemma host_calls_count calls :
  Forall (λ c, match c with
               | call_decode_cb _ _ _ _ _ _ => True
               | call_clear_cb _ _ _ => False
               end) calls →
  let st := foldl rdsstats.host_call rdsstats.ODAStats_init calls in
  rdsstats.rtplus_cnt st = s32 (callbacks_for rdsstats.AID_RT_PLUS calls) ∧
  rdsstats.tmc_cnt st = s32 (callbacks_for rdsstats.AID_TMC calls) ∧
  rdsstats.itunes_cnt st = s32 (callbacks_for rdsstats.AID_ITUNES calls).
Proof.
  induction calls as [|c calls IH] using rev_ind; intros Hall; [done|].
  apply Forall_app in Hall as [Hall Hc]. apply Forall_cons_1 in Hc as [Hc _].
  specialize (IH Hall). cbv zeta in *. destruct IH as (IH1 & IH2 & IH3).
  rewrite foldl_app. simpl. rewrite !callbacks_for_snoc.
  destruct c as [fn app_id rds blocks gt data|]; [|done]. simpl.
  unfold rdsstats.DecodeODA.
  destruct (Z.eqb_spec app_id rdsstats.AID_RT_PLUS) as [->|?]; simpl.
  { rewrite !Z.add_0_r, IH1. by rewrite s32_succ. }
  destruct (Z.eqb_spec app_id rdsstats.AID_TMC) as [->|?]; simpl.
  { rewrite !Z.add_0_r, IH2. by rewrite s32_succ. }
  destruct (Z.eqb_spec app_id rdsstats.AID_ITUNES) as [->|?]; simpl.
  { rewrite !Z.add_0_r, IH3. by rewrite s32_succ. }
  by rewrite !Z.add_0_r.
Qed.

Lemma decode_all_calls decoder groups w :
  rds_data_ok (w_rds w) →
  ∃ w', decode_all decoder groups w = Some w' ∧
    ∃ new, w_calls w' = w_calls w ++ new ∧
      (length new ≤ length groups)%nat ∧
      Forall (λ c, match c with
                   | call_decode_cb _ _ _ _ _ _ => True
                   | call_clear_cb _ _ _ => False
                   end) new.
Proof.
  revert w. induction groups as [|g groups IH]; intros w Hok; simpl.
  { exists w. split; [done|]. exists []. by rewrite app_nil_r. }
  destruct (decode_succeeds decoder g w Hok) as (w1 & Hw1 & Hok1).
  rewrite Hw1. simpl.
  destruct (IH w1 Hok1) as (w' & Hw' & new & Hnew & Hlen & Hall).
  exists w'. split; [done|].
  apply decode_oda_step in Hw1; [|done]. cbv zeta in Hw1.
  destruct Hw1 as [(_ & _ & Hc)|[(Hc & _)|(_ & i & e & _ & _ & Hc)]].
  - exists new. rewrite Hnew, Hc. split_and!; [done|lia|done].
  - exists new. rewrite Hnew, Hc. split_and!; [done|lia|done].
  - eexists (_ ++ new). rewrite Hnew, Hc, <-app_assoc. split; [done|].
    split.
    + rewrite length_app. destruct (oda_decode_cb decoder =? 0); simpl; lia.
    + apply Forall_app. split; [|done].
      destruct (oda_decode_cb decoder =? 0); by repeat constructor.
Qed.

Lemma callbacks_for_le aid calls :
  callbacks_for aid calls ≤ Z.of_nat (length calls).
Proof.
  unfold callbacks_for. induction calls as [|c calls IH]; simpl; [lia|].
  destruct (is_decode_for aid c); simpl; lia.
Qed.

Lemma s32_small x : -2147483648 ≤ x < 2147483648 → s32 x = x.
Proof. intros Hx. unfold s32. rewrite Z.mod_small; lia. Qed.

(** X19.  The statistics tool.  It returns 1 when not given exactly one
    argument, 2 when the file cannot be loaded and 3 when the file holds no
    group, printing no statistics in these cases.  Otherwise, on a file of
    fewer than 2^31 groups, it decodes every group from the zeroed record,
    returns 0 and prints the decoder's record together with its three
    counters; each counter (RT+, TMC, iTunes tagging) lies between 0 and the
    number of groups, agrees modulo 2^16 with the packet count the decoder
    keeps in the announced ODA entry of that application, and is zero when
    the application has no announced entry. *)
Theorem rdsstats_counters (argc : Z) (load_ok : bool)
  (file_blocks : list rds_blocks) :
  Z.of_nat (length file_blocks) < 2 ^ 31 →
  ∃ r, rdsstats.main argc load_ok file_blocks = Some r ∧
    match rdsstats.printed r with
    | None =>
        rdsstats.exit_code r =
          (if negb (argc =? 2) then 1 else if negb load_ok then 2 else 3) ∧
        (argc ≠ 2 ∨ load_ok = false ∨ file_blocks = [])
    | Some (rds, st) =>
        rdsstats.exit_code r = 0 ∧
        argc = 2 ∧ load_ok = true ∧ file_blocks ≠ [] ∧
        (∃ w, decode_all rdsstats.decoder file_blocks
                {| w_rds := rds_data_zero; w_calls := [] |} = Some w ∧
              rds = w_rds w) ∧
        let announced := take (Z.to_nat (oda_cnt rds)) (oda rds) in
        let agree (aid cnt : Z) :=
          0 ≤ cnt ≤ Z.of_nat (length file_blocks) ∧
          (∀ e, e ∈ announced → oda_id e = aid →
                oda_pkt_count e = u16 cnt) ∧
          ((∀ e, e ∈ announced → oda_id e ≠ aid) → cnt = 0) in
        agree rdsstats.AID_RT_PLUS (rdsstats.rtplus_cnt st) ∧
        agree rdsstats.AID_TMC (rdsstats.tmc_cnt st) ∧
        agree rdsstats.AID_ITUNES (rdsstats.itunes_cnt st)
    end.
Proof.
  intros Hshort. unfold rdsstats.main.
  destruct (Z.eqb_spec argc 2) as [Hargc|Hargc]; simpl.
  2:{ eexists; split; [done|]. simpl. by split; [|left]. }
  destruct load_ok; simpl.
  2:{ eexists; split; [done|]. simpl. split; [done|]. right. by left. }
  destruct file_blocks as [|g0 rest] eqn:Hfile.
  { eexists; split; [done|]. simpl. split; [done|]. right. by right. }
  rewrite <-Hfile in *. assert (file_blocks ≠ []) as Hne by (by rewrite Hfile).
  clear Hfile g0 rest.
  set (w0 := {| w_rds := rds_data_zero; w_calls := [] |}).
  assert (rds_data_ok (w_rds w0)) as Hok by reflexivity.
  destruct (decode_all_counts_ok rdsstats.decoder file_blocks w0)
    as (w' & Hw' & Hok' & HK);
    [by vm_compute | done | by apply oda_fresh_counts_ok |].
  destruct (decode_all_calls rdsstats.decoder file_blocks w0 Hok)
    as (w2 & Hw2 & new & Hnew & Hlen & Hall).
  rewrite Hw' in Hw2. injection Hw2 as <-. simpl in Hnew. subst new.
  rewrite Hw'. simpl. eexists; split; [done|]. simpl.
  do 4 (split; [done|]). split; [by exists w'|].
  destruct (host_calls_count _ Hall) as (-> & -> & ->).
  split_and!.
  all: match goal with
       | |- context [s32 (callbacks_for ?aid ?cs)] =>
           pose proof (callbacks_for_nonneg aid cs) as Hlo;
           pose proof (callbacks_for_le aid cs) as Hhi;
           rewrite (s32_small (callbacks_for aid cs)) by lia
       end.
  all: first [ lia
             | intros e He <-; by apply oda_counts_ok_entries
             | intros Hno; by apply oda_counts_ok_absent ].
Qed.

Lemma rdsstats_counters_witness :
  ∃ r, rdsstats.main 2 true
         [mk_blocks 0 0 0x3016 0 0 0 0x4BD7 0;
          mk_blocks 0 0 0xB000 0 0x1111 0 0x2222 0] = Some r ∧
       rdsstats.exit_code r = 0 ∧
       (rdsstats.rtplus_cnt ∘ snd) <$> rdsstats.printed r = Some 1.
Proof.
  destruct (rdsstats_counters 2 true
              [mk_blocks 0 0 0x3016 0 0 0 0x4BD7 0;
               mk_blocks 0 0 0xB000 0 0x1111 0 0x2222 0])
    as (r & Hr & H); [by vm_compute|].
  exists r. split; [exact Hr|].
  vm_compute in Hr. injection Hr as <-. split; reflexivity.
Defined.

(** ** Frequencies: order and codes *)

(** X20.  [freq_lt] is a strict total order on frequencies up to [freq_eq]:
    of [freq_lt x y], [freq_eq x y] and [freq_lt y x] exactly one holds; it
    is transitive; every LF/MF frequency is below every UHF frequency; and
    neither relation looks at the attribute. *)
Theorem freq_lt_strict_total (x y z : rds_freq) :
  (freq_lt x y = true ∧ freq_eq x y = false ∧ freq_lt y x = false
   ∨ freq_lt x y = false ∧ freq_eq x y = true ∧ freq_lt y x = false
   ∨ freq_lt x y = false ∧ freq_eq x y = false ∧ freq_lt y x = true) ∧
  (freq_lt x y = true → freq_lt y z = true → freq_lt x z = true) ∧
  (band x = AF_BAND_LF_MF → band y = AF_BAND_UHF → freq_lt x y = true) ∧
  (∀ a, freq_lt (set_attrib a x) y = freq_lt x y ∧
        freq_lt x (set_attrib a y) = freq_lt x y ∧
        freq_eq (set_attrib a x) y = freq_eq x y).
Proof.
  unfold freq_lt, freq_eq. split_and!.
  - destruct (band x), (band y); simpl;
      destruct (Z.ltb_spec (freq x) (freq y)), (Z.eqb_spec (freq x) (freq y)),
               (Z.ltb_spec (freq y) (freq x)); (lia || tauto).
  - destruct (band x), (band y), (band z); simpl; try done;
      intros ?%Z.ltb_lt ?%Z.ltb_lt; apply Z.ltb_lt; lia.
  - by intros -> ->.
  - done.
Qed.

(** X21.  Frequency codes 1 to 204 decode to distinct, increasing
    frequencies within a band, none of them 0 (the value that marks an unset
    tuned frequency): in the UHF band to 876 + (code - 1), that is 87.6 to
    107.9 MHz in units of 100 kHz, and in the LF/MF band to at least
    153 kHz. *)
Theorem af_code_to_freq_increasing (bnd : rds_band) (c1 c2 : Z) :
  freq_code_is_freq c1 = true → freq_code_is_freq c2 = true → c1 < c2 →
  af_code_to_freq c1 bnd < af_code_to_freq c2 bnd ∧
  153 ≤ af_code_to_freq c1 bnd ∧
  (bnd = AF_BAND_UHF →
   af_code_to_freq c1 bnd = 875 + c1 ∧ af_code_to_freq c2 bnd ≤ 1079).
Proof.
  unfold freq_code_is_freq, AF_MIN_FREQ_CODE, AF_MAX_FREQ_CODE.
  intros [H1%Z.leb_le H2%Z.leb_le]%andb_true_iff
         [H3%Z.leb_le H4%Z.leb_le]%andb_true_iff Hlt.
  unfold af_code_to_freq.
  destruct bnd; simpl.
  - rewrite !u16_small by lia. split_and!; lia.
  - destruct (Z.ltb_spec c1 16), (Z.ltb_spec c2 16);
      rewrite !u16_small by lia; split_and!; (lia || done).
Qed.

Lemma af_code_to_freq_increasing_witness :
  af_code_to_freq 15 AF_BAND_LF_MF < af_code_to_freq 16 AF_BAND_LF_MF.
Proof.
  apply (af_code_to_freq_increasing AF_BAND_LF_MF 15 16);
    [reflexivity | reflexivity | lia].
Defined.

(** ** Frequency tables: insertion and lookup *)

Lemma find_af_freq_idx_from_spec (n : nat) (i : Z) t f :
  0 ≤ i → i + Z.of_nat n ≤ Z.of_nat (length (entry t)) →
  Z.of_nat (length (entry t)) ≤ 127 →
  find_af_freq_idx_from n i t f =
    Some (match list_find (λ e, freq_eq e f = true)
                  (take n (drop (Z.to_nat i) (entry t))) with
          | Some (k, _) => i + Z.of_nat k
          | None => -1
          end).
Proof.
  revert i. induction n as [|n IH]; intros i Hi Hn Hlen; [done|]. simpl.
  destruct (lookup_lt_is_Some_2 (entry t) (Z.to_nat i)) as [e He]; [lia|].
  rewrite (aget_lookup _ _ _ Hi He). simpl.
  rewrite (drop_S _ _ _ He). simpl.
  destruct (freq_eq e f) eqn:Hg; simpl.
  - rewrite s8_small by lia. f_equal. lia.
  - rewrite u8_small by lia. rewrite IH by lia.
    replace (Z.to_nat (i + 1)) with (S (Z.to_nat i)) by lia.
    destruct (list_find _ _) as [[k x]|]; simpl; f_equal; lia.
Qed.

Lemma freq_in_af_table_spec t f :
  af_table_okb t = true →
  freq_in_af_table t f = Some (existsb (λ e, freq_eq e f) (active t)).
Proof.
  intros [Hlen Hc]%af_table_okb_iff. unfold freq_in_af_table, find_af_freq_idx.
  rewrite find_af_freq_idx_from_spec by lia. simpl.
  change (Z.to_nat 0) with 0%nat. rewrite drop_0. fold (active t).
  rewrite existsb_list_find. f_equal.
  destruct (list_find _ _) as [[k x]|]; simpl; [|done].
  destruct (Z.eqb_spec (0 + Z.of_nat k) (-1)); [lia|done].
Qed.

(** X22.  Inserting a frequency and looking it up.  [add_alt_freq] on a
    well-formed table appends the frequency after the entries in use exactly
    when the table has fewer than 25 entries and none of them is the same
    frequency ([freq_eq]: same band and value, whatever the attribute);
    otherwise the entries are untouched.  Unless the table was full without
    it, the frequency is found afterwards, and every frequency found before
    is still found. *)
Theorem add_alt_freq_lookup (t : rds_af_decode_table) (f : rds_freq) :
  decode_table_okb t = true →
  ∃ added t', add_alt_freq t f = Some (added, t') ∧
    let present := existsb (λ e, freq_eq e f) (active (table t)) in
    added = (count (table t) <? AF_TABLE_ENTRIES) && negb present ∧
    active (table t') = active (table t) ++ (if added then [f] else []) ∧
    ((count (table t) <? AF_TABLE_ENTRIES) || present = true →
     freq_in_af_table (table t') f = Some true) ∧
    (∀ f', freq_in_af_table (table t) f' = Some true →
           freq_in_af_table (table t') f' = Some true).
Proof.
  intros Hok. pose proof Hok as Hok0. unfold decode_table_okb in Hok0.
  pose proof Hok0 as [Hlen Hc]%af_table_okb_iff.
  pose proof (add_alt_freq_wp t f Hok) as Hwp.
  destruct (add_alt_freq t f) as [[added t']|] eqn:Hadd; [|done].
  simpl in Hwp. destruct Hwp as (Hok' & _).
  exists added, t'. split; [done|]. cbv zeta.
  assert (added = (count (table t) <? AF_TABLE_ENTRIES)
                  && negb (existsb (λ e, freq_eq e f) (active (table t))) ∧
          active (table t') = active (table t) ++ (if added then [f] else []))
    as [Hadded Hact].
  { revert Hadd. unfold add_alt_freq, insert_alt_freq. cbv zeta.
    rewrite dec_af_expected_count_table.
    destruct (Z.leb_spec AF_TABLE_ENTRIES (count (table t))) as [Hfull|Hroom].
    { simpl. intros [= <- <-]. simpl.
      destruct (Z.ltb_spec (count (table t)) AF_TABLE_ENTRIES); [lia|].
      by rewrite app_nil_r. }
    destruct (Z.ltb_spec (count (table t)) AF_TABLE_ENTRIES); [|lia].
    rewrite freq_in_af_table_spec by done. simpl.
    destruct (existsb _ _) eqn:Hp; simpl.
    { intros [= <- <-]. simpl. by rewrite app_nil_r. }
    unfold AF_TABLE_ENTRIES in *. unfold aset.
    destruct (Z.leb_spec 0 (count (table t))); [|lia].
    destruct (Z.ltb_spec (count (table t))
                (Z.of_nat (length (entry (table t))))); [|lia].
    simpl. intros [= <- <-]. split; [done|]. unfold active. simpl.
    rewrite u8_small by lia.
    replace (Z.to_nat (count (table t) + 1))
      with (S (Z.to_nat (count (table t)))) by lia.
    rewrite (take_S_r _ _ f); [by rewrite take_insert_ge by lia|].
    apply list_lookup_insert_eq. lia. }
  split_and!; [done..| |].
  - intros Hp. rewrite freq_in_af_table_spec by done. f_equal.
    rewrite Hact, existsb_app.
    destruct (existsb _ (active (table t))) eqn:Hpres; [done|]. simpl.
    rewrite orb_false_r in Hp. rewrite Hp in Hadded. simpl in Hadded.
    rewrite Hadded. simpl. rewrite orb_false_r.
    unfold freq_eq. destruct (band f); simpl; apply Z.eqb_refl.
  - intros f'. rewrite !freq_in_af_table_spec by done.
    intros [= Hf']. f_equal. by rewrite Hact, existsb_app, Hf'.
Qed.

Lemma add_alt_freq_lookup_witness :
  ∃ added t', add_alt_freq af_decode_table_zero
                {| band := AF_BAND_UHF; attrib := AF_ATTRIB_SAME_PROG;
                   freq := 876 |} = Some (added, t') ∧
              added = true.
Proof.
  destruct (add_alt_freq_lookup af_decode_table_zero
              {| band := AF_BAND_UHF; attrib := AF_ATTRIB_SAME_PROG;
                 freq := 876 |})
    as (added & t' & H & Ha & _); [reflexivity|].
  exists added, t'. split; [exact H|]. rewrite Ha. reflexivity.
Defined.

(** ** Groups of frequency tables: which table a start block selects *)

Lemma find_af_table_idx_from_spec (n : nat) (i : Z) g f :
  0 ≤ i → i + Z.of_nat n ≤ Z.of_nat (length (g_table g)) →
  Z.of_nat (length (g_table g)) ≤ 127 →
  find_af_table_idx_from n i g f =
    Some (match list_find (λ t, freq_eq (tuned_freq (table t)) f = true)
                  (take n (drop (Z.to_nat i) (g_table g))) with
          | Some (k, _) => i + Z.of_nat k
          | None => -1
          end).
Proof.
  revert i. induction n as [|n IH]; intros i Hi Hn Hlen; [done|]. simpl.
  destruct (lookup_lt_is_Some_2 (g_table g) (Z.to_nat i)) as [e He]; [lia|].
  rewrite (aget_lookup _ _ _ Hi He). simpl.
  rewrite (drop_S _ _ _ He). simpl.
  destruct (freq_eq (tuned_freq (table e)) f) eqn:Hg; simpl.
  - rewrite s8_small by lia. f_equal. lia.
  - rewrite u8_small by lia. rewrite IH by lia.
    replace (Z.to_nat (i + 1)) with (S (Z.to_nat i)) by lia.
    destruct (list_find _ _) as [[k x]|]; simpl; f_equal; lia.
Qed.

Lemma find_af_table_idx_spec g f :
  Z.of_nat (length (g_table g)) = 20 → 0 ≤ g_count g ≤ 20 →
  find_af_table_idx g f =
    Some (match af_table_lookup g f with
          | Some (k, _) => Z.of_nat k
          | None => -1
          end).
Proof.
  intros Hl Hc. unfold find_af_table_idx.
  rewrite find_af_table_idx_from_spec by lia.
  change (Z.to_nat 0) with 0%nat. rewrite drop_0. unfold af_table_lookup.
  by destruct (list_find _ _) as [[k x]|].
Qed.

Lemma start_current_table_spec g num second t :
  0 ≤ g_current_table_idx g < Z.of_nat (length (g_table g)) →
  g_table g !! Z.to_nat (g_current_table_idx g) = Some t →
  start_current_table g num second =
    (t' ← decode_freq_table_start_block t num second;
     Some (set_g_table (<[Z.to_nat (g_current_table_idx g) := t']> (g_table g))
             g)).
Proof.
  intros Hi Ht. unfold start_current_table.
  rewrite (aget_lookup _ _ t) by (done || lia). simpl.
  destruct (decode_freq_table_start_block t num second) as [t'|]; [|done].
  simpl. unfold aset.
  destruct (Z.leb_spec 0 (g_current_table_idx g)); [|lia].
  by destruct (Z.ltb_spec (g_current_table_idx g)
                 (Z.of_nat (length (g_table g)))); [|lia].
Qed.

Lemma af_table_lookup_Some g f k t :
  af_table_lookup g f = Some (k, t) →
  g_table g !! k = Some t ∧ Z.of_nat k < g_count g.
Proof.
  unfold af_table_lookup. intros (Ht & _)%list_find_Some.
  apply lookup_take_Some in Ht as [Ht Hk]. split; [done|lia].
Qed.

(** X23.  Which table a start block goes to, when it announces more than one
    frequency and the group is not a single method-A table.  If one of the
    tables in use is tuned to the frequency named in the block, the first
    such table becomes current and is restarted, and no table is allocated.
    If none is and fewer than 20 tables are in use, the next table is
    allocated, tuned to that frequency with its method unknown, and started.
    If all 20 are in use the group is left as it is, with no current
    table. *)
Theorem af_start_block_table (g : rds_af_table_group) (num second : Z) :
  af_group_okb g = true → single_method_A g = false → num ≠ 1 →
  ∃ g', decode_af_start_block g num second = Some g' ∧
    match af_table_lookup g (start_block_freq second) with
    | Some (k, t) =>
        g_current_table_idx g' = Z.of_nat k ∧ g_count g' = g_count g ∧
        ∃ t', decode_freq_table_start_block t num second = Some t' ∧
              g_table g' = <[k := t']> (g_table g)
    | None =>
        if g_count g =? AF_GROUP_TABLES
        then g' = set_g_current_table_idx (-1) g
        else
          g_current_table_idx g' = g_count g ∧
          g_count g' = g_count g + 1 ∧
          ∃ t t', g_table g !! Z.to_nat (g_count g) = Some t ∧
            decode_freq_table_start_block
              (set_table (set_tuned_freq (start_block_freq second) (table t))
                 (set_enc_method AF_EM_UNKNOWN t)) num second = Some t' ∧
            g_table g' = <[Z.to_nat (g_count g) := t']> (g_table g)
    end.
Proof.
  intros Hok Hsingle Hnum.
  pose proof Hok as (Hl & Hc & Hi & Hall)%af_group_okb_iff.
  unfold decode_af_start_block.
  assert ((if g_count g =? 1
           then t0 ← aget (g_table g) 0; Some (enc_eqb (enc_method t0) AF_EM_A)
           else Some false) = Some false) as ->.
  { unfold single_method_A in Hsingle.
    destruct (g_count g =? 1); [|done]. simpl in Hsingle.
    destruct (lookup_lt_is_Some_2 (g_table g) 0) as [t0 Ht0]; [lia|].
    rewrite (aget_lookup _ 0 t0) by done. simpl. rewrite Ht0 in Hsingle.
    by rewrite Hsingle. }
  simpl. destruct (Z.eqb_spec num 1); [lia|]. simpl.
  fold (start_block_freq second).
  rewrite find_af_table_idx_spec by done.
  change (af_table_lookup (set_g_current_table_idx (-1) g)
            (start_block_freq second))
    with (af_table_lookup g (start_block_freq second)).
  simpl.
  destruct (af_table_lookup g (start_block_freq second)) as [[k t]|] eqn:Hlk.
  - apply af_table_lookup_Some in Hlk as [Ht Hk].
    destruct (Z.eqb_spec (Z.of_nat k) (-1)); [lia|].
    rewrite (start_current_table_spec _ _ _ t); simpl;
      [|lia|by rewrite Nat2Z.id].
    pose proof (decode_freq_table_start_block_wp t num second) as Hwp.
    destruct (decode_freq_table_start_block t num second) as [t'|];
      [|exfalso; apply Hwp; by eapply Forall_lookup in Hall].
    simpl. eexists; split; [done|]. simpl. split_and!; [done..|].
    exists t'. by rewrite Nat2Z.id.
  - simpl. destruct (Z.eqb_spec (g_count g) AF_GROUP_TABLES) as [|Hfull].
    { by eexists. }
    unfold AF_GROUP_TABLES in Hfull.
    rewrite s8_small, u8_small by lia.
    destruct (lookup_lt_is_Some_2 (g_table g) (Z.to_nat (g_count g)))
      as [t Ht]; [lia|].
    rewrite (aget_lookup _ _ t) by (done || lia). simpl.
    unfold aset.
    destruct (Z.leb_spec 0 (g_count g)); [|lia].
    destruct (Z.ltb_spec (g_count g) (Z.of_nat (length (g_table g)))); [|lia].
    simpl.
    set (t1 := set_table (set_tuned_freq (start_block_freq second) (table t))
                 (set_enc_method AF_EM_UNKNOWN t)).
    rewrite (start_current_table_spec _ _ _ t1); simpl;
      [|rewrite length_insert; lia
       |rewrite list_lookup_insert_eq by lia; done].
    pose proof (decode_freq_table_start_block_wp t1 num second) as Hwp.
    destruct (decode_freq_table_start_block t1 num second) as [t'|] eqn:Hst;
      [|exfalso; apply Hwp; subst t1; unfold decode_table_okb; simpl;
        apply af_table_okb_iff; simpl;
        eapply Forall_lookup in Hall; [|done];
        by apply af_table_okb_iff in Hall].
    simpl. eexists; split; [done|]. simpl. split_and!; [done..|].
    exists t, t'. split_and!; [done..|]. by rewrite list_insert_insert_eq.
Qed.

Lemma af_start_block_table_witness :
  ∃ g', decode_af_start_block (af (w_rds fresh_world)) 5 1 = Some g' ∧
        g_count g' = 1.
Proof.
  destruct (af_start_block_table (af (w_rds fresh_world)) 5 1)
    as (g' & Hg' & H); [reflexivity | reflexivity | lia |].
  exists g'. split; [exact Hg'|].
  change (af_table_lookup (af (w_rds fresh_world)) (start_block_freq 1))
    with (@None (nat * rds_af_decode_table)) in H.
  simpl in H. by destruct H as (_ & -> & _).
Defined.

(** ** Groups of frequency tables: a start block that finds no room *)

Lemma decode_freq_group_blocks_ignored g blocks :
  g_current_table_idx g < 0 →
  Forall (λ block, is_freq_code_count (u8 (Z.shiftr block 8)) = false)
    blocks →
  decode_freq_group_blocks g blocks = Some g.
Proof.
  intros Hi Hall. induction Hall as [|block blocks Hb _ IH]; [done|].
  simpl. unfold decode_freq_group_block. cbv zeta. rewrite Hb.
  unfold decode_af_nth_block.
  destruct (Z.ltb_spec (g_current_table_idx g) 0); [|lia]. done.
Qed.

(** X24.  When all 20 tables are in use and none is tuned to the frequency a
    start block names (the block announcing more than one frequency), the
    frequencies of that list are lost: the start block and all the blocks
    that follow it up to the next start block leave every table as it was,
    and no table is current. *)
Theorem af_group_full_drops_list (g : rds_af_table_group) (start : Z)
  (blocks : list Z) :
  af_group_okb g = true → g_count g = AF_GROUP_TABLES →
  is_freq_code_count (u8 (Z.shiftr start 8)) = true →
  freq_code_to_count (u8 (Z.shiftr start 8)) ≠ 1 →
  af_table_lookup g (start_block_freq (Z.land start 0xFF)) = None →
  Forall (λ block, is_freq_code_count (u8 (Z.shiftr block 8)) = false)
    blocks →
  decode_freq_group_blocks g (start :: blocks)
  = Some (set_g_current_table_idx (-1) g).
Proof.
  intros Hok Hfull Hstart Hnum Hnone Hrest. simpl.
  unfold decode_freq_group_block. cbv zeta. rewrite Hstart.
  destruct (af_start_block_table g
              (freq_code_to_count (u8 (Z.shiftr start 8)))
              (Z.land start 0xFF) Hok) as (g' & -> & Hg'); [|done|].
  { unfold single_method_A. rewrite Hfull. done. }
  rewrite Hnone, Hfull in Hg'. simpl in Hg'. subst g'. simpl.
  by apply decode_freq_group_blocks_ignored.
Qed.

Lemma af_group_full_drops_list_witness :
  decode_freq_group_blocks (set_g_count 20 (af (w_rds fresh_world)))
    [0xE501; 0x0203]
  = Some (set_g_current_table_idx (-1)
            (set_g_count 20 (af (w_rds fresh_world)))).
Proof.
  apply (af_group_full_drops_list (set_g_count 20 (af (w_rds fresh_world)))
           0xE501 [0x0203]);
    [reflexivity | reflexivity | reflexivity | by vm_compute | reflexivity |].
  repeat constructor.
Defined.

(** ** Frequency tables: the encoding method *)

Lemma add_alt_freq_keeps t f :
  decode_table_okb t = true →
  ∃ r, add_alt_freq t f = Some r ∧ decode_table_okb r.2 = true ∧
       tuned_freq (table r.2) = tuned_freq (table t) ∧
       enc_method r.2 = enc_method t ∧ pvt_band r.2 = pvt_band t ∧
       pvt_prev_enc_method r.2 = pvt_prev_enc_method t.
Proof.
  intros Hok. destruct (wp_elim _ _ (add_alt_freq_wp t f Hok))
    as (r & Hr & H1 & _ & H2). by exists r.
Qed.

(** One call of [add_alt_freq] in the goal. *)
Ltac add_alt_freq_step :=
  match goal with
  | |- context [add_alt_freq ?t ?f] =>
      let r := fresh "r" in
      let Hr := fresh "Hr" in
      destruct (add_alt_freq_keeps t f) as (r & Hr & ? & ? & ? & ? & ?);
      [try done | rewrite Hr; simpl]
  end.

(** X25.  How the encoding method of an AF list is settled.  On a table whose
    method is still unknown and that expects more frequencies, an Nth block
    with two frequency codes settles it: method B when one of the two is the
    tuned frequency of the table, method A otherwise.  The method is
    remembered for the following start blocks; under method B the tuned
    frequency is kept, under method A it is moved into the list and the
    field is left without a frequency. *)
Theorem af_method_detection (t : rds_af_decode_table) (first second : Z) :
  decode_table_okb t = true → enc_method t = AF_EM_UNKNOWN →
  pvt_expected_cnt t ≠ 0 →
  freq_code_is_freq first = true → freq_code_is_freq second = true →
  let f1 := {| band := pvt_band t; attrib := AF_ATTRIB_SAME_PROG;
               freq := af_code_to_freq first (pvt_band t) |} in
  let f2 := {| band := pvt_band t; attrib := AF_ATTRIB_SAME_PROG;
               freq := af_code_to_freq second (pvt_band t) |} in
  let tuned := tuned_freq (table t) in
  ∃ t', decode_freq_table_nth_block t first second = Some t' ∧
    decode_table_okb t' = true ∧
    pvt_prev_enc_method t' = enc_method t' ∧
    if freq_eq f1 tuned || freq_eq f2 tuned
    then enc_method t' = AF_EM_B ∧ tuned_freq (table t') = tuned
    else enc_method t' = AF_EM_A ∧ freq (tuned_freq (table t')) = 0.
Proof.
  intros Hok Henc Hexp Hc1 Hc2. cbv zeta.
  unfold decode_freq_table_nth_block.
  destruct (Z.eqb_spec (pvt_expected_cnt t) 0); [done|].
  rewrite (handle_freq_code_freq t first Hc1).
  rewrite (handle_freq_code_freq t second Hc2).
  rewrite Henc. simpl.
  destruct (freq_eq _ (tuned_freq (table t)) || freq_eq _ (tuned_freq (table t)))
    eqn:Hb; simpl.
  - destruct (freq_eq (tuned_freq (table t)) _).
    { add_alt_freq_step. eexists; split; [done|]. simpl in *. split_and!; congruence. }
    destruct (freq_eq (tuned_freq (table t)) _).
    { add_alt_freq_step. eexists; split; [done|]. simpl in *. split_and!; congruence. }
    eexists; split; [done|]. by split_and!.
  - destruct (Z.eqb_spec (freq (tuned_freq (table t))) 0) as [Hz|Hz]; simpl.
    + repeat add_alt_freq_step.
      eexists; split; [done|]. simpl in *. split_and!; congruence.
    + add_alt_freq_step.
      match goal with
      | H : enc_method _ = enc_method (set_enc_method AF_EM_A t) |- _ =>
          simpl in H; rewrite H
      end.
      simpl.
      match goal with
      | |- context [add_alt_freq ?t1 _] =>
          assert (decode_table_okb t1 = true) as Hok1
      end.
      { unfold decode_table_okb in *. simpl.
        match goal with H : af_table_okb (table _) = true |- _ =>
          apply af_table_okb_iff in H; apply af_table_okb_iff; exact H end. }
      repeat add_alt_freq_step.
      eexists; split; [done|]. simpl in *.
      split_and!;
        first [ congruence
              | by repeat match goal with
                          | H : tuned_freq (table _) = _ |- _ =>
                              rewrite H; clear H
                          end ].
Qed.

Lemma af_method_detection_witness :
  ∃ t', decode_freq_table_nth_block
          (set_pvt_expected_cnt 4 af_decode_table_zero) 1 2 = Some t' ∧
        enc_method t' = AF_EM_A.
Proof.
  destruct (af_method_detection (set_pvt_expected_cnt 4 af_decode_table_zero)
              1 2)
    as (t' & Ht' & _ & _ & H);
    [reflexivity | reflexivity | by vm_compute | reflexivity | reflexivity |].
  exists t'. split; [exact Ht'|]. exact (proj1 H).
Defined.

(** X26.  A settled encoding method stays.  On a table whose method is A or
    B and is the remembered one, every start block and every Nth block,
    whatever its bytes, leaves the method and the remembered method as they
    are. *)
Theorem af_method_settled (t : rds_af_decode_table) :
  decode_table_okb t = true → enc_method t ≠ AF_EM_UNKNOWN →
  pvt_prev_enc_method t = enc_method t →
  (∀ num second,
     ∃ t', decode_freq_table_start_block t num second = Some t' ∧
           decode_table_okb t' = true ∧
           enc_method t' = enc_method t ∧
           pvt_prev_enc_method t' = enc_method t) ∧
  (∀ first second,
     ∃ t', decode_freq_table_nth_block t first second = Some t' ∧
           decode_table_okb t' = true ∧
           enc_method t' = enc_method t ∧
           pvt_prev_enc_method t' = enc_method t).
Proof.
  intros Hok Henc Hprev. split.
  - intros num second. unfold decode_freq_table_start_block. cbv zeta.
    simpl. rewrite Hprev.
    assert (enc_eqb (enc_method t) AF_EM_UNKNOWN = false) as ->
      by (by destruct (enc_method t)).
    simpl.
    match goal with |- context [handle_freq_code ?t0 second] =>
      pose proof (handle_freq_code_table t0 second) as (Hh & He & Hp);
      destruct (handle_freq_code t0 second) as [handled t2] end.
    simpl in Hh, He, Hp.
    assert (decode_table_okb t2 = true) as Hok2
      by (unfold decode_table_okb in *; by rewrite Hh).
    destruct handled.
    + eexists; split; [done|]. split_and!; congruence.
    + add_alt_freq_step. eexists; split; [done|]. unfold decode_table_okb in *. simpl in *. split_and!; congruence.
  - intros first second. unfold decode_freq_table_nth_block.
    destruct (pvt_expected_cnt t =? 0).
    { eexists; split; [done|]. split_and!; congruence. }
    pose proof (handle_freq_code_table t first) as (Hh1 & He1 & Hp1).
    destruct (handle_freq_code t first) as [h1 t1]. simpl in Hh1, He1, Hp1.
    pose proof (handle_freq_code_table t1 second) as (Hh2 & He2 & Hp2).
    destruct (handle_freq_code t1 second) as [h2 t2]. simpl in Hh2, He2, Hp2.
    assert (decode_table_okb t2 = true) as Hok2
      by (unfold decode_table_okb in *; by rewrite Hh2, Hh1).
    assert (enc_method t2 = enc_method t) as He by congruence.
    assert (enc_eqb (enc_method t2) AF_EM_UNKNOWN = false) as ->
      by (rewrite He; by destruct (enc_method t)).
    simpl.
    destruct (enc_eqb (enc_method t2) AF_EM_A).
    + destruct h1, h2; simpl; repeat add_alt_freq_step;
        (eexists; split; [done|]); unfold decode_table_okb in *; simpl in *; split_and!; congruence.
    + destruct (h1 || h2).
      { eexists; split; [done|]. unfold decode_table_okb in *. simpl in *. split_and!; congruence. }
      destruct (freq_eq _ _).
      { add_alt_freq_step. eexists; split; [done|].
        unfold decode_table_okb in *. simpl in *. split_and!; congruence. }
      destruct (freq_eq _ _).
      { add_alt_freq_step. eexists; split; [done|].
        unfold decode_table_okb in *. simpl in *. split_and!; congruence. }
      eexists; split; [done|]. unfold decode_table_okb in *. simpl in *. split_and!; congruence.
Qed.

Lemma af_method_settled_witness :
  ∃ t', decode_freq_table_nth_block
          (set_pvt_prev_enc_method AF_EM_B
             (set_enc_method AF_EM_B
                (set_pvt_expected_cnt 4 af_decode_table_zero))) 1 2
        = Some t' ∧
        enc_method t' = AF_EM_B.
Proof.
  destruct (af_method_settled
              (set_pvt_prev_enc_method AF_EM_B
                 (set_enc_method AF_EM_B
                    (set_pvt_expected_cnt 4 af_decode_table_zero))))
    as [_ H]; [reflexivity | done | reflexivity |].
  destruct (H 1 2) as (t' & Ht' & _ & He & _).
  exists t'. split; [exact Ht' | exact He].
Defined.

(** X27.  The LF/MF marker.  In an Nth block of a method-A list, code 250
    followed by a frequency code appends that code's frequency in the LF/MF
    band (153 kHz upwards in steps of 9 kHz for codes 1 to 15, 531 kHz
    upwards for codes from 16), provided the table has room and does not hold
    it yet; the marker itself appends nothing, and the table stays in the
    LF/MF band for the blocks that follow. *)
Theorem af_lf_mf_follows (t : rds_af_decode_table) (second : Z) :
  decode_table_okb t = true → enc_method t = AF_EM_A →
  pvt_expected_cnt t ≠ 0 → freq_code_is_freq second = true →
  let f := {| band := AF_BAND_LF_MF; attrib := AF_ATTRIB_SAME_PROG;
              freq := if second <? 16 then 153 + 9 * (second - 1)
                      else 531 + 9 * (second - 16) |} in
  can_append (table t) f →
  ∃ t', decode_freq_table_nth_block t AF_LF_MF_FOLLOWS second = Some t' ∧
    active (table t') = active (table t) ++ [f] ∧
    pvt_band t' = AF_BAND_LF_MF ∧ enc_method t' = AF_EM_A.
Proof.
  intros Hok Henc Hexp Hc. cbv zeta. intros Happ.
  unfold decode_freq_table_nth_block.
  destruct (Z.eqb_spec (pvt_expected_cnt t) 0); [done|].
  change (handle_freq_code t AF_LF_MF_FOLLOWS)
    with (true, dec_af_expected_count (set_pvt_band AF_BAND_LF_MF t)).
  set (t1 := dec_af_expected_count (set_pvt_band AF_BAND_LF_MF t)).
  assert (table t1 = table t ∧ enc_method t1 = AF_EM_A ∧
          pvt_band t1 = AF_BAND_LF_MF) as (Ht1 & He1 & Hb1).
  { subst t1. unfold dec_af_expected_count. simpl.
    destruct (pvt_expected_cnt t =? 0); simpl; by rewrite Henc. }
  rewrite (handle_freq_code_freq t1 second Hc). rewrite He1, Hb1. simpl.
  assert (af_code_to_freq second AF_BAND_LF_MF
          = if second <? 16 then 153 + 9 * (second - 1)
            else 531 + 9 * (second - 16)) as ->.
  { unfold af_code_to_freq. simpl.
    unfold freq_code_is_freq, AF_MIN_FREQ_CODE, AF_MAX_FREQ_CODE in Hc.
    apply andb_true_iff in Hc as [H1%Z.leb_le H2%Z.leb_le].
    destruct (second <? 16) eqn:Hlt; apply u16_small;
      [apply Z.ltb_lt in Hlt|apply Z.ltb_ge in Hlt]; lia. }
  match goal with |- context [add_alt_freq ?t2 ?f] =>
    destruct (add_alt_freq_fresh t2 f) as (r & Hr & Hact);
      [by unfold decode_table_okb; simpl; rewrite Ht1
      |by simpl; rewrite Ht1|];
    destruct (add_alt_freq_keeps t2 f) as (r' & Hr' & _ & _ & He & Hb & _);
      [by unfold decode_table_okb; simpl; rewrite Ht1|]
  end.
  rewrite Hr in Hr'. injection Hr' as <-. rewrite Hr. simpl.
  rewrite He1. simpl. eexists; split; [done|].
  simpl in *. rewrite Ht1 in Hact. rewrite He1 in He.
  split_and!; congruence.
Qed.

Lemma af_lf_mf_follows_witness :
  ∃ t', decode_freq_table_nth_block
          (set_enc_method AF_EM_A
             (set_pvt_expected_cnt 4 af_decode_table_zero))
          AF_LF_MF_FOLLOWS 16 = Some t' ∧
        pvt_band t' = AF_BAND_LF_MF.
Proof.
  destruct (af_lf_mf_follows
              (set_enc_method AF_EM_A
                 (set_pvt_expected_cnt 4 af_decode_table_zero)) 16)
    as (t' & Ht' & _ & Hb & _);
    [reflexivity | reflexivity | by vm_compute | reflexivity | |].
  { split; [by vm_compute|]. vm_compute. by intros ?%elem_of_nil. }
  exists t'. split; [exact Ht' | exact Hb].
Defined.

(** ** Transparent data channels *)

Lemma tdc_row_shift (row : list Z) hi lo :
  Z.of_nat (length row) = 32 →
  (r ← memmove_down2 row (TDC_LEN - 2);
   r ← aset r (TDC_LEN - 2) hi; aset r (TDC_LEN - 1) lo)
  = Some (drop 2 row ++ [hi; lo]).
Proof.
  intros Hlen. unfold memmove_down2, TDC_LEN.
  destruct (Z.leb_spec (32 - 2 + 2) (Z.of_nat (length row))); [|lia]. simpl.
  assert (length (drop 2 row) = 30%nat) as Hd by (rewrite length_drop; lia).
  rewrite take_ge by (rewrite Hd; lia).
  destruct (drop (Z.to_nat (32 - 2)) row) as [|x [|y [|z l]]] eqn:Htail;
    apply (f_equal length) in Htail; rewrite length_drop in Htail;
    simpl in Htail; try lia.
  unfold aset. rewrite length_app, Hd. simpl.
  rewrite length_insert, length_app, Hd. simpl. f_equal.
  change (Z.to_nat (32 - 2)) with (30 + 0)%nat.
  change (Z.to_nat (32 - 1)) with (30 + 1)%nat.
  rewrite <-Hd. by rewrite !insert_app_r.
Qed.

Lemma decode_tdc_block_spec rds block row :
  tdc_okb (tdc rds) = true → stats_okb (stats rds) = true →
  tdc_curr_channel (tdc rds) < NUM_TDC →
  tdc_data (tdc rds) !! Z.to_nat (tdc_curr_channel (tdc rds)) = Some row →
  ∃ rds', decode_tdc_block rds block = Some rds' ∧
    tdc rds' =
      {| tdc_data :=
           <[Z.to_nat (tdc_curr_channel (tdc rds)) :=
               drop 2 row ++ [u8 (Z.shiftr (val block) 8);
                              u8 (Z.land (val block) 0xFF)]]>
             (tdc_data (tdc rds));
         tdc_curr_channel := tdc_curr_channel (tdc rds) |} ∧
    tdc_okb (tdc rds') = true ∧ stats_okb (stats rds') = true.
Proof.
  intros Hok Hst Hch Hrow.
  pose proof Hok as (Hl & Hrows & Hch0)%tdc_okb_iff.
  pose proof (decode_tdc_block_wp rds block Hok Hst) as Hwp.
  unfold decode_tdc_block in *. unfold NUM_TDC in *.
  destruct (Z.leb_spec 32 (tdc_curr_channel (tdc rds))); [lia|].
  destruct (count_packet_Some PKTCNT_TDC (SET_BITS RDS_TDC rds))
    as [x Hx]; [done..|]. rewrite Hx in *. simpl in *.
  rewrite (aget_lookup _ _ row) in * by (done || lia). simpl in *.
  assert (Z.of_nat (length row) = 32) as Hrl
    by (by eapply Forall_lookup in Hrows).
  pose proof (tdc_row_shift row (u8 (Z.shiftr (val block) 8))
                (u8 (Z.land (val block) 0xFF)) Hrl) as Hshift.
  destruct (memmove_down2 row (TDC_LEN - 2)) as [r1|]; [|done].
  simpl in *. destruct (aset r1 (TDC_LEN - 2) _) as [r2|]; [|done].
  simpl in *. rewrite Hshift in *. simpl in *.
  unfold aset in *.
  destruct (Z.leb_spec 0 (tdc_curr_channel (tdc rds))); [|lia].
  destruct (Z.ltb_spec (tdc_curr_channel (tdc rds))
              (Z.of_nat (length (tdc_data (tdc rds))))); [|lia].
  simpl in *. eexists; split; [done|]. simpl.
  destruct Hwp as [(_ & _ & ? & ?) _]. by split_and!.
Qed.

Lemma land_17_bounds bv : 0 ≤ Z.land bv 0x11 < 32.
Proof.
  replace (Z.land bv 0x11) with (Z.land (Z.land bv 0x11) (Z.ones 5)).
  { apply land_ones_bounds. lia. }
  by rewrite <-Z.land_assoc.
Qed.

(** X28.  Transparent data channels.  An accepted group 5 whose type is not
    in use by an ODA shifts the 32-byte buffer of one channel towards its
    start and appends the bytes of block D (version B, two bytes) or of
    blocks C and D (version A, four bytes), high byte first, whatever the
    error classes of C and D.  Version A first selects the channel as
    [B & 0x11]; version B uses the channel selected last and does nothing
    when that is 32 or more.  All other buffers are unchanged and no
    callback is made. *)
Theorem tdc_of_group_5 (decoder : rds_decoder) (g : rds_blocks) (w : world) :
  rds_data_ok (w_rds w) → errors (b g) ≤ BLERB_MAX →
  code (group_type_of (val (b g))) = 5 →
  IsGroupTypeUsedByODA (w_rds w) (group_type_of (val (b g))) = Some false →
  let is_a := Ascii.eqb (version (group_type_of (val (b g)))) "A" in
  let bytes (blk : rds_block) :=
    [u8 (Z.shiftr (val blk) 8); u8 (Z.land (val blk) 0xFF)] in
  let ch := if is_a then Z.land (val (b g)) 0x11
            else tdc_curr_channel (tdc (w_rds w)) in
  let data := tdc_data (tdc (w_rds w)) in
  ∃ w', rds_decoder_decode decoder g w = Some w' ∧
    w_calls w' = w_calls w ∧
    tdc_curr_channel (tdc (w_rds w')) = ch ∧
    if NUM_TDC <=? ch then tdc_data (tdc (w_rds w')) = data
    else ∃ row, data !! Z.to_nat ch = Some row ∧
      tdc_data (tdc (w_rds w')) =
        <[Z.to_nat ch := if is_a then drop 4 row ++ bytes (c g) ++ bytes (d g)
                         else drop 2 row ++ bytes (d g)]> data.
Proof.
  intros Hok Hb Hc5 Hu. cbv zeta.
  pose proof (rds_data_ok_stats _ Hok) as Hst.
  destruct (decode_accepted decoder g w Hst Hb) as (rds1 & H1 & ->).
  pose proof (header_only_ok _ _ Hok H1) as Hok1.
  destruct (header_only_fields _ _ H1)
    as (_ & _ & _ & _ & _ & _ & _ & _ & _ & _ & Hcnt & Hoda & Htdc & _).
  assert (IsGroupTypeUsedByODA rds1 (group_type_of (val (b g))) = Some false)
    as Hu1.
  { rewrite IsGroupTypeUsedByODA_spec in * by done. by rewrite Hoda. }
  pose proof (evolves_tdc _ _ (evolves_refl _ Hok1)) as Htok.
  pose proof (rds_data_ok_stats _ Hok1) as Hst1.
  pose proof Htok as (Hl & Hrows & Hch0)%tdc_okb_iff.
  remember (group_type_of (val (b g))) as gt eqn:Hgt. clear Hgt.
  unfold dispatch. rewrite Hc5. unfold decode_group_type_5, on_rds.
  simpl w_rds. rewrite Hu1. simpl.
  destruct (Ascii.eqb (version gt) "A").
  - rewrite tdc_channel_mask. pose proof (land_17_bounds (val (b g))) as Hch.
    set (ch := Z.land (val (b g)) 0x11) in *.
    set (rdsA := set_tdc _ rds1).
    destruct (lookup_lt_is_Some_2 (tdc_data (tdc rds1)) (Z.to_nat ch))
      as [row Hrow]; [lia|].
    assert (Z.of_nat (length row) = 32) as Hrl
      by (by eapply Forall_lookup in Hrows).
    destruct (decode_tdc_block_spec rdsA (c g) row)
      as (rds2 & -> & Ht2 & Hok2 & Hst2);
      [subst rdsA; apply tdc_okb_iff; simpl; split_and!; (done || lia)
      |done|unfold NUM_TDC; simpl; lia|done|].
    simpl.
    destruct (decode_tdc_block_spec rds2 (d g)
                (drop 2 row ++ [u8 (Z.shiftr (val (c g)) 8);
                                u8 (Z.land (val (c g)) 0xFF)]))
      as (rds3 & -> & Ht3 & _); [done..| | |].
    { rewrite Ht2. unfold NUM_TDC. simpl. lia. }
    { rewrite Ht2. simpl. apply list_lookup_insert_eq. lia. }
    simpl. eexists; split; [done|]. simpl. rewrite Ht3, Ht2. simpl.
    split_and!; [done..|].
    destruct (Z.leb_spec NUM_TDC ch); [unfold NUM_TDC in *; lia|].
    rewrite <-Htdc. exists row. split; [done|].
    rewrite list_insert_insert_eq. f_equal.
    rewrite drop_app_le by (rewrite length_drop; lia).
    rewrite drop_drop, <-app_assoc. done.
  - destruct (Z.leb_spec NUM_TDC (tdc_curr_channel (tdc (w_rds w))))
      as [Hge|Hlt].
    + unfold decode_tdc_block. rewrite Htdc.
      destruct (Z.leb_spec NUM_TDC (tdc_curr_channel (tdc (w_rds w))));
        [|lia].
      simpl. eexists; split; [done|]. simpl. by rewrite Htdc.
    + destruct (lookup_lt_is_Some_2 (tdc_data (tdc rds1))
                  (Z.to_nat (tdc_curr_channel (tdc rds1))))
        as [row Hrow]; [rewrite <-Htdc in Hlt; unfold NUM_TDC in *; lia|].
      destruct (decode_tdc_block_spec rds1 (d g) row)
        as (rds2 & -> & Ht2 & _); [done..|by rewrite Htdc|done|].
      simpl. eexists; split; [done|]. simpl. rewrite Ht2. simpl.
      rewrite Htdc in *. split_and!; [done..|]. by exists row.
Qed.

Lemma tdc_of_group_5_witness :
  ∃ w', rds_decoder_decode sample_decoder
          (mk_blocks 0 0 0x5011 0 0x1234 0 0x5678 0) fresh_world = Some w' ∧
        tdc_curr_channel (tdc (w_rds w')) = 17.
Proof.
  destruct (tdc_of_group_5 sample_decoder
              (mk_blocks 0 0 0x5011 0 0x1234 0 0x5678 0) fresh_world)
    as (w' & Hw' & _ & Hch & _);
    [reflexivity | by vm_compute | reflexivity | reflexivity |].
  exists w'. split; [exact Hw' | exact Hch].
Defined.

(** ** Enhanced other networks *)

Lemma land_15_bounds bv : 0 ≤ Z.land bv 0xf < 16.
Proof. apply (land_ones_bounds bv 4). lia. Qed.

Lemma decode_group_type_14_run decoder g w :
  rds_data_ok (w_rds w) → errors (b g) ≤ BLERB_MAX →
  code (group_type_of (val (b g))) = 14 →
  ∃ rds1 x,
    eon rds1 = eon (w_rds w) ∧
    rds_decoder_decode decoder g w =
      on_rds (λ rds,
        let rds := SET_BITS RDS_EON rds in
        if Ascii.eqb (version (group_type_of (val (b g)))) "A"
        then decode_eon_block_a rds g
        else
          let o := eon_on (eon rds) in
          let o := if errors (d g) <=? BLERD_MAX
                   then set_on_pi_code (val (d g)) o else o in
          let o := set_on_tp_code (to_bool (Z.land (val (b g)) 0x8)) o in
          let o := set_on_ta_code (to_bool (Z.land (val (b g)) 0x4)) o in
          Some (set_eon (set_eon_on o (eon rds)) rds))
        {| w_rds :=
             set_stats
               (set_stats_counts
                  (<[Z.to_nat PKTCNT_EON := x]> (stats_counts (stats rds1)))
                  (stats rds1)) rds1;
           w_calls := w_calls w |}.
Proof.
  intros Hok Hb Hc. pose proof (rds_data_ok_stats _ Hok) as Hst.
  destruct (decode_accepted decoder g w Hst Hb) as (rds1 & H1 & ->).
  pose proof (header_only_ok _ _ Hok H1) as Hok1.
  destruct (header_only_fields _ _ H1)
    as (_ & _ & _ & _ & _ & _ & _ & _ & _ & Heon & _).
  destruct (count_packet_Some PKTCNT_EON rds1) as [x Hx];
    [by apply rds_data_ok_stats|done|].
  exists rds1, x. split; [done|].
  unfold dispatch. rewrite Hc. unfold decode_group_type_14, on_rds.
  simpl w_rds. by rewrite Hx.
Qed.

(** X29.  The name of the other network.  An accepted group 14A with
    variant code [k] from 0 to 3 (the low four bits of block B) writes the
    two bytes of block C, high byte first, to characters [2k] and [2k + 1]
    of the other network's PS name, whatever the error class of block C;
    the rest of the EON record is unchanged and the EON valid bit is set. *)
Theorem eon_ps_of_group_14A (decoder : rds_decoder) (g : rds_blocks)
  (w : world) :
  rds_data_ok (w_rds w) → errors (b g) ≤ BLERB_MAX → is_group 14 "A" g →
  Z.land (val (b g)) 0xf < 4 →
  ∃ w', rds_decoder_decode decoder g w = Some w' ∧
    let k := Z.to_nat (Z.land (val (b g)) 0xf) in
    let o := eon_on (eon (w_rds w)) in
    eon (w_rds w') =
      set_eon_on
        (set_on_ps
           (<[(2 * k + 1)%nat := u8 (Z.land (val (c g)) 0xFF)]>
              (<[(2 * k)%nat := u8 (Z.shiftr (val (c g)) 8)]> (on_ps o))) o)
        (eon (w_rds w)) ∧
    Z.land (valid_values (w_rds w')) RDS_EON = RDS_EON.
Proof.
  intros Hok Hb Hg Hvc. cbv zeta.
  destruct (decode_group_type_14_run decoder g w Hok Hb)
    as (rds1 & x & Heon & ->); [by rewrite Hg|].
  rewrite Hg. simpl. unfold on_rds, decode_eon_block_a. simpl.
  rewrite Heon.
  pose proof (evolves_eon _ _ (evolves_refl _ Hok)) as [Hlen _].
  pose proof (land_15_bounds (val (b g))) as Hlo.
  assert (∀ j, 0 ≤ j ≤ 6 →
               eon_ps_pair j g (eon_on (eon (w_rds w)))
               = Some (set_on_ps
                         (<[(Z.to_nat j + 1)%nat :=
                              u8 (Z.land (val (c g)) 0xFF)]>
                            (<[Z.to_nat j := u8 (Z.shiftr (val (c g)) 8)]>
                               (on_ps (eon_on (eon (w_rds w))))))
                         (eon_on (eon (w_rds w))))) as Hpair.
  { intros j Hj. unfold eon_ps_pair, aset.
    destruct (Z.leb_spec 0 j); [|lia].
    destruct (Z.ltb_spec j
                (Z.of_nat (length (on_ps (eon_on (eon (w_rds w)))))));
      [|lia].
    simpl. rewrite length_insert.
    destruct (Z.leb_spec 0 (j + 1)); [|lia].
    destruct (Z.ltb_spec (j + 1)
                (Z.of_nat (length (on_ps (eon_on (eon (w_rds w)))))));
      [|lia].
    simpl. do 3 f_equal. lia. }
  assert (Z.land (val (b g)) 0xf = 0 ∨ Z.land (val (b g)) 0xf = 1 ∨
          Z.land (val (b g)) 0xf = 2 ∨ Z.land (val (b g)) 0xf = 3)
    as [Hk|[Hk|[Hk|Hk]]] by lia;
    rewrite Hk; simpl; rewrite Hpair by lia;
    simpl; (eexists; split; [done|]); simpl;
    (split; [done|apply mask_set_here]).
Qed.

Lemma eon_ps_of_group_14A_witness :
  ∃ w', rds_decoder_decode sample_decoder
          (mk_blocks 0 0 0xE001 0 0x4142 0 0 0) fresh_world = Some w' ∧
        take 4 (on_ps (eon_on (eon (w_rds w')))) = [0; 0; 0x41; 0x42].
Proof.
  destruct (eon_ps_of_group_14A sample_decoder
              (mk_blocks 0 0 0xE001 0 0x4142 0 0 0) fresh_world)
    as (w' & Hw' & He & _);
    [reflexivity | by vm_compute | reflexivity | by vm_compute |].
  exists w'. split; [exact Hw'|]. rewrite He. reflexivity.
Defined.

(** X30.  An accepted group 14B records the other network's flags from
    block B (TP from bit 3, TA from bit 2) and, when block D is within its
    error threshold, its PI code from block D; with block D over the
    threshold the PI code is kept.  The other fields of the EON record are
    unchanged and the EON valid bit is set. *)
Theorem eon_of_group_14B (decoder : rds_decoder) (g : rds_blocks)
  (w : world) :
  rds_data_ok (w_rds w) → errors (b g) ≤ BLERB_MAX → is_group 14 "B" g →
  ∃ w', rds_decoder_decode decoder g w = Some w' ∧
    let o := eon_on (eon (w_rds w)) in
    eon (w_rds w') =
      set_eon_on
        {| on_ps := on_ps o; on_pty := on_pty o;
           on_tp_code := Z.testbit (val (b g)) 3;
           on_ta_code := Z.testbit (val (b g)) 2;
           on_af := on_af o;
           on_pi_code := if errors (d g) <=? BLERD_MAX then val (d g)
                         else on_pi_code o;
           on_pic := on_pic o |} (eon (w_rds w)) ∧
    Z.land (valid_values (w_rds w')) RDS_EON = RDS_EON.
Proof.
  intros Hok Hb Hg. cbv zeta.
  destruct (decode_group_type_14_run decoder g w Hok Hb)
    as (rds1 & x & Heon & ->); [by rewrite Hg|].
  rewrite Hg. simpl. unfold on_rds. simpl. rewrite Heon.
  eexists; split; [done|]. simpl. split; [|apply mask_set_here].
  rewrite (to_bool_land_bit _ 3), (to_bool_land_bit _ 2) by lia.
  by destruct (errors (d g) <=? BLERD_MAX).
Qed.

Lemma eon_of_group_14B_witness :
  ∃ w', rds_decoder_decode sample_decoder
          (mk_blocks 0 0 0xE808 0 0 0 0x1234 0) fresh_world = Some w' ∧
        on_pi_code (eon_on (eon (w_rds w'))) = 0x1234.
Proof.
  destruct (eon_of_group_14B sample_decoder
              (mk_blocks 0 0 0xE808 0 0 0 0x1234 0) fresh_world)
    as (w' & Hw' & He & _); [reflexivity | by vm_compute | reflexivity |].
  exists w'. split; [exact Hw'|]. rewrite He. reflexivity.
Defined.
